(* ===== verification/_CoqProject ===== *)
-Q . S2P
Prelude.v
PyStr.v
PyValue.v
Interfaces.v
MemFS.v
Loader.v
Evaluator.v
Spec.v
Cli.v
EndToEnd.v
Batch.v
Modules.v
Args.v
Entry.v
Json.v
JsonPrint.v
Documents.v
Handles.v
Schema.v
