(* ===== verification/Prelude.v ===== *)
(** * Verification of the job-extraction evaluation utility

    The program under verification is the Python package [job_extractor_eval]
    (src/components/evaluation/python/src/job_extractor_eval/): a record
    loader, a metrics evaluator, a service-availability check and two
    drivers (a command-line entry point and a batch run over the index).

    ** Parts of the program and the files that model them

    - [Prelude] (this file): the exception monad [result], its notation
      (scope [result_scope]), the tactics [inv_result] and [case_result],
      the hint database [py], the monad [stx] of state and exceptions with
      [finally] and [except], and the lemmas on lists and rationals that
      the components share.
    - [PyStr]: the operations on Python [str] that the sources call
      ([str.lower], [in], [str.strip], comparison, [max], iteration of a
      text file by lines), as executable functions on [string] with their
      specifications.  A character is a code point below 256.
    - [PyValue]: the Python objects that [json.load] returns ([pyval]), the
      exceptions the sources can meet ([exn]), and the dynamic operations on
      objects ([truthy], [py_len], [py_get], [py_lower], [py_iter],
      [py_slice_to]) with the exception each raises on the wrong type.
    - [Interfaces]: what the components promise one another, as classes:
      [FileSystem] ([glob.glob], [os.path.exists], [open] for reading),
      [JsonCodec] ([json.loads]) and [Loader] (the two loading functions the
      evaluator calls).  File systems are compared by the files they hold
      ([same_files], whatever the order of a listing) and loaders by what
      they load ([same_loads]); [fs_loader] and the two evaluations are
      [Proper] for these equivalences, so that one environment is
      rewritten into another inside a statement.
    - [MemFS]: an in-memory file system (a finite map from paths to texts)
      with [glob] by wildcard matching; the instance used to run the model.
    - [Loader]: [load_job_data] and [load_index_entry] of evaluators.py,
      against [FileSystem] and [JsonCodec]; it discharges [Loader].
    - [Evaluator]: [evaluate_required_terms_quality] and
      [evaluate_extraction_completeness] of evaluators.py, against [Loader];
      each is the body of the [try] followed by the [except] handler.
    - [Spec]: the typed reading of the data model (optional string fields, a
      list of terms), the closed-form metrics, and the refinement theorems:
      on well-typed records the evaluator computes the closed form.
    - [Cli]: [check_langsmith_setup] of evaluators.py and [main] of cli.py
      from the parsed arguments on, as functions from an environment (the
      service, the loader) to a trace of output events and an exit code.
    - [EndToEnd]: the evaluator given the loader of [Loader] on a file
      system: which paths the pattern of [load_job_data] matches on [MemFS],
      the reports in terms of the files, and the end-to-end examples of the
      specification run on files.
    - [Batch]: [main] of evaluators.py, the batch run over every line of the
      index, in a monad [io] of traces and exceptions: the identifiers are
      read outside any [try], each is evaluated twice, the summary averages
      the successful reports.  The identifiers are the objects the entries
      bind to ['job_id']; the evaluation of one that is not a string is a
      parameter of the model ([OtherIds]).
    - [Modules]: what importing executes, the statements at the top of
      evaluators.py (lines 14-27), cli.py (lines 10-17) and the two
      [__init__.py] files (src/components/... and src/packages/..., lines
      7-17).  A module is its namespace (a [gmap] from names to objects);
      the interpreter state is [sys.modules]; an import is a computation in
      the monad [stx] of state and exceptions.  The environment [site] says
      which files the package directory holds and whether the third-party
      imports return.
    - [Args]: the parser [main] of cli.py builds (lines 22-45), as data,
      and [parse_args] (line 46) on a command line: the arguments, or the
      exit of the program with the help (status 0) or a usage error
      (status 2).  [main_argv] is [main] from the command line.
    - [Entry]: the program as a process, [python -m job_extractor_eval.cli]
      and [python -m job_extractor_eval.evaluators]: the imports of
      [Modules], the guards [if __name__ == "__main__"] (cli.py 94-95,
      evaluators.py 224-225), then [main_argv] of [Args] or [batch_main] of
      [Batch], and the exit status.  The flag [LANGSMITH_AVAILABLE] that
      [check_langsmith_setup] reads is the one the imports bound.
    - [Json]: [json.loads], the parser that evaluators.py calls on the
      record of a job (line 41) and on each line of the index (lines 51
      and 151): [scanstring], the numbers, and the three functions that
      call one another on the nesting of a document ([scan_once],
      [array_items], [object_items]), with the exceptions of the library
      and their messages.  It is the instance [json_codec] of [JsonCodec].
    - [JsonPrint]: [json.dumps] with its defaults ([dumps]), by which the
      records and the index are written, and the round trip: what [dumps]
      prints, [loads] reads back.
    - [Documents]: the loader of [Loader] over the parser of [Json]: the
      ways loading fails, and that a record or an index written by
      [json.dumps] is what the loader returns.
    - [Handles]: the two loaders and the two evaluations once more, as
      the source has them on files: [with open(...) as f] (lines 40 and
      49) opens a file and closes it however the body ends
      ([with_open]), [json.load(f)] reads the file to its end, [for line
      in f] reads a line at a time and the [return] of line 53 leaves the
      rest unread ([for_lines]).  The state ([files]) is the table of the
      open files, the next handle and the log of the events [Opened],
      [Read] and [Closed]; a [world] is a file system and, for a path,
      the read that fails, if one does.
    - [Schema]: types of objects as a decidable judgement ([has_type]):
      the annotation [Dict[str, Any]], the types of the values of the two
      dictionary literals (lines 74-81 and 96-103) and of the error
      dictionary, and the types the specification gives a job record and
      an index entry.

    The files are listed in _CoqProject in this order, which is the order of
    their dependencies.  Each definition that translates code carries the
    name of the function or variable it translates; the manifest gives its
    lines.

    ** How state and effects are modelled

    The program only reads: the file system is an environment, never a
    state.  What changes while it reads is which files are open: in
    [Handles] that table is a state, threaded through the loads by the
    monad [stx] with the exceptions, and [Loader] is the same program
    with the table left out, which the refinement theorem of [Handles]
    justifies.  A Python function that can raise is a function into
    [result exn A]; [raise] is [Raise], a [try]/[except Exception] is a
    [match] on the result.  A report is a tagged union ([Metrics] or
    [ErrorReport]), as the dictionaries of the source have either the metric
    keys or the key ['error'].  Printing is a trace of output events.
    Importing is the one effect with a state: [sys.modules] is threaded
    through the imports, a module that fails to load is not kept, the
    modules it had loaded are.  [SystemExit] is a value: parsing returns
    the arguments or an exit, and a process ends with a status or with the
    exception nobody caught.

    Python [int] is [Z] or [nat] (lengths), never a machine word.  The
    result of a true division is kept as the exact rational, reduced by
    [Qred]; Python rounds it to the nearest double, which is monotone, so the
    bounds proved here hold of the rounded value too, and quarters are exact.

    ** What the theorems show

    - Loader: the file loaded is the greatest path of the listing, whatever
      the order of the listing; the entry returned is the first one of the
      index whose ['job_id'] is the identifier; each failure and its message.
    - Evaluator: every report carries the identifier; coverage lies in
      [0, 1]; no division by zero; the sample has [min 5 n] terms; technical
      terms are matched exactly and case-insensitively; completeness is a
      multiple of a quarter and counts truthy fields only; the exact
      conditions under which a report is an error, and which of the three
      steps of the term evaluation (the load of the record, the load of
      the entry, the computation) its message comes from.
    - Spec: refinement of the closed-form metrics by the evaluator on
      well-typed data, and the one input on which they differ (an empty term
      without a description).
    - Cli: when the setup check answers yes, the exit codes, and which
      reports each combination of flags prints.
    - Modules: in a loaded evaluators.py the flag is true exactly when
      both imports of the client returned, [evaluate] is bound exactly
      then, and [Client] is bound exactly when the first import returned;
      every name of [__all__] resolves to the function of evaluators.py;
      importing is idempotent and executes nothing the second time.  The
      lemmas on the cache (what it holds is what executing the files
      gives) serve these and [Entry]; they are not results about the
      code.
    - Args: round trip (every value of the arguments has a command line
      that parses to it); what a plain command line parses to, and that
      the order of its arguments does not matter; abbreviations of the
      long options; examples of the corner cases (ambiguous prefixes,
      identifiers that start with a dash, the position of [-h]).
    - Entry: the exit status is 0, 1 or 2, and 2 only for a command line
      that is not accepted; on a complete site a stop of the parser gives
      the status of the parser, and a run on a job identifier gives 0
      whatever the evaluations return; when the setup check of a run
      succeeds, in terms of the site and the host; a stop of the parser
      evaluates nothing; importing cli.py does not run [main]; the batch
      program is the batch driver with the flag the imports gave.
    - EndToEnd: for a plain job identifier only the files
      [logs/<job_id>/job-<x>.json] are candidates, the identifier [*]
      matches the files of every job; the reports as functions of the
      files; the error reports of a job without files and of a missing
      index.
    - Json: the fuel [fuel_of] is enough for every text and more fuel
      changes nothing; what the parser returns is well formed (no key
      twice in a dictionary); it fails with a [JSONDecodeError] or with
      the [ValueError] of too many digits: the laws of [JsonCodec].
    - JsonPrint: [loads (dumps v) = v] for every well-formed object
      without a finite float and without an integer of more than 4300
      digits; [dumps] is injective on them; a printed text has printable
      ASCII characters only, so no newline.
    - Documents: the exceptions [load_job_data] can raise; the record and
      the index that [json.dumps] wrote are read back, the first entry of
      a job being the one returned; the texts of the examples of [Loader]
      are JSON documents on which the parser of the examples is
      [json.loads].
    - Handles: every file opened is closed, on every path: after the
      loads and after the evaluations the table of the open files is the
      one before, the events logged follow the protocol of file handles
      (the step relation [step]: a handle is opened when it is not
      open, read and closed when it is; [exec] is the same protocol as a
      function) and each [Opened] is followed by the [Closed] of its
      handle (the predicate [scoped], kept by [bind], [except] and
      [with]); the index is read up to the entry of the job
      and no further, so what comes after the entry (a line that does not
      parse, a read that fails) does not matter, and a read that fails
      before it is what the load raises; without read failures the loads
      and the evaluations return what those of [Loader] and [Evaluator]
      return.
    - Schema: an object has the type of a job record or of an index entry
      exactly when it represents one in the sense of [Spec]; every report
      has the type of its metrics or the type of the error dictionary,
      never both; inputs of the types of the specification give metrics,
      not an error report; an entry that [load_index_entry] returns is a
      dictionary with a string ['job_id'], while [load_job_data] returns
      any JSON value and the terms of an entry may be one string.
    - Batch: the run returns whenever the index can be parsed, whatever
      the evaluations do, with one line per successful evaluation in the
      order of the index; a line of the index that cannot be parsed makes
      it raise before anything is evaluated; the shares of the summary lie
      in [0, 1] and its divisions cannot fail.

    ** Bounds and fuel

    Every function of the model but the parser is structurally recursive
    and total: a theorem that such a function returns is a theorem about
    its value.  Loops of the source are folds over finite lists ([for line
    in f], the comprehensions); a file is a finite text.  In [Handles]
    the loop over the lines of an open file ([for_lines]) recurses on
    what the file holds when the loop starts, which is what the reads
    will give one after the other: no fuel is needed, and the number of
    reads is part of what is proved.  Integers are unbounded as in
    Python, so no overflow arises.

    The JSON parser recurses on the nesting of the document and not on
    the structure of the text: [scan_once], [array_items] and
    [object_items] take fuel, one unit a call, and answer [OutOfFuel] when
    it is used up.  [loads] gives them [fuel_of text], twice the length of
    the text and two.  That is enough: a call on a text of [n] characters
    needs at most [2 n + 2] units, since each of the two calls a loop makes for an item
    is on a shorter text ([Json.parser_good]); so [loads] never answers
    [OutOfFuel] ([Json.decode_good]), and any greater fuel gives the same
    result ([Json.decode_enough], by monotonicity in the fuel).  The
    round trip is proved for the fuel of [loads], not for some fuel.  The
    parser is a part of the environment: that its fuel is enough is what
    makes [loads] a function to state the loader's theorems with, not a
    result about the repository.

    ** What is not modelled

    The interpreter is CPython 3.11: the built-ins of [PyStr] and
    [PyValue], the parser of [Args] and the JSON library raise what that
    version raises.  One result depends on the version: the slice
    [required_terms[:5]] of a dictionary raises [TypeError] there and
    [KeyError] from 3.12 on, so the theorem that the term computation
    raises only [AttributeError] or [TypeError] is a theorem about 3.11.
    The second copy of the package (src/packages) is taken as it is in
    the repository, [__init__.py] alone: it appears in examples only
    ([Entry.run_cli_second_copy]), and the theorems on the program are
    about a complete site.

    [dotenv], the LangSmith client and the network (the imports and the
    setup check are functions of what they return).  The code of
    [argparse] is library code: [Args] gives its behaviour on the parser
    of cli.py, for the actions that parser has, written after CPython 3.11
    and compared with it on some fifteen thousand command lines; the
    texts of the help and of the usage messages are not modelled, an
    error is the data its message is formatted from, and a digit is an
    ASCII digit where the library also accepts the other decimal digits
    of Unicode.  The import system is modelled for this package only: the
    cache, the execution of a module on its first import, [from ... import]
    and the error of a missing file; a module is put in the cache when its
    execution returns, where Python puts it before and removes it when
    the execution raises, which differs only for circular imports, of
    which the package has none.  Not modelled either: the text of the console
    output (events stand for lines), the decoding of bytes into text,
    Unicode beyond code point 255, the rounding of floats (sums and
    quotients are exact rationals), and the evaluation of a job identifier
    that is not a string.  The JSON library and [glob] are library code:
    the components are proved against their interfaces ([Interfaces]);
    [Json] and [MemFS] are the instances, written after the libraries as
    parts of the environment and not mapped to lines of the repository.
    [Json] was compared with [json.loads] of CPython 3.11 on some 1300
    texts and [JsonPrint] with [json.dumps] on some 600 objects.  Of the
    JSON library these are not modelled: the rounding of a float literal
    to the nearest double (a float is the exact rational of its literal,
    an infinity beyond the largest double, zero under half the smallest),
    the [repr] of a finite float in [json.dumps], an escape [\uXXXX] of a
    code point above 255 (refused, where the library accepts it), a byte
    order mark, and the [RecursionError] of a document nested deeper than
    the interpreter allows.  Of files these are not modelled: writing
    (the program writes none), the buffering of reads (a read gives a
    line or the whole rest), the translation of line endings by text
    mode (a line ends at a line feed; a carriage return is a character
    of the line, which [strip] removes at its end), an error of decoding
    as a failure of its own (it is one of the exceptions a read may
    raise), a failure of [close], and the batch driver
    on open files ([Batch] reads the index whole; [Handles] covers the
    loaders and the two evaluations).  A read failure is given by the
    number of lines read before it, not by a position in bytes.  The
    types of [Schema] are those of [type(v) is t]: subclasses ([bool] as
    an [int]) and the numeric tower of annotations are left out. *)

From Stdlib Require Import QArith Qreduction Lqa.
From stdpp Require Import base option list strings numbers.

(** * The exception monad *)

(** A computation that returns a value or raises: the shape of every Python
    function of the sources that can fail. *)
Inductive result (E A : Type) : Type :=
| Ok (a : A)
| Raise (e : E).

Arguments Ok {E A} a.
Arguments Raise {E A} e.

Definition result_bind {E A B} (m : result E A) (f : A → result E B) : result E B :=
  match m with
  | Ok a => f a
  | Raise e => Raise e
  end.

Definition result_map {E A B} (f : A → B) (m : result E A) : result E B :=
  match m with
  | Ok a => Ok (f a)
  | Raise e => Raise e
  end.

(** [try: m except: h]: the handler runs on the exception, if any. *)
Definition result_catch {E A} (m : result E A) (h : E → A) : A :=
  match m with
  | Ok a => a
  | Raise e => h e
  end.

Definition is_ok {E A} (m : result E A) : bool :=
  match m with
  | Ok _ => true
  | Raise _ => false
  end.

Definition of_option {E A} (o : option A) (e : E) : result E A :=
  match o with
  | Some a => Ok a
  | None => Raise e
  end.

(** A loop body run over a list in order, stopping at the first exception:
    a comprehension or a [for] loop of the source. *)
Fixpoint traverse {E A B} (f : A → result E B) (l : list A) : result E (list B) :=
  match l with
  | [] => Ok []
  | x :: l' =>
      match f x with
      | Ok y => result_map (cons y) (traverse f l')
      | Raise e => Raise e
      end
  end.

(** [ [x for x in l if p x] ] where the test can raise. *)
Fixpoint filter_result {E A} (p : A → result E bool) (l : list A) : result E (list A) :=
  match l with
  | [] => Ok []
  | x :: l' =>
      match p x with
      | Ok b => result_map (λ r, if b then x :: r else r) (filter_result p l')
      | Raise e => Raise e
      end
  end.

(** [any(p x for x in l)]: stops at the first true test or the first exception. *)
Fixpoint any_result {E A} (p : A → result E bool) (l : list A) : result E bool :=
  match l with
  | [] => Ok false
  | x :: l' =>
      match p x with
      | Ok true => Ok true
      | Ok false => any_result p l'
      | Raise e => Raise e
      end
  end.

(** A [for] loop that returns from its body: the first item for which the
    body yields a value ends the loop, an exception ends it too. *)
Fixpoint first_result {E A B} (f : A → result E (option B)) (l : list A) :
    result E (option B) :=
  match l with
  | [] => Ok None
  | x :: l' =>
      match f x with
      | Ok (Some b) => Ok (Some b)
      | Ok None => first_result f l'
      | Raise e => Raise e
      end
  end.

Declare Scope result_scope.
Delimit Scope result_scope with result.

Notation "'let*' x := m 'in' k" := (result_bind m (λ x, k))
  (at level 10, x name, m at level 100, k at level 200) : result_scope.
Notation "'try:' m 'except:' h" := (result_catch m h)
  (at level 10, m at level 100, h at level 200) : result_scope.

Open Scope result_scope.

(** * Decidable equality on rationals *)

#[export] Instance result_eq_dec {E A} `{EqDecision E, EqDecision A} :
  EqDecision (result E A).
Proof. solve_decision. Defined.

#[export] Instance Q_eq_dec : EqDecision Q.
Proof. solve_decision. Defined.

(** * Automation *)

Create HintDb py discriminated.
Create Rewrite HintDb py.

(** [inv_result]: turns hypotheses [bind m f = Ok b] into their parts. *)
Ltac inv_result :=
  repeat match goal with
  | H : Ok _ = Ok _ |- _ => injection H as H; try subst
  | H : Raise _ = Raise _ |- _ => injection H as H; try subst
  | H : Ok _ = Raise _ |- _ => discriminate H
  | H : Raise _ = Ok _ |- _ => discriminate H
  | H : result_bind ?m _ = _ |- _ =>
      let E := fresh "E" in destruct m eqn:E; simpl in H
  | H : result_map _ ?m = _ |- _ =>
      let E := fresh "E" in destruct m eqn:E; simpl in H
  end.

(** [run_result]: runs the binds of the goal whose outcome a hypothesis gives. *)
Ltac run_result :=
  repeat match goal with
  | H : ?m = Ok _ |- context [result_bind ?m _] => rewrite H; simpl
  | H : ?m = Raise _ |- context [result_bind ?m _] => rewrite H; simpl
  end.

(** [case_result m]: both outcomes of [m], the equation kept. *)
Ltac case_result m :=
  let E := fresh "E" in destruct m eqn:E; simpl; try done.

(** * Laws of the monad *)

Section result_laws.
Context {E A B C : Type}.
Implicit Types (m : result E A) (f : A → result E B) (g : B → result E C).

(** Stated once, so that proofs on large closed values invert a returned
    result by a lemma and not by computation. *)
Lemma Ok_inj (a a' : A) : Ok (E:=E) a = Ok a' → a = a'.
Proof. by intros [= ->]. Qed.

Lemma result_bind_Ok_l a f : result_bind (Ok a) f = f a.
Proof. done. Qed.

Lemma result_bind_Ok_r m : result_bind m Ok = m.
Proof. by destruct m. Qed.

Lemma result_bind_assoc m f g :
  result_bind (result_bind m f) g = result_bind m (λ a, result_bind (f a) g).
Proof. by destruct m. Qed.

Lemma result_bind_Ok_inv m f b :
  result_bind m f = Ok b ↔ ∃ a, m = Ok a ∧ f a = Ok b.
Proof.
  destruct m as [a|e]; simpl; split; try done.
  - intros H. by exists a.
  - by intros (a' & [= ->] & H).
  - by intros (a' & [=] & _).
Qed.

Lemma result_bind_Raise_inv m f e :
  result_bind m f = Raise e ↔ m = Raise e ∨ ∃ a, m = Ok a ∧ f a = Raise e.
Proof.
  destruct m as [a|e']; simpl; split.
  - intros H. right. by exists a.
  - by intros [[=]|(a' & [= ->] & H)].
  - intros [= ->]. by left.
  - by intros [[= ->]|(a' & [=] & _)].
Qed.

Lemma result_map_Ok_inv (h : A → B) m b :
  result_map h m = Ok b ↔ ∃ a, m = Ok a ∧ b = h a.
Proof.
  destruct m as [a|e]; simpl; split; try done.
  - intros [= <-]. by exists a.
  - by intros (a' & [= ->] & ->).
  - by intros (a' & [=] & _).
Qed.

Lemma result_map_Raise_inv (h : A → B) m e :
  result_map h m = Raise e ↔ m = Raise e.
Proof. destruct m; simpl; split; intros H; by inversion H. Qed.

Lemma result_catch_Ok (a : A) (h : E → A) : result_catch (Ok a) h = a.
Proof. done. Qed.

Lemma result_catch_Raise e (h : E → A) : result_catch (Raise e) h = h e.
Proof. done. Qed.

Lemma is_ok_true m : is_ok m = true ↔ ∃ a, m = Ok a.
Proof. destruct m as [a|e]; simpl; split; try done; [by exists a|by intros [? [=]]]. Qed.

Lemma is_ok_false m : is_ok m = false ↔ ∃ e, m = Raise e.
Proof. destruct m as [a|e]; simpl; split; try done; [by intros [? [=]]|by exists e]. Qed.

End result_laws.

#[export] Hint Rewrite @result_bind_Ok_l @result_bind_Ok_r @result_catch_Ok
  @result_catch_Raise : py.

(** * Loops that can raise *)

Section loops.
Context {E A B : Type}.
Implicit Types (l : list A) (p : A → result E bool).

(** A loop over tests that never raise is the pure loop. *)
Lemma filter_result_pure (q : A → bool) l :
  filter_result (E:=E) (λ x, Ok (q x)) l = Ok (List.filter q l).
Proof.
  induction l as [|x l IH]; simpl; [done|]. rewrite IH. simpl. by destruct (q x).
Qed.

Lemma any_result_pure (q : A → bool) l :
  any_result (E:=E) (λ x, Ok (q x)) l = Ok (existsb q l).
Proof.
  induction l as [|x l IH]; simpl; [done|]. by destruct (q x).
Qed.

Lemma traverse_pure (h : A → B) l :
  traverse (E:=E) (λ x, Ok (h x)) l = Ok (h <$> l).
Proof. induction l as [|x l IH]; simpl; [done|]. by rewrite IH. Qed.

(** What a filter keeps is a part of what it was given. *)
Lemma filter_result_length p l r :
  filter_result p l = Ok r → length r ≤ length l.
Proof.
  revert r. induction l as [|x l IH]; intros r H; simpl in *; [by inv_result|].
  destruct (p x) as [b|]; [|done]. apply result_map_Ok_inv in H as (r' & Hr' & ->).
  apply IH in Hr'. destruct b; simpl; lia.
Qed.

(** A filter that returns has tested every item, and no test raised. *)
Lemma filter_result_tested p l r :
  filter_result p l = Ok r → Forall (λ x, is_ok (p x) = true) l.
Proof.
  revert r. induction l as [|x l IH]; intros r H; simpl in *; [constructor|].
  destruct (p x) as [b|] eqn:Hp; [|done].
  apply result_map_Ok_inv in H as (r' & Hr' & ->).
  constructor; [by rewrite Hp|by eapply IH].
Qed.

Lemma filter_result_ext p p' l :
  (∀ x, x ∈ l → p x = p' x) → filter_result p l = filter_result p' l.
Proof.
  induction l as [|x l IH]; intros H; simpl; [done|].
  rewrite <- (H x) by left. rewrite IH; [done|]. intros y Hy. apply H. by right.
Qed.

Lemma any_result_ext p p' l :
  (∀ x, x ∈ l → p x = p' x) → any_result p l = any_result p' l.
Proof.
  induction l as [|x l IH]; intros H; simpl; [done|].
  rewrite <- (H x) by left. rewrite IH; [done|]. intros y Hy. apply H. by right.
Qed.

Lemma traverse_ext (f f' : A → result E B) l :
  (∀ x, x ∈ l → f x = f' x) → traverse f l = traverse f' l.
Proof.
  induction l as [|x l IH]; intros H; simpl; [done|].
  rewrite <- (H x) by left. rewrite IH; [done|]. intros y Hy. apply H. by right.
Qed.

Lemma traverse_length (f : A → result E B) l r :
  traverse f l = Ok r → length r = length l.
Proof.
  revert r. induction l as [|x l IH]; intros r H; simpl in *; [by inv_result|].
  destruct (f x) as [y|]; [|done]. apply result_map_Ok_inv in H as (r' & Hr' & ->).
  simpl. f_equal. by apply IH.
Qed.

(** A traversal raises what the first failing item raises. *)
Lemma traverse_Raise_at (f : A → result E B) pre x post e :
  Forall (λ y, is_ok (f y) = true) pre → f x = Raise e →
  traverse f (pre ++ x :: post) = Raise e.
Proof.
  intros Hpre Hx. induction Hpre as [|y pre Hy _ IH]; simpl; [by rewrite Hx|].
  destruct (f y); [|done]. by rewrite IH.
Qed.

(** The items a returning loop has passed yielded nothing. *)
Lemma first_result_app (f : A → result E (option B)) l l' :
  Forall (λ y, f y = Ok None) l → first_result f (l ++ l') = first_result f l'.
Proof. induction 1 as [|x l Hx _ IH]; simpl; [done|]. by rewrite Hx. Qed.

Lemma first_result_split (f : A → result E (option B)) l :
  Forall (λ y, f y = Ok None) l ∨
  ∃ pre x post, l = pre ++ x :: post ∧ Forall (λ y, f y = Ok None) pre ∧
                f x ≠ Ok None.
Proof.
  induction l as [|x l [IH|(pre & y & post & -> & Hpre & Hy)]].
  - by left.
  - destruct (f x) as [[b|]|e] eqn:Hx.
    + right. exists [], x, l. by rewrite Hx.
    + left. by constructor.
    + right. exists [], x, l. by rewrite Hx.
  - destruct (f x) as [[b|]|e] eqn:Hx.
    + right. exists [], x, (pre ++ y :: post). by rewrite Hx.
    + right. exists (x :: pre), y, post. split_and!; [done|by constructor|done].
    + right. exists [], x, (pre ++ y :: post). by rewrite Hx.
Qed.

Lemma first_result_None (f : A → result E (option B)) l :
  first_result f l = Ok None ↔ Forall (λ y, f y = Ok None) l.
Proof.
  split.
  - induction l as [|x l IH]; simpl; [done|].
    destruct (f x) as [[b|]|e] eqn:Hx; try done. intros H. constructor; auto.
  - intros H. rewrite <- (app_nil_r l). by rewrite first_result_app.
Qed.

(** The loop ends at the first item whose body does not yield nothing,
    with what the body did there. *)
Lemma first_result_at (f : A → result E (option B)) pre x post :
  Forall (λ y, f y = Ok None) pre → f x ≠ Ok None →
  first_result f (pre ++ x :: post) =
  match f x with Ok None => Ok None | r => r end.
Proof.
  intros Hpre Hx. rewrite first_result_app by done. simpl.
  by destruct (f x) as [[b|]|e].
Qed.

Lemma first_result_Some (f : A → result E (option B)) l b :
  first_result f l = Ok (Some b) ↔
  ∃ pre x post, l = pre ++ x :: post ∧ Forall (λ y, f y = Ok None) pre ∧
                f x = Ok (Some b).
Proof.
  split.
  - intros H. destruct (first_result_split f l) as [Hn|(pre & x & post & -> & Hpre & Hx)].
    + apply first_result_None in Hn. congruence.
    + rewrite first_result_at in H by done. exists pre, x, post.
      split_and!; [done..|]. by destruct (f x) as [[?|]|?].
  - intros (pre & x & post & -> & Hpre & Hx).
    rewrite first_result_at by (done || congruence). by rewrite Hx.
Qed.

Lemma first_result_Raise (f : A → result E (option B)) l e :
  first_result f l = Raise e ↔
  ∃ pre x post, l = pre ++ x :: post ∧ Forall (λ y, f y = Ok None) pre ∧
                f x = Raise e.
Proof.
  split.
  - intros H. destruct (first_result_split f l) as [Hn|(pre & x & post & -> & Hpre & Hx)].
    + apply first_result_None in Hn. congruence.
    + rewrite first_result_at in H by done. exists pre, x, post.
      split_and!; [done..|]. by destruct (f x) as [[?|]|?].
  - intros (pre & x & post & -> & Hpre & Hx).
    rewrite first_result_at by (done || congruence). by rewrite Hx.
Qed.

End loops.

(** * Lists *)

Section lists.
Context {A : Type}.
Implicit Types (l : list A).

Lemma length_filter_le (q : A → bool) l : length (List.filter q l) ≤ length l.
Proof. induction l as [|x l IH]; simpl; [lia|]. destruct (q x); simpl; lia. Qed.

Lemma length_take_min n l : length (take n l) = n `min` length l.
Proof. apply length_take. Qed.

Lemma existsb_elem_of (q : A → bool) l :
  existsb q l = true ↔ ∃ x, x ∈ l ∧ q x = true.
Proof.
  rewrite existsb_exists. split; intros (x & Hx & Hq); exists x;
    (split; [by apply list_elem_of_In|done]).
Qed.

Lemma forallb_Forall (q : A → bool) l :
  forallb q l = true ↔ Forall (λ x, q x = true) l.
Proof.
  induction l as [|x l IH]; cbn [forallb]; [by split; [constructor|]|].
  split.
  - intros [Hx Hl]%andb_true_iff. constructor; [done|by apply IH].
  - intros Hf. inversion Hf as [|? ? Hx Hl]. apply andb_true_iff. split; [done|by apply IH].
Qed.

End lists.

(** Two lists related element by element, as a test. *)
Section forall2b.
Context {A B : Type} (f : A → B → bool).

Fixpoint forall2b (l : list A) (k : list B) : bool :=
  match l, k with
  | [], [] => true
  | x :: l', y :: k' => f x y && forall2b l' k'
  | _, _ => false
  end.

Lemma forall2b_Forall2 l k : forall2b l k = true ↔ Forall2 (λ x y, f x y = true) l k.
Proof.
  revert k. induction l as [|x l IH]; intros [|y k]; simpl; split; try done.
  - by intros ?%Forall2_nil_cons_inv.
  - by intros ?%Forall2_cons_nil_inv.
  - intros [? ?%IH]%andb_true_iff. by constructor.
  - intros HF. inversion HF; subst. apply andb_true_iff. by rewrite IH.
Qed.

End forall2b.

(** A test that decides equality on the elements decides it on lists. *)
Lemma forall2b_eq {A} (f : A → A → bool) (l k : list A) :
  Forall (λ x, ∀ y, f x y = true ↔ x = y) l → forall2b f l k = true ↔ l = k.
Proof.
  intros Hf. revert k. induction Hf as [|x l Hx _ IH]; intros [|y k]; simpl; try done.
  rewrite andb_true_iff, Hx, IH. split; [by intros [-> ->]|by intros [= -> ->]].
Qed.

(** * Rationals: the quotient of two lengths *)

(** The exact value of [a / b] on integers, reduced: what Python's true
    division rounds to a double. *)
Definition Qquot (a b : Z) : Q := Qred (inject_Z a / inject_Z b).

Lemma Qquot_eq a b : (Qquot a b == inject_Z a / inject_Z b)%Q.
Proof. apply Qred_correct. Qed.

Lemma inject_Z_pos b : (0 < b)%Z → (0 < inject_Z b)%Q.
Proof. intros H. change 0%Q with (inject_Z 0). by rewrite <- Zlt_Qlt. Qed.

Lemma Qquot_nonneg a b : (0 ≤ a)%Z → (0 < b)%Z → (0 <= Qquot a b)%Q.
Proof.
  intros Ha Hb. rewrite Qquot_eq. apply Qle_shift_div_l; [by apply inject_Z_pos|].
  rewrite Qmult_0_l. change 0%Q with (inject_Z 0). by rewrite <- Zle_Qle.
Qed.

Lemma Qquot_le_1 a b : (a ≤ b)%Z → (0 < b)%Z → (Qquot a b <= 1)%Q.
Proof.
  intros Ha Hb. rewrite Qquot_eq. apply Qle_shift_div_r; [by apply inject_Z_pos|].
  rewrite Qmult_1_l. by rewrite <- Zle_Qle.
Qed.

Lemma Qquot_0_l b : (0 < b)%Z → Qquot 0 b = 0%Q.
Proof.
  intros Hb. unfold Qquot. change 0%Q with (Qred 0). apply Qred_complete.
  unfold Qdiv. apply Qmult_0_l.
Qed.

Lemma Qquot_diag b : (0 < b)%Z → Qquot b b = 1%Q.
Proof.
  intros Hb. unfold Qquot. change 1%Q with (Qred 1). apply Qred_complete.
  apply Qmult_inv_r. intros H. apply inject_Z_pos in Hb. rewrite H in Hb.
  by apply Qlt_irrefl in Hb.
Qed.

#[export] Hint Resolve Qquot_nonneg Qquot_le_1 : py.

(** * State and exceptions

    A computation that changes a state and returns or raises: the state is
    kept when it raises, as the effects of a Python function are. *)

Definition stx (S E A : Type) : Type := S → S * result E A.

#[export] Instance stx_ret {S E} : MRet (stx S E) := λ A a st, (st, Ok a).

#[export] Instance stx_bind {S E} : MBind (stx S E) := λ A B k m st,
  match m st with
  | (st', Ok a) => k a st'
  | (st', Raise e) => (st', Raise e)
  end.

Definition stx_lift {S E A} (r : result E A) : stx S E A := λ st, (st, r).

(** [try: m finally: c] where [c] returns: [c] runs whatever [m] did, and
    the outcome is the one of [m]. *)
Definition stx_finally {S E A} (m : stx S E A) (c : S → S) : stx S E A := λ st,
  let '(st', r) := m st in (c st', r).

(** [try: m except Exception as e: return handler e]: the state is the one
    [m] left, the outcome never an exception. *)
Definition stx_catch {S E A} (m : stx S E A) (handler : E → A) : stx S E A := λ st,
  let '(st', r) := m st in (st', Ok (result_catch r handler)).

Section stx_laws.
Context {S E A B : Type}.
Implicit Types (m : stx S E A) (k : A → stx S E B).

Lemma stx_bind_run m k st st' r :
  m st = (st', r) →
  (m ≫= k) st = match r with Ok a => k a st' | Raise e => (st', Raise e) end.
Proof. intros Hm. unfold mbind, stx_bind. by rewrite Hm. Qed.

Lemma stx_bind_Ok m k st st' a : m st = (st', Ok a) → (m ≫= k) st = k a st'.
Proof. intros Hm. unfold mbind, stx_bind. by rewrite Hm. Qed.

Lemma stx_bind_Raise m k st st' e : m st = (st', Raise e) → (m ≫= k) st = (st', Raise e).
Proof. intros Hm. unfold mbind, stx_bind. by rewrite Hm. Qed.

Lemma stx_bind_lift_Ok (a : A) k st : (stx_lift (Ok a) ≫= k) st = k a st.
Proof. done. Qed.

Lemma stx_bind_lift_Raise (e : E) k st : (stx_lift (Raise e) ≫= k) st = (st, Raise e).
Proof. done. Qed.

Lemma stx_bind_inv m k st st' r :
  (m ≫= k) st = (st', r) →
  (∃ st1 a, m st = (st1, Ok a) ∧ k a st1 = (st', r)) ∨
  (∃ e, m st = (st', Raise e) ∧ r = Raise e).
Proof.
  unfold mbind, stx_bind. destruct (m st) as [st1 [a|e]]; [by eauto|].
  intros [= <- <-]. by eauto.
Qed.

End stx_laws.
