(* ===== verification/PyStr.v ===== *)
(** * Python [str]: the operations the sources call

    A Python string is a [string]; a character is a code point below 256
    (Latin-1), on which [str.lower], [str.strip] and comparison are what
    CPython computes.  Each operation is executable and comes with the
    property the components rely on: [lower] keeps lengths and is
    idempotent, [contains] is the substring relation, [strip] removes
    exactly the blanks at both ends, [max_str] is the greatest element
    whatever the order of the list, [readlines] cuts a text after each
    newline and loses nothing. *)

From Stdlib Require Import Ascii String NArith.
From stdpp Require Import base list sets strings sorting.
From S2P Require Import Prelude.

#[local] Set Warnings "-clear-no-such-hyp".

(** * Characters *)

Definition code (c : ascii) : N := N_of_ascii c.

(** The code points below 256 that [str.lower] changes: A-Z and the
    Latin-1 capitals (192-222 but the multiplication sign, 215). *)
Definition is_upper (c : ascii) : bool :=
  let n := code c in
  ((65 <=? n) && (n <=? 90) || (192 <=? n) && (n <=? 222) && negb (n =? 215))%N.

Definition lower_char (c : ascii) : ascii :=
  if is_upper c then ascii_of_N (code c + 32) else c.

(** The code points below 256 for which [str.isspace] holds; [str.strip]
    with no argument removes them. *)
Definition is_space (c : ascii) : bool :=
  let n := code c in
  ((9 <=? n) && (n <=? 13) || (28 <=? n) && (n <=? 32) || (n =? 133) || (n =? 160))%N.

Definition newline : ascii := ascii_of_N 10.

(** * Operations *)

(** [s.lower()] *)
Fixpoint lower (s : string) : string :=
  match s with
  | EmptyString => EmptyString
  | String c s' => String (lower_char c) (lower s')
  end.

(** [s.startswith(p)] *)
Fixpoint starts_with (p s : string) : bool :=
  match p, s with
  | EmptyString, _ => true
  | String a p', String b s' => Ascii.eqb a b && starts_with p' s'
  | String _ _, EmptyString => false
  end.

(** [needle in hay] on two strings: the needle starts at some position. *)
Fixpoint contains (needle hay : string) : bool :=
  starts_with needle hay ||
  match hay with
  | EmptyString => false
  | String _ hay' => contains needle hay'
  end.

Fixpoint lstrip (s : string) : string :=
  match s with
  | EmptyString => EmptyString
  | String c s' => if is_space c then lstrip s' else s
  end.

Fixpoint rstrip (s : string) : string :=
  match s with
  | EmptyString => EmptyString
  | String c s' =>
      match rstrip s' with
      | EmptyString => if is_space c then EmptyString else String c EmptyString
      | r => String c r
      end
  end.

(** [s.strip()] *)
Definition strip (s : string) : string := rstrip (lstrip s).

Definition all_space (s : string) : bool :=
  forallb is_space (list_ascii_of_string s).

(** [s[:n]] *)
Fixpoint str_take (n : nat) (s : string) : string :=
  match n, s with
  | S n', String c s' => String c (str_take n' s')
  | _, _ => EmptyString
  end.

(** [iter(s)]: the characters, each a string of length one. *)
Fixpoint str_chars (s : string) : list string :=
  match s with
  | EmptyString => []
  | String c s' => String c EmptyString :: str_chars s'
  end.

(** [a > b] on strings: lexicographic on code points. *)
Definition str_gt (a b : string) : bool := String.ltb b a.

(** [max(x :: l)]: the running maximum is replaced by a strictly greater
    item only, as CPython's [max] does. *)
Definition max_str (x : string) (l : list string) : string :=
  foldl (λ m y, if str_gt y m then y else m) x l.

(** The lines of a text as iterating over the open file yields them: each
    keeps its newline, the last one may have none. *)
Fixpoint readlines (s : string) : list string :=
  match s with
  | EmptyString => []
  | String c s' =>
      if Ascii.eqb c newline then String c EmptyString :: readlines s'
      else match readlines s' with
           | [] => [String c EmptyString]
           | l :: ls => String c l :: ls
           end
  end.

Definition str_concat (ls : list string) : string :=
  foldr String.append EmptyString ls.

(** A text written with apostrophes where it has double quotes: the JSON
    documents of the examples are written this way. *)
Fixpoint json_text (s : string) : string :=
  match s with
  | EmptyString => EmptyString
  | String c s' =>
      String (if Ascii.eqb c (ascii_of_N 39) then ascii_of_N 34 else c) (json_text s')
  end.

(** A line of a text file: the text and a newline. *)
Definition text_line (s : string) : string := s +:+ String newline EmptyString.

(** * Concatenation *)

Lemma str_app_nil_l t : EmptyString +:+ t = t.
Proof. done. Qed.

Lemma str_app_cons c s t : String c s +:+ t = String c (s +:+ t).
Proof. done. Qed.

Lemma str_app_nil_r s : s +:+ EmptyString = s.
Proof. induction s as [|c s IH]; [done|]. by rewrite str_app_cons, IH. Qed.

Lemma str_app_length s t :
  String.length (s +:+ t) = String.length s + String.length t.
Proof. induction s as [|c s IH]; [done|]. rewrite str_app_cons. simpl. by rewrite IH. Qed.

Lemma str_app_assoc s t u : (s +:+ t) +:+ u = s +:+ (t +:+ u).
Proof. induction s as [|c s IH]; [done|]. by rewrite !str_app_cons, IH. Qed.

#[export] Hint Rewrite str_app_nil_l str_app_cons str_app_nil_r str_app_length : py.

(** * [lower] *)

Lemma lower_char_idemp c : lower_char (lower_char c) = lower_char c.
Proof. by destruct c as [[] [] [] [] [] [] [] []]. Qed.

Lemma lower_idemp s : lower (lower s) = lower s.
Proof. induction s as [|c s IH]; simpl; [done|]. by rewrite lower_char_idemp, IH. Qed.

Lemma lower_length s : String.length (lower s) = String.length s.
Proof. induction s as [|c s IH]; simpl; [done|]. by rewrite IH. Qed.

Lemma lower_app s t : lower (s +:+ t) = lower s +:+ lower t.
Proof.
  induction s as [|c s IH]; [done|]. rewrite str_app_cons. simpl.
  by rewrite IH, str_app_cons.
Qed.

Lemma lower_empty s : lower s = EmptyString ↔ s = EmptyString.
Proof. by destruct s. Qed.

(** * [contains] is the substring relation *)

Definition substring_of (needle hay : string) : Prop :=
  ∃ pre post, hay = pre +:+ needle +:+ post.

Lemma starts_with_spec p s : starts_with p s = true ↔ ∃ t, s = p +:+ t.
Proof.
  revert s. induction p as [|a p IH]; intros s; simpl.
  - split; [by exists s|done].
  - destruct s as [|b s]; [split; [done|by intros [? [=]]]|].
    rewrite andb_true_iff, Ascii.eqb_eq, IH. split.
    + intros [-> [t ->]]. by exists t.
    + intros [t [= -> ->]]. split; [done|by exists t].
Qed.

Lemma contains_spec needle hay :
  contains needle hay = true ↔ substring_of needle hay.
Proof.
  unfold substring_of. induction hay as [|c hay IH]; simpl.
  - rewrite orb_false_r, starts_with_spec. split.
    + intros [t Ht]. by exists EmptyString, t.
    + intros ([|] & post & H); [by exists post|done].
  - rewrite orb_true_iff, starts_with_spec, IH. split.
    + intros [[t Ht]|(pre & post & ->)]; [by exists EmptyString, t|].
      by exists (String c pre), post.
    + intros ([|c' pre] & post & H); [left; by exists post|].
      right. injection H as -> ->. by exists pre, post.
Qed.

#[export] Instance substring_of_dec needle hay : Decision (substring_of needle hay).
Proof.
  refine (cast_if (decide (contains needle hay = true))); by rewrite <- contains_spec.
Defined.

Lemma contains_empty hay : contains EmptyString hay = true.
Proof. by destruct hay. Qed.

Lemma contains_refl s : contains s s = true.
Proof.
  apply contains_spec. exists EmptyString, EmptyString. simpl.
  by rewrite str_app_nil_r.
Qed.

Lemma contains_length needle hay :
  contains needle hay = true → String.length needle ≤ String.length hay.
Proof.
  rewrite contains_spec. intros (pre & post & ->). rewrite !str_app_length. lia.
Qed.

(** * [max_str] *)

Lemma str_compare_refl a : String.compare a a = Eq.
Proof.
  induction a as [|c a IH]; simpl; [done|].
  unfold Ascii.compare. by rewrite N.compare_refl.
Qed.

Lemma str_gt_le a b : str_gt a b = false ↔ String.le a b.
Proof.
  unfold str_gt, String.le, String.ltb, String.leb.
  rewrite String.compare_antisym. destruct (String.compare a b); simpl; naive_solver.
Qed.

Lemma str_gt_lt a b : str_gt a b = true → String.le b a ∧ a ≠ b.
Proof.
  unfold str_gt, String.le, String.ltb, String.leb. intros H.
  destruct (String.compare b a) eqn:E; try done. split; [done|].
  intros ->. by rewrite str_compare_refl in E.
Qed.

Lemma max_str_cons x y l :
  max_str x (y :: l) = max_str (if str_gt y x then y else x) l.
Proof. done. Qed.

Lemma max_str_elem x l : max_str x l ∈ x :: l.
Proof.
  revert x. induction l as [|y l IH]; intros x; [by left|].
  rewrite max_str_cons. specialize (IH (if str_gt y x then y else x)).
  destruct (str_gt y x); set_solver.
Qed.

Lemma max_str_ge_init x l : String.le x (max_str x l).
Proof.
  revert x. induction l as [|y l IH]; intros x; [done|].
  rewrite max_str_cons. destruct (str_gt y x) eqn:E; [|done].
  apply str_gt_lt in E as [E _]. by etrans.
Qed.

Lemma max_str_upper x l y : y ∈ x :: l → String.le y (max_str x l).
Proof.
  revert x. induction l as [|z l IH]; intros x Hy.
  - apply list_elem_of_singleton in Hy as ->. done.
  - rewrite max_str_cons. apply elem_of_cons in Hy as [->|Hy].
    + etrans; [|apply max_str_ge_init]. destruct (str_gt z x) eqn:E; [|done].
      by apply str_gt_lt in E as [? _].
    + apply elem_of_cons in Hy as [->|Hy].
      * etrans; [|apply max_str_ge_init]. destruct (str_gt z x) eqn:E; [done|].
        by apply str_gt_le.
      * apply IH. by right.
Qed.

(** The greatest element is unique, so [max] does not depend on the order
    in which the file system lists the paths. *)
Lemma max_str_unique x l m :
  m ∈ x :: l → (∀ y, y ∈ x :: l → String.le y m) → max_str x l = m.
Proof.
  intros Hm Hub. apply (anti_symm String.le).
  - apply Hub, max_str_elem.
  - by apply max_str_upper.
Qed.

Lemma max_str_perm x l x' l' :
  x :: l ≡ₚ x' :: l' → max_str x l = max_str x' l'.
Proof.
  intros HP. apply max_str_unique.
  - rewrite HP. apply max_str_elem.
  - intros y Hy. apply max_str_upper. by rewrite <- HP.
Qed.

(** * [readlines] *)

Lemma str_concat_cons l ls : str_concat (l :: ls) = l +:+ str_concat ls.
Proof. done. Qed.

Lemma readlines_concat s : str_concat (readlines s) = s.
Proof.
  induction s as [|c s IH]; simpl; [done|].
  destruct (Ascii.eqb c newline); simpl; [by rewrite IH|].
  destruct (readlines s) as [|l ls]; simpl in *; by rewrite <- IH.
Qed.

Lemma readlines_nonempty s l : l ∈ readlines s → l ≠ EmptyString.
Proof.
  revert l. induction s as [|c s IH]; intros l; simpl; [by intros ?%elem_of_nil|].
  destruct (Ascii.eqb c newline).
  - intros [->|H]%elem_of_cons; [done|by apply IH].
  - destruct (readlines s) as [|l' ls].
    + by intros ->%list_elem_of_singleton.
    + intros [->|H]%elem_of_cons; [done|]. apply IH. by right.
Qed.

Lemma readlines_nil s : readlines s = [] ↔ s = EmptyString.
Proof.
  split; [|by intros ->]. destruct s as [|c s]; [done|]. simpl.
  destruct (Ascii.eqb c newline); [done|]. by destruct (readlines s).
Qed.

(** * [strip] *)

Lemma lstrip_spec s :
  ∃ pre, s = pre +:+ lstrip s ∧ all_space pre = true.
Proof.
  induction s as [|c s (pre & IH & Hpre)]; simpl; [by exists EmptyString|].
  destruct (is_space c) eqn:E; [|by exists EmptyString].
  exists (String c pre). rewrite str_app_cons, <- IH. split; [done|].
  unfold all_space in *. simpl. by rewrite E.
Qed.

Lemma rstrip_spec s :
  ∃ post, s = rstrip s +:+ post ∧ all_space post = true.
Proof.
  induction s as [|c s (post & IH & Hpost)]; simpl; [by exists EmptyString|].
  destruct (rstrip s) as [|c' r] eqn:Er.
  - destruct (is_space c) eqn:E.
    + exists (String c s). split; [done|]. rewrite str_app_nil_l in IH. subst post.
      unfold all_space in *. simpl. by rewrite E.
    + exists post. rewrite str_app_nil_l in IH. rewrite str_app_cons, str_app_nil_l.
      by subst.
  - exists post. rewrite str_app_cons. by rewrite <- IH.
Qed.

Lemma lstrip_head s c r : lstrip s = String c r → is_space c = false.
Proof.
  induction s as [|d s IH]; simpl; [done|].
  destruct (is_space d) eqn:E; [done|]. by intros [= <- _].
Qed.

Lemma rstrip_empty s : rstrip s = EmptyString ↔ all_space s = true.
Proof.
  unfold all_space. induction s as [|c s IH]; simpl; [done|].
  destruct (rstrip s); destruct (is_space c); simpl; naive_solver.
Qed.

Lemma rstrip_idemp s : rstrip (rstrip s) = rstrip s.
Proof.
  induction s as [|c s IH]; simpl; [done|].
  destruct (rstrip s) as [|c' r] eqn:Er.
  - destruct (is_space c) eqn:E; simpl; [done|]. by rewrite E.
  - simpl in *. by rewrite IH.
Qed.

Lemma rstrip_head s c :
  is_space c = false → rstrip (String c s) = String c (rstrip s).
Proof. intros E. simpl. destruct (rstrip s); [by rewrite E|done]. Qed.

Lemma lstrip_fix c r : is_space c = false → lstrip (String c r) = String c r.
Proof. intros E. simpl. by rewrite E. Qed.

Lemma strip_idemp s : strip (strip s) = strip s.
Proof.
  unfold strip. destruct (lstrip s) as [|c r] eqn:El; [done|].
  pose proof (lstrip_head _ _ _ El) as E.
  rewrite rstrip_head by done. rewrite lstrip_fix by done.
  by rewrite <- rstrip_head, rstrip_idemp.
Qed.

Lemma strip_all_space s : all_space s = true → strip s = EmptyString.
Proof.
  unfold strip, all_space. induction s as [|c s IH]; simpl; [done|].
  intros [E H]%andb_true_iff. rewrite E. by apply IH.
Qed.

(** A text without blanks at its ends is left as it is. *)
Definition trimmed (s : string) : Prop := strip s = s.

#[export] Instance trimmed_dec s : Decision (trimmed s).
Proof. unfold trimmed. apply _. Defined.

Lemma strip_trimmed s : trimmed (strip s).
Proof. apply strip_idemp. Qed.

Lemma rstrip_app_space s post : all_space post = true → rstrip (s +:+ post) = rstrip s.
Proof.
  intros Hpost. induction s as [|c s IH]; [by apply rstrip_empty|].
  rewrite str_app_cons. cbn [rstrip]. by rewrite IH.
Qed.

Lemma rstrip_snoc s c :
  is_space c = false → rstrip (s +:+ String c EmptyString) = s +:+ String c EmptyString.
Proof.
  intros Hc. induction s as [|d s IH]; [rewrite str_app_nil_l; cbn [rstrip]; by rewrite Hc|].
  rewrite str_app_cons. cbn [rstrip]. rewrite IH. by destruct s.
Qed.

(** A line whose text starts and ends with something else than a blank
    is stripped to the text. *)
Lemma strip_text_line c s d :
  is_space c = false → is_space d = false →
  strip (text_line (String c (s +:+ String d EmptyString))) =
  String c (s +:+ String d EmptyString).
Proof.
  intros Hc Hd. unfold strip, text_line. rewrite str_app_cons, lstrip_fix by done.
  rewrite <-str_app_cons, rstrip_app_space by done. rewrite <-str_app_cons.
  by apply rstrip_snoc.
Qed.

(** * Lines written one after the other *)

(** A text without a newline. *)
Definition one_line (s : string) : bool :=
  forallb (λ c, negb (Ascii.eqb c newline)) (list_ascii_of_string s).

Lemma readlines_text_line t rest :
  one_line t = true → readlines (text_line t +:+ rest) = text_line t :: readlines rest.
Proof.
  unfold text_line, one_line. induction t as [|c t IH]; cbn [list_ascii_of_string forallb].
  - intros _. rewrite str_app_nil_l, str_app_cons, str_app_nil_l. cbn [readlines].
    by rewrite Ascii.eqb_refl.
  - intros [Hc Ht]%andb_true_iff. apply negb_true_iff in Hc.
    rewrite !str_app_cons. cbn [readlines]. by rewrite Hc, IH.
Qed.

Lemma readlines_lines ts :
  Forall (λ t, one_line t = true) ts →
  readlines (str_concat (text_line <$> ts)) = text_line <$> ts.
Proof.
  induction 1 as [|t ts Ht Hts IH]; [done|].
  by rewrite fmap_cons, str_concat_cons, readlines_text_line, IH.
Qed.

(** * Slices *)

Lemma str_take_length n s : String.length (str_take n s) = n `min` String.length s.
Proof.
  revert s. induction n as [|n IH]; intros [|c s]; simpl; try done. by rewrite IH.
Qed.

Lemma str_chars_length s : length (str_chars s) = String.length s.
Proof. induction s as [|c s IH]; simpl; [done|]. by rewrite IH. Qed.

#[export] Hint Rewrite lower_idemp lower_length str_take_length str_chars_length
  readlines_concat strip_idemp : py.
