(* ===== verification/PyValue.v ===== *)
(** * Python objects and exceptions

    [pyval] is the type of the objects [json.load] returns: [None], booleans,
    integers, floats, strings, lists and dictionaries with string keys (in
    insertion order).  The sources treat them dynamically: they call
    [.get], [.lower], [len], iterate and slice without checking the type
    first, and rely on [except Exception] for the rest.  Each dynamic
    operation is therefore a function into [result exn], which raises the
    exception CPython raises, with its message, when the object has the
    wrong type. *)

From Stdlib Require Import Ascii String QArith Qreduction Lqa.
From stdpp Require Import base list sets strings.
From S2P Require Import Prelude PyStr.

#[local] Set Warnings "-clear-no-such-hyp,-register-all".

(** * Exceptions *)

(** The classes of the exceptions the sources raise or can meet; all are
    subclasses of [Exception], so [except Exception] handles each. *)
Inductive exn_class : Type :=
| FileNotFoundError
| ValueError
| JSONDecodeError
| AttributeError
| TypeError
| ZeroDivisionError
| KeyError
| OSError
| ImportError
| ModuleNotFoundError.

(** An exception: its class and [str(e)]. *)
Record exn : Type := Exn { e_class : exn_class; e_msg : string }.

#[export] Instance exn_class_eq_dec : EqDecision exn_class.
Proof. solve_decision. Defined.

#[export] Instance exn_eq_dec : EqDecision exn.
Proof. solve_decision. Defined.

(** [str(e)] *)
Definition str_of_exn (e : exn) : string := e_msg e.

Abbreviation pyres := (result exn).

(** * Objects *)

(** A float: a finite double is a rational; [json.loads] also yields the
    infinities (overflow, [Infinity]) and [NaN]. *)
Inductive pyfloat : Type :=
| Finite (q : Q)
| Inf (negative : bool)
| NaN.

Inductive pyval : Type :=
| PNone
| PBool (b : bool)
| PInt (z : Z)
| PFloat (f : pyfloat)
| PStr (s : string)
| PList (l : list pyval)
| PDict (kvs : list (string * pyval)).

(** Induction with the hypothesis on every element of a list and every
    value of a dictionary. *)
Section pyval_induction.
Context (P : pyval → Prop).
Context (HNone : P PNone) (HBool : ∀ b, P (PBool b)) (HInt : ∀ z, P (PInt z)).
Context (HFloat : ∀ f, P (PFloat f)) (HStr : ∀ s, P (PStr s)).
Context (HList : ∀ l, Forall P l → P (PList l)).
Context (HDict : ∀ kvs, Forall (λ kv, P kv.2) kvs → P (PDict kvs)).

Fixpoint pyval_ind' (v : pyval) : P v :=
  match v with
  | PNone => HNone
  | PBool b => HBool b
  | PInt z => HInt z
  | PFloat f => HFloat f
  | PStr s => HStr s
  | PList l =>
      HList l ((fix go l : Forall P l :=
                  match l with
                  | [] => @List.Forall_nil _ P
                  | x :: l' => @List.Forall_cons _ P x l' (pyval_ind' x) (go l')
                  end) l)
  | PDict kvs =>
      HDict kvs ((fix go kvs : Forall (λ kv, P kv.2) kvs :=
                    match kvs with
                    | [] => @List.Forall_nil _ (λ kv, P kv.2)
                    | kv :: kvs' =>
                        @List.Forall_cons _ (λ kv, P kv.2) kv kvs' (pyval_ind' kv.2) (go kvs')
                    end) kvs)
  end.

End pyval_induction.

(** Equality of objects is decidable. *)
#[export] Instance pyfloat_eq_dec : EqDecision pyfloat.
Proof. solve_decision. Defined.

Fixpoint pyval_eqb (v w : pyval) : bool :=
  match v, w with
  | PNone, PNone => true
  | PBool a, PBool b => bool_decide (a = b)
  | PInt a, PInt b => bool_decide (a = b)
  | PFloat a, PFloat b => bool_decide (a = b)
  | PStr a, PStr b => bool_decide (a = b)
  | PList l, PList k => forall2b pyval_eqb l k
  | PDict kvs, PDict kws =>
      forall2b (λ kv kw, bool_decide (fst kv = fst kw) && pyval_eqb (snd kv) (snd kw)) kvs kws
  | _, _ => false
  end.

Lemma pyval_eqb_eq v w : pyval_eqb v w = true ↔ v = w.
Proof.
  revert w. induction v as [| | | | |l IH|kvs IH] using pyval_ind'; intros [];
    simpl; try (split; [done|by intros [=]]);
    rewrite ?bool_decide_eq_true; try (split; [by intros ->|by intros [= ->]]).
  - rewrite forall2b_eq by done. split; [by intros ->|by intros [= ->]].
  - rewrite forall2b_eq; [split; [by intros ->|by intros [= ->]]|].
    eapply Forall_impl; [exact IH|]. intros [k v] Hv [k' v']. simpl in *.
    rewrite andb_true_iff, bool_decide_eq_true, Hv.
    split; [by intros [-> ->]|by intros [= -> ->]].
Qed.

#[export] Instance pyval_eq_dec : EqDecision pyval.
Proof.
  intros v w. refine (cast_if (decide (pyval_eqb v w = true))); by rewrite <- pyval_eqb_eq.
Defined.

(** [type(v).__name__] *)
Definition type_name (v : pyval) : string :=
  match v with
  | PNone => "NoneType"
  | PBool _ => "bool"
  | PInt _ => "int"
  | PFloat _ => "float"
  | PStr _ => "str"
  | PList _ => "list"
  | PDict _ => "dict"
  end.

(** The exceptions of the dynamic operations, with CPython's messages. *)
Definition attribute_error (v : pyval) (attr : string) : exn :=
  Exn AttributeError ("'" +:+ type_name v +:+ "' object has no attribute '" +:+ attr +:+ "'").

Definition no_len_error (v : pyval) : exn :=
  Exn TypeError ("object of type '" +:+ type_name v +:+ "' has no len()").

Definition not_iterable_error (v : pyval) : exn :=
  Exn TypeError ("'" +:+ type_name v +:+ "' object is not iterable").

Definition not_subscriptable_error (v : pyval) : exn :=
  Exn TypeError ("'" +:+ type_name v +:+ "' object is not subscriptable").

Definition unhashable_slice_error : exn :=
  Exn TypeError "unhashable type: 'slice'".

Definition zero_division_error : exn :=
  Exn ZeroDivisionError "division by zero".

(** * Operations *)

Definition float_truthy (f : pyfloat) : bool :=
  match f with
  | Finite q => negb (Qnum q =? 0)%Z
  | Inf _ | NaN => true
  end.

(** [bool(v)]: what [if v] and [sum(1 for ... if v)] test. *)
Definition truthy (v : pyval) : bool :=
  match v with
  | PNone => false
  | PBool b => b
  | PInt z => negb (z =? 0)%Z
  | PFloat f => float_truthy f
  | PStr s => negb (String.eqb s EmptyString)
  | PList l => match l with [] => false | _ :: _ => true end
  | PDict kvs => match kvs with [] => false | _ :: _ => true end
  end.

(** The first binding of a key in a table. *)
Fixpoint assoc {A} (key : string) (kvs : list (string * A)) : option A :=
  match kvs with
  | [] => None
  | (k, v) :: kvs' => if String.eqb k key then Some v else assoc key kvs'
  end.

(** [d.get(key, default)]: only a dictionary has the method. *)
Definition py_get (d : pyval) (key : string) (default : pyval) : pyres pyval :=
  match d with
  | PDict kvs => Ok (from_option id default (assoc key kvs))
  | _ => Raise (attribute_error d "get")
  end.

(** [len(v)] *)
Definition py_len (v : pyval) : pyres nat :=
  match v with
  | PStr s => Ok (String.length s)
  | PList l => Ok (length l)
  | PDict kvs => Ok (length kvs)
  | _ => Raise (no_len_error v)
  end.

(** [v.lower()]: only a string has the method. *)
Definition py_lower (v : pyval) : pyres string :=
  match v with
  | PStr s => Ok (lower s)
  | _ => Raise (attribute_error v "lower")
  end.

(** [list(iter(v))]: the elements of a list, the characters of a string, the
    keys of a dictionary. *)
Definition py_iter (v : pyval) : pyres (list pyval) :=
  match v with
  | PStr s => Ok (PStr <$> str_chars s)
  | PList l => Ok l
  | PDict kvs => Ok (PStr <$> kvs.*1)
  | _ => Raise (not_iterable_error v)
  end.

(** [v[:n]].  On a dictionary the slice is looked up as a key: CPython
    3.11, which this file follows, raises the [TypeError] of an unhashable
    key; from 3.12 on a slice is hashable and the lookup raises
    [KeyError]. *)
Definition py_slice_to (n : nat) (v : pyval) : pyres pyval :=
  match v with
  | PStr s => Ok (PStr (str_take n s))
  | PList l => Ok (PList (take n l))
  | PDict _ => Raise unhashable_slice_error
  | _ => Raise (not_subscriptable_error v)
  end.

(** [v == s] for a string [s]: only an equal string is equal to it. *)
Definition py_eq_str (v : pyval) (s : string) : bool :=
  match v with
  | PStr t => String.eqb t s
  | _ => false
  end.

(** [max(l)] on a list of strings *)
Definition py_max (l : list string) : pyres string :=
  match l with
  | [] => Raise (Exn ValueError "max() arg is an empty sequence")
  | x :: l' => Ok (max_str x l')
  end.

(** [p] is the greatest element of [l]. *)
Definition greatest (p : string) (l : list string) : Prop :=
  p ∈ l ∧ ∀ q, q ∈ l → String.le q p.

(** [a / b] on integers: the quotient as a float, or [ZeroDivisionError]. *)
Definition py_truediv (a b : Z) : pyres Q :=
  if (b =? 0)%Z then Raise zero_division_error else Ok (Qquot a b).

(** A number of a report: the literal [0] of the source is an [int], a
    quotient is a [float]. *)
Inductive pynum : Type :=
| NInt (z : Z)
| NFloat (q : Q).

Definition num_val (n : pynum) : Q :=
  match n with
  | NInt z => inject_Z z
  | NFloat q => q
  end.

Definition pyval_of_num (n : pynum) : pyval :=
  match n with
  | NInt z => PInt z
  | NFloat q => PFloat (Finite q)
  end.

(** [a + b] on numbers: an [int] when both are, a [float] otherwise. *)
Definition num_add (a b : pynum) : pynum :=
  match a, b with
  | NInt x, NInt y => NInt (x + y)
  | _, _ => NFloat (Qred (num_val a + num_val b))
  end.

(** [sum(xs)]: the sum starts from the [int] 0. *)
Definition py_sum (xs : list pynum) : pynum := foldl num_add (NInt 0) xs.

(** [a / b] for a number and an integer *)
Definition py_truediv_num (a : pynum) (b : Z) : pyres Q :=
  match a with
  | NInt z => py_truediv z b
  | NFloat q =>
      if (b =? 0)%Z then Raise (Exn ZeroDivisionError "float division by zero")
      else Ok (Qred (q / inject_Z b))
  end.

Definition key_error (key : string) : exn :=
  Exn KeyError ("'" +:+ key +:+ "'").

(** [v[key]] for a key that is a string *)
Definition py_getitem (v : pyval) (key : string) : pyres pyval :=
  match v with
  | PDict kvs =>
      match assoc key kvs with
      | Some x => Ok x
      | None => Raise (key_error key)
      end
  | PList _ => Raise (Exn TypeError "list indices must be integers or slices, not str")
  | PStr _ => Raise (Exn TypeError "string indices must be integers, not 'str'")
  | _ => Raise (not_subscriptable_error v)
  end.

(** Well-formed objects: no dictionary binds a key twice (a Python [dict]
    cannot), at any depth. *)
Fixpoint wf_pyval (v : pyval) : bool :=
  match v with
  | PList l => forallb wf_pyval l
  | PDict kvs =>
      bool_decide (NoDup kvs.*1) &&
      forallb (λ kv, wf_pyval (snd kv)) kvs
  | _ => true
  end.

(** * Typed views *)

Definition is_str (v : pyval) : bool :=
  match v with PStr _ => true | _ => false end.

Definition is_dict (v : pyval) : bool :=
  match v with PDict _ => true | _ => false end.

Definition is_sized (v : pyval) : bool :=
  match v with PStr _ | PList _ | PDict _ => true | _ => false end.

(** * Properties of the operations *)

Lemma assoc_Some {A} key (kvs : list (string * A)) v :
  assoc key kvs = Some v → (key, v) ∈ kvs.
Proof.
  induction kvs as [|[k w] kvs IH]; simpl; [done|].
  destruct (String.eqb_spec k key) as [->|Hne].
  - intros [= ->]. by left.
  - intros H. right. by apply IH.
Qed.

Lemma assoc_None {A} key (kvs : list (string * A)) :
  assoc key kvs = None ↔ key ∉ kvs.*1.
Proof.
  induction kvs as [|[k w] kvs IH]; simpl.
  - split; [intros _; apply not_elem_of_nil|done].
  - destruct (String.eqb_spec k key) as [->|Hne]; rewrite not_elem_of_cons.
    + split; [done|]. by intros [? _].
    + rewrite IH. naive_solver.
Qed.

Lemma assoc_app {A} key (kvs kvs' : list (string * A)) :
  assoc key (kvs ++ kvs') =
  match assoc key kvs with Some v => Some v | None => assoc key kvs' end.
Proof.
  induction kvs as [|[k w] kvs IH]; simpl; [done|]. by destruct (String.eqb k key).
Qed.

Lemma assoc_NoDup {A} key (kvs : list (string * A)) v :
  NoDup kvs.*1 → (key, v) ∈ kvs → assoc key kvs = Some v.
Proof.
  induction kvs as [|[k w] kvs IH]; simpl; [by intros _ ?%elem_of_nil|].
  intros [Hk Hnd]%NoDup_cons [[= -> ->]|Hin]%elem_of_cons.
  - by rewrite String.eqb_refl.
  - destruct (String.eqb_spec k key) as [->|Hne]; [|by apply IH].
    destruct Hk. apply list_elem_of_fmap. by exists (key, v).
Qed.

Lemma py_get_dict kvs key default :
  py_get (PDict kvs) key default = Ok (from_option id default (assoc key kvs)).
Proof. done. Qed.

Lemma py_get_Ok d key default v :
  py_get d key default = Ok v →
  ∃ kvs, d = PDict kvs ∧ v = from_option id default (assoc key kvs).
Proof. destruct d; try done. intros [= <-]. by eexists. Qed.

Lemma py_get_Raise d key default e :
  py_get d key default = Raise e ↔ is_dict d = false ∧ e = attribute_error d "get".
Proof. destruct d; simpl; split; try done; try by intros [= <-]. all: by intros [? ->]. Qed.

Lemma py_len_Ok v n : py_len v = Ok n → is_sized v = true.
Proof. by destruct v. Qed.

Lemma py_len_sized v : is_sized v = true → ∃ n, py_len v = Ok n.
Proof. destruct v; try done; by eexists. Qed.

Lemma py_lower_Ok v t : py_lower v = Ok t ↔ ∃ s, v = PStr s ∧ t = lower s.
Proof.
  destruct v; simpl; split; try done; try by intros (? & [=] & _).
  - intros [= <-]. by eexists.
  - by intros (? & [= <-] & ->).
Qed.

Lemma py_lower_Raise v e :
  py_lower v = Raise e ↔ is_str v = false ∧ e = attribute_error v "lower".
Proof. destruct v; simpl; split; try done; try by intros [= <-]. all: by intros [? ->]. Qed.

(** Whatever [len] accepts can be iterated, and yields that many items. *)
Lemma py_iter_len v n : py_len v = Ok n → ∃ l, py_iter v = Ok l ∧ length l = n.
Proof.
  destruct v; try done; intros [= <-]; eexists; (split; [done|]).
  - by rewrite length_fmap, str_chars_length.
  - done.
  - by rewrite !length_fmap.
Qed.

(** A truthy sized object has a positive length. *)
Lemma truthy_len_pos v n : py_len v = Ok n → truthy v = true → 0 < n.
Proof.
  destruct v as [| | | |s|l|kvs]; try done; intros [= <-]; simpl.
  - destruct s; simpl; [done|lia].
  - destruct l; simpl; [done|lia].
  - destruct kvs; simpl; [done|lia].
Qed.

Lemma falsy_len_zero v n : py_len v = Ok n → truthy v = false → n = 0.
Proof.
  destruct v as [| | | |s|l|kvs]; try done; intros [= <-]; simpl.
  - by destruct s.
  - by destruct l.
  - by destruct kvs.
Qed.

Lemma truthy_str s : truthy (PStr s) = negb (bool_decide (s = EmptyString)).
Proof. simpl. by destruct (String.eqb_spec s EmptyString); case_bool_decide. Qed.

Lemma py_eq_str_true v s : py_eq_str v s = true ↔ v = PStr s.
Proof.
  destruct v; simpl; split; try done. all: rewrite ?String.eqb_eq; try by intros [=].
  by intros ->.
Qed.

Lemma py_truediv_Ok a b q : py_truediv a b = Ok q ↔ b ≠ 0%Z ∧ q = Qquot a b.
Proof.
  unfold py_truediv. destruct (Z.eqb_spec b 0); split; try done.
  - by intros [? _].
  - by intros [= <-].
  - by intros [_ ->].
Qed.

Lemma py_truediv_pos a b : (0 < b)%Z → py_truediv a b = Ok (Qquot a b).
Proof. intros H. apply py_truediv_Ok. split; [lia|done]. Qed.

Lemma py_truediv_Raise a b e :
  py_truediv a b = Raise e ↔ b = 0%Z ∧ e = zero_division_error.
Proof.
  unfold py_truediv. destruct (Z.eqb_spec b 0); split; try done.
  - by intros [= <-].
  - by intros [_ ->].
  - by intros [? _].
Qed.

Lemma py_max_greatest l p : greatest p l → py_max l = Ok p.
Proof.
  intros [Hp Hub]. destruct l as [|x l]; [by apply elem_of_nil in Hp|].
  simpl. f_equal. by apply max_str_unique.
Qed.

Lemma py_max_Ok l p : py_max l = Ok p ↔ greatest p l.
Proof.
  split; [|apply py_max_greatest]. destruct l as [|x l]; [done|].
  intros [= <-]. split; [apply max_str_elem|apply max_str_upper].
Qed.

Lemma greatest_unique l p q : greatest p l → greatest q l → p = q.
Proof. intros [Hp Hpu] [Hq Hqu]. apply (anti_symm String.le); auto. Qed.

Lemma greatest_perm l l' p : l ≡ₚ l' → greatest p l → greatest p l'.
Proof.
  intros HP [Hp Hub]. split; [by rewrite <- HP|].
  intros q Hq. apply Hub. by rewrite HP.
Qed.

Lemma py_max_perm l l' : l ≡ₚ l' → py_max l = py_max l'.
Proof.
  intros HP. destruct l as [|x l].
  - apply Permutation_nil_l in HP. by subst.
  - symmetry. apply py_max_greatest, (greatest_perm _ _ _ HP). by apply py_max_Ok.
Qed.

(** The slice of a sized object has the length of the shorter of the two. *)
Lemma py_slice_to_len n v s k :
  py_slice_to n v = Ok s → py_len v = Ok k → py_len s = Ok (n `min` k).
Proof.
  destruct v; try done; intros [= <-] [= <-]; simpl; f_equal.
  - apply str_take_length.
  - apply length_take.
Qed.

(** * The classes of exception an operation can raise *)

(** [raises_only m cs]: if [m] raises, the exception has a class of [cs]. *)
Definition raises_only {A} (m : pyres A) (cs : list exn_class) : Prop :=
  ∀ e, m = Raise e → e_class e ∈ cs.

Section raises_only.
Context {A B : Type}.
Implicit Types (cs : list exn_class).

Lemma raises_only_Ok (a : A) cs : raises_only (Ok a) cs.
Proof. by intros e. Qed.

Lemma raises_only_Raise e cs : e_class e ∈ cs → raises_only (@Raise exn A e) cs.
Proof. by intros He e' [= <-]. Qed.

Lemma raises_only_mono (m : pyres A) cs cs' :
  cs ⊆ cs' → raises_only m cs → raises_only m cs'.
Proof. intros Hcs Hm e He. by apply Hcs, Hm. Qed.

Lemma raises_only_bind (m : pyres A) (f : A → pyres B) cs :
  raises_only m cs → (∀ a, m = Ok a → raises_only (f a) cs) →
  raises_only (result_bind m f) cs.
Proof.
  intros Hm Hf e [He|(a & Ha & He)]%result_bind_Raise_inv; [by apply Hm|].
  by apply (Hf a).
Qed.

Lemma raises_only_if (b : bool) (m m' : pyres A) cs :
  (b = true → raises_only m cs) → (b = false → raises_only m' cs) →
  raises_only (if b then m else m') cs.
Proof. destruct b; auto. Qed.

Lemma raises_only_filter (p : A → pyres bool) (l : list A) cs :
  (∀ x, x ∈ l → raises_only (p x) cs) → raises_only (filter_result p l) cs.
Proof.
  induction l as [|x l IH]; intros Hp e; simpl; [done|].
  destruct (p x) as [b|e'] eqn:Hx.
  - intros He%result_map_Raise_inv. apply IH; [|done]. intros y Hy. apply Hp. by right.
  - intros [= <-]. apply (Hp x); [by left|done].
Qed.

Lemma raises_only_traverse (f : A → pyres B) (l : list A) cs :
  (∀ x, x ∈ l → raises_only (f x) cs) → raises_only (traverse f l) cs.
Proof.
  induction l as [|x l IH]; intros Hp e; simpl; [done|].
  destruct (f x) as [b|e'] eqn:Hx.
  - intros He%result_map_Raise_inv. apply IH; [|done]. intros y Hy. apply Hp. by right.
  - intros [= <-]. apply (Hp x); [by left|done].
Qed.

Lemma raises_only_any (p : A → pyres bool) (l : list A) cs :
  (∀ x, x ∈ l → raises_only (p x) cs) → raises_only (any_result p l) cs.
Proof.
  induction l as [|x l IH]; intros Hp e; simpl; [done|].
  destruct (p x) as [[]|e'] eqn:Hx; [done| |].
  - apply IH. intros y Hy. apply Hp. by right.
  - intros [= <-]. apply (Hp x); [by left|done].
Qed.

End raises_only.

Lemma py_get_raises d key default : raises_only (py_get d key default) [AttributeError].
Proof. intros e [_ ->]%py_get_Raise. set_solver. Qed.

Lemma py_lower_raises v : raises_only (py_lower v) [AttributeError].
Proof. intros e [_ ->]%py_lower_Raise. set_solver. Qed.

Lemma py_len_raises v : raises_only (py_len v) [TypeError].
Proof. destruct v; intros e; try done; intros [= <-]; set_solver. Qed.

Lemma py_iter_raises v : raises_only (py_iter v) [TypeError].
Proof. destruct v; intros e; try done; intros [= <-]; set_solver. Qed.

Lemma py_slice_to_raises n v : raises_only (py_slice_to n v) [TypeError].
Proof. destruct v; intros e; try done; intros [= <-]; set_solver. Qed.

Lemma py_truediv_raises a b cs : (0 < b)%Z → raises_only (py_truediv a b) cs.
Proof. intros Hb. rewrite py_truediv_pos by done. apply raises_only_Ok. Qed.

(** The exceptions of the dynamic operations on objects. *)
Definition dynamic_errors : list exn_class := [AttributeError; TypeError].

Lemma raises_only_dynamic {A} (m : pyres A) c :
  raises_only m [c] → c ∈ dynamic_errors → raises_only m dynamic_errors.
Proof. intros Hm Hc. eapply raises_only_mono; [|exact Hm]. set_solver. Qed.

Lemma py_get_raises_dynamic d key default :
  raises_only (py_get d key default) dynamic_errors.
Proof. eapply raises_only_dynamic; [apply py_get_raises|set_solver]. Qed.

Lemma py_lower_raises_dynamic v : raises_only (py_lower v) dynamic_errors.
Proof. eapply raises_only_dynamic; [apply py_lower_raises|set_solver]. Qed.

Lemma py_len_raises_dynamic v : raises_only (py_len v) dynamic_errors.
Proof. eapply raises_only_dynamic; [apply py_len_raises|set_solver]. Qed.

Lemma py_iter_raises_dynamic v : raises_only (py_iter v) dynamic_errors.
Proof. eapply raises_only_dynamic; [apply py_iter_raises|set_solver]. Qed.

Lemma py_slice_to_raises_dynamic n v : raises_only (py_slice_to n v) dynamic_errors.
Proof. eapply raises_only_dynamic; [apply py_slice_to_raises|set_solver]. Qed.

(** A truthy object that can be iterated has an item. *)
Lemma py_iter_len_truthy v l : py_iter v = Ok l → truthy v = true → 0 < length l.
Proof.
  destruct v as [| | | |s|l'|kvs]; try done; intros [= <-]; simpl.
  - destruct s; simpl; [done|lia].
  - destruct l'; simpl; [done|lia].
  - destruct kvs; simpl; [done|lia].
Qed.

#[export] Hint Resolve raises_only_Ok raises_only_bind raises_only_filter
  raises_only_traverse raises_only_any py_get_raises_dynamic
  py_lower_raises_dynamic py_len_raises_dynamic py_iter_raises_dynamic
  py_slice_to_raises_dynamic : py.

Lemma py_slice_to_list n l : py_slice_to n (PList l) = Ok (PList (take n l)).
Proof. done. Qed.

#[export] Hint Rewrite py_get_dict py_slice_to_list : py.

(** * Sums and means *)

Lemma num_add_val a b : (num_val (num_add a b) == num_val a + num_val b)%Q.
Proof.
  destruct a, b; simpl; rewrite ?Qred_correct, ?inject_Z_plus; reflexivity.
Qed.

(** A sum of numbers between 0 and 1 lies between 0 and their number. *)
Lemma foldl_num_add_bounds xs a :
  Forall (λ x, 0 <= num_val x <= 1)%Q xs →
  (num_val a <= num_val (foldl num_add a xs) <=
   num_val a + inject_Z (Z.of_nat (length xs)))%Q.
Proof.
  intros Hxs. revert a. induction Hxs as [|x xs [Hx0 Hx1] _ IH]; intros a.
  - cbn [foldl length]. change (inject_Z (Z.of_nat 0)) with 0%Q. lra.
  - cbn [foldl length]. specialize (IH (num_add a x)).
    rewrite num_add_val in IH. rewrite Nat2Z.inj_succ, <- Z.add_1_r, inject_Z_plus.
    change (inject_Z 1) with 1%Q. lra.
Qed.

Lemma py_sum_bounds xs :
  Forall (λ x, 0 <= num_val x <= 1)%Q xs →
  (0 <= num_val (py_sum xs) <= inject_Z (Z.of_nat (length xs)))%Q.
Proof.
  intros Hxs. pose proof (foldl_num_add_bounds xs (NInt 0) Hxs) as H.
  unfold py_sum. cbn [num_val] in H. change (inject_Z 0) with 0%Q in H. lra.
Qed.

Lemma py_truediv_num_pos a b :
  (0 < b)%Z →
  ∃ q, py_truediv_num a b = Ok q ∧ (q == num_val a / inject_Z b)%Q.
Proof.
  intros Hb. destruct a as [z|q]; simpl.
  - rewrite py_truediv_pos by done. eexists. split; [done|apply Qquot_eq].
  - rewrite (proj2 (Z.eqb_neq b 0)) by lia. eexists. split; [done|apply Qred_correct].
Qed.

(** The mean of numbers between 0 and 1 lies between 0 and 1. *)
Lemma py_mean_bounds xs q :
  Forall (λ x, 0 <= num_val x <= 1)%Q xs →
  py_truediv_num (py_sum xs) (Z.of_nat (length xs)) = Ok q → (0 <= q <= 1)%Q.
Proof.
  intros Hxs Hq. destruct xs as [|x xs]; [done|].
  assert (0 < Z.of_nat (length (x :: xs)))%Z as Hpos by (simpl; lia).
  destruct (py_truediv_num_pos (py_sum (x :: xs)) _ Hpos) as (q' & Hq' & Heq).
  rewrite Hq in Hq'. injection Hq' as <-. rewrite Heq.
  pose proof (py_sum_bounds _ Hxs) as [H0 H1]. apply inject_Z_pos in Hpos. split.
  - apply Qle_shift_div_l; [done|]. lra.
  - apply Qle_shift_div_r; [done|]. lra.
Qed.

Lemma py_getitem_Ok v key x :
  py_getitem v key = Ok x ↔ ∃ kvs, v = PDict kvs ∧ assoc key kvs = Some x.
Proof.
  destruct v as [| | | | | |kvs]; simpl; try (split; [done|by intros (? & [=] & _)]).
  destruct (assoc key kvs) as [y|] eqn:Ha; split.
  - intros [= ->]. by exists kvs.
  - intros (? & [= <-] & Hx). congruence.
  - done.
  - intros (? & [= <-] & Hx). congruence.
Qed.
