(* ===== verification/Interfaces.v ===== *)
(** * Interfaces between the components

    - [FileSystem]: what evaluators.py asks of the operating system
      ([glob.glob], [os.path.exists], [open(path, 'r')] read to the end).
    - [JsonCodec]: [json.loads], with what the loader relies on: a parsed
      object is well formed, a failure is a [JSONDecodeError] or the
      [ValueError] of an integer literal of too many digits.
    - [Loader]: the two functions the evaluator calls.  The evaluator is
      proved against this class; file [Loader] provides the instance over
      a file system.  Loaders are compared by what they load
      ([same_loads]).

    The laws are in classes of their own, so that a definition needs the
    operations only and a theorem says which laws it uses. *)

From stdpp Require Import base list sets strings.
From S2P Require Import Prelude PyStr PyValue.

#[local] Set Warnings "-clear-no-such-hyp".

(** * The file system *)

Class FileSystem (FS : Type) : Type := {
  (** [glob.glob(pattern)]: the paths that match, in the order the
      directory is listed *)
  fs_glob : FS → string → list string;
  (** [os.path.exists(path)] *)
  fs_exists : FS → string → bool;
  (** [open(path, 'r')] and the text read from it *)
  fs_read : FS → string → pyres string;
}.

Class FileSystemLaws (FS : Type) `{FileSystem FS} : Prop := {
  (** what [glob] lists is there *)
  fs_glob_exists fs pattern path :
    path ∈ fs_glob fs pattern → fs_exists fs path = true;
  (** [glob] lists a path once *)
  fs_glob_NoDup fs pattern : NoDup (fs_glob fs pattern);
  (** opening a path that is there does not fail with "no such file" *)
  fs_read_not_found fs path e :
    fs_read fs path = Raise e → e_class e = FileNotFoundError →
    fs_exists fs path = false;
  (** a path that is not there cannot be read *)
  fs_read_missing fs path :
    fs_exists fs path = false → is_ok (fs_read fs path) = false;
}.

(** Two file systems hold the same files: they list the same paths, in
    any order, and a path exists and reads the same in both. *)
Definition same_files {FS} `{FileSystem FS} (fs fs' : FS) : Prop :=
  (∀ pattern, fs_glob fs pattern ≡ₚ fs_glob fs' pattern) ∧
  (∀ path, fs_exists fs path = fs_exists fs' path) ∧
  (∀ path, fs_read fs path = fs_read fs' path).

#[export] Instance same_files_equivalence {FS} `{FileSystem FS} :
  Equivalence (same_files (FS:=FS)).
Proof.
  split.
  - by intros fs.
  - by intros fs fs' (Hg & He & Hr).
  - intros fs1 fs2 fs3 (Hg & He & Hr) (Hg' & He' & Hr').
    split_and!; intros x; [by rewrite Hg|congruence..].
Qed.

(** * The JSON parser *)

Class JsonCodec : Type := json_loads : string → pyres pyval.

Class JsonCodecLaws `{JsonCodec} : Prop := {
  json_loads_wf text v : json_loads text = Ok v → wf_pyval v = true;
  json_loads_error text e :
    json_loads text = Raise e → e_class e ∈ [JSONDecodeError; ValueError];
}.

(** The parser does not fail the way a missing file does. *)
Lemma not_file_not_found : FileNotFoundError ∉ [JSONDecodeError; ValueError].
Proof. set_solver. Qed.

(** [json.load(f)]: parse the whole text of the file. *)
Definition json_load `{JsonCodec} (text : string) : pyres pyval := json_loads text.

(** A parser given by its graph on finitely many texts; every other text is
    malformed.  It stands for [json.loads] restricted to the documents of
    an example. *)
Definition table_codec (table : list (string * pyval)) : JsonCodec :=
  λ text, of_option (assoc text table)
            (Exn JSONDecodeError "Expecting value: line 1 column 1 (char 0)").

Lemma table_codec_laws table :
  Forall (λ kv, wf_pyval kv.2 = true) table → @JsonCodecLaws (table_codec table).
Proof.
  intros Hwf. split; unfold json_loads, table_codec; intros text.
  - intros v H. destruct (assoc text table) as [w|] eqn:E; simplify_eq/=.
    apply assoc_Some in E. by apply (proj1 (Forall_forall _ _) Hwf (text, v)).
  - intros e H. destruct (assoc text table); simplify_eq/=. left.
Qed.

(** * The loader, as the evaluator sees it *)

Class Loader : Type := {
  (** [load_job_data(job_id)] *)
  loader_job_data : string → pyres pyval;
  (** [load_index_entry(job_id)] *)
  loader_index_entry : string → pyres pyval;
}.

(** Two loaders load the same: the evaluator cannot tell them apart
    (its evaluations are [Proper] for this relation, see [Evaluator]). *)
Definition same_loads (L L' : Loader) : Prop :=
  (∀ job_id, @loader_job_data L job_id = @loader_job_data L' job_id) ∧
  (∀ job_id, @loader_index_entry L job_id = @loader_index_entry L' job_id).

#[export] Instance same_loads_equivalence : Equivalence same_loads.
Proof.
  split.
  - by intros L.
  - by intros L L' [Hj Hi].
  - intros L1 L2 L3 [Hj Hi] [Hj' Hi']. split; intros job_id; congruence.
Qed.

(** A loader given by two tables: the record and the index entry of each
    job identifier. *)
Definition table_loader (e : exn) (records entries : list (string * pyval)) : Loader := {|
  loader_job_data job_id := of_option (assoc job_id records) e;
  loader_index_entry job_id := of_option (assoc job_id entries) e;
|}.
