(* ===== verification/MemFS.v ===== *)
(** * An in-memory file system

    A finite map from the paths of regular files to their texts; the
    directories are the proper prefixes of those paths.  [glob] matches a
    pattern against every path segment by segment, with [*] and [?] as
    wildcards and the rule that a wildcard segment does not match a hidden
    name.  Bracket classes, empty segments and [.] or [..] in a pattern are
    outside this model.  The instance discharges [FileSystemLaws] and is
    the environment on which the model is run. *)

From Stdlib Require Import Ascii String.
From stdpp Require Import base list sets strings gmap.
From S2P Require Import Prelude PyStr PyValue Interfaces.

#[local] Set Warnings "-clear-no-such-hyp".

(** * Paths *)

Definition slash : ascii := ascii_of_N 47.
Definition star : ascii := ascii_of_N 42.
Definition qmark : ascii := ascii_of_N 63.
Definition lbracket : ascii := ascii_of_N 91.
Definition dot : ascii := ascii_of_N 46.

(** The segments of a path: what stands between the slashes. *)
Fixpoint split_path (s : string) : list string :=
  match s with
  | EmptyString => [EmptyString]
  | String c s' =>
      if Ascii.eqb c slash then EmptyString :: split_path s'
      else match split_path s' with
           | [] => [String c EmptyString]
           | seg :: segs => String c seg :: segs
           end
  end.

Fixpoint join_path (segs : list string) : string :=
  match segs with
  | [] => EmptyString
  | [seg] => seg
  | seg :: segs' => seg +:+ String slash (join_path segs')
  end.

(** The directories a path lies in: its proper prefixes at a slash. *)
Definition dirs_of (path : string) : list string :=
  let segs := split_path path in
  (λ k, join_path (take k segs)) <$> seq 1 (length segs - 1).

(** * Wildcards *)

(** [fnmatch] on one segment, for patterns made of literal characters,
    [*] (any run of characters) and [?] (any one character). *)
Fixpoint wmatch (pat s : string) : bool :=
  match pat with
  | EmptyString => String.eqb s EmptyString
  | String p pat' =>
      if Ascii.eqb p star then
        (fix any_suffix (s : string) : bool :=
           wmatch pat' s ||
           match s with
           | EmptyString => false
           | String _ s' => any_suffix s'
           end) s
      else
        match s with
        | EmptyString => false
        | String c s' => (Ascii.eqb p qmark || Ascii.eqb p c) && wmatch pat' s'
        end
  end.

Definition is_magic (c : ascii) : bool :=
  Ascii.eqb c star || Ascii.eqb c qmark || Ascii.eqb c lbracket.

Definition has_magic (s : string) : bool :=
  existsb is_magic (list_ascii_of_string s).

Definition hidden (s : string) : bool :=
  match s with
  | String c _ => Ascii.eqb c dot
  | EmptyString => false
  end.

(** One segment of a pattern against one name: a literal segment is
    compared, a wildcard segment is matched and skips hidden names. *)
Definition seg_match (pat name : string) : bool :=
  if has_magic pat then negb (hidden name && negb (hidden pat)) && wmatch pat name
  else String.eqb pat name.

Definition glob_match (pattern path : string) : bool :=
  forall2b seg_match (split_path pattern) (split_path path).

(** * The file system *)

Record memfs : Type := MemFS { mem_files : gmap string string }.

Definition mem_of_list (files : list (string * string)) : memfs :=
  MemFS (list_to_map files).

(** Every path that exists: the files and the directories above them. *)
Definition mem_paths (fs : memfs) : gset string :=
  dom (mem_files fs) ∪
  ⋃ ((λ p, list_to_set (dirs_of p)) <$> elements (dom (mem_files fs))).

Definition mem_exists (fs : memfs) (path : string) : bool :=
  bool_decide (path ∈ mem_paths fs).

Definition mem_glob (fs : memfs) (pattern : string) : list string :=
  List.filter (glob_match pattern) (elements (mem_paths fs)).

Definition no_such_file_error (path : string) : exn :=
  Exn FileNotFoundError ("[Errno 2] No such file or directory: '" +:+ path +:+ "'").

Definition is_a_directory_error (path : string) : exn :=
  Exn OSError ("[Errno 21] Is a directory: '" +:+ path +:+ "'").

Definition mem_read (fs : memfs) (path : string) : pyres string :=
  match mem_files fs !! path with
  | Some text => Ok text
  | None =>
      if mem_exists fs path then Raise (is_a_directory_error path)
      else Raise (no_such_file_error path)
  end.

#[export] Instance memfs_file_system : FileSystem memfs := {|
  fs_glob := mem_glob;
  fs_exists := mem_exists;
  fs_read := mem_read;
|}.

(** The same files listed in the opposite order when the flag is set: the
    order of a directory listing is not specified. *)
Definition listed_glob (fs : memfs * bool) (pattern : string) : list string :=
  if snd fs then reverse (mem_glob (fst fs) pattern) else mem_glob (fst fs) pattern.

#[export] Instance listed_file_system : FileSystem (memfs * bool) := {|
  fs_glob := listed_glob;
  fs_exists fs := mem_exists (fst fs);
  fs_read fs := mem_read (fst fs);
|}.

Lemma listed_glob_perm (fs : memfs) (b b' : bool) pattern :
  fs_glob (fs, b) pattern ≡ₚ fs_glob (fs, b') pattern.
Proof.
  destruct b, b'; simpl; unfold listed_glob; simpl; try done.
  - apply reverse_Permutation.
  - symmetry. apply reverse_Permutation.
Qed.

(** * The laws *)

Lemma mem_file_exists fs path text :
  mem_files fs !! path = Some text → mem_exists fs path = true.
Proof.
  intros H. apply bool_decide_eq_true. unfold mem_paths.
  apply elem_of_union_l, elem_of_dom. by eexists.
Qed.

Lemma elem_of_filter_list {A} (q : A → bool) (l : list A) x :
  x ∈ List.filter q l ↔ x ∈ l ∧ q x = true.
Proof. rewrite !list_elem_of_In, filter_In. done. Qed.

Lemma NoDup_filter_list {A} (q : A → bool) (l : list A) :
  NoDup l → NoDup (List.filter q l).
Proof.
  induction 1 as [|x l Hx Hl IH]; simpl; [constructor|].
  destruct (q x); [|done]. constructor; [|done].
  rewrite elem_of_filter_list. naive_solver.
Qed.

Lemma mem_glob_spec fs pattern path :
  path ∈ mem_glob fs pattern ↔ path ∈ mem_paths fs ∧ glob_match pattern path = true.
Proof. unfold mem_glob. by rewrite elem_of_filter_list, elem_of_elements. Qed.

#[export] Instance memfs_laws : FileSystemLaws memfs.
Proof.
  split; simpl.
  - intros fs pattern path [H _]%mem_glob_spec. by apply bool_decide_eq_true.
  - intros fs pattern. apply NoDup_filter_list, NoDup_elements.
  - intros fs path e. unfold mem_read.
    destruct (mem_files fs !! path); [done|].
    destruct (mem_exists fs path); [|done]. by intros [= <-].
  - intros fs path H. unfold mem_read.
    destruct (mem_files fs !! path) eqn:E; [|by rewrite H].
    apply mem_file_exists in E. congruence.
Qed.

(** * Paths: splitting loses nothing *)

Lemma split_path_nonempty s : split_path s ≠ [].
Proof.
  destruct s as [|c s]; simpl; [done|].
  destruct (Ascii.eqb c slash); [done|]. by destruct (split_path s).
Qed.

Lemma join_path_cons seg segs :
  segs ≠ [] → join_path (seg :: segs) = seg +:+ String slash (join_path segs).
Proof. by destruct segs. Qed.

Lemma join_split_path s : join_path (split_path s) = s.
Proof.
  induction s as [|c s IH]; simpl; [done|].
  destruct (Ascii.eqb_spec c slash) as [->|Hne].
  - rewrite join_path_cons by apply split_path_nonempty.
    by rewrite IH, str_app_nil_l.
  - pose proof (split_path_nonempty s) as Hs.
    destruct (split_path s) as [|seg segs]; [done|].
    destruct segs as [|seg' segs]; simpl in *; [by rewrite IH|].
    by rewrite str_app_cons, IH.
Qed.

Lemma eqb_false_of_ne (a b : ascii) : a ≠ b → Ascii.eqb a b = false.
Proof. by intros ?%Ascii.eqb_neq. Qed.

(** A segment is a string without a slash. *)
Definition segment (s : string) : Prop :=
  Forall (λ c, c ≠ slash) (list_ascii_of_string s).

#[export] Instance segment_dec s : Decision (segment s).
Proof. unfold segment. apply _. Defined.

Lemma segment_cons c s : segment (String c s) ↔ c ≠ slash ∧ segment s.
Proof. unfold segment. simpl. by rewrite Forall_cons. Qed.

Lemma segment_app s t : segment (s +:+ t) ↔ segment s ∧ segment t.
Proof.
  induction s as [|c s IH].
  - rewrite str_app_nil_l. unfold segment at 2. simpl. rewrite Forall_nil. tauto.
  - rewrite str_app_cons, !segment_cons, IH. tauto.
Qed.

Lemma split_path_segment s : segment s → split_path s = [s].
Proof.
  induction s as [|c s IH]; [done|]. intros [Hc Hs]%segment_cons. simpl.
  by rewrite (eqb_false_of_ne c slash), IH.
Qed.

Lemma split_path_app seg rest :
  segment seg → split_path (seg +:+ String slash rest) = seg :: split_path rest.
Proof.
  induction seg as [|c seg IH].
  - intros _. by rewrite str_app_nil_l.
  - intros [Hc Hs]%segment_cons. rewrite str_app_cons. simpl.
    by rewrite (eqb_false_of_ne c slash), IH.
Qed.

Lemma split_path_segments s : Forall segment (split_path s).
Proof.
  induction s as [|c s IH]; simpl; [by repeat constructor|].
  destruct (Ascii.eqb_spec c slash) as [->|Hne]; [constructor; [constructor|done]|].
  destruct (split_path s) as [|seg segs]; [by repeat constructor|].
  apply Forall_cons in IH as [Hseg Hsegs]. constructor; [|done]. by apply segment_cons.
Qed.

Lemma split_join_path segs :
  segs ≠ [] → Forall segment segs → split_path (join_path segs) = segs.
Proof.
  induction segs as [|seg segs IH]; [done|]. intros _ [Hseg Hsegs]%Forall_cons.
  destruct segs as [|seg' segs]; [by apply split_path_segment|].
  rewrite join_path_cons, split_path_app, IH by done. done.
Qed.

(** A pattern matches the paths that have as many segments as it has,
    each matched by its segment of the pattern. *)
Lemma glob_match_spec pats path :
  pats ≠ [] → Forall segment pats →
  glob_match (join_path pats) path = true ↔
  ∃ names, path = join_path names ∧ Forall segment names ∧
           Forall2 (λ pat name, seg_match pat name = true) pats names.
Proof.
  intros Hne Hpats. unfold glob_match. rewrite split_join_path, forall2b_Forall2 by done.
  split.
  - intros Hm. exists (split_path path).
    by rewrite join_split_path; split_and!; [|apply split_path_segments|].
  - intros (names & -> & Hnames & Hm). rewrite split_join_path; [done| |done].
    intros ->. apply Forall2_nil_inv_r in Hm. done.
Qed.

(** * Wildcards: what the pattern of the job files matches *)

Definition literal (s : string) : Prop :=
  Forall (λ c, c ≠ star ∧ c ≠ qmark) (list_ascii_of_string s).

#[export] Instance literal_dec s : Decision (literal s).
Proof. unfold literal. apply _. Defined.

Lemma literal_cons c s : literal (String c s) ↔ c ≠ star ∧ c ≠ qmark ∧ literal s.
Proof. unfold literal. simpl. rewrite Forall_cons. naive_solver. Qed.

(** A literal prefix of the pattern must be a prefix of the name. *)
Lemma wmatch_literal_app lit pat s :
  literal lit →
  wmatch (lit +:+ pat) s = true ↔ ∃ t, s = lit +:+ t ∧ wmatch pat t = true.
Proof.
  revert s. induction lit as [|c lit IH]; intros s Hlit.
  - rewrite str_app_nil_l. split; [by exists s|by intros (t & -> & ?)].
  - apply literal_cons in Hlit as (Hs & Hq & Hlit). rewrite str_app_cons. simpl.
    rewrite (eqb_false_of_ne c star), (eqb_false_of_ne c qmark) by done. simpl.
    destruct s as [|d s]; [split; [done|by intros (? & [=] & _)]|].
    rewrite andb_true_iff, Ascii.eqb_eq, IH by done. split.
    + intros (-> & t & -> & Ht). by exists t.
    + intros (t & [= -> ->] & Ht). split; [done|by exists t].
Qed.

(** A star matches any prefix of the name. *)
Lemma wmatch_star pat s :
  wmatch (String star pat) s = true ↔ ∃ x t, s = x +:+ t ∧ wmatch pat t = true.
Proof.
  simpl. induction s as [|c s IH].
  - rewrite orb_false_r. split; [by exists EmptyString, EmptyString|].
    intros ([|] & t & H & Ht); [|done]. rewrite str_app_nil_l in H. by subst.
  - rewrite orb_true_iff, IH. split.
    + intros [H|(x & t & -> & Ht)]; [by exists EmptyString, (String c s)|].
      by exists (String c x), t.
    + intros ([|d x] & t & H & Ht).
      * left. rewrite str_app_nil_l in H. by subst.
      * right. injection H as -> ->. by exists x, t.
Qed.

(** A literal pattern matches itself only. *)
Lemma wmatch_literal lit s : literal lit → wmatch lit s = true ↔ s = lit.
Proof.
  intros Hlit. rewrite <- (str_app_nil_r lit) at 1.
  rewrite wmatch_literal_app by done. simpl. split.
  - intros (t & -> & ->%String.eqb_eq). by rewrite str_app_nil_r.
  - intros ->. exists EmptyString. by rewrite str_app_nil_r.
Qed.

(** [lit1*lit2] matches the names that start with [lit1] and go on to end
    with [lit2]. *)
Lemma wmatch_literal_star_literal lit1 lit2 s :
  literal lit1 → literal lit2 →
  wmatch (lit1 +:+ String star lit2) s = true ↔ ∃ x, s = lit1 +:+ x +:+ lit2.
Proof.
  intros H1 H2. rewrite wmatch_literal_app by done. split.
  - intros (t & -> & (x & u & -> & ->%wmatch_literal)%wmatch_star); [|done].
    by exists x.
  - intros [x ->]. eexists. split; [done|]. apply wmatch_star.
    exists x, lit2. split; [done|]. by apply wmatch_literal.
Qed.
