(* ===== verification/Loader.v ===== *)
(** * The record loader

    [load_job_data] and [load_index_entry] of evaluators.py, over any file
    system and any JSON parser.

    - [load_job_data]: lists the files [logs/<job_id>/job-*.json], fails
      when there is none, parses the one whose path is the greatest.
    - [load_index_entry]: fails when [data/index.jsonl] is missing; reads it
      line by line, parses each stripped line and returns the first entry
      whose ['job_id'] is the identifier; fails when the lines run out.

    The text of a file is read before it is cut into lines, where the source
    reads as it iterates; the two differ only if reading fails after the line
    at which the loop would have returned. *)

From Stdlib Require Import Ascii String.
From stdpp Require Import base list sets strings gmap.
From S2P Require Import Prelude PyStr PyValue Interfaces MemFS.

#[local] Set Warnings "-clear-no-such-hyp".

(** * Constants of the source *)

(** [f"logs/{job_id}"] *)
Definition job_dir (job_id : string) : string := "logs/" +:+ job_id.

(** [f"{job_dir}/job-*.json"] *)
Definition job_pattern (job_id : string) : string := job_dir job_id +:+ "/job-*.json".

Definition index_path : string := "data/index.jsonl".

Definition no_job_files_error (job_id : string) : exn :=
  Exn FileNotFoundError ("No job files found for " +:+ job_id).

Definition no_index_error : exn :=
  Exn FileNotFoundError "No index.jsonl found. Run extract-for-eval first.".

Definition not_in_index_error (job_id : string) : exn :=
  Exn ValueError ("Job ID " +:+ job_id +:+ " not found in index").

Section loader.
Context {FS : Type} `{FileSystem FS} `{JsonCodec}.
Implicit Types (fs : FS) (job_id line : string) (entry : pyval).

(** * [load_job_data] *)

Definition load_job_data fs job_id : pyres pyval :=
  let job_files := fs_glob fs (job_pattern job_id) in
  match job_files with
  | [] => Raise (no_job_files_error job_id)
  | _ :: _ =>
      let* latest_job_file := py_max job_files in
      let* text := fs_read fs latest_job_file in
      json_load text
  end.

(** * [load_index_entry] *)

(** The body of the loop on one line: the entry if it is the one looked
    for, nothing if it is another one. *)
Definition index_line job_id line : pyres (option pyval) :=
  let* entry := json_loads (strip line) in
  let* id := py_get entry "job_id" PNone in
  Ok (if py_eq_str id job_id then Some entry else None).

(** The loop over the lines of the index. *)
Definition scan_index job_id (lines : list string) : pyres (option pyval) :=
  first_result (index_line job_id) lines.

Definition load_index_entry fs job_id : pyres pyval :=
  if negb (fs_exists fs index_path) then Raise no_index_error
  else
    let* text := fs_read fs index_path in
    let* found := scan_index job_id (readlines text) in
    match found with
    | Some entry => Ok entry
    | None => Raise (not_in_index_error job_id)
    end.

(** The loader the evaluator is given. *)
Definition fs_loader fs : Loader := {|
  loader_job_data := load_job_data fs;
  loader_index_entry := load_index_entry fs;
|}.

(** * What a line of the index does *)

(** A line that holds another job's entry: it parses to a dictionary whose
    ['job_id'] is not the identifier. *)
Definition other_entry job_id line : Prop :=
  ∃ kvs, json_loads (strip line) = Ok (PDict kvs) ∧
         assoc "job_id" kvs ≠ Some (PStr job_id).

(** A line that holds the entry looked for. *)
Definition entry_of job_id line entry : Prop :=
  ∃ kvs, entry = PDict kvs ∧ json_loads (strip line) = Ok entry ∧
         assoc "job_id" kvs = Some (PStr job_id).

Lemma default_eq_str (o : option pyval) job_id :
  py_eq_str (from_option id PNone o) job_id = bool_decide (o = Some (PStr job_id)).
Proof.
  destruct o as [v|]; simpl; [|done].
  destruct (py_eq_str v job_id) eqn:E.
  - apply py_eq_str_true in E as ->. by rewrite bool_decide_eq_true_2.
  - rewrite bool_decide_eq_false_2; [done|]. intros [= ->].
    by rewrite (proj2 (py_eq_str_true _ _) eq_refl) in E.
Qed.

Lemma index_line_None job_id line :
  index_line job_id line = Ok None ↔ other_entry job_id line.
Proof.
  unfold index_line, other_entry. split.
  - intros Hl. destruct (json_loads (strip line)) as [entry|] eqn:E; [|done].
    simpl in Hl. destruct entry; try done. exists kvs. split; [done|].
    simpl in Hl. rewrite default_eq_str in Hl. by case_bool_decide.
  - intros (kvs & -> & Hk). simpl. rewrite default_eq_str.
    by rewrite bool_decide_eq_false_2.
Qed.

Lemma index_line_Some job_id line entry :
  index_line job_id line = Ok (Some entry) ↔ entry_of job_id line entry.
Proof.
  unfold index_line, entry_of. split.
  - intros Hl. destruct (json_loads (strip line)) as [entry'|] eqn:E; [|done].
    simpl in Hl. destruct entry'; try done. simpl in Hl.
    rewrite default_eq_str in Hl. case_bool_decide; [|done].
    injection Hl as <-. by exists kvs.
  - intros (kvs & -> & -> & Hk). simpl. rewrite default_eq_str.
    by rewrite bool_decide_eq_true_2.
Qed.

(** The ways the body raises: the line does not parse, or it parses to
    something that is no dictionary. *)
Lemma index_line_Raise job_id line e :
  index_line job_id line = Raise e ↔
  json_loads (strip line) = Raise e ∨
  ∃ v, json_loads (strip line) = Ok v ∧ is_dict v = false ∧
       e = attribute_error v "get".
Proof.
  unfold index_line. destruct (json_loads (strip line)) as [v|e'] eqn:E; simpl.
  - rewrite result_bind_Raise_inv, py_get_Raise. split.
    + intros [[? ->]|(? & _ & [=])]. right. by exists v.
    + intros [[=]|(? & [= <-] & ? & ->)]. by left.
  - split; [intros [= ->]; by left|]. by intros [[= ->]|(? & [=] & _)].
Qed.

(** * [load_job_data]: which file is loaded *)

Lemma load_job_data_unfold fs job_id x l :
  fs_glob fs (job_pattern job_id) = x :: l →
  load_job_data fs job_id =
  (let* text := fs_read fs (max_str x l) in json_load text).
Proof. intros Hl. unfold load_job_data. by rewrite Hl. Qed.

Lemma load_job_data_read fs job_id p text v :
  greatest p (fs_glob fs (job_pattern job_id)) →
  fs_read fs p = Ok text → json_loads text = Ok v →
  load_job_data fs job_id = Ok v.
Proof.
  intros Hp%py_max_Ok Ht Hv. unfold load_job_data.
  destruct (fs_glob fs (job_pattern job_id)) as [|x l] eqn:Hl; [done|].
  rewrite Hp. simpl. by rewrite Ht.
Qed.

(** Claim C3. [load_job_data] parses the file whose path is the greatest in
    the listing of [logs/<job_id>/job-*.json], and fails as reading or
    parsing that file fails. *)
Theorem load_job_data_latest fs job_id p :
  greatest p (fs_glob fs (job_pattern job_id)) →
  load_job_data fs job_id = (let* text := fs_read fs p in json_load text).
Proof.
  intros Hp. pose proof (py_max_greatest _ _ Hp) as Hmax.
  destruct (fs_glob fs (job_pattern job_id)) as [|x l] eqn:Hl; [done|].
  rewrite (load_job_data_unfold _ _ _ _ Hl). by injection Hmax as ->.
Qed.

(** A record is returned only from the greatest path of the
    listing: success of [load_job_data] is success of reading and parsing
    that file. *)
Theorem load_job_data_Ok fs job_id v :
  load_job_data fs job_id = Ok v ↔
  ∃ p text, greatest p (fs_glob fs (job_pattern job_id)) ∧
            fs_read fs p = Ok text ∧ json_loads text = Ok v.
Proof.
  split.
  - unfold load_job_data.
    destruct (fs_glob fs (job_pattern job_id)) as [|x l] eqn:Hl; [done|]. rewrite <- Hl.
    intros (p & Hp%py_max_Ok & (text & Ht & Hv)%result_bind_Ok_inv)%result_bind_Ok_inv.
    by exists p, text.
  - intros (p & text & Hp & Ht & Hv). by apply (load_job_data_read _ _ p text).
Qed.

(** [load_job_data] as a function of what the file system lists and
    reads. *)
Lemma load_job_data_of_listing fs job_id :
  load_job_data fs job_id =
  match py_max (fs_glob fs (job_pattern job_id)) with
  | Ok p => let* text := fs_read fs p in json_load text
  | Raise _ => Raise (no_job_files_error job_id)
  end.
Proof. unfold load_job_data. by destruct (fs_glob fs (job_pattern job_id)). Qed.

(** Claim C9. The record loaded does not depend on the order in which the
    file system lists the job files. *)
Theorem load_job_data_listing_order fs fs' job_id :
  fs_glob fs (job_pattern job_id) ≡ₚ fs_glob fs' (job_pattern job_id) →
  (∀ p, fs_read fs p = fs_read fs' p) →
  load_job_data fs job_id = load_job_data fs' job_id.
Proof.
  intros HP Hread. rewrite !load_job_data_of_listing, (py_max_perm _ _ HP).
  destruct (py_max _); [|done]. by rewrite Hread.
Qed.

(** The loader of a file system depends on the files it holds, not on
    the order in which it lists them. *)
#[export] Instance fs_loader_proper : Proper (same_files ==> same_loads) fs_loader.
Proof.
  intros fs fs' (Hglob & Hex & Hread). split; intros job_id; cbn.
  - rewrite !load_job_data_of_listing, (py_max_perm _ _ (Hglob _)).
    destruct (py_max _); [|done]. by rewrite Hread.
  - unfold load_index_entry. by rewrite Hex, Hread.
Qed.

(** Claim C10. [load_job_data] raises [FileNotFoundError] exactly when no
    file matches, and then with the message "No job files found for
    <job_id>": on a lawful file system and parser no other failure has that
    class. *)
Theorem load_job_data_not_found `{!FileSystemLaws FS} `{!JsonCodecLaws} fs job_id e :
  load_job_data fs job_id = Raise e ∧ e_class e = FileNotFoundError ↔
  fs_glob fs (job_pattern job_id) = [] ∧ e = no_job_files_error job_id.
Proof.
  split.
  - intros [Hr Hc]. destruct (fs_glob fs (job_pattern job_id)) as [|x l] eqn:Hl.
    + unfold load_job_data in Hr. rewrite Hl in Hr. by injection Hr as <-.
    + rewrite (load_job_data_unfold _ _ _ _ Hl) in Hr.
      apply result_bind_Raise_inv in Hr as [Hr|(text & _ & Hr)].
      * apply fs_read_not_found in Hr; [|done].
        rewrite (fs_glob_exists fs (job_pattern job_id)) in Hr; [done|].
        rewrite Hl. apply max_str_elem.
      * apply json_loads_error in Hr. by rewrite Hc in Hr; apply not_file_not_found in Hr.
  - intros [Hl ->]. unfold load_job_data. by rewrite Hl.
Qed.

(** * [load_index_entry]: which entry is returned *)

Lemma load_index_entry_unfold fs job_id text :
  fs_exists fs index_path = true → fs_read fs index_path = Ok text →
  load_index_entry fs job_id =
  match scan_index job_id (readlines text) with
  | Ok (Some entry) => Ok entry
  | Ok None => Raise (not_in_index_error job_id)
  | Raise e => Raise e
  end.
Proof.
  intros He Hr. unfold load_index_entry. rewrite He, Hr. simpl.
  by destruct (scan_index job_id (readlines text)) as [[?|]|?].
Qed.

Lemma load_index_entry_inv fs job_id r :
  load_index_entry fs job_id = r →
  (fs_exists fs index_path = false ∧ r = Raise no_index_error) ∨
  (fs_exists fs index_path = true ∧
   ((∃ e, fs_read fs index_path = Raise e ∧ r = Raise e) ∨
    (∃ text, fs_read fs index_path = Ok text ∧
       r = match scan_index job_id (readlines text) with
           | Ok (Some entry) => Ok entry
           | Ok None => Raise (not_in_index_error job_id)
           | Raise e => Raise e
           end))).
Proof.
  intros <-. destruct (fs_exists fs index_path) eqn:He.
  - right. split; [done|]. destruct (fs_read fs index_path) as [text|e] eqn:Hr.
    + right. exists text. split; [done|]. by apply load_index_entry_unfold.
    + left. exists e. split; [done|]. unfold load_index_entry. by rewrite He, Hr.
  - left. split; [done|]. unfold load_index_entry. by rewrite He.
Qed.

(** The loop finds an entry exactly at the first line that holds one, the
    lines before it holding entries of other jobs. *)
Lemma scan_index_Some job_id lines entry :
  scan_index job_id lines = Ok (Some entry) ↔
  ∃ pre line post, lines = pre ++ line :: post ∧
    Forall (other_entry job_id) pre ∧ entry_of job_id line entry.
Proof.
  unfold scan_index. rewrite first_result_Some.
  do 3 (apply exist_proper; intros ?).
  rewrite index_line_Some.
  apply and_iff_compat_l, and_iff_compat_r, Forall_iff. intros l. apply index_line_None.
Qed.

Lemma load_index_entry_found fs job_id entry :
  load_index_entry fs job_id = Ok entry →
  fs_exists fs index_path = true ∧
  ∃ text, fs_read fs index_path = Ok text ∧
          scan_index job_id (readlines text) = Ok (Some entry).
Proof.
  intros [[_ [=]]|[He [(e & _ & [=])|(text & Hr & Hs)]]]%load_index_entry_inv.
  split; [done|]. exists text. split; [done|].
  destruct (scan_index job_id (readlines text)) as [[entry'|]|]; try done.
  by injection Hs as <-.
Qed.

(** Claim C4. [load_index_entry] returns the entry of the first line of the
    index that parses to a dictionary whose ['job_id'] is the identifier,
    all lines before it being entries of other jobs; and it returns
    nothing else. *)
Theorem load_index_entry_Ok fs job_id entry :
  load_index_entry fs job_id = Ok entry ↔
  fs_exists fs index_path = true ∧
  ∃ text pre line post,
    fs_read fs index_path = Ok text ∧ readlines text = pre ++ line :: post ∧
    Forall (other_entry job_id) pre ∧ entry_of job_id line entry.
Proof.
  split.
  - intros (He & text & Hr & Hscan)%load_index_entry_found. split; [done|].
    apply scan_index_Some in Hscan as (pre & line & post & ?). by exists text, pre, line, post.
  - intros (He & text & pre & line & post & Hr & Hl & Hpre & Hline).
    rewrite (load_index_entry_unfold _ _ text) by done.
    assert (scan_index job_id (readlines text) = Ok (Some entry)) as ->; [|done].
    apply scan_index_Some. by exists pre, line, post.
Qed.

(** What [load_index_entry] returns is a dictionary whose
    ['job_id'] is the identifier asked for. *)
Theorem load_index_entry_shape fs job_id entry :
  load_index_entry fs job_id = Ok entry →
  py_get entry "job_id" PNone = Ok (PStr job_id).
Proof.
  intros (_ & text & _ & Hscan)%load_index_entry_found.
  apply scan_index_Some in Hscan as (_ & _ & _ & _ & _ & kvs & -> & _ & Hk).
  simpl. by rewrite Hk.
Qed.

(** Claim C13. When the index exists and every line of it is the entry of
    another job, [load_index_entry] raises [ValueError] with the message
    "Job ID <job_id> not found in index". *)
Theorem load_index_entry_not_found fs job_id text :
  fs_exists fs index_path = true → fs_read fs index_path = Ok text →
  Forall (other_entry job_id) (readlines text) →
  load_index_entry fs job_id = Raise (not_in_index_error job_id).
Proof.
  intros He Hr Hall. rewrite (load_index_entry_unfold _ _ text) by done.
  assert (scan_index job_id (readlines text) = Ok None) as ->; [|done].
  apply first_result_None. eapply Forall_impl; [exact Hall|].
  intros l. apply index_line_None.
Qed.

(** Claim C14. A line that does not parse stops the lookup: if it comes
    before the entry looked for, [load_index_entry] raises the parser's
    exception, whatever the lines after it hold. *)
Theorem load_index_entry_bad_line fs job_id text pre line post e :
  fs_exists fs index_path = true → fs_read fs index_path = Ok text →
  readlines text = pre ++ line :: post →
  Forall (other_entry job_id) pre → json_loads (strip line) = Raise e →
  load_index_entry fs job_id = Raise e.
Proof.
  intros He Hr Hl Hpre Hbad. rewrite (load_index_entry_unfold _ _ text) by done.
  assert (scan_index job_id (readlines text) = Raise e) as ->; [|done].
  apply first_result_Raise. exists pre, line, post. split_and!; [done| |].
  - eapply Forall_impl; [exact Hpre|]. intros l. apply index_line_None.
  - apply index_line_Raise. by left.
Qed.

(** When [data/index.jsonl] does not exist, [load_index_entry]
    raises [FileNotFoundError] with the message of the source and does not
    open anything; on a lawful file system this is the only way it raises
    that class. *)
Theorem load_index_entry_missing `{!FileSystemLaws FS} `{!JsonCodecLaws} fs job_id e :
  load_index_entry fs job_id = Raise e ∧ e_class e = FileNotFoundError ↔
  fs_exists fs index_path = false ∧ e = no_index_error.
Proof.
  split.
  - intros [[[He [= <-]]|[He [(e' & Hr & [= <-])|(text & Hr & Hs)]]]%load_index_entry_inv Hc].
    + done.
    + apply fs_read_not_found in Hr; [congruence|done].
    + destruct (scan_index job_id (readlines text)) as [[?|]|e'] eqn:Hscan; try done.
      * by injection Hs as ->.
      * injection Hs as ->.
        apply first_result_Raise in Hscan as (? & l & ? & _ & _ & Hline).
        apply index_line_Raise in Hline as [Hline|(v & _ & _ & ->)]; [|done].
        apply json_loads_error in Hline.
        by rewrite Hc in Hline; apply not_file_not_found in Hline.
  - intros [He ->]. unfold load_index_entry. by rewrite He.
Qed.

End loader.

(** * An example: two extractions of job 42 and an index of three lines *)

Definition sample_old_text : string := json_text "{'title': 'Engineer (draft)'}".

Definition sample_new_text : string :=
  json_text "{'description': 'We need a Python expert.', 'title': 'Eng'}".

Definition sample_line_41 : string :=
  json_text "{'job_id': '41', 'required_terms': []}".

Definition sample_line_42 : string :=
  json_text "{'job_id': '42', 'required_terms': ['python', 'leadership']}".

Definition sample_index : string :=
  text_line sample_line_41 +:+ text_line ("  " +:+ sample_line_42) +:+
  text_line "not json" +:+ text_line sample_line_42.

Definition sample_record : pyval :=
  PDict [("description", PStr "We need a Python expert."); ("title", PStr "Eng")].

Definition sample_entry_41 : list (string * pyval) :=
  [("job_id", PStr "41"); ("required_terms", PList [])].

Definition sample_entry_42 : list (string * pyval) :=
  [("job_id", PStr "42");
   ("required_terms", PList [PStr "python"; PStr "leadership"])].

Definition sample_fs : memfs :=
  mem_of_list
    [("logs/42/job-20240101.json", sample_old_text);
     ("logs/42/job-20240215.json", sample_new_text);
     ("logs/42/notes.txt", "not a job file");
     ("logs/7/job-20250101.json", sample_old_text);
     ("data/index.jsonl", sample_index)].

(** The same files without the index. *)
Definition sample_fs_no_index : memfs :=
  mem_of_list
    [("logs/42/job-20240101.json", sample_old_text);
     ("logs/42/job-20240215.json", sample_new_text)].

Definition sample_codec : JsonCodec :=
  table_codec
    [(sample_old_text, PDict [("title", PStr "Engineer (draft)")]);
     (sample_new_text, sample_record);
     (sample_line_41, PDict sample_entry_41);
     (sample_line_42, PDict sample_entry_42)].

Lemma sample_codec_laws : @JsonCodecLaws sample_codec.
Proof. apply table_codec_laws. by repeat constructor. Qed.

Lemma sample_greatest :
  greatest "logs/42/job-20240215.json" (fs_glob sample_fs (job_pattern "42")).
Proof.
  apply py_max_Ok. by vm_compute.
Qed.

(** Of the files [job-20240101.json] and [job-20240215.json] the loader
    takes the second. *)
Lemma load_job_data_latest_witness :
  greatest "logs/42/job-20240215.json" (fs_glob sample_fs (job_pattern "42")) ∧
  @load_job_data _ _ sample_codec sample_fs "42" =
  (let* text := fs_read sample_fs "logs/42/job-20240215.json" in
   @json_load sample_codec text).
Proof.
  split; [exact sample_greatest|].
  exact (@load_job_data_latest _ _ sample_codec sample_fs "42" _ sample_greatest).
Defined.

Lemma sample_load_job_data :
  @load_job_data _ _ sample_codec sample_fs "42" = Ok sample_record.
Proof. by vm_compute. Qed.

(** The same files listed in the opposite order. *)
Lemma load_job_data_listing_order_witness :
  fs_glob (sample_fs, true) (job_pattern "42") =
    ["logs/42/job-20240215.json"; "logs/42/job-20240101.json"] ∧
  @load_job_data _ _ sample_codec (sample_fs, false) "42" =
  @load_job_data _ _ sample_codec (sample_fs, true) "42".
Proof.
  split; [by vm_compute|].
  exact (@load_job_data_listing_order _ _ sample_codec (sample_fs, false)
           (sample_fs, true) "42" (listed_glob_perm sample_fs false true _)
           (λ p, eq_refl)).
Defined.

Lemma load_index_entry_shape_witness :
  @load_index_entry _ _ sample_codec sample_fs "42" = Ok (PDict sample_entry_42) ∧
  py_get (PDict sample_entry_42) "job_id" PNone = Ok (PStr "42").
Proof.
  split; [by vm_compute|].
  apply (@load_index_entry_shape _ _ sample_codec sample_fs "42"). by vm_compute.
Defined.

Lemma sample_other_entry_41 :
  @other_entry sample_codec "42" (text_line sample_line_41).
Proof. exists sample_entry_41. by vm_compute. Qed.

Lemma load_index_entry_not_found_witness :
  @load_index_entry _ _ sample_codec
    (mem_of_list [("data/index.jsonl", text_line sample_line_41)]) "42" =
  Raise (Exn ValueError "Job ID 42 not found in index").
Proof.
  apply (@load_index_entry_not_found _ _ sample_codec _ "42" (text_line sample_line_41));
    [by vm_compute..|].
  constructor; [exact sample_other_entry_41|constructor].
Defined.

(** No file of job 99: the error of the source, and of that class. *)
Lemma load_job_data_not_found_witness :
  @load_job_data _ _ sample_codec sample_fs "99" = Raise (no_job_files_error "99") ∧
  e_class (no_job_files_error "99") = FileNotFoundError.
Proof.
  refine (proj2 (@load_job_data_not_found _ _ sample_codec memfs_laws sample_codec_laws
                   sample_fs "99" (no_job_files_error "99")) (conj _ eq_refl)).
  by vm_compute.
Defined.

Lemma load_index_entry_missing_witness :
  @load_index_entry _ _ sample_codec sample_fs_no_index "42" = Raise no_index_error ∧
  e_class no_index_error = FileNotFoundError.
Proof.
  refine (proj2 (@load_index_entry_missing _ _ sample_codec memfs_laws sample_codec_laws
                   sample_fs_no_index "42" no_index_error) (conj _ eq_refl)).
  by vm_compute.
Defined.

(** The third line of the sample index does not parse: job 43, whose entry
    would come after it, cannot be looked up. *)
Lemma load_index_entry_bad_line_witness :
  @load_index_entry _ _ sample_codec
    (mem_of_list [("data/index.jsonl", text_line sample_line_41 +:+ text_line "not json")])
    "42" =
  Raise (Exn JSONDecodeError "Expecting value: line 1 column 1 (char 0)").
Proof.
  apply (@load_index_entry_bad_line _ _ sample_codec _ "42"
           (text_line sample_line_41 +:+ text_line "not json")
           [text_line sample_line_41] (text_line "not json") []);
    [by vm_compute..| |by vm_compute].
  constructor; [exact sample_other_entry_41|constructor].
Defined.
