(* ===== verification/Evaluator.v ===== *)
(** * The metrics evaluator

    [evaluate_required_terms_quality] and [evaluate_extraction_completeness]
    of evaluators.py, against the [Loader] interface.

    Each function is a [try] whose body loads, computes the entries of the
    report in the order the dictionary literal lists them, and returns it,
    and an [except Exception] that returns an error report.  The body is a
    computation in [pyres]; the handler is [result_catch].  A report is a
    [report]: the metrics, or the identifier with [str(e)].

    The objects loaded are used dynamically: every operation on them is one
    of [PyValue] and raises what CPython raises.  The theorems of this file
    hold for every object a loader can return, well typed or not. *)

From Stdlib Require Import Ascii String QArith.
From stdpp Require Import base list sets strings.
From S2P Require Import Prelude PyStr PyValue Interfaces.

#[local] Set Warnings "-clear-no-such-hyp".

(** * Reports *)

(** The dictionary of the source: metric keys on success, ['job_id'] and
    ['error'] on failure. *)
Inductive report (M : Type) : Type :=
| Metrics (m : M)
| ErrorReport (job_id : string) (error : string).

Arguments Metrics {M} m.
Arguments ErrorReport {M} job_id error.

(** The report of [evaluate_required_terms_quality]. *)
Record term_metrics : Type := TermMetrics {
  tm_job_id : string;
  terms_count : nat;
  terms_coverage : pynum;
  avg_term_length : pynum;
  has_technical_terms : bool;
  required_terms : pyval;
}.

(** The report of [evaluate_extraction_completeness]. *)
Record completeness : Type := Completeness {
  c_job_id : string;
  required_fields_present : nat;
  required_fields_total : nat;
  completeness_score : Q;
  has_salary : bool;
  description_length : nat;
}.

Definition is_error {M} (r : report M) : bool :=
  match r with
  | Metrics _ => false
  | ErrorReport _ _ => true
  end.

(** The value of the key ['job_id'] of a report. *)
Definition report_job_id {M} (get : M → string) (r : report M) : string :=
  match r with
  | Metrics m => get m
  | ErrorReport job_id _ => job_id
  end.

(** [except Exception as e: return {'job_id': job_id, 'error': str(e)}] *)
Definition error_report {M} (job_id : string) (e : exn) : report M :=
  ErrorReport job_id (str_of_exn e).

(** * Constants of the source *)

Definition technical_terms : list string :=
  ["python"; "react"; "typescript"; "aws"; "kubernetes"].

Definition required_fields : list string :=
  ["title"; "company"; "location"; "description"].

Definition optional_fields : list string := ["salary"].

(** * Term quality *)

(** [term.lower() in description.lower()] *)
Definition term_in_description (description term : pyval) : pyres bool :=
  let* t := py_lower term in
  let* d := py_lower description in
  Ok (contains t d).

(** [len([term for term in required_terms if ...]) / len(required_terms)
    if required_terms else 0] *)
Definition terms_coverage_of (required_terms description : pyval) : pyres pynum :=
  if truthy required_terms then
    let* terms := py_iter required_terms in
    let* found := filter_result (term_in_description description) terms in
    let* n := py_len required_terms in
    let* q := py_truediv (Z.of_nat (length found)) (Z.of_nat n) in
    Ok (NFloat q)
  else Ok (NInt 0).

(** [sum(len(term) for term in required_terms) / len(required_terms)
    if required_terms else 0] *)
Definition avg_term_length_of (required_terms : pyval) : pyres pynum :=
  if truthy required_terms then
    let* terms := py_iter required_terms in
    let* lens := traverse py_len terms in
    let* n := py_len required_terms in
    let* q := py_truediv (Z.of_nat (sum_list lens)) (Z.of_nat n) in
    Ok (NFloat q)
  else Ok (NInt 0).

(** [term.lower() in ['python', 'react', 'typescript', 'aws', 'kubernetes']] *)
Definition is_technical (term : pyval) : pyres bool :=
  let* t := py_lower term in
  Ok (bool_decide (t ∈ technical_terms)).

(** [any(... for term in required_terms)] *)
Definition has_technical_terms_of (required_terms : pyval) : pyres bool :=
  let* terms := py_iter required_terms in
  any_result is_technical terms.

(** The body of the [try] once both objects are loaded. *)
Definition terms_quality (job_data index_entry : pyval) (job_id : string) :
    pyres term_metrics :=
  let* required_terms := py_get index_entry "required_terms" (PList []) in
  let* description := py_get job_data "description" (PStr "") in
  let* count := py_len required_terms in
  let* coverage := terms_coverage_of required_terms description in
  let* avg := avg_term_length_of required_terms in
  let* technical := has_technical_terms_of required_terms in
  let* sample := py_slice_to 5 required_terms in
  Ok (TermMetrics job_id count coverage avg technical sample).

(** * Completeness *)

(** [job_data.get(field)] as a condition *)
Definition field_present (job_data : pyval) (field : string) : pyres bool :=
  let* v := py_get job_data field PNone in
  Ok (truthy v).

(** [sum(1 for field in required_fields if job_data.get(field))] *)
Definition fields_present (job_data : pyval) : pyres nat :=
  let* present := filter_result (field_present job_data) required_fields in
  Ok (length present).

(** The body of the [try] once the record is loaded. *)
Definition extraction_completeness (job_data : pyval) (job_id : string) :
    pyres completeness :=
  let* present := fields_present job_data in
  let total := length required_fields in
  let* present' := fields_present job_data in
  let* score := py_truediv (Z.of_nat present') (Z.of_nat (length required_fields)) in
  let* salary := py_get job_data "salary" PNone in
  let* description := py_get job_data "description" (PStr "") in
  let* dlen := py_len description in
  Ok (Completeness job_id present total score (truthy salary) dlen).

(** * The entries of the term report *)

Lemma py_iter_length v l n : py_iter v = Ok l → py_len v = Ok n → length l = n.
Proof. intros Hl (l' & Hl' & <-)%py_iter_len. congruence. Qed.

(** The coverage is the literal [0] on a falsy object, and otherwise the
    quotient of the number of terms found by the number of terms. *)
Lemma terms_coverage_of_Ok rt d c :
  terms_coverage_of rt d = Ok c →
  (truthy rt = false ∧ c = NInt 0) ∨
  ∃ terms found,
    truthy rt = true ∧ py_iter rt = Ok terms ∧
    filter_result (term_in_description d) terms = Ok found ∧
    c = NFloat (Qquot (Z.of_nat (length found)) (Z.of_nat (length terms))).
Proof.
  unfold terms_coverage_of. destruct (truthy rt) eqn:Ht; [|intros [= <-]; by left].
  intros Hc. right. inv_result.
  apply py_truediv_Ok in E2 as [_ ->]. eexists _, _. split_and!; [done..|].
  by rewrite (py_iter_length _ _ _ E E1).
Qed.

Lemma terms_coverage_of_bounds rt d c :
  terms_coverage_of rt d = Ok c → (0 <= num_val c <= 1)%Q.
Proof.
  intros [[_ ->]|(terms & found & Ht & Hi & Hf & ->)]%terms_coverage_of_Ok; [done|].
  pose proof (py_iter_len_truthy rt terms Hi Ht) as Hpos.
  apply filter_result_length in Hf. simpl. split.
  - apply Qquot_nonneg; lia.
  - apply Qquot_le_1; lia.
Qed.

(** Neither quotient can divide by zero: a truthy sized object has a
    positive length. *)
Lemma terms_coverage_of_raises rt d :
  raises_only (terms_coverage_of rt d) dynamic_errors.
Proof.
  unfold terms_coverage_of, term_in_description. apply raises_only_if; intros Ht; [|by auto with py].
  apply raises_only_bind; [by apply py_iter_raises_dynamic|]. intros terms Hi.
  apply raises_only_bind.
  { apply raises_only_filter. intros t _. repeat (apply raises_only_bind; [by apply py_lower_raises_dynamic|intros ? _]).
    apply raises_only_Ok. }
  intros found _. apply raises_only_bind; [by apply py_len_raises_dynamic|]. intros n Hn.
  apply raises_only_bind; [|auto with py].
  apply py_truediv_raises. pose proof (truthy_len_pos _ _ Hn Ht). lia.
Qed.

Lemma avg_term_length_of_raises rt :
  raises_only (avg_term_length_of rt) dynamic_errors.
Proof.
  unfold avg_term_length_of. apply raises_only_if; intros Ht; [|by auto with py].
  apply raises_only_bind; [by apply py_iter_raises_dynamic|]. intros terms Hi.
  apply raises_only_bind.
  { apply raises_only_traverse. intros t _. by apply py_len_raises_dynamic. }
  intros lens _. apply raises_only_bind; [by apply py_len_raises_dynamic|]. intros n Hn.
  apply raises_only_bind; [|auto with py].
  apply py_truediv_raises. pose proof (truthy_len_pos _ _ Hn Ht). lia.
Qed.

Lemma has_technical_terms_of_raises rt :
  raises_only (has_technical_terms_of rt) dynamic_errors.
Proof.
  unfold has_technical_terms_of, is_technical.
  apply raises_only_bind; [by apply py_iter_raises_dynamic|]. intros terms _.
  apply raises_only_any. intros t _.
  apply raises_only_bind; [by apply py_lower_raises_dynamic|auto with py].
Qed.

(** What a term report holds, entry by entry. *)
Lemma terms_quality_Ok job_data index_entry job_id m :
  terms_quality job_data index_entry job_id = Ok m ↔
  ∃ rt d,
    py_get index_entry "required_terms" (PList []) = Ok rt ∧
    py_get job_data "description" (PStr "") = Ok d ∧
    tm_job_id m = job_id ∧
    py_len rt = Ok (terms_count m) ∧
    terms_coverage_of rt d = Ok (terms_coverage m) ∧
    avg_term_length_of rt = Ok (avg_term_length m) ∧
    has_technical_terms_of rt = Ok (has_technical_terms m) ∧
    py_slice_to 5 rt = Ok (required_terms m).
Proof.
  unfold terms_quality. split.
  - intros Hm. inv_result. by eexists _, _.
  - intros (rt & d & ? & ? & <- & ? & ? & ? & ? & ?). run_result. by destruct m.
Qed.

(** * The entries of the completeness report *)

Lemma field_present_dict kvs field :
  field_present (PDict kvs) field = Ok (truthy (from_option id PNone (assoc field kvs))).
Proof. done. Qed.

(** The fields counted on a dictionary: those bound to a truthy object. *)
Definition truthy_fields (kvs : list (string * pyval)) : list string :=
  List.filter (λ field, truthy (from_option id PNone (assoc field kvs))) required_fields.

Lemma fields_present_dict kvs :
  fields_present (PDict kvs) = Ok (length (truthy_fields kvs)).
Proof.
  unfold fields_present.
  rewrite (filter_result_ext _ (λ f, Ok (truthy (from_option id PNone (assoc f kvs))))) by done.
  by rewrite filter_result_pure.
Qed.

Lemma fields_present_not_dict job_data :
  is_dict job_data = false → fields_present job_data = Raise (attribute_error job_data "get").
Proof. by destruct job_data. Qed.

Lemma truthy_fields_le kvs : length (truthy_fields kvs) ≤ 4.
Proof. apply (length_filter_le _ required_fields). Qed.

(** On a dictionary everything but the length of the description is
    total. *)
Lemma extraction_completeness_unfold kvs job_id :
  extraction_completeness (PDict kvs) job_id =
  (let* dlen := py_len (from_option id (PStr "") (assoc "description" kvs)) in
   Ok (Completeness job_id (length (truthy_fields kvs)) 4
         (Qquot (Z.of_nat (length (truthy_fields kvs))) 4)
         (truthy (from_option id PNone (assoc "salary" kvs))) dlen)).
Proof.
  unfold extraction_completeness. by rewrite fields_present_dict.
Qed.

(** * Properties of the term report *)

Lemma terms_quality_dynamic job_data index_entry job_id :
  raises_only (terms_quality job_data index_entry job_id) dynamic_errors.
Proof.
  unfold terms_quality.
  do 2 (apply raises_only_bind; [by auto with py|intros ? _]).
  apply raises_only_bind; [by auto with py|intros ? _].
  apply raises_only_bind; [apply terms_coverage_of_raises|intros ? _].
  apply raises_only_bind; [apply avg_term_length_of_raises|intros ? _].
  apply raises_only_bind; [apply has_technical_terms_of_raises|intros ? _].
  apply raises_only_bind; auto with py.
Qed.

(** Claim C2. Computing the term report raises nothing but the
    [AttributeError] and [TypeError] of an object of the wrong type: in
    particular it never divides by zero, whatever the record and the index
    entry hold, because both quotients are under the test
    [if required_terms].  The classes are those of CPython 3.11, where the
    slice of a dictionary raises [TypeError]. *)
Theorem terms_quality_raises job_data index_entry job_id e :
  terms_quality job_data index_entry job_id = Raise e →
  (e_class e = AttributeError ∨ e_class e = TypeError) ∧
  e_class e ≠ ZeroDivisionError.
Proof.
  intros He%terms_quality_dynamic. unfold dynamic_errors in He.
  apply elem_of_cons in He as [->|He]; [by auto|].
  apply list_elem_of_singleton in He as ->. by auto.
Qed.

(** Claim C6. The sample of a term report has [min 5 n] items, where [n]
    is the number of terms reported. *)
Theorem sample_terms_length job_data index_entry job_id m :
  terms_quality job_data index_entry job_id = Ok m →
  py_len (required_terms m) = Ok (5 `min` terms_count m).
Proof.
  intros (rt & d & _ & _ & _ & Hn & _ & _ & _ & Hs)%terms_quality_Ok.
  by apply (py_slice_to_len _ rt).
Qed.

(** Without terms (the key ['required_terms'] absent, or bound to
    an empty list) the report has zero terms, coverage [0] and average
    length [0], and the description is not looked at: it may be of any
    type. *)
Theorem terms_quality_no_terms kvs index_kvs job_id :
  assoc "required_terms" index_kvs = None ∨
  assoc "required_terms" index_kvs = Some (PList []) →
  terms_quality (PDict kvs) (PDict index_kvs) job_id =
  Ok (TermMetrics job_id 0 (NInt 0) (NInt 0) false (PList [])).
Proof. unfold terms_quality. by intros [Hrt|Hrt]; simpl; rewrite Hrt. Qed.

(** Claim C7. A description that is present but is no string (a JSON
    [null], say) makes the term report fail as soon as there is a term,
    the first term being a string ([term.lower()] is evaluated first):
    the exception is the [AttributeError] of [description.lower()]. *)
Theorem terms_quality_description_not_str kvs index_kvs job_id d t terms :
  assoc "description" kvs = Some d → is_str d = false →
  assoc "required_terms" index_kvs = Some (PList (PStr t :: terms)) →
  terms_quality (PDict kvs) (PDict index_kvs) job_id =
  Raise (attribute_error d "lower").
Proof.
  intros Hd Hs Hrt. unfold terms_quality. simpl. rewrite Hrt, Hd. simpl.
  unfold terms_coverage_of. simpl. unfold term_in_description at 1. simpl.
  by rewrite (proj2 (py_lower_Raise d _) (conj Hs eq_refl)).
Qed.

(** * Properties of the completeness report *)

(** Computing the completeness report raises nothing but an
    [AttributeError] or a [TypeError]; the division by the number of
    required fields cannot fail. *)
Theorem extraction_completeness_raises job_data job_id :
  raises_only (extraction_completeness job_data job_id) dynamic_errors.
Proof.
  destruct (is_dict job_data) eqn:Hd.
  - destruct job_data; try done. rewrite extraction_completeness_unfold.
    apply raises_only_bind; auto with py.
  - unfold extraction_completeness. rewrite fields_present_not_dict by done.
    apply raises_only_Raise. destruct job_data; set_solver.
Qed.

(** Claim C20. The completeness report fails in two cases only: the record
    is no dictionary, or its description is bound to an object without a
    length ([None], a boolean, a number). *)
Theorem extraction_completeness_Raise job_data job_id e :
  extraction_completeness job_data job_id = Raise e ↔
  (is_dict job_data = false ∧ e = attribute_error job_data "get") ∨
  (∃ kvs v, job_data = PDict kvs ∧ assoc "description" kvs = Some v ∧
            is_sized v = false ∧ e = no_len_error v).
Proof.
  destruct (is_dict job_data) eqn:Hd.
  - destruct job_data; try done. rewrite extraction_completeness_unfold. split.
    + intros [He|(? & _ & [=])]%result_bind_Raise_inv. right.
      destruct (assoc "description" kvs) as [v|] eqn:Ha; [|done].
      exists kvs, v. destruct v; by simplify_eq/=.
    + intros [[[=] _]|(? & v & [= <-] & -> & Hv & ->)]. by destruct v.
  - unfold extraction_completeness. rewrite fields_present_not_dict by done. split.
    + intros [= <-]. by left.
    + intros [[_ ->]|(? & ? & -> & _)]; done.
Qed.

(** Claim C21. On a dictionary whose description, if any, has a length,
    the completeness report counts the required fields bound to a truthy
    object, divides by four, and reports the truth value of the salary
    and the length of the description. *)
Theorem extraction_completeness_dict kvs job_id n :
  py_len (from_option id (PStr "") (assoc "description" kvs)) = Ok n →
  extraction_completeness (PDict kvs) job_id =
  Ok (Completeness job_id (length (truthy_fields kvs)) 4
        (Qquot (Z.of_nat (length (truthy_fields kvs))) 4)
        (truthy (from_option id PNone (assoc "salary" kvs))) n).
Proof. intros Hn. rewrite extraction_completeness_unfold. by rewrite Hn. Qed.

Lemma extraction_completeness_Ok job_data job_id c :
  extraction_completeness job_data job_id = Ok c →
  ∃ kvs, job_data = PDict kvs ∧ c_job_id c = job_id ∧
         required_fields_present c = length (truthy_fields kvs) ∧
         required_fields_total c = 4 ∧
         completeness_score c = Qquot (Z.of_nat (length (truthy_fields kvs))) 4.
Proof.
  destruct job_data as [| | | | | |kvs]; try done. rewrite extraction_completeness_unfold.
  intros (n & _ & [= <-])%result_bind_Ok_inv. by exists kvs.
Qed.

Lemma Qquot_quarters k :
  k ≤ 4 → Qquot (Z.of_nat k) 4 ∈ [0; 1 # 4; 1 # 2; 3 # 4; 1]%Q.
Proof.
  intros Hk. do 5 (destruct k as [|k]; [vm_compute; set_solver|]). lia.
Qed.

(** Claim C1. The completeness score is one of 0, 1/4, 1/2, 3/4 and 1, and
    at most four fields are counted. *)
Theorem completeness_score_quarters job_data job_id c :
  extraction_completeness job_data job_id = Ok c →
  required_fields_present c ≤ required_fields_total c ∧
  completeness_score c ∈ [0; 1 # 4; 1 # 2; 3 # 4; 1]%Q.
Proof.
  intros (kvs & _ & _ & -> & -> & ->)%extraction_completeness_Ok.
  split; [apply truthy_fields_le|apply Qquot_quarters, truthy_fields_le].
Qed.

(** * The two evaluations *)

Section evaluator.
Context `{Loader}.
Implicit Types (job_id : string) (job_data index_entry : pyval).

Definition evaluate_required_terms_quality job_id : report term_metrics :=
  try: (let* job_data := loader_job_data job_id in
        let* index_entry := loader_index_entry job_id in
        let* metrics := terms_quality job_data index_entry job_id in
        Ok (Metrics metrics))
  except: (error_report job_id).

Definition evaluate_extraction_completeness job_id : report completeness :=
  try: (let* job_data := loader_job_data job_id in
        let* metrics := extraction_completeness job_data job_id in
        Ok (Metrics metrics))
  except: (error_report job_id).

(** A report of metrics comes from both loads and the computation
    succeeding. *)
Lemma evaluate_terms_Metrics job_id m :
  evaluate_required_terms_quality job_id = Metrics m ↔
  ∃ job_data index_entry,
    loader_job_data job_id = Ok job_data ∧
    loader_index_entry job_id = Ok index_entry ∧
    terms_quality job_data index_entry job_id = Ok m.
Proof.
  unfold evaluate_required_terms_quality. split.
  - destruct (loader_job_data job_id) as [jd|]; [|done].
    destruct (loader_index_entry job_id) as [ie|]; [|done]. simpl.
    destruct (terms_quality jd ie job_id) eqn:Hm; [|done]. intros [= <-]. by exists jd, ie.
  - intros (jd & ie & -> & -> & Hm). simpl. by rewrite Hm.
Qed.

Lemma evaluate_completeness_Metrics job_id c :
  evaluate_extraction_completeness job_id = Metrics c ↔
  ∃ job_data,
    loader_job_data job_id = Ok job_data ∧
    extraction_completeness job_data job_id = Ok c.
Proof.
  unfold evaluate_extraction_completeness. split.
  - destruct (loader_job_data job_id) as [jd|]; [|done]. simpl.
    destruct (extraction_completeness jd job_id) eqn:Hm; [|done]. intros [= <-]. by exists jd.
  - intros (jd & -> & Hm). simpl. by rewrite Hm.
Qed.

(** An error report carries the message of the exception that stopped
    the body: a load or the computation. *)
Lemma evaluate_terms_Error job_id id' msg :
  evaluate_required_terms_quality job_id = ErrorReport id' msg ↔
  id' = job_id ∧ ∃ e, msg = str_of_exn e ∧
    (loader_job_data job_id = Raise e ∨
     ∃ job_data, loader_job_data job_id = Ok job_data ∧
       (loader_index_entry job_id = Raise e ∨
        ∃ index_entry, loader_index_entry job_id = Ok index_entry ∧
          terms_quality job_data index_entry job_id = Raise e)).
Proof.
  unfold evaluate_required_terms_quality, error_report.
  destruct (loader_job_data job_id) as [jd|e]; simpl.
  2: { split; [intros [= <- <-]; eauto 6|].
       by intros (-> & e' & -> & [[= ->]|(? & [=] & _)]). }
  destruct (loader_index_entry job_id) as [ie|e]; simpl.
  2: { split; [intros [= <- <-]; eauto 8|].
       by intros (-> & e' & -> & [[=]|(? & _ & [[= ->]|(? & [=] & _)])]). }
  destruct (terms_quality jd ie job_id) as [m|e] eqn:Hm; simpl.
  - split; [done|]. intros (-> & e' & -> & [[=]|(? & [= <-] & [[=]|(? & [= <-] & H')])]).
    congruence.
  - split; [intros [= <- <-]; eauto 10|].
    intros (-> & e' & -> & [[=]|(? & [= <-] & [[=]|(? & [= <-] & H')])]). congruence.
Qed.

Lemma terms_report_job_id job_id :
  report_job_id tm_job_id (evaluate_required_terms_quality job_id) = job_id.
Proof.
  destruct (evaluate_required_terms_quality job_id) as [m|id' msg] eqn:He; simpl.
  - apply evaluate_terms_Metrics in He as (jd & ie & _ & _ & Hm).
    by apply terms_quality_Ok in Hm as (_ & _ & _ & _ & ? & _).
  - by apply evaluate_terms_Error in He as [-> _].
Qed.

Lemma completeness_report_job_id job_id :
  report_job_id c_job_id (evaluate_extraction_completeness job_id) = job_id.
Proof.
  unfold evaluate_extraction_completeness.
  destruct (loader_job_data job_id) as [jd|]; [|done]. simpl.
  destruct (extraction_completeness jd job_id) as [c|] eqn:Hc; [|done]. simpl.
  by apply extraction_completeness_Ok in Hc as (_ & _ & ? & _).
Qed.

(** Claim C22. The coverage of every term report lies between 0 and 1. *)
Theorem terms_coverage_bounds job_id m :
  evaluate_required_terms_quality job_id = Metrics m →
  (0 <= num_val (terms_coverage m) <= 1)%Q.
Proof.
  intros (jd & ie & _ & _ & Hm)%evaluate_terms_Metrics.
  apply terms_quality_Ok in Hm as (rt & d & _ & _ & _ & _ & Hc & _).
  by apply terms_coverage_of_bounds in Hc.
Qed.

(** Claim C23. Every report, of metrics or of an error, carries the
    identifier the evaluation was asked for; and the completeness
    evaluation returns an error report exactly when the load or the
    computation raises: nothing escapes the [try]. *)
Theorem evaluate_reports_job_id job_id :
  report_job_id tm_job_id (evaluate_required_terms_quality job_id) = job_id ∧
  report_job_id c_job_id (evaluate_extraction_completeness job_id) = job_id ∧
  (is_error (evaluate_extraction_completeness job_id) = true ↔
   ∃ e, loader_job_data job_id = Raise e ∨
        ∃ job_data, loader_job_data job_id = Ok job_data ∧
                    extraction_completeness job_data job_id = Raise e).
Proof.
  split_and!; [apply terms_report_job_id|apply completeness_report_job_id|].
  unfold evaluate_extraction_completeness.
  destruct (loader_job_data job_id) as [jd|e]; simpl.
  - destruct (extraction_completeness jd job_id) as [c|e] eqn:Hc; simpl.
    + split; [done|]. intros (e & [[=]|(? & [= <-] & ?)]). congruence.
    + split; [|done]. intros _. exists e. right. by exists jd.
  - split; [|done]. intros _. exists e. by left.
Qed.

(** When the record cannot be loaded, both evaluations return
    an error report with the identifier and the message of the failure,
    and no metrics; the index is not consulted. *)
Theorem evaluate_load_failure job_id e :
  loader_job_data job_id = Raise e →
  evaluate_required_terms_quality job_id = ErrorReport job_id (e_msg e) ∧
  evaluate_extraction_completeness job_id = ErrorReport job_id (e_msg e).
Proof.
  intros He. unfold evaluate_required_terms_quality, evaluate_extraction_completeness.
  by rewrite He.
Qed.

(** Claim C24. The term evaluation returns the error report of an
    identifier and a message exactly when the identifier is the one asked
    for and the message is that of the first of its three steps that
    raises: the load of the record; or, the record loaded, the load of the
    index entry; or, both loaded, the computation on them, whose exception
    is then an [AttributeError] or a [TypeError].  A later step is not run
    after a failure, and no other exception reaches the report. *)
Theorem evaluate_terms_error_cause job_id id' msg :
  evaluate_required_terms_quality job_id = ErrorReport id' msg ↔
  id' = job_id ∧ ∃ e, msg = e_msg e ∧
    (loader_job_data job_id = Raise e ∨
     ∃ job_data, loader_job_data job_id = Ok job_data ∧
       (loader_index_entry job_id = Raise e ∨
        ∃ index_entry, loader_index_entry job_id = Ok index_entry ∧
          terms_quality job_data index_entry job_id = Raise e ∧
          e_class e ∈ dynamic_errors)).
Proof.
  rewrite evaluate_terms_Error. apply and_iff_compat_l, exist_proper; intros e.
  apply and_iff_compat_l, or_iff_compat_l, exist_proper; intros job_data.
  apply and_iff_compat_l, or_iff_compat_l, exist_proper; intros index_entry.
  apply and_iff_compat_l. split; [|by intros []].
  intros He. split; [done|]. by apply terms_quality_dynamic in He.
Qed.

End evaluator.

(** The completeness evaluation uses the record only: two
    loaders that load the same records give the same report, whatever
    their indexes hold. *)
Theorem evaluate_completeness_record_only (L L' : Loader) job_id :
  @loader_job_data L job_id = @loader_job_data L' job_id →
  @evaluate_extraction_completeness L job_id =
  @evaluate_extraction_completeness L' job_id.
Proof. intros Hl. unfold evaluate_extraction_completeness. by rewrite Hl. Qed.

(** The evaluations see of a loader what it loads and nothing else: a
    loader can be replaced by one that loads the same. *)
#[export] Instance evaluate_terms_proper :
  Proper (same_loads ==> (=) ==> (=)) (@evaluate_required_terms_quality).
Proof.
  intros L L' [Hj Hi] job_id ? <-. unfold evaluate_required_terms_quality.
  by rewrite Hj, Hi.
Qed.

#[export] Instance evaluate_completeness_proper :
  Proper (same_loads ==> (=) ==> (=)) (@evaluate_extraction_completeness).
Proof.
  intros L L' [Hj _] job_id ? <-. by apply evaluate_completeness_record_only.
Qed.

(** * Examples: the two evaluations of the specification *)

(** The record [{"description": "We need a Python expert.", "title": "Eng"}]
    and the index entry [{"job_id": "42", "required_terms": ["python",
    "leadership"]}]. *)
Definition example_record : pyval :=
  PDict [("description", PStr "We need a Python expert."); ("title", PStr "Eng")].

Definition example_entry_kvs : list (string * pyval) :=
  [("job_id", PStr "42");
   ("required_terms", PList [PStr "python"; PStr "leadership"])].

Definition example_entry : pyval := PDict example_entry_kvs.

(** The record [{"title": "Eng", "company": "Acme", "location": "",
    "description": "x"}]. *)
Definition example_record_43 : list (string * pyval) :=
  [("title", PStr "Eng"); ("company", PStr "Acme"); ("location", PStr "");
   ("description", PStr "x")].

(** A record whose description is [null]. *)
Definition example_record_44 : list (string * pyval) :=
  [("title", PStr "Eng"); ("description", PNone)].

Definition example_missing : exn :=
  Exn FileNotFoundError "No job files found for 99".

Definition example_loader : Loader :=
  table_loader example_missing
    [("42", example_record); ("43", PDict example_record_43);
     ("44", PDict example_record_44)]
    [("42", example_entry); ("44", example_entry)].

Definition example_metrics : term_metrics :=
  TermMetrics "42" 2 (NFloat (1 # 2)) (NFloat 8) true
    (PList [PStr "python"; PStr "leadership"]).

Definition example_completeness : completeness :=
  Completeness "43" 3 4 (3 # 4) false 1.

Lemma example_terms_quality :
  @evaluate_required_terms_quality example_loader "42" = Metrics example_metrics.
Proof. by vm_compute. Qed.

Lemma example_extraction_completeness :
  @evaluate_extraction_completeness example_loader "43" = Metrics example_completeness.
Proof. by vm_compute. Qed.

(** A term that only contains a technical term is not technical. *)
Lemma example_pythonic :
  has_technical_terms_of (PList [PStr "Pythonic"; PStr "react.js"]) = Ok false ∧
  has_technical_terms_of (PList [PStr "Pythonic"; PStr "REACT"]) = Ok true.
Proof. by vm_compute. Qed.

Lemma terms_coverage_bounds_witness :
  @evaluate_required_terms_quality example_loader "42" = Metrics example_metrics ∧
  (0 <= num_val (terms_coverage example_metrics) <= 1)%Q.
Proof.
  split; [exact example_terms_quality|].
  exact (@terms_coverage_bounds example_loader "42" _ example_terms_quality).
Defined.

Lemma sample_terms_length_witness :
  terms_quality example_record example_entry "42" = Ok example_metrics ∧
  py_len (required_terms example_metrics) = Ok (5 `min` terms_count example_metrics).
Proof.
  split; [reflexivity|].
  exact (sample_terms_length example_record example_entry "42" _ eq_refl).
Defined.

Lemma terms_quality_no_terms_witness :
  terms_quality (PDict example_record_44) (PDict [("job_id", PStr "44")]) "44" =
  Ok (TermMetrics "44" 0 (NInt 0) (NInt 0) false (PList [])).
Proof.
  apply (terms_quality_no_terms example_record_44 [("job_id", PStr "44")] "44").
  left. reflexivity.
Defined.

Lemma terms_quality_description_not_str_witness :
  terms_quality (PDict example_record_44) example_entry "44" =
  Raise (Exn AttributeError "'NoneType' object has no attribute 'lower'").
Proof.
  exact (terms_quality_description_not_str example_record_44 example_entry_kvs "44"
           PNone "python" [PStr "leadership"] eq_refl eq_refl eq_refl).
Defined.

Lemma terms_quality_raises_witness :
  (e_class (attribute_error PNone "lower") = AttributeError ∨
   e_class (attribute_error PNone "lower") = TypeError) ∧
  e_class (attribute_error PNone "lower") ≠ ZeroDivisionError.
Proof.
  exact (terms_quality_raises (PDict example_record_44) example_entry "44"
           (attribute_error PNone "lower") eq_refl).
Defined.

Lemma extraction_completeness_dict_witness :
  extraction_completeness (PDict example_record_43) "43" = Ok example_completeness.
Proof. exact (extraction_completeness_dict example_record_43 "43" 1 eq_refl). Defined.

Lemma completeness_score_quarters_witness :
  required_fields_present example_completeness ≤
    required_fields_total example_completeness ∧
  completeness_score example_completeness ∈ [0; 1 # 4; 1 # 2; 3 # 4; 1]%Q.
Proof.
  exact (completeness_score_quarters (PDict example_record_43) "43" _ eq_refl).
Defined.

Lemma evaluate_load_failure_witness :
  @evaluate_required_terms_quality example_loader "99" =
    ErrorReport "99" "No job files found for 99" ∧
  @evaluate_extraction_completeness example_loader "99" =
    ErrorReport "99" "No job files found for 99".
Proof. exact (@evaluate_load_failure example_loader "99" example_missing eq_refl). Defined.

Lemma evaluate_terms_error_cause_witness :
  "44" = "44" ∧ ∃ e, "'NoneType' object has no attribute 'lower'" = e_msg e ∧
    (@loader_job_data example_loader "44" = Raise e ∨
     ∃ job_data, @loader_job_data example_loader "44" = Ok job_data ∧
       (@loader_index_entry example_loader "44" = Raise e ∨
        ∃ index_entry, @loader_index_entry example_loader "44" = Ok index_entry ∧
          terms_quality job_data index_entry "44" = Raise e ∧
          e_class e ∈ dynamic_errors)).
Proof.
  exact (proj1 (@evaluate_terms_error_cause example_loader "44" "44"
                  "'NoneType' object has no attribute 'lower'") eq_refl).
Defined.

Lemma evaluate_completeness_record_only_witness :
  @evaluate_extraction_completeness example_loader "43" =
  @evaluate_extraction_completeness
    (table_loader example_missing [("43", PDict example_record_43)] []) "43".
Proof. exact (evaluate_completeness_record_only _ _ "43" eq_refl). Defined.
