(* ===== verification/Spec.v ===== *)
(** * The data model and the metrics in closed form; refinement

    The typed reading of the data: a job record has five optional string
    fields, an index entry has an identifier and a list of terms.  The two
    reports are given in closed form on these types ([spec_term_report],
    [spec_completeness]).

    An object represents a record when it is a dictionary in which each of
    the five keys is absent or bound to a string; other keys are free.  The
    refinement theorems say that on objects that represent typed data the
    evaluator of evaluators.py succeeds and computes the closed form.  The
    one point where the code and the closed form part ways (an empty term
    with no description) is stated as a theorem of its own. *)

From Stdlib Require Import Ascii String QArith.
From stdpp Require Import base list sets strings.
From S2P Require Import Prelude PyStr PyValue Interfaces Evaluator.

#[local] Set Warnings "-clear-no-such-hyp".

(** * Typed data *)

Record job_record : Type := JobRecord {
  jr_title : option string;
  jr_company : option string;
  jr_location : option string;
  jr_description : option string;
  jr_salary : option string;
}.

Record index_entry : Type := IndexEntry {
  ie_job_id : string;
  ie_required_terms : list string;
}.

(** A key bound to the string of an optional field, or absent. *)
Definition field_is (kvs : list (string * pyval)) (key : string) (o : option string) : Prop :=
  assoc key kvs = PStr <$> o.

Definition represents_record (v : pyval) (r : job_record) : Prop :=
  ∃ kvs, v = PDict kvs ∧
    field_is kvs "title" (jr_title r) ∧ field_is kvs "company" (jr_company r) ∧
    field_is kvs "location" (jr_location r) ∧
    field_is kvs "description" (jr_description r) ∧
    field_is kvs "salary" (jr_salary r).

Definition represents_entry (v : pyval) (e : index_entry) : Prop :=
  ∃ kvs, v = PDict kvs ∧
    assoc "job_id" kvs = Some (PStr (ie_job_id e)) ∧
    assoc "required_terms" kvs = Some (PList (PStr <$> ie_required_terms e)).

(** The dictionary with the keys of the fields that are present. *)
Definition field_kvs (key : string) (o : option string) : list (string * pyval) :=
  match o with
  | Some s => [(key, PStr s)]
  | None => []
  end.

Definition encode_record (r : job_record) : pyval :=
  PDict (field_kvs "title" (jr_title r) ++ field_kvs "company" (jr_company r) ++
         field_kvs "location" (jr_location r) ++
         field_kvs "description" (jr_description r) ++
         field_kvs "salary" (jr_salary r)).

Definition encode_entry (e : index_entry) : pyval :=
  PDict [("job_id", PStr (ie_job_id e));
         ("required_terms", PList (PStr <$> ie_required_terms e))].

(** * The reports in closed form *)

Record term_report : Type := TermReport {
  tr_job_id : string;
  tr_terms_count : nat;
  tr_terms_coverage : Q;
  tr_avg_term_length : Q;
  tr_has_technical_terms : bool;
  tr_sample_terms : list string;
}.

(** A term is covered when its text, case apart, occurs in the
    description. *)
Definition covered (description term : string) : bool :=
  contains (lower term) (lower description).

Definition spec_terms_coverage (terms : list string) (description : option string) : Q :=
  match terms, description with
  | [], _ | _, None => 0
  | _ :: _, Some d =>
      Qquot (Z.of_nat (length (List.filter (covered d) terms))) (Z.of_nat (length terms))
  end.

Definition spec_avg_term_length (terms : list string) : Q :=
  match terms with
  | [] => 0
  | _ :: _ => Qquot (Z.of_nat (sum_list (String.length <$> terms))) (Z.of_nat (length terms))
  end.

Definition technical (term : string) : bool :=
  bool_decide (lower term ∈ technical_terms).

Definition spec_term_report (job_id : string) (r : job_record) (e : index_entry) :
    term_report :=
  let terms := ie_required_terms e in
  TermReport job_id (length terms) (spec_terms_coverage terms (jr_description r))
    (spec_avg_term_length terms) (existsb technical terms) (take 5 terms).

(** A field is present when it is there and not empty. *)
Definition present (o : option string) : bool :=
  match o with
  | Some (String _ _) => true
  | _ => false
  end.

Definition count_present (r : job_record) : nat :=
  length (List.filter present [jr_title r; jr_company r; jr_location r; jr_description r]).

Definition spec_completeness (job_id : string) (r : job_record) : completeness :=
  Completeness job_id (count_present r) 4 (Qquot (Z.of_nat (count_present r)) 4)
    (present (jr_salary r))
    (String.length (default EmptyString (jr_description r))).

(** What it is for a term report of the code to be the closed form. *)
Definition term_report_matches (m : term_metrics) (s : term_report) : Prop :=
  tm_job_id m = tr_job_id s ∧ terms_count m = tr_terms_count s ∧
  num_val (terms_coverage m) = tr_terms_coverage s ∧
  num_val (avg_term_length m) = tr_avg_term_length s ∧
  has_technical_terms m = tr_has_technical_terms s ∧
  required_terms m = PList (PStr <$> tr_sample_terms s).

(** * The loops of the evaluator on a list of strings *)

Lemma filter_covered d terms :
  filter_result (term_in_description (PStr d)) (PStr <$> terms) =
  Ok (PStr <$> List.filter (covered d) terms).
Proof.
  induction terms as [|t terms IH]; [done|]. rewrite fmap_cons.
  cbn [filter_result]. rewrite IH. unfold covered. simpl.
  by destruct (contains (lower t) (lower d)).
Qed.

Lemma traverse_len terms :
  traverse py_len (PStr <$> terms) = Ok (String.length <$> terms).
Proof.
  induction terms as [|t terms IH]; [done|]. rewrite fmap_cons.
  cbn [traverse]. by rewrite IH.
Qed.

Lemma any_technical terms :
  any_result is_technical (PStr <$> terms) = Ok (existsb technical terms).
Proof.
  induction terms as [|t terms IH]; [done|]. rewrite fmap_cons.
  cbn [any_result existsb]. rewrite IH. unfold technical at 2. simpl.
  by destruct (bool_decide (lower t ∈ technical_terms)).
Qed.

Lemma terms_coverage_of_strings d terms :
  terms_coverage_of (PList (PStr <$> terms)) (PStr d) =
  Ok (match terms with
      | [] => NInt 0
      | _ :: _ => NFloat (Qquot (Z.of_nat (length (List.filter (covered d) terms)))
                                (Z.of_nat (length terms)))
      end).
Proof.
  destruct terms as [|t terms]; [done|]. unfold terms_coverage_of.
  change (truthy _) with true. cbn [py_iter result_bind]. rewrite filter_covered.
  cbn [result_bind py_len]. rewrite py_truediv_pos; [|rewrite length_fmap; simpl; lia].
  simpl. by rewrite !length_fmap.
Qed.

Lemma avg_term_length_of_strings terms :
  avg_term_length_of (PList (PStr <$> terms)) =
  Ok (match terms with
      | [] => NInt 0
      | _ :: _ => NFloat (spec_avg_term_length terms)
      end).
Proof.
  destruct terms as [|t terms]; [done|]. unfold avg_term_length_of.
  change (truthy _) with true. cbn [py_iter result_bind]. rewrite traverse_len.
  cbn [result_bind py_len]. rewrite py_truediv_pos; [|rewrite length_fmap; simpl; lia].
  simpl. by rewrite !length_fmap.
Qed.

(** Into the empty description only the empty term is found. *)
Lemma covered_empty t : covered EmptyString t = true → t = EmptyString.
Proof.
  unfold covered. simpl. destruct (lower t) eqn:Hl; [|done].
  intros _. by apply lower_empty.
Qed.

Lemma filter_covered_empty terms :
  EmptyString ∉ terms → List.filter (covered EmptyString) terms = [].
Proof.
  induction terms as [|t terms IH]; [done|]. intros [Ht Hin]%not_elem_of_cons.
  simpl. destruct (covered EmptyString t) eqn:Hc; [|by apply IH].
  by apply covered_empty in Hc.
Qed.

Lemma field_is_present kvs key o :
  field_is kvs key o → truthy (default PNone (assoc key kvs)) = present o.
Proof. unfold field_is. intros ->. by destruct o as [[|]|]. Qed.

Lemma count_present_fields kvs r :
  field_is kvs "title" (jr_title r) → field_is kvs "company" (jr_company r) →
  field_is kvs "location" (jr_location r) →
  field_is kvs "description" (jr_description r) →
  length (truthy_fields kvs) = count_present r.
Proof.
  intros Ht Hc Hl Hd. unfold truthy_fields, count_present, required_fields. simpl.
  rewrite (field_is_present _ _ _ Ht), (field_is_present _ _ _ Hc),
    (field_is_present _ _ _ Hl), (field_is_present _ _ _ Hd).
  by destruct (present _), (present _), (present _), (present _).
Qed.

Lemma encode_record_represents r : represents_record (encode_record r) r.
Proof.
  eexists. split; [done|]. unfold field_is.
  by destruct r as [[?|] [?|] [?|] [?|] [?|]].
Qed.

Lemma encode_entry_represents e : represents_entry (encode_entry e) e.
Proof. by eexists. Qed.

(** * Refinement *)

(** Claim C25. On a record and an index entry that are well typed, where
    the description is present or no term is empty, the term evaluation
    succeeds and its report is the closed form: the number of terms, the
    share of the terms found in the description case apart, their mean
    length, whether one is a technical term, and the first five. *)
Theorem terms_quality_refines v_r v_e r e job_id :
  represents_record v_r r → represents_entry v_e e →
  (jr_description r = None → EmptyString ∉ ie_required_terms e) →
  ∃ m, terms_quality v_r v_e job_id = Ok m ∧
       term_report_matches m (spec_term_report job_id r e).
Proof.
  intros (kvs & -> & _ & _ & _ & Hd & _) (ekvs & -> & _ & Ht) Hempty.
  unfold terms_quality, py_get. rewrite Ht, Hd. cbn [default id result_bind py_len].
  set (d := default (PStr EmptyString) (PStr <$> jr_description r)).
  assert (d = PStr (default EmptyString (jr_description r))) as ->
    by (unfold d; by destruct (jr_description r)).
  rewrite terms_coverage_of_strings, avg_term_length_of_strings.
  cbn [result_bind]. unfold has_technical_terms_of. cbn [py_iter result_bind].
  rewrite any_technical. cbn [result_bind py_slice_to]. eexists. split; [done|].
  unfold term_report_matches, spec_term_report. cbn.
  rewrite length_fmap, <- fmap_take. split_and!; try done.
  - destruct (ie_required_terms e) as [|t terms] eqn:Hterms; [done|].
    destruct (jr_description r) as [d'|]; [done|]. cbn [default num_val].
    rewrite filter_covered_empty by auto. by apply Qquot_0_l.
  - by destruct (ie_required_terms e).
Qed.

(** Claim C26. On a well-typed record the completeness evaluation succeeds
    and its report is the closed form: the number of the four required
    fields that are present and not empty, that number over four, whether
    the salary is present and not empty, and the length of the
    description, 0 when it is absent. *)
Theorem extraction_completeness_refines v_r r job_id :
  represents_record v_r r →
  extraction_completeness v_r job_id = Ok (spec_completeness job_id r).
Proof.
  intros (kvs & -> & Ht & Hc & Hl & Hd & Hs).
  rewrite extraction_completeness_unfold, (count_present_fields kvs r) by done.
  rewrite (field_is_present _ _ _ Hs), Hd. unfold spec_completeness.
  by destruct (jr_description r).
Qed.

(** Claim C27. Where the code and the closed form differ: without a
    description an empty term is counted as found, because the empty string
    occurs in the empty string.  With the terms [[""]] and no description
    the coverage of the code is 1. *)
Theorem coverage_of_empty_term_without_description v_r r job_id :
  represents_record v_r r → jr_description r = None →
  ∃ m, terms_quality v_r (encode_entry (IndexEntry job_id [EmptyString])) job_id = Ok m ∧
       terms_coverage m = NFloat 1 ∧
       spec_terms_coverage [EmptyString] (jr_description r) = 0%Q.
Proof.
  intros (kvs & -> & _ & _ & _ & Hd & _) Hnone. rewrite Hnone in *.
  unfold terms_quality, py_get, encode_entry. cbn [assoc String.eqb Ascii.eqb Bool.eqb].
  unfold field_is in Hd. rewrite Hd. by eexists.
Qed.

(** * Examples: the two end-to-end cases of the specification *)

Definition record_42 : job_record :=
  JobRecord (Some "Eng") None None (Some "We need a Python expert.") None.

Definition entry_42 : index_entry := IndexEntry "42" ["python"; "leadership"].

(** [{"title":"Eng","company":"Acme","location":"","description":"x"}] *)
Definition record_acme : job_record :=
  JobRecord (Some "Eng") (Some "Acme") (Some "") (Some "x") None.

Definition record_untitled : job_record := JobRecord None (Some "Acme") None None None.

Lemma spec_term_report_42 :
  spec_term_report "42" record_42 entry_42 =
  TermReport "42" 2 (1 # 2) 8 true ["python"; "leadership"].
Proof. by vm_compute. Qed.

Lemma spec_completeness_acme :
  spec_completeness "7" record_acme = Completeness "7" 3 4 (3 # 4) false 1.
Proof. by vm_compute. Qed.

Lemma terms_quality_refines_witness :
  ∃ m, terms_quality (encode_record record_42) (encode_entry entry_42) "42" = Ok m ∧
       term_report_matches m (spec_term_report "42" record_42 entry_42).
Proof.
  apply terms_quality_refines;
    [apply encode_record_represents|apply encode_entry_represents|done].
Defined.

Lemma extraction_completeness_refines_witness :
  extraction_completeness (encode_record record_acme) "7" =
  Ok (spec_completeness "7" record_acme).
Proof. apply extraction_completeness_refines, encode_record_represents. Defined.

Lemma coverage_of_empty_term_without_description_witness :
  ∃ m, terms_quality (encode_record record_untitled)
         (encode_entry (IndexEntry "7" [EmptyString])) "7" = Ok m ∧
       terms_coverage m = NFloat 1 ∧
       spec_terms_coverage [EmptyString] (jr_description record_untitled) = 0%Q.
Proof.
  apply coverage_of_empty_term_without_description;
    [apply encode_record_represents|done].
Defined.
