(* ===== verification/Cli.v ===== *)
(** * The setup check and the command line

    [check_langsmith_setup] of evaluators.py and [main] of cli.py.

    Both print and return.  A run is a pair: the trace of what was printed,
    one event per [print], and the value returned (the flag of the check,
    the exit code of [main]).  The text of a line is not modelled; an event
    says which [print] of the source produced it and carries the values the
    line is formatted from.

    The tracing service is an environment [service]: whether the import of
    its client succeeded, the API key of the process environment, and what
    listing one dataset with a key does.  The arguments are the record
    [args] that [argparse] produces; Args.v gets it from the command line. *)

From Stdlib Require Import Ascii String QArith.
From stdpp Require Import base list sets strings.
From S2P Require Import Prelude PyStr PyValue Interfaces Evaluator.

#[local] Set Warnings "-clear-no-such-hyp".

(** * What is printed *)

Inductive out : Type :=
(** the prints of [check_langsmith_setup] *)
| OutClientMissing
| OutKeyMissing
| OutKeyHint
| OutConnected
| OutConnectionFailed (error : string)
| OutCheckKey
(** the prints of [main] *)
| OutCheckingSetup
| OutRule
| OutJobIdRequired
| OutHelp
| OutTitle
| OutJobId (job_id : string)
| OutBlank
| OutEvaluatingTerms
| OutEvaluatingCompleteness
| OutResults
| OutItem (key : string) (value : pyval)
| OutTip
| OutTipUrl.

#[export] Instance out_eq_dec : EqDecision out.
Proof. solve_decision. Defined.

Definition is_item (o : out) : bool :=
  match o with OutItem _ _ => true | _ => false end.

(** * The tracing service *)

Record service : Type := Service {
  (** [LANGSMITH_AVAILABLE]: the import of the client succeeded *)
  langsmith_available : bool;
  (** [os.getenv("LANGSMITH_API_KEY")] *)
  api_key : option string;
  (** [Client(api_key=key).list_datasets(limit=1)]: returns or raises *)
  list_datasets : string → pyres unit;
}.

(** [check_langsmith_setup()] *)
Definition check_langsmith_setup (env : service) : list out * bool :=
  if negb (langsmith_available env) then ([OutClientMissing], false)
  else
    match api_key env with
    | None | Some EmptyString => ([OutKeyMissing; OutKeyHint], false)
    | Some key =>
        match list_datasets env key with
        | Ok _ => ([OutConnected], true)
        | Raise e => ([OutConnectionFailed (str_of_exn e); OutCheckKey], false)
        end
    end.

(** * The arguments *)

(** The namespace [parser.parse_args(argv)] returns. *)
Record args : Type := Args {
  arg_job_id : option string;
  check_setup : bool;
  terms_only : bool;
  completeness_only : bool;
}.

(** [not args.job_id]: absent or empty. *)
Definition no_job_id (a : args) : bool :=
  match arg_job_id a with
  | None | Some EmptyString => true
  | Some _ => false
  end.

(** * The reports as dictionaries *)

(** [metrics.items()]: the keys in the order the literal lists them. *)
Definition error_items (job_id error : string) : list (string * pyval) :=
  [("job_id", PStr job_id); ("error", PStr error)].

Definition term_items (r : report term_metrics) : list (string * pyval) :=
  match r with
  | Metrics m =>
      [("job_id", PStr (tm_job_id m));
       ("terms_count", PInt (Z.of_nat (terms_count m)));
       ("terms_coverage", pyval_of_num (terms_coverage m));
       ("avg_term_length", pyval_of_num (avg_term_length m));
       ("has_technical_terms", PBool (has_technical_terms m));
       ("required_terms", required_terms m)]
  | ErrorReport job_id error => error_items job_id error
  end.

Definition completeness_items (r : report completeness) : list (string * pyval) :=
  match r with
  | Metrics c =>
      [("job_id", PStr (c_job_id c));
       ("required_fields_present", PInt (Z.of_nat (required_fields_present c)));
       ("required_fields_total", PInt (Z.of_nat (required_fields_total c)));
       ("completeness_score", PFloat (Finite (completeness_score c)));
       ("has_salary", PBool (has_salary c));
       ("description_length", PInt (Z.of_nat (description_length c)))]
  | ErrorReport job_id error => error_items job_id error
  end.

(** [for key, value in metrics.items(): print(f"  {key}: {value}")] *)
Definition print_items (items : list (string * pyval)) : list out :=
  (λ kv, OutItem (fst kv) (snd kv)) <$> items.

(** * [main] *)

Section main.
Context `{Loader}.

(** The block under [if not args.completeness_only]. *)
Definition terms_block (job_id : string) : list out :=
  [OutEvaluatingTerms] ++
  let terms_metrics := evaluate_required_terms_quality job_id in
  [OutBlank; OutResults] ++ print_items (term_items terms_metrics) ++ [OutBlank].

(** The block under [if not args.terms_only]. *)
Definition completeness_block (job_id : string) : list out :=
  [OutEvaluatingCompleteness] ++
  let completeness_metrics := evaluate_extraction_completeness job_id in
  [OutBlank; OutResults] ++ print_items (completeness_items completeness_metrics) ++
  [OutBlank].

(** [main(argv)] once the arguments are parsed: what is printed and the
    exit code. *)
Definition main (env : service) (a : args) : list out * Z :=
  if check_setup a then
    let '(printed, is_connected) := check_langsmith_setup env in
    ([OutCheckingSetup; OutRule] ++ printed, if is_connected then 0 else 1)%Z
  else if no_job_id a then ([OutJobIdRequired; OutHelp], 1%Z)
  else
    let job_id := default EmptyString (arg_job_id a) in
    let '(printed, langsmith_connected) := check_langsmith_setup env in
    ([OutTitle; OutJobId job_id; OutRule; OutBlank] ++ printed ++ [OutBlank] ++
     (if negb (completeness_only a) then terms_block job_id else []) ++
     (if negb (terms_only a) then completeness_block job_id else []) ++
     (if negb langsmith_connected then [OutTip; OutTipUrl] else []),
     0%Z).

End main.

(** * The setup check *)

Lemma check_langsmith_setup_no_item env :
  List.filter is_item (fst (check_langsmith_setup env)) = [].
Proof.
  unfold check_langsmith_setup. destruct (langsmith_available env); [|done]. simpl.
  destruct (api_key env) as [[|c key]|]; try done.
  by destruct (list_datasets env (String c key)).
Qed.

(** The setup check answers yes exactly when the client is installed, the
    API key is set and not empty, and listing a dataset with that key
    returns; it prints the success line then and only then. *)
Lemma check_langsmith_setup_true env :
  snd (check_langsmith_setup env) = true ↔
  langsmith_available env = true ∧
  ∃ key, api_key env = Some key ∧ key ≠ EmptyString ∧
         is_ok (list_datasets env key) = true ∧
         fst (check_langsmith_setup env) = [OutConnected].
Proof.
  unfold check_langsmith_setup. destruct (langsmith_available env); simpl.
  2: { split; [done|by intros [? _]]. }
  destruct (api_key env) as [[|c key]|]; simpl.
  - split; [done|]. by intros (_ & key & [= <-] & ? & _).
  - destruct (list_datasets env (String c key)) eqn:Hl; simpl.
    + split; [|done]. intros _. split; [done|]. exists (String c key). by rewrite Hl.
    + split; [done|]. intros (_ & key' & [= <-] & _ & Hok & _). by rewrite Hl in Hok.
  - split; [done|]. by intros (_ & key & [=] & _).
Qed.

Lemma check_langsmith_setup_iff env :
  snd (check_langsmith_setup env) = true ↔
  langsmith_available env = true ∧
  ∃ key, api_key env = Some key ∧ key ≠ EmptyString ∧
         is_ok (list_datasets env key) = true.
Proof.
  rewrite check_langsmith_setup_true. split; [naive_solver|].
  intros (Ha & key & Hk & Hne & Hok). split; [done|]. exists key. split_and!; [done..|].
  unfold check_langsmith_setup. rewrite Ha, Hk. destruct key; [done|]. cbn.
  by destruct (list_datasets env _).
Qed.

(** * [main] *)

Section main_properties.
Context `{Loader}.
Implicit Types (env : service) (a : args).

Lemma filter_is_item_print_items items :
  List.filter is_item (print_items items) = print_items items.
Proof. induction items as [|kv items IH]; simpl; [done|]. by rewrite IH. Qed.

Lemma terms_block_items job_id :
  List.filter is_item (terms_block job_id) =
  print_items (term_items (evaluate_required_terms_quality job_id)).
Proof.
  unfold terms_block. simpl. rewrite List.filter_app, filter_is_item_print_items. simpl.
  by rewrite app_nil_r.
Qed.

Lemma completeness_block_items job_id :
  List.filter is_item (completeness_block job_id) =
  print_items (completeness_items (evaluate_extraction_completeness job_id)).
Proof.
  unfold completeness_block. simpl. rewrite List.filter_app, filter_is_item_print_items. simpl.
  by rewrite app_nil_r.
Qed.

(** The status [main] returns: with [--check-setup] it is 0 when the
    service is reachable and 1 otherwise; without it, 1 when no job
    identifier is given and 0 in every other case, whatever the reports
    say. *)
Lemma main_status env a :
  snd (main env a) =
  if check_setup a then (if snd (check_langsmith_setup env) then 0 else 1)%Z
  else if no_job_id a then 1%Z else 0%Z.
Proof.
  unfold main. destruct (check_setup a).
  - by destruct (check_langsmith_setup env) as [printed []].
  - destruct (no_job_id a); [done|]. by destruct (check_langsmith_setup env).
Qed.

(** Claim C31. With a job identifier, [main] prints the entries of the
    term report unless [--completeness-only] is given, then the entries of
    the completeness report unless [--terms-only] is given, and the entries
    of nothing else; with both flags it prints no report at all. *)
Theorem main_reports env a job_id :
  check_setup a = false → arg_job_id a = Some job_id → job_id ≠ EmptyString →
  List.filter is_item (fst (main env a)) =
  (if completeness_only a then []
   else print_items (term_items (evaluate_required_terms_quality job_id))) ++
  (if terms_only a then []
   else print_items (completeness_items (evaluate_extraction_completeness job_id))).
Proof.
  intros Hc Hid Hne. unfold main, no_job_id. rewrite Hc, Hid.
  destruct job_id as [|ch job_id]; [done|]. simpl.
  pose proof (check_langsmith_setup_no_item env) as Hcheck.
  destruct (check_langsmith_setup env) as [printed ok]. simpl in *.
  rewrite List.filter_app, Hcheck. cbn [app List.filter is_item]. rewrite !List.filter_app.
  assert (List.filter is_item (if negb ok then [OutTip; OutTipUrl] else []) = []) as ->
    by (by destruct ok).
  rewrite app_nil_r.
  destruct (completeness_only a), (terms_only a); cbn [negb];
    by rewrite ?terms_block_items, ?completeness_block_items.
Qed.

(** The first entry printed of either report is the job
    identifier that was asked for, for a report of metrics and for an error
    report alike. *)
Theorem items_start_with_job_id job_id :
  head (term_items (evaluate_required_terms_quality job_id)) =
    Some ("job_id", PStr job_id) ∧
  head (completeness_items (evaluate_extraction_completeness job_id)) =
    Some ("job_id", PStr job_id).
Proof.
  pose proof (terms_report_job_id job_id) as Ht.
  pose proof (completeness_report_job_id job_id) as Hc. split.
  - destruct (evaluate_required_terms_quality job_id); simpl in *; by rewrite Ht.
  - destruct (evaluate_extraction_completeness job_id); simpl in *; by rewrite Hc.
Qed.

End main_properties.

(** * Examples *)

Definition example_service : service :=
  Service true (Some "lsv2_key") (λ _, Ok tt).

Definition example_offline : service :=
  Service true (Some "lsv2_key")
    (λ _, Raise (Exn OSError "Connection refused")).

Lemma main_reports_witness :
  List.filter is_item
    (fst (@main example_loader example_offline (Args (Some "42") false true true))) = [].
Proof.
  exact (@main_reports example_loader example_offline (Args (Some "42") false true true)
           "42" eq_refl eq_refl (λ E, eq_ind "42" (λ s, match s with EmptyString => False | _ => True end) I _ E)).
Defined.

(** Both evaluations fail on job 99, and the exit code is 0. *)
Lemma example_main_exit_code :
  @main example_loader example_offline (Args (Some "99") false false false) =
  ([OutTitle; OutJobId "99"; OutRule; OutBlank;
    OutConnectionFailed "Connection refused"; OutCheckKey; OutBlank;
    OutEvaluatingTerms; OutBlank; OutResults;
    OutItem "job_id" (PStr "99");
    OutItem "error" (PStr "No job files found for 99"); OutBlank;
    OutEvaluatingCompleteness; OutBlank; OutResults;
    OutItem "job_id" (PStr "99");
    OutItem "error" (PStr "No job files found for 99"); OutBlank;
    OutTip; OutTipUrl], 0%Z).
Proof. by vm_compute. Qed.
