(* ===== verification/EndToEnd.v ===== *)
(** * The evaluator over a file system

    The loader of evaluators.py, run on a file system, is the loader the
    evaluator is given.  This file states what the two evaluations return
    in terms of the files: which paths the pattern of [load_job_data]
    matches (on the in-memory file system, whose [glob] is defined), that
    the report is the computation on the latest record and on the first
    entry of the index, and the error reports of a job without files and of
    a missing index.  The examples are the end-to-end cases of the
    specification, run on files. *)

From Stdlib Require Import Ascii String QArith.
From stdpp Require Import base list sets strings gmap.
From S2P Require Import Prelude PyStr PyValue Interfaces MemFS Loader Evaluator.

#[local] Set Warnings "-clear-no-such-hyp".

(** * The files of a job *)

(** [logs/<dir>/job-<x>.json] *)
Definition job_file (dir x : string) : string :=
  "logs/" +:+ dir +:+ "/job-" +:+ x +:+ ".json".

(** What [try]/[except] makes of a computation. *)
Definition report_of {M} (job_id : string) (r : pyres M) : report M :=
  match r with
  | Ok m => Metrics m
  | Raise e => error_report job_id e
  end.

Lemma job_pattern_segments job_id :
  job_pattern job_id = join_path ["logs"; job_id; "job-*.json"].
Proof.
  unfold job_pattern, job_dir. cbn [join_path].
  by rewrite !str_app_cons, !str_app_nil_l.
Qed.

Lemma job_file_segments dir x :
  job_file dir x = join_path ["logs"; dir; "job-" +:+ x +:+ ".json"].
Proof.
  unfold job_file. cbn [join_path]. by rewrite !str_app_cons, !str_app_nil_l.
Qed.

(** A segment without wildcards matches itself only. *)
Lemma seg_match_plain pat name :
  has_magic pat = false → seg_match pat name = true ↔ name = pat.
Proof. intros Hp. unfold seg_match. rewrite Hp, String.eqb_eq. naive_solver. Qed.

(** [job-*.json] matches the names that start with [job-] and end with
    [.json]. *)
Lemma job_name_match name :
  seg_match "job-*.json" name = true ↔ ∃ x, name = "job-" +:+ x +:+ ".json".
Proof.
  unfold seg_match. change (has_magic "job-*.json") with true. cbv iota.
  rewrite andb_true_iff.
  rewrite (wmatch_literal_star_literal "job-" ".json" name) by (compute_done).
  split; [by intros [_ ?]|]. intros [x ->]. split; [done|by exists x].
Qed.

Lemma job_name_segment x : segment ("job-" +:+ x +:+ ".json") ↔ segment x.
Proof.
  rewrite !segment_app.
  assert (segment "job-" ∧ segment ".json") by (split; compute_done).
  tauto.
Qed.

Lemma Forall_three {A} (P : A → Prop) a b c :
  Forall P [a; b; c] ↔ P a ∧ P b ∧ P c.
Proof. rewrite !Forall_cons, Forall_nil. tauto. Qed.

Lemma Forall2_three {A B} (R : A → B → Prop) a b c l :
  Forall2 R [a; b; c] l ↔ ∃ a' b' c', l = [a'; b'; c'] ∧ R a a' ∧ R b b' ∧ R c c'.
Proof.
  split.
  - intros (a' & ? & ? & (b' & ? & ? & (c' & ? & ? & ->%Forall2_nil_inv_l & ->
      )%Forall2_cons_inv_l & ->)%Forall2_cons_inv_l & ->)%Forall2_cons_inv_l.
    by exists a', b', c'.
  - intros (a' & b' & c' & -> & ? & ? & ?). by repeat constructor.
Qed.

(** The pattern of [load_job_data] matches the paths
    [logs/<dir>/job-<x>.json] whose directory is matched by the job
    identifier read as a pattern, and no other path. *)
Lemma job_pattern_match job_id path :
  segment job_id →
  glob_match (job_pattern job_id) path = true ↔
  ∃ dir x, path = job_file dir x ∧ segment dir ∧ segment x ∧
           seg_match job_id dir = true.
Proof.
  intros Hid. rewrite job_pattern_segments, glob_match_spec; [|done|].
  2: { apply Forall_three. split_and!; [compute_done|done|compute_done]. }
  split.
  - intros (names & -> & Hn & (a & dir & c & -> & Ha & Hdir & Hc)%Forall2_three).
    apply seg_match_plain in Ha as ->; [|done]. apply job_name_match in Hc as [x ->].
    apply Forall_three in Hn as (_ & Hd & Hx). apply (proj1 (job_name_segment x)) in Hx.
    exists dir, x. by rewrite job_file_segments.
  - intros (dir & x & -> & Hd & Hx & Hm). eexists. split; [apply job_file_segments|].
    rewrite Forall_three, Forall2_three, job_name_segment.
    split; [split_and!; [compute_done|done..]|].
    eexists _, _, _. split_and!; [done..|]. apply job_name_match. by exists x.
Qed.

(** For a job identifier without a slash or a wildcard the
    pattern matches the files [job-<x>.json] of the directory of that job
    and nothing else: no file of another job is read. *)
Theorem job_pattern_plain job_id path :
  segment job_id → has_magic job_id = false →
  glob_match (job_pattern job_id) path = true ↔
  ∃ x, path = job_file job_id x ∧ segment x.
Proof.
  intros Hid Hp. rewrite job_pattern_match by done. split.
  - intros (dir & x & -> & _ & Hx & ->%seg_match_plain); [by exists x|done].
  - intros (x & -> & Hx). exists job_id, x. split_and!; [done..|]. by apply seg_match_plain.
Qed.

(** Claim C37. The job identifier is read as a pattern: with the
    identifier [*] the pattern matches the job files of every directory
    whose name does not start with a dot, so that the files of all jobs are
    candidates for the latest one. *)
Theorem job_pattern_wildcard dir x :
  segment dir → segment x → hidden dir = false →
  glob_match (job_pattern "*") (job_file dir x) = true.
Proof.
  intros Hd Hx Hh. apply job_pattern_match; [compute_done|].
  exists dir, x. split_and!; [done..|]. unfold seg_match.
  change (has_magic "*") with true. cbv iota. rewrite Hh. cbn [andb negb].
  apply wmatch_star. exists dir, EmptyString. by rewrite str_app_nil_r.
Qed.

(** * The two evaluations on files *)

Section on_files.
Context {FS : Type} `{FileSystem FS} `{JsonCodec}.
Implicit Types (fs : FS) (job_id : string).

(** Claim C28. On a file system the term evaluation is the computation on
    the record parsed from the greatest job file and on the first entry of
    the index that has the job identifier: a report of its metrics when it
    succeeds, an error report with its message when it raises. *)
Theorem evaluate_terms_on_files fs job_id p text job_data itext pre line post entry :
  greatest p (fs_glob fs (job_pattern job_id)) →
  fs_read fs p = Ok text → json_loads text = Ok job_data →
  fs_exists fs index_path = true → fs_read fs index_path = Ok itext →
  readlines itext = pre ++ line :: post →
  Forall (other_entry job_id) pre → entry_of job_id line entry →
  @evaluate_required_terms_quality (fs_loader fs) job_id =
  report_of job_id (terms_quality job_data entry job_id).
Proof.
  intros Hp Ht Hv He Hi Hl Hpre Hline.
  unfold evaluate_required_terms_quality, fs_loader. cbn [loader_job_data loader_index_entry].
  rewrite (load_job_data_read fs job_id p text job_data) by done.
  rewrite (load_index_entry_unfold fs job_id itext) by done.
  rewrite (proj2 (scan_index_Some job_id (readlines itext) entry)) by (by exists pre, line, post).
  cbn [result_bind]. by destruct (terms_quality job_data entry job_id).
Qed.

(** On a file system the completeness evaluation is the
    computation on the record parsed from the greatest job file, whether
    there is an index or not. *)
Theorem evaluate_completeness_on_files fs job_id p text job_data :
  greatest p (fs_glob fs (job_pattern job_id)) →
  fs_read fs p = Ok text → json_loads text = Ok job_data →
  @evaluate_extraction_completeness (fs_loader fs) job_id =
  report_of job_id (extraction_completeness job_data job_id).
Proof.
  intros Hp Ht Hv.
  unfold evaluate_extraction_completeness, fs_loader. cbn [loader_job_data].
  rewrite (load_job_data_read fs job_id p text job_data) by done.
  cbn [result_bind]. by destruct (extraction_completeness job_data job_id).
Qed.

(** For a job without files both evaluations return an error
    report that carries the job identifier and the message "No job files
    found for <job_id>", and no metrics. *)
Theorem evaluate_no_job_files fs job_id :
  fs_glob fs (job_pattern job_id) = [] →
  @evaluate_required_terms_quality (fs_loader fs) job_id =
    report_of job_id (Raise (no_job_files_error job_id)) ∧
  @evaluate_extraction_completeness (fs_loader fs) job_id =
    report_of job_id (Raise (no_job_files_error job_id)).
Proof.
  intros Hg.
  unfold evaluate_required_terms_quality, evaluate_extraction_completeness, fs_loader.
  cbn [loader_job_data loader_index_entry]. unfold load_job_data. by rewrite Hg.
Qed.

(** When the record loads and the index does not exist, the
    term evaluation returns the error report of the missing index, with
    the message "No index.jsonl found. Run extract-for-eval first.". *)
Theorem evaluate_terms_no_index fs job_id job_data :
  load_job_data fs job_id = Ok job_data → fs_exists fs index_path = false →
  @evaluate_required_terms_quality (fs_loader fs) job_id =
  report_of job_id (Raise no_index_error).
Proof.
  intros Hd He. unfold evaluate_required_terms_quality, fs_loader.
  cbn [loader_job_data loader_index_entry]. rewrite Hd. unfold load_index_entry.
  by rewrite He.
Qed.

(** The reports are those of the files, not of the order in which the
    file system lists them: on file systems that hold the same files the
    evaluations return the same. *)
Theorem reports_same_files fs fs' job_id :
  same_files fs fs' →
  @evaluate_required_terms_quality (fs_loader fs) job_id =
    @evaluate_required_terms_quality (fs_loader fs') job_id ∧
  @evaluate_extraction_completeness (fs_loader fs) job_id =
    @evaluate_extraction_completeness (fs_loader fs') job_id.
Proof. intros Hfs. by rewrite Hfs. Qed.

End on_files.

(** The in-memory file system listed in either order holds the same
    files. *)
Lemma listed_same_files (fs : memfs) (b b' : bool) : same_files (fs, b) (fs, b').
Proof. split; [apply listed_glob_perm|done]. Qed.

(** * Examples: the cases of the specification, on files *)

Definition acme_text : string :=
  json_text "{'title': 'Eng', 'company': 'Acme', 'location': '', 'description': 'x'}".

Definition acme_record : pyval :=
  PDict [("title", PStr "Eng"); ("company", PStr "Acme"); ("location", PStr EmptyString);
         ("description", PStr "x")].

Definition acme_fs : memfs := mem_of_list [("logs/7/job-20240301.json", acme_text)].

Definition acme_codec : JsonCodec := table_codec [(acme_text, acme_record)].

Lemma acme_greatest :
  greatest "logs/7/job-20240301.json" (fs_glob acme_fs (job_pattern "7")).
Proof. apply py_max_Ok. by vm_compute. Qed.

Lemma sample_entry_of_42 :
  @entry_of sample_codec "42" (text_line ("  " +:+ sample_line_42)) (PDict sample_entry_42).
Proof. exists sample_entry_42. by vm_compute. Qed.

Lemma job_pattern_plain_witness :
  glob_match (job_pattern "42") "logs/42/job-20240215.json" = true ↔
  ∃ x, "logs/42/job-20240215.json" = job_file "42" x ∧ segment x.
Proof. apply job_pattern_plain; [compute_done|done]. Defined.

Lemma job_pattern_wildcard_witness :
  glob_match (job_pattern "*") (job_file "7" "20250101") = true.
Proof. apply job_pattern_wildcard; [compute_done..|done]. Defined.

(** Asked for the job [*], the loader returns the record of job 7. *)
Lemma wildcard_loads_another_job :
  @load_job_data _ _ sample_codec sample_fs "*" =
  Ok (PDict [("title", PStr "Engineer (draft)")]).
Proof. by vm_compute. Qed.

(** Job 42: two job files and an index of four lines, the second of which
    is the entry. *)
Lemma evaluate_terms_on_files_witness :
  @evaluate_required_terms_quality (@fs_loader _ _ sample_codec sample_fs) "42" =
  report_of "42" (terms_quality sample_record (PDict sample_entry_42) "42").
Proof.
  refine (@evaluate_terms_on_files _ _ sample_codec sample_fs "42"
            "logs/42/job-20240215.json" sample_new_text sample_record sample_index
            [text_line sample_line_41] (text_line ("  " +:+ sample_line_42))
            [text_line "not json"; text_line sample_line_42] (PDict sample_entry_42)
            sample_greatest _ _ _ _ _ _ sample_entry_of_42); [by vm_compute..|].
  constructor; [exact sample_other_entry_41|constructor].
Defined.

Lemma end_to_end_terms :
  @evaluate_required_terms_quality (@fs_loader _ _ sample_codec sample_fs) "42" =
  Metrics (TermMetrics "42" 2 (NFloat (1 # 2)) (NFloat 8) true
             (PList [PStr "python"; PStr "leadership"])).
Proof. by vm_compute. Qed.

Lemma evaluate_completeness_on_files_witness :
  @evaluate_extraction_completeness (@fs_loader _ _ acme_codec acme_fs) "7" =
  report_of "7" (extraction_completeness acme_record "7").
Proof.
  refine (@evaluate_completeness_on_files _ _ acme_codec acme_fs "7"
            "logs/7/job-20240301.json" acme_text acme_record acme_greatest _ _);
    by vm_compute.
Defined.

Lemma end_to_end_completeness :
  @evaluate_extraction_completeness (@fs_loader _ _ acme_codec acme_fs) "7" =
  Metrics (Completeness "7" 3 4 (3 # 4) false 1).
Proof. by vm_compute. Qed.

Lemma evaluate_no_job_files_witness :
  @evaluate_required_terms_quality (@fs_loader _ _ sample_codec sample_fs) "99" =
    ErrorReport "99" ("No job files found for " +:+ "99") ∧
  @evaluate_extraction_completeness (@fs_loader _ _ sample_codec sample_fs) "99" =
    ErrorReport "99" ("No job files found for " +:+ "99").
Proof.
  refine (@evaluate_no_job_files _ _ sample_codec sample_fs "99" _). by vm_compute.
Defined.

Lemma evaluate_terms_no_index_witness :
  @evaluate_required_terms_quality (@fs_loader _ _ sample_codec sample_fs_no_index) "42" =
  ErrorReport "42" "No index.jsonl found. Run extract-for-eval first.".
Proof.
  refine (@evaluate_terms_no_index _ _ sample_codec sample_fs_no_index "42" sample_record _ _);
    by vm_compute.
Defined.
