(* ===== verification/Batch.v ===== *)
(** * The batch run

    [main] of evaluators.py (lines 133-222): the setup check, the job
    identifiers of every line of the index, the two evaluations of each
    identifier with a line printed for each success, and the summary
    statistics over the successful reports.

    A run prints and then returns or raises: it is a pair of the trace (one
    event per [print], carrying the values the line is formatted from) and
    the outcome, in the monad [io].  The index is parsed outside any [try],
    so the run can raise; the evaluations cannot.

    The identifiers of the index are whatever objects the entries bind to
    ['job_id'].  The evaluation of an identifier that is a string is that of
    [Evaluator] on the loader of [Loader]; the evaluation of any other
    object is a parameter of the model ([OtherIds]): it returns a report, as
    every evaluation does, and the theorems hold whatever that report is. *)

From Stdlib Require Import Ascii String QArith Qreduction Lqa.
From stdpp Require Import base list sets strings.
From S2P Require Import Prelude PyStr PyValue Interfaces MemFS Loader Evaluator Cli.

#[local] Set Warnings "-clear-no-such-hyp".

(** * What is printed *)

Inductive bout : Type :=
| BTitle
| BRule (width : nat)
(** a line printed by [check_langsmith_setup] *)
| BSetup (o : out)
| BBlank
| BNoIndex
| BEvaluating (jobs : nat)
| BTermsHeader
| BTermsLine (job_id : pyval) (terms_count : nat) (terms_coverage : Q) (technical : bool)
| BCompletenessHeader
| BCompletenessLine (job_id : pyval) (score : Q) (has_salary : bool) (chars : nat)
| BSummaryHeader
| BAvgTerms (avg_terms : Q)
| BAvgCoverage (avg_coverage : Q)
| BTechPct (tech_terms_pct : Q)
| BAvgCompleteness (avg_completeness : Q)
| BSalaryPct (salary_pct : Q)
| BNextSteps
| BSetUpKey
| BGetKey
| BCreateDatasets
| BAutomateRuns
| BConfigureAlerts
| BGroundTruth
| BThresholds
| BABTesting.

(** The lines that report one job. *)
Definition is_job_line (o : bout) : bool :=
  match o with
  | BTermsLine _ _ _ _ | BCompletenessLine _ _ _ _ => true
  | _ => false
  end.

(** The value of a line of the summary that prints a percentage. *)
Definition share_of (o : bout) : option Q :=
  match o with
  | BAvgCoverage q | BTechPct q | BAvgCompleteness q | BSalaryPct q => Some q
  | _ => None
  end.

(** * Printing and raising *)

Definition io (A : Type) : Type := (list bout * pyres A)%type.

#[export] Instance io_ret : MRet io := λ A a, ([], Ok a).

#[export] Instance io_bind : MBind io := λ A B k m,
  match m with
  | (t, Ok a) => let '(t', r) := k a in (t ++ t', r)
  | (t, Raise e) => (t, Raise e)
  end.

Definition prints (os : list bout) : io unit := (os, Ok tt).

Definition lift {A} (r : pyres A) : io A := ([], r).

Definition trace {A} (m : io A) : list bout := fst m.

Definition outcome {A} (m : io A) : pyres A := snd m.

(** * The evaluation of an identifier that is not a string *)

Class OtherIds : Type := {
  other_terms : pyval → report term_metrics;
  other_completeness : pyval → report completeness;
}.

(** [[r for r in results if 'error' not in r]] *)
Definition successful {M} (results : list (report M)) : list M :=
  omap (λ r, match r with Metrics m => Some m | ErrorReport _ _ => None end) results.

(** [if 'error' not in result: print(...)] *)
Definition terms_line (job_id : pyval) (result : report term_metrics) : list bout :=
  match result with
  | Metrics m =>
      [BTermsLine job_id (terms_count m) (num_val (terms_coverage m))
         (has_technical_terms m)]
  | ErrorReport _ _ => []
  end.

Definition completeness_line (job_id : pyval) (result : report completeness) : list bout :=
  match result with
  | Metrics c =>
      [BCompletenessLine job_id (completeness_score c) (has_salary c)
         (description_length c)]
  | ErrorReport _ _ => []
  end.

(** [if successful_terms: ...] *)
Definition terms_summary (terms_results : list (report term_metrics)) : io unit :=
  let successful_terms := successful terms_results in
  match successful_terms with
  | [] => mret tt
  | _ :: _ =>
      let n := Z.of_nat (length successful_terms) in
      avg_terms ← lift (py_truediv
                          (Z.of_nat (sum_list (terms_count <$> successful_terms))) n);
      avg_coverage ← lift (py_truediv_num
                             (py_sum (terms_coverage <$> successful_terms)) n);
      tech_terms_pct ← lift (py_truediv
                               (Z.of_nat (length (List.filter has_technical_terms
                                                    successful_terms))) n);
      prints [BAvgTerms avg_terms; BAvgCoverage avg_coverage; BTechPct tech_terms_pct]
  end.

(** [if successful_completeness: ...] *)
Definition completeness_summary (completeness_results : list (report completeness)) :
    io unit :=
  let successful_completeness := successful completeness_results in
  match successful_completeness with
  | [] => mret tt
  | _ :: _ =>
      let n := Z.of_nat (length successful_completeness) in
      avg_completeness ← lift (py_truediv_num
                                 (py_sum ((λ c, NFloat (completeness_score c)) <$>
                                          successful_completeness)) n);
      salary_pct ← lift (py_truediv
                           (Z.of_nat (length (List.filter has_salary
                                                successful_completeness))) n);
      prints [BAvgCompleteness avg_completeness; BSalaryPct salary_pct]
  end.

(** The advice at the end of the run. *)
Definition next_steps (langsmith_connected : bool) : list bout :=
  (if negb langsmith_connected then [BSetUpKey; BGetKey]
   else [BCreateDatasets; BAutomateRuns; BConfigureAlerts]) ++
  [BGroundTruth; BThresholds; BABTesting].

Section batch.
Context {FS : Type} `{FileSystem FS} `{JsonCodec} `{OtherIds}.
Implicit Types (fs : FS) (env : service) (job_id : pyval) (job_ids : list pyval).

(** [entry = json.loads(line.strip()); job_ids.append(entry['job_id'])] *)
Definition job_id_of_line (line : string) : pyres pyval :=
  let* entry := json_loads (strip line) in
  py_getitem entry "job_id".

(** The loop that collects the identifiers of the index. *)
Definition read_job_ids fs : pyres (list pyval) :=
  let* text := fs_read fs index_path in
  traverse job_id_of_line (readlines text).

Definition evaluate_terms_of fs job_id : report term_metrics :=
  match job_id with
  | PStr s => @evaluate_required_terms_quality (fs_loader fs) s
  | _ => other_terms job_id
  end.

Definition evaluate_completeness_of fs job_id : report completeness :=
  match job_id with
  | PStr s => @evaluate_extraction_completeness (fs_loader fs) s
  | _ => other_completeness job_id
  end.

(** [for job_id in job_ids: result = ...; terms_results.append(result); ...] *)
Fixpoint terms_loop fs job_ids : io (list (report term_metrics)) :=
  match job_ids with
  | [] => mret []
  | job_id :: job_ids' =>
      let result := evaluate_terms_of fs job_id in
      prints (terms_line job_id result);;
      terms_results ← terms_loop fs job_ids';
      mret (result :: terms_results)
  end.

Fixpoint completeness_loop fs job_ids : io (list (report completeness)) :=
  match job_ids with
  | [] => mret []
  | job_id :: job_ids' =>
      let result := evaluate_completeness_of fs job_id in
      prints (completeness_line job_id result);;
      completeness_results ← completeness_loop fs job_ids';
      mret (result :: completeness_results)
  end.

(** [main()] of evaluators.py, from the existence test of the index on. *)
Definition evaluate_index fs (langsmith_connected : bool) : io unit :=
  if negb (fs_exists fs index_path) then prints [BNoIndex]
  else
    job_ids ← lift (read_job_ids fs);
    prints [BEvaluating (length job_ids); BBlank; BTermsHeader; BRule 30];;
    terms_results ← terms_loop fs job_ids;
    prints [BBlank; BCompletenessHeader; BRule 30];;
    completeness_results ← completeness_loop fs job_ids;
    prints [BBlank; BSummaryHeader; BRule 20];;
    terms_summary terms_results;;
    completeness_summary completeness_results;;
    prints [BBlank; BNextSteps];;
    prints (next_steps langsmith_connected).

(** [main()] of evaluators.py *)
Definition batch_main env fs : io unit :=
  prints [BTitle; BRule 50];;
  langsmith_connected ← (BSetup <$> fst (check_langsmith_setup env),
                          Ok (snd (check_langsmith_setup env)));
  prints [BBlank];;
  evaluate_index fs langsmith_connected.

End batch.

(** * Runs *)

Lemma io_bind_Ok {A B} (m : io A) (k : A → io B) t a :
  m = (t, Ok a) → (m ≫= k) = (t ++ trace (k a), outcome (k a)).
Proof. intros ->. unfold mbind, io_bind, trace, outcome. by destruct (k a). Qed.

Lemma io_bind_Raise {A B} (m : io A) (k : A → io B) t e :
  m = (t, Raise e) → (m ≫= k) = (t, Raise e).
Proof. by intros ->. Qed.

Lemma io_bind_prints {B} os (k : unit → io B) :
  (prints os ≫= k) = (os ++ trace (k tt), outcome (k tt)).
Proof. by apply io_bind_Ok. Qed.

Lemma io_pair {A} (m : io A) : m = (trace m, outcome m).
Proof. by destruct m. Qed.

(** * The summary *)

Lemma successful_cons {M} (r : report M) rs :
  successful (r :: rs) =
  match r with
  | Metrics m => m :: successful rs
  | ErrorReport _ _ => successful rs
  end.
Proof. by destruct r. Qed.

Lemma successful_fmap {A M} (f : A → report M) (P : M → Prop) (l : list A) :
  (∀ x m, x ∈ l → f x = Metrics m → P m) → Forall P (successful (f <$> l)).
Proof.
  induction l as [|x l IH]; intros Hf; [constructor|].
  rewrite fmap_cons, successful_cons.
  assert (Forall P (successful (f <$> l))) by (apply IH; intros; eapply Hf; [by right|done]).
  destruct (f x) as [m|] eqn:Hx; [|done]. constructor; [|done].
  by apply (Hf x); [left|].
Qed.

(** A share of a non-empty list lies between 0 and 1. *)
Lemma share_bounds {A} (p : A → bool) (l : list A) :
  0 < length l →
  (0 <= Qquot (Z.of_nat (length (List.filter p l))) (Z.of_nat (length l)) <= 1)%Q.
Proof.
  intros Hl. pose proof (length_filter_le p l). split.
  - apply Qquot_nonneg; lia.
  - apply Qquot_le_1; lia.
Qed.

(** The summary of the term reports: nothing when no report is
    successful, else three lines, and no exception. *)
Lemma terms_summary_run rs :
  outcome (terms_summary rs) = Ok tt ∧
  List.filter is_job_line (trace (terms_summary rs)) = [] ∧
  (Forall (λ m, 0 <= num_val (terms_coverage m) <= 1)%Q (successful rs) →
   ∀ o q, o ∈ trace (terms_summary rs) → share_of o = Some q → (0 <= q <= 1)%Q).
Proof.
  unfold terms_summary. destruct (successful rs) as [|m ms] eqn:Hs.
  { split_and!; [done..|]. intros _ o q Ho. by apply elem_of_nil in Ho. }
  cbv beta zeta iota. assert (0 < length (m :: ms)) as Hl by (simpl; lia).
  remember (m :: ms) as l eqn:Heql. clear Heql. rewrite py_truediv_pos by lia.
  destruct (py_truediv_num_pos (py_sum (terms_coverage <$> l)) (Z.of_nat (length l)))
    as (avg & Havg & _); [lia|].
  rewrite Havg, py_truediv_pos by lia. split_and!; [done..|].
  intros Hb o q Ho Hq. cbn in Ho.
  assert (0 <= avg <= 1)%Q as Hb'.
  { apply (py_mean_bounds (terms_coverage <$> l)); [by apply Forall_fmap|].
    by rewrite length_fmap. }
  repeat (apply elem_of_cons in Ho as [->|Ho]); try by apply elem_of_nil in Ho.
  - done.
  - by injection Hq as <-.
  - injection Hq as <-. by apply share_bounds.
Qed.

Lemma completeness_summary_run rs :
  outcome (completeness_summary rs) = Ok tt ∧
  List.filter is_job_line (trace (completeness_summary rs)) = [] ∧
  (Forall (λ c, 0 <= completeness_score c <= 1)%Q (successful rs) →
   ∀ o q, o ∈ trace (completeness_summary rs) → share_of o = Some q → (0 <= q <= 1)%Q).
Proof.
  unfold completeness_summary. destruct (successful rs) as [|c cs] eqn:Hs.
  { split_and!; [done..|]. intros _ o q Ho. by apply elem_of_nil in Ho. }
  cbv beta zeta iota. assert (0 < length (c :: cs)) as Hl by (simpl; lia).
  remember (c :: cs) as l eqn:Heql. clear Heql.
  destruct (py_truediv_num_pos (py_sum ((λ c, NFloat (completeness_score c)) <$> l))
              (Z.of_nat (length l))) as (avg & Havg & _); [lia|].
  rewrite Havg, py_truediv_pos by lia. split_and!; [done..|].
  intros Hb o q Ho Hq. cbn in Ho.
  assert (0 <= avg <= 1)%Q as Hb'.
  { apply (py_mean_bounds ((λ c, NFloat (completeness_score c)) <$> l));
      [by apply Forall_fmap|by rewrite length_fmap]. }
  repeat (apply elem_of_cons in Ho as [->|Ho]); try by apply elem_of_nil in Ho.
  - by injection Hq as <-.
  - injection Hq as <-. by apply share_bounds.
Qed.

(** * The loops and the run *)

Section batch_properties.
Context {FS : Type} `{FileSystem FS} `{JsonCodec} `{OtherIds}.
Implicit Types (fs : FS) (env : service) (job_id : pyval) (job_ids : list pyval).

(** The loops evaluate every identifier, in order, and print the line of
    each success. *)
Lemma terms_loop_run fs job_ids :
  terms_loop fs job_ids =
  (job_ids ≫= (λ job_id, terms_line job_id (evaluate_terms_of fs job_id)),
   Ok (evaluate_terms_of fs <$> job_ids)).
Proof.
  induction job_ids as [|job_id job_ids IH]; [done|].
  cbn [terms_loop]. rewrite io_bind_prints, (io_bind_Ok _ _ _ _ IH).
  unfold trace, outcome, mret, io_ret. cbn [fst snd]. by rewrite app_nil_r.
Qed.

Lemma completeness_loop_run fs job_ids :
  completeness_loop fs job_ids =
  (job_ids ≫= (λ job_id, completeness_line job_id (evaluate_completeness_of fs job_id)),
   Ok (evaluate_completeness_of fs <$> job_ids)).
Proof.
  induction job_ids as [|job_id job_ids IH]; [done|].
  cbn [completeness_loop]. rewrite io_bind_prints, (io_bind_Ok _ _ _ _ IH).
  unfold trace, outcome, mret, io_ret. cbn [fst snd]. by rewrite app_nil_r.
Qed.

Lemma filter_job_lines_terms fs job_ids :
  List.filter is_job_line
    (job_ids ≫= (λ job_id, terms_line job_id (evaluate_terms_of fs job_id))) =
  job_ids ≫= (λ job_id, terms_line job_id (evaluate_terms_of fs job_id)).
Proof.
  induction job_ids as [|job_id job_ids IH]; [done|].
  rewrite bind_cons, List.filter_app, IH. f_equal.
  by destruct (evaluate_terms_of fs job_id).
Qed.

Lemma filter_job_lines_completeness fs job_ids :
  List.filter is_job_line
    (job_ids ≫= (λ job_id, completeness_line job_id (evaluate_completeness_of fs job_id))) =
  job_ids ≫= (λ job_id, completeness_line job_id (evaluate_completeness_of fs job_id)).
Proof.
  induction job_ids as [|job_id job_ids IH]; [done|].
  rewrite bind_cons, List.filter_app, IH. f_equal.
  by destruct (evaluate_completeness_of fs job_id).
Qed.

(** The trace of a run over the identifiers [job_ids]. *)
Definition trace_of fs (langsmith_connected : bool) job_ids : list bout :=
  [BEvaluating (length job_ids); BBlank; BTermsHeader; BRule 30] ++
  (job_ids ≫= (λ job_id, terms_line job_id (evaluate_terms_of fs job_id))) ++
  [BBlank; BCompletenessHeader; BRule 30] ++
  (job_ids ≫= (λ job_id, completeness_line job_id (evaluate_completeness_of fs job_id))) ++
  [BBlank; BSummaryHeader; BRule 20] ++
  trace (terms_summary (evaluate_terms_of fs <$> job_ids)) ++
  trace (completeness_summary (evaluate_completeness_of fs <$> job_ids)) ++
  [BBlank; BNextSteps] ++ next_steps langsmith_connected.

Lemma evaluate_index_run fs langsmith_connected job_ids :
  fs_exists fs index_path = true → read_job_ids fs = Ok job_ids →
  evaluate_index fs langsmith_connected =
  (trace_of fs langsmith_connected job_ids, Ok tt).
Proof.
  intros He Hids. unfold evaluate_index, lift. rewrite He, Hids. cbn [negb].
  rewrite (io_bind_Ok _ _ [] job_ids eq_refl), io_bind_prints.
  rewrite (io_bind_Ok _ _ _ _ (terms_loop_run fs job_ids)), io_bind_prints.
  rewrite (io_bind_Ok _ _ _ _ (completeness_loop_run fs job_ids)), io_bind_prints.
  destruct (terms_summary_run (evaluate_terms_of fs <$> job_ids)) as (Ht & _).
  destruct (completeness_summary_run (evaluate_completeness_of fs <$> job_ids)) as (Hc & _).
  rewrite (io_bind_Ok _ _ _ tt (eq_trans (io_pair _) (f_equal _ Ht))).
  rewrite (io_bind_Ok _ _ _ tt (eq_trans (io_pair _) (f_equal _ Hc))).
  rewrite io_bind_prints. unfold trace_of, trace, outcome. by cbn [fst snd prints].
Qed.

Lemma batch_main_unfold env fs :
  batch_main env fs =
  ([BTitle; BRule 50] ++ (BSetup <$> fst (check_langsmith_setup env)) ++ [BBlank] ++
   trace (evaluate_index fs (snd (check_langsmith_setup env))),
   outcome (evaluate_index fs (snd (check_langsmith_setup env)))).
Proof.
  unfold batch_main. rewrite io_bind_prints.
  rewrite (io_bind_Ok _ _ _ _ eq_refl), io_bind_prints. unfold trace, outcome.
  by cbn [fst snd].
Qed.

Lemma filter_job_lines_setup (printed : list out) :
  List.filter is_job_line (BSetup <$> printed) = [].
Proof. induction printed as [|o printed IH]; [done|]. by rewrite fmap_cons. Qed.

Lemma filter_job_lines_trace_of fs langsmith_connected job_ids :
  List.filter is_job_line (trace_of fs langsmith_connected job_ids) =
  (job_ids ≫= (λ job_id, terms_line job_id (evaluate_terms_of fs job_id))) ++
  (job_ids ≫= (λ job_id, completeness_line job_id (evaluate_completeness_of fs job_id))).
Proof.
  unfold trace_of.
  destruct (terms_summary_run (evaluate_terms_of fs <$> job_ids)) as (_ & Ht & _).
  destruct (completeness_summary_run (evaluate_completeness_of fs <$> job_ids))
    as (_ & Hc & _).
  rewrite !List.filter_app, filter_job_lines_terms, filter_job_lines_completeness, Ht, Hc.
  destruct langsmith_connected; cbn [List.filter is_job_line next_steps negb app];
    by rewrite app_nil_r.
Qed.

(** The successful reports of identifiers that are strings have their
    coverage and their score between 0 and 1. *)
Lemma successful_terms_bounds fs job_ids :
  Forall (λ v, is_str v = true) job_ids →
  Forall (λ m, 0 <= num_val (terms_coverage m) <= 1)%Q
    (successful (evaluate_terms_of fs <$> job_ids)).
Proof.
  intros Hids. apply successful_fmap. intros [| | | |s| |] m Hin Hm;
    try by (rewrite Forall_forall in Hids; apply Hids in Hin).
  apply evaluate_terms_Metrics in Hm as (jd & ie & _ & _ & Hm).
  apply terms_quality_Ok in Hm as (rt & d & _ & _ & _ & _ & Hc & _).
  by apply terms_coverage_of_bounds in Hc.
Qed.

Lemma successful_completeness_bounds fs job_ids :
  Forall (λ v, is_str v = true) job_ids →
  Forall (λ c, 0 <= completeness_score c <= 1)%Q
    (successful (evaluate_completeness_of fs <$> job_ids)).
Proof.
  intros Hids. apply successful_fmap. intros [| | | |s| |] c Hin Hc;
    try by (rewrite Forall_forall in Hids; apply Hids in Hin).
  apply evaluate_completeness_Metrics in Hc as (jd & _ & Hc).
  apply extraction_completeness_Ok in Hc as (kvs & _ & _ & _ & _ & ->).
  pose proof (truthy_fields_le kvs). split; [apply Qquot_nonneg|apply Qquot_le_1]; lia.
Qed.

(** Only the summary prints shares. *)
Lemma share_in_trace_of fs langsmith_connected job_ids o q :
  o ∈ trace_of fs langsmith_connected job_ids → share_of o = Some q →
  o ∈ trace (terms_summary (evaluate_terms_of fs <$> job_ids)) ∨
  o ∈ trace (completeness_summary (evaluate_completeness_of fs <$> job_ids)).
Proof.
  unfold trace_of. rewrite !elem_of_app, !list_elem_of_bind.
  intros [Ho|[(id & Ho & _)|[Ho|[(id & Ho & _)|[Ho|[Ho|[Ho|[Ho|Ho]]]]]]]] Hq; auto.
  - repeat (apply elem_of_cons in Ho as [->|Ho]); try done. by apply elem_of_nil in Ho.
  - destruct (evaluate_terms_of fs id); [|by apply elem_of_nil in Ho].
    by apply list_elem_of_singleton in Ho as ->.
  - repeat (apply elem_of_cons in Ho as [->|Ho]); try done. by apply elem_of_nil in Ho.
  - destruct (evaluate_completeness_of fs id); [|by apply elem_of_nil in Ho].
    by apply list_elem_of_singleton in Ho as ->.
  - repeat (apply elem_of_cons in Ho as [->|Ho]); try done. by apply elem_of_nil in Ho.
  - repeat (apply elem_of_cons in Ho as [->|Ho]); try done. by apply elem_of_nil in Ho.
  - destruct langsmith_connected;
      repeat (apply elem_of_cons in Ho as [->|Ho]); try done; by apply elem_of_nil in Ho.
Qed.

(** Claim C38. When every line of the index parses to an entry with a
    ['job_id'], the batch run returns: it announces as many jobs as the
    index has lines, evaluates every one of them, in the order of the index
    and as often as it occurs there, and prints the line of each
    evaluation that succeeded.  The failure of a job stops nothing. *)
Theorem batch_main_returns env fs job_ids :
  fs_exists fs index_path = true → read_job_ids fs = Ok job_ids →
  outcome (batch_main env fs) = Ok tt ∧
  BEvaluating (length job_ids) ∈ trace (batch_main env fs) ∧
  List.filter is_job_line (trace (batch_main env fs)) =
    (job_ids ≫= (λ job_id, terms_line job_id (evaluate_terms_of fs job_id))) ++
    (job_ids ≫= (λ job_id, completeness_line job_id (evaluate_completeness_of fs job_id))).
Proof.
  intros He Hids. rewrite batch_main_unfold, (evaluate_index_run _ _ job_ids) by done.
  unfold trace, outcome. cbn [fst snd]. split_and!; [done| |].
  - rewrite !elem_of_app. do 3 right. unfold trace_of. apply elem_of_app. left. by left.
  - rewrite !List.filter_app, filter_job_lines_setup, filter_job_lines_trace_of. done.
Qed.

(** Claim C39. The index is parsed outside any [try]: a line that does
    not parse, or whose entry has no ['job_id'], makes the whole run raise
    before any job is evaluated, wherever the line stands. *)
Theorem batch_main_bad_line env fs text pre line post e :
  fs_exists fs index_path = true → fs_read fs index_path = Ok text →
  readlines text = pre ++ line :: post →
  Forall (λ l, is_ok (job_id_of_line l) = true) pre →
  job_id_of_line line = Raise e →
  outcome (batch_main env fs) = Raise e ∧
  List.filter is_job_line (trace (batch_main env fs)) = [].
Proof.
  intros He Hr Hl Hpre Hline. rewrite batch_main_unfold.
  assert (evaluate_index fs (snd (check_langsmith_setup env)) = ([], Raise e)) as ->.
  { unfold evaluate_index, read_job_ids, lift. rewrite He, Hr. cbn [negb result_bind].
    by rewrite Hl, (traverse_Raise_at _ pre line post e). }
  unfold trace, outcome. cbn [fst snd]. split; [done|].
  by rewrite !List.filter_app, filter_job_lines_setup.
Qed.

(** Without an index the batch run prints that there is none
    and returns: nothing is read and nothing is evaluated. *)
Theorem batch_main_no_index env fs :
  fs_exists fs index_path = false →
  batch_main env fs =
  ([BTitle; BRule 50] ++ (BSetup <$> fst (check_langsmith_setup env)) ++
   [BBlank; BNoIndex], Ok tt).
Proof.
  intros He. rewrite batch_main_unfold. unfold evaluate_index. by rewrite He.
Qed.

(** Claim C40. Every share printed in the summary (average coverage,
    jobs with technical terms, average completeness, jobs with salary
    data) lies between 0 and 1, when the identifiers of the index are
    strings; the summary divides by the number of successful reports only
    when there is one. *)
Theorem batch_main_shares env fs o q :
  (∀ job_ids, read_job_ids fs = Ok job_ids → Forall (λ v, is_str v = true) job_ids) →
  o ∈ trace (batch_main env fs) → share_of o = Some q → (0 <= q <= 1)%Q.
Proof.
  intros Hstr Ho Hq. rewrite batch_main_unfold in Ho. unfold trace at 1 in Ho.
  cbn [fst] in Ho. rewrite !elem_of_app, list_elem_of_fmap in Ho.
  destruct Ho as [Ho|[(? & -> & _)|[Ho|Ho]]]; try done.
  { repeat (apply elem_of_cons in Ho as [->|Ho]); try done. by apply elem_of_nil in Ho. }
  { by apply list_elem_of_singleton in Ho as ->. }
  destruct (fs_exists fs index_path) eqn:He.
  2: { unfold evaluate_index in Ho. rewrite He in Ho.
       by apply list_elem_of_singleton in Ho as ->. }
  destruct (read_job_ids fs) as [job_ids|e] eqn:Hids.
  2: { unfold evaluate_index, lift in Ho. rewrite He, Hids in Ho.
       by apply elem_of_nil in Ho. }
  rewrite (evaluate_index_run _ _ job_ids) in Ho by done.
  apply (share_in_trace_of _ _ _ _ q) in Ho as [Ho|Ho]; [| |done].
  - destruct (terms_summary_run (evaluate_terms_of fs <$> job_ids)) as (_ & _ & Hb).
    apply (Hb (successful_terms_bounds fs job_ids (Hstr _ eq_refl)) o q Ho Hq).
  - destruct (completeness_summary_run (evaluate_completeness_of fs <$> job_ids))
      as (_ & _ & Hb).
    apply (Hb (successful_completeness_bounds fs job_ids (Hstr _ eq_refl)) o q Ho Hq).
Qed.

End batch_properties.

(** * Examples *)

(** An index of three lines: job 41, which has no files, and job 42
    twice. *)
Definition batch_index : string :=
  text_line sample_line_41 +:+ text_line sample_line_42 +:+ text_line sample_line_42.

Definition batch_fs : memfs :=
  mem_of_list
    [("logs/42/job-20240101.json", sample_old_text);
     ("logs/42/job-20240215.json", sample_new_text);
     ("data/index.jsonl", batch_index)].

Definition example_other : OtherIds := {|
  other_terms _ := ErrorReport EmptyString EmptyString;
  other_completeness _ := ErrorReport EmptyString EmptyString;
|}.

Definition batch_job_ids : list pyval := [PStr "41"; PStr "42"; PStr "42"].

(** The whole run: job 41 fails twice and prints nothing, job 42 is
    reported twice and counted twice. *)
Lemma batch_example :
  @batch_main _ _ sample_codec example_other example_offline batch_fs =
  ([BTitle; BRule 50; BSetup (OutConnectionFailed "Connection refused");
    BSetup OutCheckKey; BBlank;
    BEvaluating 3; BBlank; BTermsHeader; BRule 30;
    BTermsLine (PStr "42") 2 (1 # 2) true; BTermsLine (PStr "42") 2 (1 # 2) true;
    BBlank; BCompletenessHeader; BRule 30;
    BCompletenessLine (PStr "42") (1 # 2) false 24;
    BCompletenessLine (PStr "42") (1 # 2) false 24;
    BBlank; BSummaryHeader; BRule 20;
    BAvgTerms 2; BAvgCoverage (1 # 2); BTechPct 1;
    BAvgCompleteness (1 # 2); BSalaryPct 0;
    BBlank; BNextSteps; BSetUpKey; BGetKey; BGroundTruth; BThresholds; BABTesting],
   Ok tt).
Proof. by vm_compute. Qed.

Lemma batch_main_returns_witness :
  outcome (@batch_main _ _ sample_codec example_other example_offline batch_fs) = Ok tt ∧
  BEvaluating (length batch_job_ids) ∈
    trace (@batch_main _ _ sample_codec example_other example_offline batch_fs) ∧
  List.filter is_job_line
    (trace (@batch_main _ _ sample_codec example_other example_offline batch_fs)) =
    (batch_job_ids ≫= (λ job_id, terms_line job_id
       (@evaluate_terms_of _ _ sample_codec example_other batch_fs job_id))) ++
    (batch_job_ids ≫= (λ job_id, completeness_line job_id
       (@evaluate_completeness_of _ _ sample_codec example_other batch_fs job_id))).
Proof.
  refine (@batch_main_returns _ _ sample_codec example_other example_offline batch_fs
            batch_job_ids _ _); by vm_compute.
Defined.

(** The third line of the sample index of [Loader] does not parse. *)
Lemma batch_main_bad_line_witness :
  outcome (@batch_main _ _ sample_codec example_other example_offline sample_fs) =
    Raise (Exn JSONDecodeError "Expecting value: line 1 column 1 (char 0)") ∧
  List.filter is_job_line
    (trace (@batch_main _ _ sample_codec example_other example_offline sample_fs)) = [].
Proof.
  refine (@batch_main_bad_line _ _ sample_codec example_other example_offline sample_fs
            sample_index [text_line sample_line_41; text_line ("  " +:+ sample_line_42)]
            (text_line "not json") [text_line sample_line_42] _ _ _ _ _ _);
    [by vm_compute..| |by vm_compute].
  repeat constructor; by vm_compute.
Defined.

Lemma batch_main_no_index_witness :
  @batch_main _ _ sample_codec example_other example_service sample_fs_no_index =
  ([BTitle; BRule 50] ++ (BSetup <$> fst (check_langsmith_setup example_service)) ++
   [BBlank; BNoIndex], Ok tt).
Proof.
  refine (@batch_main_no_index _ _ sample_codec example_other example_service
            sample_fs_no_index _). by vm_compute.
Defined.

Lemma batch_main_shares_witness : (0 <= 1 # 2 <= 1)%Q.
Proof.
  refine (@batch_main_shares _ _ sample_codec example_other example_offline batch_fs
            (BAvgCoverage (1 # 2)) (1 # 2) _ _ eq_refl).
  - intros job_ids Hids. vm_compute in Hids. injection Hids as <-.
    by repeat constructor.
  - rewrite batch_example. unfold trace. cbn [fst].
    repeat first [apply list_elem_of_here | apply list_elem_of_further].
Defined.
