(* ===== verification/Modules.v ===== *)
(** * Modules and packages

    What importing the package executes: the statements at the top of
    evaluators.py (lines 14-27), of cli.py (lines 10-17) and of the two
    [__init__.py] files (lines 7-17), in the order of the source.

    A module is its namespace, a finite map from names to the objects they
    are bound to; an object records where a name comes from, which is all
    the top level of these files decides.  The interpreter keeps the
    modules it has loaded ([sys.modules]): importing is a computation in a
    monad of state and exceptions, in which a module that fails to load is
    not kept while the modules it had loaded are.

    The environment [site] says which files the package directory holds and
    what importing the third-party modules does.  The repository has two
    copies of the package: one with [evaluators.py] and [cli.py] beside
    [__init__.py], one with [__init__.py] alone. *)

From Stdlib Require Import Ascii String.
From stdpp Require Import base list sets strings gmap.
From S2P Require Import Prelude PyStr PyValue.

#[local] Set Warnings "-clear-no-such-hyp".

(** * Objects and namespaces *)

Inductive obj : Type :=
(** [__version__] *)
| OStr (s : string)
(** [LANGSMITH_AVAILABLE] *)
| OBool (b : bool)
(** [__all__] *)
| ONames (names : list string)
(** a [def]: the module that holds it and its name *)
| OFunction (module name : string)
(** [import m] *)
| OModule (name : string)
(** [from m import name] for a module outside the package *)
| OImported (module name : string).

#[export] Instance obj_eq_dec : EqDecision obj.
Proof. solve_decision. Defined.

Definition namespace : Type := gmap string obj.

Definition bind (name : string) (o : obj) (ns : namespace) : namespace :=
  <[name := o]> ns.

(** [def name(...)] at the top of the module [module] *)
Definition define (module : string) (names : list string) (ns : namespace) : namespace :=
  foldl (λ ns name, bind name (OFunction module name) ns) ns names.

(** * The environment *)

Record site : Type := Site {
  (** the directory of the package *)
  package_dir : string;
  (** the module files it holds *)
  package_files : list string;
  (** [from dotenv import load_dotenv] *)
  import_dotenv : pyres unit;
  (** [load_dotenv()] *)
  run_load_dotenv : pyres unit;
  (** [from langsmith import Client] *)
  import_langsmith : pyres unit;
  (** [from langsmith.evaluation import evaluate] *)
  import_langsmith_evaluation : pyres unit;
}.

Definition package : string := "job_extractor_eval".

Definition evaluators_module : string := package +:+ ".evaluators".

Definition cli_module : string := package +:+ ".cli".

Definition module_not_found_error (name : string) : exn :=
  Exn ModuleNotFoundError ("No module named '" +:+ name +:+ "'").

Definition cannot_import_name_error (name module path : string) : exn :=
  Exn ImportError ("cannot import name '" +:+ name +:+ "' from '" +:+ module +:+
                   "' (" +:+ path +:+ ")").

(** [except ImportError] handles the class and its subclass. *)
Definition is_import_error (e : exn) : bool :=
  bool_decide (e_class e ∈ [ImportError; ModuleNotFoundError]).

(** * The interpreter *)

(** [sys.modules], for the modules of the package *)
Record interp : Type := Interp { sys_modules : gmap string namespace }.

#[export] Instance interp_eq_dec : EqDecision interp.
Proof. solve_decision. Defined.

(** The imports run in the monad of state and exceptions of [Prelude],
    on the state of the interpreter. *)
Abbreviation M := (stx interp exn).

(** Loading a module: from the cache, or by executing its file and
    keeping the namespace when the execution returns. *)
Definition import_module (env : site) (name file : string) (exec : M namespace) :
    M namespace := λ st,
  match sys_modules st !! name with
  | Some ns => (st, Ok ns)
  | None =>
      if bool_decide (file ∈ package_files env) then
        match exec st with
        | (st', Ok ns) => (Interp (<[name := ns]> (sys_modules st')), Ok ns)
        | (st', Raise e) => (st', Raise e)
        end
      else (st, Raise (module_not_found_error name))
  end.

(** [from module import (names)] into the namespace [ns], for a module
    loaded from the file [path] *)
Fixpoint from_import (module path : string) (source : namespace) (names : list string)
    (ns : namespace) : pyres namespace :=
  match names with
  | [] => Ok ns
  | name :: names' =>
      match source !! name with
      | Some o => from_import module path source names' (bind name o ns)
      | None => Raise (cannot_import_name_error name module path)
      end
  end.

(** * evaluators.py *)

(** The functions evaluators.py defines, in the order of the file. *)
Definition evaluators_functions : list string :=
  ["load_job_data"; "load_index_entry"; "evaluate_required_terms_quality";
   "evaluate_extraction_completeness"; "check_langsmith_setup"; "main"].

(** Lines 22-27: the optional import. *)
Definition try_import_langsmith (env : site) (ns : namespace) : pyres namespace :=
  let unavailable ns e :=
    if is_import_error e then Ok (bind "LANGSMITH_AVAILABLE" (OBool false) ns)
    else Raise e in
  match import_langsmith env with
  | Raise e => unavailable ns e
  | Ok _ =>
      let ns := bind "Client" (OImported "langsmith" "Client") ns in
      match import_langsmith_evaluation env with
      | Raise e => unavailable ns e
      | Ok _ =>
          let ns := bind "evaluate" (OImported "langsmith.evaluation" "evaluate") ns in
          Ok (bind "LANGSMITH_AVAILABLE" (OBool true) ns)
      end
  end.

(** The top level of evaluators.py, up to the definitions. *)
Definition exec_evaluators (env : site) : pyres namespace :=
  let ns := bind "json" (OModule "json") ∅ in
  let ns := bind "os" (OModule "os") ns in
  let ns := bind "List" (OImported "typing" "List") ns in
  let ns := bind "Dict" (OImported "typing" "Dict") ns in
  let ns := bind "Any" (OImported "typing" "Any") ns in
  let* _ := import_dotenv env in
  let ns := bind "load_dotenv" (OImported "dotenv" "load_dotenv") ns in
  let* _ := run_load_dotenv env in
  let* ns := try_import_langsmith env ns in
  Ok (define evaluators_module evaluators_functions ns).

Definition import_evaluators (env : site) : M namespace :=
  import_module env evaluators_module "evaluators.py" (stx_lift (exec_evaluators env)).

Definition evaluators_path (env : site) : string := package_dir env +:+ "/evaluators.py".

(** * __init__.py *)

Definition exported : list string :=
  ["evaluate_required_terms_quality"; "evaluate_extraction_completeness"].

(** What [__init__.py] binds once evaluators.py is loaded. *)
Definition init_bindings (env : site) (evaluators : namespace) : pyres namespace :=
  let ns := bind "__version__" (OStr "1.0.0") ∅ in
  let ns := bind "evaluators" (OModule evaluators_module) ns in
  let* ns := from_import evaluators_module (evaluators_path env) evaluators exported ns in
  Ok (bind "__all__" (ONames exported) ns).

(** The top level of [__init__.py]. *)
Definition exec_init (env : site) : M namespace :=
  evaluators ← import_evaluators env;
  stx_lift (init_bindings env evaluators).

(** [import job_extractor_eval] *)
Definition import_package (env : site) : M namespace :=
  import_module env package "__init__.py" (exec_init env).

(** * cli.py *)

(** The names cli.py takes from evaluators.py. *)
Definition cli_imports : list string :=
  ["evaluate_required_terms_quality"; "evaluate_extraction_completeness";
   "check_langsmith_setup"].

(** What cli.py binds once evaluators.py is loaded; [name] is the name the
    module runs under, [__main__] when it is the program. *)
Definition cli_bindings (env : site) (name : string) (evaluators : namespace) :
    pyres namespace :=
  let ns := bind "sys" (OModule "sys") ∅ in
  let ns := bind "argparse" (OModule "argparse") ns in
  let ns := bind "Optional" (OImported "typing" "Optional") ns in
  let* ns := from_import evaluators_module (evaluators_path env) evaluators
               cli_imports ns in
  Ok (define name ["main"] ns).

(** The top level of cli.py, up to the definition of [main]. *)
Definition exec_cli (env : site) (name : string) : M namespace :=
  evaluators ← import_evaluators env;
  stx_lift (cli_bindings env name evaluators).

(** [import job_extractor_eval.cli]: the package first, then the module. *)
Definition import_cli (env : site) : M namespace :=
  import_package env;;
  import_module env cli_module "cli.py" (exec_cli env cli_module).

(** The interpreter at its start. *)
Definition fresh : interp := Interp ∅.

(** The loaded modules are what executing their files gives: the cache is
    coherent with the files. *)
Definition coherent (env : site) (st : interp) : Prop :=
  (∀ ns, sys_modules st !! evaluators_module = Some ns → exec_evaluators env = Ok ns) ∧
  (∀ ns, sys_modules st !! package = Some ns →
     ∃ ev, sys_modules st !! evaluators_module = Some ev ∧ init_bindings env ev = Ok ns) ∧
  (∀ ns, sys_modules st !! cli_module = Some ns →
     ∃ ev, sys_modules st !! evaluators_module = Some ev ∧
           cli_bindings env cli_module ev = Ok ns).

(** * The statements that import, and the states they reach *)

(** The [import] statements a program may run on the package. A dotted
    name loads the package first. *)
Inductive import_stmt : Type :=
(** [import job_extractor_eval] *)
| ImportPackage
(** [import job_extractor_eval.evaluators] *)
| ImportEvaluators
(** [import job_extractor_eval.cli] *)
| ImportCli.

#[export] Instance import_stmt_eq_dec : EqDecision import_stmt.
Proof. solve_decision. Defined.

Definition module_of (i : import_stmt) : string :=
  match i with
  | ImportPackage => package
  | ImportEvaluators => evaluators_module
  | ImportCli => cli_module
  end.

Definition run_import (env : site) (i : import_stmt) : M namespace :=
  match i with
  | ImportPackage => import_package env
  | ImportEvaluators => import_package env;; import_evaluators env
  | ImportCli => import_cli env
  end.

(** A program that runs imports one after the other and goes on when one
    raises (each in a [try]): the interpreter it ends in. *)
Definition run_imports (env : site) (l : list import_stmt) (st : interp) : interp :=
  foldl (λ st i, (run_import env i st).1) st l.

(** * The namespaces the files build *)

(** The namespace of evaluators.py when it has loaded: [client] says
    whether [Client] was imported, [available] is the flag. *)
Definition evaluators_namespace (client available : bool) : namespace :=
  let ns := bind "json" (OModule "json") ∅ in
  let ns := bind "os" (OModule "os") ns in
  let ns := bind "List" (OImported "typing" "List") ns in
  let ns := bind "Dict" (OImported "typing" "Dict") ns in
  let ns := bind "Any" (OImported "typing" "Any") ns in
  let ns := bind "load_dotenv" (OImported "dotenv" "load_dotenv") ns in
  let ns := if client then bind "Client" (OImported "langsmith" "Client") ns else ns in
  let ns := if available
            then bind "evaluate" (OImported "langsmith.evaluation" "evaluate") ns
            else ns in
  define evaluators_module evaluators_functions
    (bind "LANGSMITH_AVAILABLE" (OBool available) ns).

(** The namespace of the package when [__init__.py] has run. *)
Definition package_namespace : namespace :=
  bind "__all__" (ONames exported)
    (define evaluators_module exported
       (bind "evaluators" (OModule evaluators_module)
          (bind "__version__" (OStr "1.0.0") ∅))).

(** The namespace of cli.py when its top level has run under [name]. *)
Definition cli_namespace (name : string) : namespace :=
  define name ["main"]
    (define evaluators_module cli_imports
       (bind "Optional" (OImported "typing" "Optional")
          (bind "argparse" (OModule "argparse") (bind "sys" (OModule "sys") ∅)))).

(** A computation keeps what is loaded, and keeps the cache coherent. *)
Definition preserves (env : site) {A} (m : M A) : Prop :=
  ∀ st st' r, m st = (st', r) →
    sys_modules st ⊆ sys_modules st' ∧ (coherent env st → coherent env st').

(** * The two copies of the package *)

(** The copy under src/components: the three files, no tracing client
    installed. *)
Definition components_site : site :=
  {| package_dir := "src/components/evaluation/python/src/job_extractor_eval";
     package_files := ["__init__.py"; "cli.py"; "evaluators.py"];
     import_dotenv := Ok ();
     run_load_dotenv := Ok ();
     import_langsmith := Raise (module_not_found_error "langsmith");
     import_langsmith_evaluation := Raise (module_not_found_error "langsmith") |}.

(** The copy under src/packages: [__init__.py] alone. *)
Definition packages_site : site :=
  {| package_dir := "src/packages/evaluation/python/src/job_extractor_eval";
     package_files := ["__init__.py"];
     import_dotenv := Ok ();
     run_load_dotenv := Ok ();
     import_langsmith := Ok ();
     import_langsmith_evaluation := Ok () |}.

(** The first copy beside a tracing client that has no [evaluation]
    module: the first import of the [try] returns, the second raises. *)
Definition partial_client_site : site :=
  {| package_dir := "src/components/evaluation/python/src/job_extractor_eval";
     package_files := ["__init__.py"; "cli.py"; "evaluators.py"];
     import_dotenv := Ok ();
     run_load_dotenv := Ok ();
     import_langsmith := Ok ();
     import_langsmith_evaluation := Raise (module_not_found_error "langsmith.evaluation") |}.

(** The top level of [__init__.py] in each copy: the same statements, in
    a different directory. *)
Definition components_init : M namespace := exec_init components_site.

Definition packages_init : M namespace := exec_init packages_site.

(** The interpreter once the first copy has loaded cli.py. *)
Definition loaded_cli : interp :=
  Interp (<[cli_module := cli_namespace cli_module]>
            (<[package := package_namespace]>
               (<[evaluators_module := evaluators_namespace false false]> ∅))).

(** * Namespaces *)

Lemma lookup_bind_eq name o ns : bind name o ns !! name = Some o.
Proof. apply lookup_insert_eq. Qed.

Lemma lookup_bind_ne name name' o ns :
  name ≠ name' → bind name o ns !! name' = ns !! name'.
Proof. apply lookup_insert_ne. Qed.

Lemma define_cons module name names ns :
  define module (name :: names) ns =
  define module names (bind name (OFunction module name) ns).
Proof. done. Qed.

Lemma define_nil module ns : define module [] ns = ns.
Proof. done. Qed.

(** * Loading a module *)

Section import_module.
Context (env : site) (name file : string) (exec : M namespace).

Lemma import_module_cached st ns :
  sys_modules st !! name = Some ns → import_module env name file exec st = (st, Ok ns).
Proof. intros Hc. unfold import_module. by rewrite Hc. Qed.

(** What loading returns is in the cache afterwards. *)
Lemma import_module_Ok st st' ns :
  import_module env name file exec st = (st', Ok ns) →
  sys_modules st' !! name = Some ns ∧
  (sys_modules st !! name = Some ns ∧ st' = st ∨
   sys_modules st !! name = None ∧ file ∈ package_files env ∧
   ∃ st1, exec st = (st1, Ok ns) ∧ st' = Interp (<[name := ns]> (sys_modules st1))).
Proof.
  unfold import_module. destruct (sys_modules st !! name) as [ns0|] eqn:Hc.
  { intros [= <- <-]. auto. }
  case_bool_decide; [|done]. destruct (exec st) as [st1 [ns1|e]] eqn:He; [|done].
  intros [= <- <-]. cbn [sys_modules]. split; [by rewrite lookup_insert_eq|]. right. eauto.
Qed.

Lemma import_module_Raise st st' e :
  import_module env name file exec st = (st', Raise e) →
  sys_modules st !! name = None ∧
  ((file ∉ package_files env) ∧ e = module_not_found_error name ∧ st' = st ∨
   file ∈ package_files env ∧ exec st = (st', Raise e)).
Proof.
  unfold import_module. destruct (sys_modules st !! name) as [ns0|] eqn:Hc; [done|].
  case_bool_decide.
  - destruct (exec st) as [st1 [ns1|e1]] eqn:He; [done|]. intros [= <- <-]. auto.
  - intros [= <- <-]. auto.
Qed.

End import_module.

(** * evaluators.py: what it binds *)

(** The namespace evaluators.py ends with: [Client] is bound when the
    first import of the tracing client returned, the flag says whether
    both did. *)
Lemma exec_evaluators_Ok env ns :
  exec_evaluators env = Ok ns →
  ns = evaluators_namespace (is_ok (import_langsmith env))
         (is_ok (import_langsmith env) && is_ok (import_langsmith_evaluation env)).
Proof.
  unfold exec_evaluators, try_import_langsmith.
  destruct (import_dotenv env); [|done]. destruct (run_load_dotenv env); [|done].
  cbn [result_bind].
  destruct (import_langsmith env) as [|e1];
    [destruct (import_langsmith_evaluation env) as [|e2]|];
    cbn [result_bind is_ok andb]; try destruct (is_import_error _);
    (intros <-%Ok_inj || discriminate); compute_done.
Qed.

Lemma exec_evaluators_cases env ns :
  exec_evaluators env = Ok ns →
  ∃ client,
    ns = evaluators_namespace client
           (is_ok (import_langsmith env) && is_ok (import_langsmith_evaluation env)).
Proof. intros ->%exec_evaluators_Ok. by eexists. Qed.

(** Every function of the file is bound, and so is the flag. *)
Lemma evaluators_namespace_bound client available :
  Forall (λ name, evaluators_namespace client available !! name =
                  Some (OFunction evaluators_module name)) evaluators_functions ∧
  evaluators_namespace client available !! "LANGSMITH_AVAILABLE" = Some (OBool available).
Proof. destruct client, available; compute_done. Qed.

(** The names [__init__.py] and cli.py take from evaluators.py are names
    evaluators.py defines. *)
Lemma imported_names_defined :
  exported ⊆ evaluators_functions ∧ cli_imports ⊆ evaluators_functions.
Proof. split; intros name Hn; repeat (apply elem_of_cons in Hn as [->|Hn]); set_solver. Qed.

(** A [from ... import] of names the source binds returns, whatever else
    the source binds. *)
Lemma from_import_evaluators path client available names ns :
  names ⊆ evaluators_functions →
  from_import evaluators_module path (evaluators_namespace client available) names ns =
  Ok (define evaluators_module names ns).
Proof.
  revert ns. induction names as [|name names IH]; intros ns Hsub; [done|].
  cbn [from_import]. unfold define. cbn [foldl].
  destruct (evaluators_namespace_bound client available) as [Hb _].
  rewrite Forall_forall in Hb. rewrite (Hb name) by set_solver.
  apply IH. set_solver.
Qed.

(** [__init__.py] finds the names it takes. *)
Lemma init_bindings_Ok env ev :
  exec_evaluators env = Ok ev → init_bindings env ev = Ok package_namespace.
Proof.
  intros [client ->]%exec_evaluators_cases. unfold init_bindings.
  by rewrite from_import_evaluators by apply imported_names_defined.
Qed.

(** cli.py finds the names it takes. *)
Lemma cli_bindings_Ok env name ev :
  exec_evaluators env = Ok ev → cli_bindings env name ev = Ok (cli_namespace name).
Proof.
  intros [client ->]%exec_evaluators_cases. unfold cli_bindings.
  by rewrite from_import_evaluators by apply imported_names_defined.
Qed.

(** What the package exports: every name of [__all__] is bound to the
    function of evaluators.py of that name. *)
Lemma package_namespace_exports :
  package_namespace !! "__all__" = Some (ONames exported) ∧
  package_namespace !! "__version__" = Some (OStr "1.0.0") ∧
  Forall (λ name, package_namespace !! name = Some (OFunction evaluators_module name))
    exported.
Proof. compute_done. Qed.

Lemma cli_namespace_main name :
  cli_namespace name !! "main" = Some (OFunction name "main") ∧
  Forall (λ n, cli_namespace name !! n = Some (OFunction evaluators_module n)) cli_imports.
Proof.
  unfold cli_namespace. rewrite define_cons, define_nil.
  split; [apply lookup_bind_eq|].
  unfold cli_imports. rewrite !Forall_cons, Forall_nil. rewrite !lookup_bind_ne by done.
  repeat split; compute_done.
Qed.

(** * Loading keeps what is loaded and keeps the cache coherent *)

Lemma module_names_ne :
  evaluators_module ≠ package ∧ cli_module ≠ package ∧ evaluators_module ≠ cli_module.
Proof. compute_done. Qed.

Section preserves.
Context (env : site).

Lemma preserves_lift {A} (r : pyres A) : preserves env (stx_lift r).
Proof. by intros st st' r' [= <- _]. Qed.

Lemma preserves_bind {A B} (m : M A) (k : A → M B) :
  preserves env m → (∀ a, preserves env (k a)) → preserves env (m ≫= k).
Proof.
  intros Hm Hk st st' r [(st1 & a & H1 & H2)|(e & H1 & _)]%stx_bind_inv.
  - destruct (Hm _ _ _ H1) as [? ?], (Hk _ _ _ _ H2) as [? ?].
    split; [by etrans|auto].
  - by apply (Hm _ _ _ H1).
Qed.

(** Loading a module preserves, when executing its file does and when the
    namespace it returns is what the cache may hold under its name. *)
Lemma preserves_import_module name file (exec : M namespace) :
  preserves env exec →
  (∀ st st1 ns, sys_modules st !! name = None → exec st = (st1, Ok ns) →
     sys_modules st1 !! name = None ∧
     (coherent env st1 → coherent env (Interp (<[name := ns]> (sys_modules st1))))) →
  preserves env (import_module env name file exec).
Proof.
  intros Hexec Hload st st' [ns|e].
  - intros [_ [[_ ->]|(Hn & _ & st1 & He & ->)]]%import_module_Ok; [done|].
    destruct (Hexec _ _ _ He) as [Hsub Hco], (Hload _ _ _ Hn He) as [Hn1 Hco1].
    cbn [sys_modules]. split; [|by auto].
    etrans; [exact Hsub|]. by apply insert_subseteq.
  - intros [_ [(_ & _ & ->)|[_ He]]]%import_module_Raise; [done|].
    by apply (Hexec _ _ _ He).
Qed.

Lemma coherent_load_evaluators st ns :
  sys_modules st !! evaluators_module = None → exec_evaluators env = Ok ns →
  coherent env st → coherent env (Interp (<[evaluators_module := ns]> (sys_modules st))).
Proof.
  destruct module_names_ne as (? & ? & ?). intros Hn Hex (_ & Hp & Hc).
  unfold coherent. cbn [sys_modules]. rewrite lookup_insert_eq, !lookup_insert_ne by done.
  split_and!.
  - by intros ? [= <-].
  - intros p [ev [Hev _]]%Hp. congruence.
  - intros c [ev [Hev _]]%Hc. congruence.
Qed.

Lemma coherent_load_package st ev ns :
  sys_modules st !! evaluators_module = Some ev → init_bindings env ev = Ok ns →
  coherent env st → coherent env (Interp (<[package := ns]> (sys_modules st))).
Proof.
  destruct module_names_ne as (? & ? & ?). intros Hev Hinit (He & _ & Hc).
  unfold coherent. cbn [sys_modules]. rewrite lookup_insert_eq, !lookup_insert_ne by done.
  split_and!; [done| |done]. intros ? [= <-]. eauto.
Qed.

Lemma coherent_load_cli st ev ns :
  sys_modules st !! evaluators_module = Some ev → cli_bindings env cli_module ev = Ok ns →
  coherent env st → coherent env (Interp (<[cli_module := ns]> (sys_modules st))).
Proof.
  destruct module_names_ne as (? & ? & ?). intros Hev Hcli (He & Hp & _).
  unfold coherent. cbn [sys_modules]. rewrite lookup_insert_eq, !lookup_insert_ne by done.
  split_and!; [done|done|]. intros ? [= <-]. eauto.
Qed.

Lemma preserves_import_evaluators : preserves env (import_evaluators env).
Proof.
  apply preserves_import_module; [apply preserves_lift|].
  intros st st1 ns Hn [= <- Hex]. split; [done|]. by apply coherent_load_evaluators.
Qed.

(** What loading evaluators.py returns is cached, and other modules are
    where they were. *)
Lemma import_evaluators_Ok st st' ev :
  import_evaluators env st = (st', Ok ev) →
  sys_modules st' !! evaluators_module = Some ev ∧
  ∀ name, name ≠ evaluators_module → sys_modules st' !! name = sys_modules st !! name.
Proof.
  intros [Hev [[_ ->]|(_ & _ & st1 & [= <- _] & ->)]]%import_module_Ok; [done|].
  split; [done|]. intros name Hne. cbn [sys_modules]. by rewrite lookup_insert_ne.
Qed.

(** Executing a file that starts by loading evaluators.py and then binds
    names: what it returns, and what it leaves. *)
Lemma exec_after_evaluators_Ok (bindings : namespace → pyres namespace) st st1 ns :
  (import_evaluators env ≫= λ ev, stx_lift (bindings ev)) st = (st1, Ok ns) →
  ∃ ev, sys_modules st1 !! evaluators_module = Some ev ∧ bindings ev = Ok ns ∧
        ∀ name, name ≠ evaluators_module → sys_modules st1 !! name = sys_modules st !! name.
Proof.
  intros [(st2 & ev & Hev & [= <- Hb])|(e & _ & [=])]%stx_bind_inv.
  apply import_evaluators_Ok in Hev as [? ?]. eauto.
Qed.

Lemma preserves_exec_after_evaluators (bindings : namespace → pyres namespace) :
  preserves env (import_evaluators env ≫= λ ev, stx_lift (bindings ev)).
Proof.
  apply preserves_bind; [apply preserves_import_evaluators|].
  intros ev. apply preserves_lift.
Qed.

Lemma preserves_import_package : preserves env (import_package env).
Proof.
  destruct module_names_ne as (? & ? & ?).
  apply preserves_import_module; [apply preserves_exec_after_evaluators|].
  intros st st1 ns Hn (ev & Hev & Hb & Hsame)%exec_after_evaluators_Ok.
  split; [by rewrite Hsame|]. by apply coherent_load_package with ev.
Qed.

Lemma preserves_load_cli :
  preserves env (import_module env cli_module "cli.py" (exec_cli env cli_module)).
Proof.
  destruct module_names_ne as (? & ? & ?).
  apply preserves_import_module; [apply preserves_exec_after_evaluators|].
  intros st st1 ns Hn (ev & Hev & Hb & Hsame)%exec_after_evaluators_Ok.
  split; [by rewrite Hsame|]. by apply coherent_load_cli with ev.
Qed.

Lemma preserves_import_cli : preserves env (import_cli env).
Proof.
  apply preserves_bind; [apply preserves_import_package|]. intros _.
  apply preserves_load_cli.
Qed.

Lemma preserves_run_import i : preserves env (run_import env i).
Proof.
  destruct i; cbn [run_import];
    [apply preserves_import_package| |apply preserves_import_cli].
  apply preserves_bind; [apply preserves_import_package|].
  intros _. apply preserves_import_evaluators.
Qed.

Lemma coherent_fresh : coherent env fresh.
Proof. unfold coherent, fresh. cbn [sys_modules]. by rewrite !lookup_empty. Qed.

Lemma run_imports_coherent l st : coherent env st → coherent env (run_imports env l st).
Proof.
  revert st. induction l as [|i l IH]; intros st Hst; [done|]. apply IH.
  destruct (run_import env i st) as [st' r] eqn:Hi.
  by apply (preserves_run_import i _ _ _ Hi).
Qed.

(** * A module that is loaded is not loaded again *)

(** An import that returned has left the package and the module it names
    in the cache. *)
Lemma run_import_Ok i st st' ns :
  run_import env i st = (st', Ok ns) →
  is_Some (sys_modules st' !! package) ∧ sys_modules st' !! module_of i = Some ns.
Proof.
  destruct i; cbn [run_import module_of].
  - intros [Hp _]%import_module_Ok. eauto.
  - intros [(st1 & p & Hp & Hev)|(e & _ & [=])]%stx_bind_inv.
    apply import_module_Ok in Hp as [Hp _].
    split; [|by apply import_module_Ok in Hev as [? _]].
    exists p. by apply (lookup_weaken _ _ _ _ Hp), (preserves_import_evaluators _ _ _ Hev).
  - intros [(st1 & p & Hp & Hc)|(e & _ & [=])]%stx_bind_inv.
    apply import_module_Ok in Hp as [Hp _].
    split; [|by apply import_module_Ok in Hc as [? _]].
    exists p. by apply (lookup_weaken _ _ _ _ Hp), (preserves_load_cli _ _ _ Hc).
Qed.

End preserves.

(** With the package and the module in the cache, an import returns the
    module and executes nothing, whatever the files are by then. *)
Lemma run_import_cached env i st p ns :
  sys_modules st !! package = Some p → sys_modules st !! module_of i = Some ns →
  run_import env i st = (st, Ok ns).
Proof.
  intros Hp Hm. destruct i; cbn [run_import module_of] in *.
  - by apply import_module_cached.
  - rewrite (stx_bind_Ok _ _ st st p) by by apply import_module_cached.
    by apply import_module_cached.
  - unfold import_cli. rewrite (stx_bind_Ok _ _ st st p) by by apply import_module_cached.
    by apply import_module_cached.
Qed.

(** * The copy that lacks evaluators.py *)

Lemma run_import_incomplete env i st :
  "__init__.py" ∈ package_files env → "evaluators.py" ∉ package_files env →
  sys_modules st !! package = None → sys_modules st !! evaluators_module = None →
  run_import env i st = (st, Raise (module_not_found_error evaluators_module)).
Proof.
  intros Hinit Hev Hp He.
  assert (import_package env st = (st, Raise (module_not_found_error evaluators_module)))
    as Hpkg.
  { unfold import_package, import_module. rewrite Hp, bool_decide_eq_true_2 by done.
    unfold exec_init, mbind, stx_bind, import_evaluators, import_module.
    by rewrite He, bool_decide_eq_false_2 by done. }
  destruct i; cbn [run_import]; [done| |unfold import_cli]; by rewrite (stx_bind_Raise _ _ _ _ _ Hpkg).
Qed.

(** * What a coherent cache holds *)

Lemma coherent_evaluators env st ev :
  coherent env st → sys_modules st !! evaluators_module = Some ev →
  ∃ client,
    ev = evaluators_namespace client
           (is_ok (import_langsmith env) && is_ok (import_langsmith_evaluation env)).
Proof. intros (He & _) Hev. by apply exec_evaluators_cases, He. Qed.

Lemma coherent_package env st ns :
  coherent env st → sys_modules st !! package = Some ns → ns = package_namespace.
Proof.
  intros (He & Hp & _) (ev & Hev & Hns)%Hp.
  rewrite (init_bindings_Ok env ev) in Hns by by apply He. by apply Ok_inj in Hns.
Qed.

Lemma coherent_cli env st ns :
  coherent env st → sys_modules st !! cli_module = Some ns → ns = cli_namespace cli_module.
Proof.
  intros (He & _ & Hc) (ev & Hev & Hns)%Hc.
  rewrite (cli_bindings_Ok env _ ev) in Hns by by apply He. by apply Ok_inj in Hns.
Qed.

(** * Theorems *)

(** Importing is idempotent: an import that returned returns
    the same module when it is run again, leaves the interpreter as it is
    and executes no file, even when the files have changed since. *)
Theorem import_idempotent env env' i st st' ns :
  run_import env i st = (st', Ok ns) → run_import env' i st' = (st', Ok ns).
Proof. intros [[p Hp] Hm]%run_import_Ok. by apply run_import_cached with p. Qed.

Lemma import_idempotent_witness :
  run_import packages_site ImportCli loaded_cli = (loaded_cli, Ok (cli_namespace cli_module)).
Proof.
  apply (import_idempotent components_site packages_site ImportCli fresh). compute_done.
Defined.

(** Claim C36. When the package is loaded every name of its [__all__] is
    bound in it, to the function evaluators.py defines under that name,
    and evaluators.py is loaded and binds the name to the same function. *)
Theorem package_all_resolves env l ns :
  sys_modules (run_imports env l fresh) !! package = Some ns →
  ∃ names ev,
    ns !! "__all__" = Some (ONames names) ∧
    sys_modules (run_imports env l fresh) !! evaluators_module = Some ev ∧
    Forall (λ name, ns !! name = Some (OFunction evaluators_module name) ∧
                    ev !! name = ns !! name) names.
Proof.
  pose proof (run_imports_coherent env l fresh (coherent_fresh env)) as Hco.
  intros Hp. rewrite (coherent_package _ _ _ Hco Hp).
  destruct Hco as (He & Hpk & _). destruct (Hpk _ Hp) as (ev & Hev & _).
  destruct (exec_evaluators_cases _ _ (He _ Hev)) as [client ->].
  eexists exported, _. split_and!; [compute_done|exact Hev|].
  destruct client, (is_ok _ && is_ok _); compute_done.
Qed.

Lemma package_all_resolves_witness :
  ∃ ns names ev,
    sys_modules (run_imports components_site [ImportPackage] fresh) !! package = Some ns ∧
    ns !! "__all__" = Some (ONames names) ∧
    sys_modules (run_imports components_site [ImportPackage] fresh) !! evaluators_module =
      Some ev ∧
    Forall (λ name, ns !! name = Some (OFunction evaluators_module name) ∧
                    ev !! name = ns !! name) names.
Proof.
  exists package_namespace.
  destruct (package_all_resolves components_site [ImportPackage] package_namespace)
    as (names & ev & ?); [compute_done|]. by exists names, ev.
Defined.

(** Claim C35. In a loaded evaluators.py the flag [LANGSMITH_AVAILABLE] is
    bound, and it is true exactly when both imports of the tracing client
    returned; [evaluate] is bound exactly when the flag is true, and
    [Client] exactly when the first import returned: when the first
    import returns and the second raises [ImportError], [Client] stays
    bound while the flag is false. *)
Theorem langsmith_available_flag env l ev :
  sys_modules (run_imports env l fresh) !! evaluators_module = Some ev →
  ev !! "LANGSMITH_AVAILABLE" =
    Some (OBool (is_ok (import_langsmith env) && is_ok (import_langsmith_evaluation env))) ∧
  (is_Some (ev !! "evaluate") ↔
   is_ok (import_langsmith env) && is_ok (import_langsmith_evaluation env) = true) ∧
  (is_Some (ev !! "Client") ↔ is_ok (import_langsmith env) = true).
Proof.
  intros Hev.
  destruct (run_imports_coherent env l fresh (coherent_fresh env)) as (Hex & _).
  rewrite (exec_evaluators_Ok env ev (Hex ev Hev)).
  destruct (is_ok (import_langsmith env)), (is_ok (import_langsmith_evaluation env));
    (split_and!; [compute_done|..]);
    rewrite <- ?not_eq_None_Some; split; first [done|compute_done].
Qed.

(** The two copies: the first initialises, the second does not. *)
Example components_init_fresh :
  snd (components_init fresh) = Ok package_namespace.
Proof. compute_done. Qed.

Example packages_init_fresh :
  packages_init fresh = (fresh, Raise (module_not_found_error evaluators_module)).
Proof. compute_done. Qed.

(** A client without its [evaluation] module: [Client] is bound, the flag
    is false. *)
Lemma langsmith_available_flag_witness :
  ∃ ev, sys_modules (run_imports partial_client_site [ImportCli] fresh) !! evaluators_module =
          Some ev ∧
        ev !! "LANGSMITH_AVAILABLE" = Some (OBool false) ∧
        (is_Some (ev !! "evaluate") ↔ false = true) ∧
        (is_Some (ev !! "Client") ↔ true = true).
Proof.
  exists (evaluators_namespace true false).
  split; [compute_done|].
  apply (langsmith_available_flag partial_client_site [ImportCli]). compute_done.
Defined.
