(* ===== verification/Args.v ===== *)
(** * The command line: from [argv] to the arguments

    [main] of cli.py builds an [argparse] parser (lines 22-45) and calls
    [parser.parse_args(argv)] (line 46).  This file holds the parser the
    source configures, as data: its option strings with their actions, in
    the order they are added, and its one positional argument, [job_id],
    which may be absent ([nargs="?"]).

    [parse_args] is what the library does with that parser, for the
    actions the parser has (flags that store [True], and [-h]): it
    classifies every argument as an option, an argument or the separator
    [--] (exact option strings, [option=value], unambiguous prefixes of the
    long options, single-dash clusters, negative numbers); it then goes
    through the arguments from the left, the positional taking the first
    argument and every other argument being left over; it takes the action
    of each option where it meets it; at the end it fails when arguments
    were left over.  It returns the arguments, or stops the program:
    [-h] with status 0, an error with status 2.

    Strings are sequences of bytes; a digit is one of the ten ASCII digits.
    A message is the data it is formatted from. *)

From Stdlib Require Import Ascii String ZArith.
From stdpp Require Import base list strings.
From S2P Require Import Prelude PyStr PyValue Interfaces Evaluator Cli.

#[local] Set Warnings "-clear-no-such-hyp".

(** * The parser of cli.py *)

(** The destinations of the three flags. *)
Inductive flag : Type := CheckSetup | TermsOnly | CompletenessOnly.

#[export] Instance flag_eq_dec : EqDecision flag.
Proof. solve_decision. Defined.

(** What an option does: print the help and exit, or store [True]. Both
    take no argument. *)
Inductive action : Type :=
| Help
| StoreTrue (dest : flag).

#[export] Instance action_eq_dec : EqDecision action.
Proof. solve_decision. Defined.

(** The option strings of the parser, in the order they are added: the
    help the parser adds itself, then lines 30-44. *)
Definition option_string_actions : list (string * action) :=
  [("-h", Help); ("--help", Help);
   ("--check-setup", StoreTrue CheckSetup);
   ("--terms-only", StoreTrue TermsOnly);
   ("--completeness-only", StoreTrue CompletenessOnly)].

#[export] Instance args_eq_dec : EqDecision args.
Proof. solve_decision. Defined.

(** The namespace before parsing: [job_id] is [None], the flags [False]. *)
Definition defaults : args := Args None false false false.

(** [setattr(namespace, dest, True)] *)
Definition store_true (f : flag) (a : args) : args :=
  match f with
  | CheckSetup => Args (arg_job_id a) true (terms_only a) (completeness_only a)
  | TermsOnly => Args (arg_job_id a) (check_setup a) true (completeness_only a)
  | CompletenessOnly => Args (arg_job_id a) (check_setup a) (terms_only a) true
  end.

(** [setattr(namespace, "job_id", value)] *)
Definition store_job_id (value : option string) (a : args) : args :=
  Args value (check_setup a) (terms_only a) (completeness_only a).

(** * How parsing stops the program *)

Inductive usage_error : Type :=
(** [unrecognized arguments: ...] *)
| Unrecognized (extras : list string)
(** [ambiguous option: ... could match ...] *)
| Ambiguous (option : string) (matches : list string)
(** [argument ...: ignored explicit argument ...] *)
| IgnoredExplicit (a : action) (explicit_arg : string).

(** [SystemExit]: after the help, or after a usage message. *)
Inductive exit : Type :=
| ExitHelp
| ExitUsage (e : usage_error).

#[export] Instance usage_error_eq_dec : EqDecision usage_error.
Proof. solve_decision. Defined.

#[export] Instance exit_eq_dec : EqDecision exit.
Proof. solve_decision. Defined.

(** The status of the process. *)
Definition exit_status (e : exit) : Z :=
  match e with ExitHelp => 0 | ExitUsage _ => 2 end.

(** * Strings *)

Definition dash : ascii := "-"%char.

Definition is_digit (c : ascii) : bool :=
  bool_decide (48 ≤ code c ≤ 57)%N.

Fixpoint all_digits (s : string) : bool :=
  match s with
  | EmptyString => true
  | String c r => is_digit c && all_digits r
  end.

(** [s.split("=", 1)] when ["=" in s] *)
Fixpoint split_eq (s : string) : option (string * string) :=
  match s with
  | EmptyString => None
  | String c r =>
      if Ascii.eqb c "="%char then Some (EmptyString, r)
      else prod_map (String c) id <$> split_eq r
  end.

(** The part before the first dot and the part after it. *)
Fixpoint split_dot (s : string) : option (string * string) :=
  match s with
  | EmptyString => None
  | String c r =>
      if Ascii.eqb c "."%char then Some (EmptyString, r)
      else prod_map (String c) id <$> split_dot r
  end.

(** The string without the newline it ends with, when it ends with one. *)
Fixpoint chop_newline (s : string) : option string :=
  match s with
  | EmptyString => None
  | String c EmptyString => if Ascii.eqb c newline then Some EmptyString else None
  | String c r => String c <$> chop_newline r
  end.

(** [-\d+] or [-\d*\.\d+], the whole string *)
Definition negative_number (s : string) : bool :=
  match s with
  | String c r =>
      Ascii.eqb c dash &&
      ((negb (String.eqb r EmptyString) && all_digits r) ||
       match split_dot r with
       | Some (d1, d2) => all_digits d1 && negb (String.eqb d2 EmptyString) && all_digits d2
       | None => false
       end)
  | EmptyString => false
  end.

(** [parser._negative_number_matcher.match(s)]: the end of the pattern is
    also found before a newline that ends the string. *)
Definition negative_number_like (s : string) : bool :=
  negative_number s || from_option negative_number false (chop_newline s).

(** * Classifying an argument *)

(** An option found in an argument: its action if the parser has the
    option, the option string, the argument given with it. *)
Definition option_tuple : Type := option action * string * option string.

Definition option_action (option_string : string) : option action :=
  assoc option_string option_string_actions.

(** [parser._get_option_tuples(s)], for a string of two characters or more
    that starts with a dash. *)
Definition get_option_tuples (s : string) : list option_tuple :=
  match s with
  | String _ (String c2 rest) =>
      if Ascii.eqb c2 dash then
        let '(option_prefix, explicit_arg) :=
          match split_eq s with
          | Some (p, e) => (p, Some e)
          | None => (s, None)
          end in
        omap (λ oa, if starts_with option_prefix (fst oa)
                    then Some (Some (snd oa), fst oa, explicit_arg) else None)
          option_string_actions
      else
        let short_option_prefix := String dash (String c2 EmptyString) in
        omap (λ oa, if String.eqb (fst oa) short_option_prefix
                    then Some (Some (snd oa), fst oa, Some rest)
                    else if starts_with s (fst oa)
                    then Some (Some (snd oa), fst oa, None) else None)
          option_string_actions
  | _ => []
  end.

(** [parser._parse_optional(arg_string)]: [None] for an argument. *)
Definition parse_optional (arg_string : string) : result exit (option option_tuple) :=
  match arg_string with
  | EmptyString => Ok None
  | String c rest =>
      if negb (Ascii.eqb c dash) then Ok None
      else
        match option_action arg_string with
        | Some a => Ok (Some (Some a, arg_string, None))
        | None =>
            if String.eqb rest EmptyString then Ok None
            else
              let explicit :=
                '(option_string, explicit_arg) ← split_eq arg_string;
                a ← option_action option_string;
                Some (Some a, option_string, Some explicit_arg) in
              match explicit with
              | Some t => Ok (Some t)
              | None =>
                  match get_option_tuples arg_string with
                  | [] =>
                      if negative_number_like arg_string then Ok None
                      else if contains " " arg_string then Ok None
                      else Ok (Some (None, arg_string, None))
                  | [t] => Ok (Some t)
                  | ts =>
                      Raise (ExitUsage (Ambiguous arg_string ((λ t, snd (fst t)) <$> ts)))
                  end
              end
        end
  end.

(** The letters of the pattern of the arguments. *)
Inductive item : Type :=
(** [A] *)
| ItemArg
(** [-], the separator *)
| ItemSep
(** [O] *)
| ItemOpt (t : option_tuple).

(** The first loop: every argument with its letter; after the separator
    everything is an argument. *)
Fixpoint classify (arg_strings : list string) : result exit (list (string * item)) :=
  match arg_strings with
  | [] => Ok []
  | s :: rest =>
      if String.eqb s "--" then Ok ((s, ItemSep) :: ((λ s, (s, ItemArg)) <$> rest))
      else
        let* t := parse_optional s in
        let* items := classify rest in
        Ok ((s, from_option ItemOpt ItemArg t) :: items)
  end.

(** * Consuming the arguments *)

(** The state of the second loop: the namespace, whether the positional is
    still to be parsed, the arguments left over. *)
Record pstate : Type := PState {
  namespace : args;
  pending : bool;
  extras : list string;
}.

Definition extra (strings : list string) (st : pstate) : pstate :=
  PState (namespace st) (pending st) (extras st ++ strings).

(** [take_action] *)
Definition take_action (a : action) (st : pstate) : result exit pstate :=
  match a with
  | Help => Raise ExitHelp
  | StoreTrue f => Ok (PState (store_true f (namespace st)) (pending st) (extras st))
  end.

(** The loop of [consume_optional] for an option that came with an
    argument.  No action of this parser takes one: after a single-dash
    option the argument is read as more single-dash options, one
    character at a time; the result is the actions found, in order. *)
Fixpoint explicit_actions (a : action) (single_dash : bool) (explicit_arg : string) :
    result exit (list action) :=
  match explicit_arg with
  | String c rest =>
      if single_dash then
        match option_action (String dash (String c EmptyString)) with
        | Some a' =>
            if String.eqb rest EmptyString then Ok [a; a']
            else result_map (cons a) (explicit_actions a' true rest)
        | None => Raise (ExitUsage (IgnoredExplicit a explicit_arg))
        end
      else Raise (ExitUsage (IgnoredExplicit a explicit_arg))
  | EmptyString => Raise (ExitUsage (IgnoredExplicit a explicit_arg))
  end.

Definition is_single_dash (option_string : string) : bool :=
  match option_string with
  | String _ (String c2 _) => negb (Ascii.eqb c2 dash)
  | _ => false
  end.

(** [consume_optional] *)
Definition consume_optional (arg_string : string) (t : option_tuple) (st : pstate) :
    result exit pstate :=
  match t with
  | (None, _, _) => Ok (extra [arg_string] st)
  | (Some a, option_string, Some explicit_arg) =>
      let* actions := explicit_actions a (is_single_dash option_string) explicit_arg in
      foldl (λ r a, let* st := r in take_action a st) (Ok st) actions
  | (Some a, _, None) => take_action a st
  end.

(** How much of the pattern the positional takes: separators, at most one
    argument, separators. *)
Fixpoint match_seps (pattern : list item) : nat :=
  match pattern with
  | ItemSep :: rest => S (match_seps rest)
  | _ => 0
  end.

Definition match_positional (pattern : list item) : nat :=
  let n := match_seps pattern in
  match drop n pattern with
  | ItemArg :: rest => n + 1 + match_seps rest
  | _ => n
  end.

(** [arg_strings.remove("--")]: the first one, if any *)
Fixpoint remove_sep (arg_strings : list string) : list string :=
  match arg_strings with
  | [] => []
  | s :: rest => if String.eqb s "--" then rest else s :: remove_sep rest
  end.

(** [consume_positionals]: the state, and the arguments that remain. *)
Definition consume_positionals (items : list (string * item)) (st : pstate) :
    pstate * list (string * item) :=
  if pending st then
    let n := match_positional (snd <$> items) in
    let value := head (remove_sep (fst <$> take n items)) in
    (PState (store_job_id value (namespace st)) false (extras st), drop n items)
  else (st, items).

Definition is_option (i : string * item) : bool :=
  match snd i with ItemOpt _ => true | _ => false end.

(** After the last option: the positional if it is pending, and what
    remains is left over. *)
Definition finish (items : list (string * item)) (st : pstate) : pstate :=
  let '(st, rest) := consume_positionals items st in
  extra (fst <$> rest) st.

(** The second loop.  Before an option the positional takes the first
    argument and the others are left over; an option takes its action. *)
Fixpoint consume (items : list (string * item)) (st : pstate) : result exit pstate :=
  if negb (existsb is_option items) then Ok (finish items st)
  else
    match items with
    | [] => Ok (finish [] st)
    | (s, ItemOpt t) :: rest =>
        let* st := consume_optional s t st in
        consume rest st
    | (s, _) :: rest =>
        if pending st
        then consume rest (PState (store_job_id (Some s) (namespace st)) false (extras st))
        else consume rest (extra [s] st)
    end.

(** [parser.parse_known_args(argv)] *)
Definition parse_known_args (argv : list string) : result exit (args * list string) :=
  let* items := classify argv in
  let* st := consume items (PState defaults true []) in
  Ok (namespace st, extras st).

(** [parser.parse_args(argv)], line 46 *)
Definition parse_args (argv : list string) : result exit args :=
  let* known := parse_known_args argv in
  if bool_decide (snd known = []) then Ok (fst known)
  else Raise (ExitUsage (Unrecognized (snd known))).

(** * [main(argv)] *)

(** How a call of [main] ends: it returns a status, or the parser has
    stopped the program. *)
Inductive ending : Type :=
| Returned (status : Z)
| SystemExit (e : exit).

#[export] Instance ending_eq_dec : EqDecision ending.
Proof. solve_decision. Defined.

Section main.
Context `{Loader}.

(** [main(argv)]: what is printed on the standard output, and the ending.
    The help goes to the standard output, the usage message of an error
    to the standard error. *)
Definition main_argv (env : service) (argv : list string) : list out * ending :=
  match parse_args argv with
  | Ok a => let '(printed, status) := main env a in (printed, Returned status)
  | Raise ExitHelp => ([OutHelp], SystemExit ExitHelp)
  | Raise (ExitUsage e) => ([], SystemExit (ExitUsage e))
  end.

End main.

(** The status the process ends with when [main(argv)] is the program:
    [sys.exit(main())]. *)
Definition status_of (e : ending) : Z :=
  match e with
  | Returned status => status
  | SystemExit e => exit_status e
  end.

(** * A command line for given arguments *)

(** The flags that are set, then the separator and the identifier. *)
Definition argv_of (a : args) : list string :=
  (if check_setup a then ["--check-setup"] else []) ++
  (if terms_only a then ["--terms-only"] else []) ++
  (if completeness_only a then ["--completeness-only"] else []) ++
  match arg_job_id a with
  | Some job_id => ["--"; job_id]
  | None => []
  end.

(** * Plain command lines *)

Definition flag_string (f : flag) : string :=
  match f with
  | CheckSetup => "--check-setup"
  | TermsOnly => "--terms-only"
  | CompletenessOnly => "--completeness-only"
  end.

Definition has_flag (f : flag) (a : args) : bool :=
  match f with
  | CheckSetup => check_setup a
  | TermsOnly => terms_only a
  | CompletenessOnly => completeness_only a
  end.

(** A command line as it is meant to be written: flags spelled in full,
    and words that do not start with a dash. *)
Inductive token : Type :=
| TFlag (f : flag)
| TWord (w : string).

#[export] Instance token_eq_dec : EqDecision token.
Proof. solve_decision. Defined.

Definition token_string (t : token) : string :=
  match t with TFlag f => flag_string f | TWord w => w end.

Definition word (w : string) : Prop := starts_with "-" w = false.

Definition plain (t : token) : Prop :=
  match t with TFlag _ => True | TWord w => word w end.

#[export] Instance plain_dec t : Decision (plain t).
Proof. destruct t; unfold plain, word; apply _. Defined.

Definition words (ts : list token) : list string :=
  omap (λ t, match t with TWord w => Some w | TFlag _ => None end) ts.

(** How a plain command line is classified. *)
Definition item_of (t : token) : string * item :=
  match t with
  | TFlag f => (flag_string f, ItemOpt (Some (StoreTrue f), flag_string f, None))
  | TWord w => (w, ItemArg)
  end.

(** What one token of a plain command line does to the state. *)
Definition plain_step (st : pstate) (t : token) : pstate :=
  match t with
  | TFlag f => PState (store_true f (namespace st)) (pending st) (extras st)
  | TWord w =>
      if pending st then PState (store_job_id (Some w) (namespace st)) false (extras st)
      else extra [w] st
  end.

(** The prefixes of a string, the shortest first. *)
Fixpoint prefixes (s : string) : list string :=
  EmptyString ::
  match s with
  | EmptyString => []
  | String c r => String c <$> prefixes r
  end.

(** The length from which a prefix of a flag names that flag alone. *)
Definition shortest (f : flag) : nat :=
  match f with
  | CheckSetup => 4
  | TermsOnly => 3
  | CompletenessOnly => 4
  end.

(** * Round trip *)

Lemma args_eta a :
  a = Args (arg_job_id a) (check_setup a) (terms_only a) (completeness_only a).
Proof. by destruct a. Qed.

(** * Abbreviations *)

Lemma starts_with_prefixes p s : starts_with p s = true → p ∈ prefixes s.
Proof.
  revert p. induction s as [|c s IH]; intros [|c' p]; cbn [starts_with prefixes];
    try (intros; apply list_elem_of_here); [done|].
  destruct (Ascii.eqb c' c) eqn:Hc; [|done]. apply Ascii.eqb_eq in Hc as ->.
  intros Hp. apply list_elem_of_further, list_elem_of_fmap. eauto.
Qed.

(** * Plain command lines *)

Lemma has_flag_store_true f g a :
  has_flag f (store_true g a) = has_flag f a || bool_decide (f = g).
Proof. destruct f, g, a; cbn; by rewrite ?orb_true_r, ?orb_false_r. Qed.

Lemma word_not_sep w : word w → String.eqb w "--" = false.
Proof.
  destruct w as [|c w]; [done|]. unfold word. cbn [starts_with]. rewrite andb_true_r.
  intros Hc. simpl. by rewrite Ascii.eqb_sym, Hc.
Qed.

Lemma parse_optional_word w : word w → parse_optional w = Ok None.
Proof.
  destruct w as [|c w]; [done|]. unfold word, parse_optional. cbn [starts_with].
  rewrite andb_true_r. intros Hc. unfold dash. by rewrite Ascii.eqb_sym, Hc.
Qed.

Lemma classify_plain ts :
  Forall plain ts → classify (token_string <$> ts) = Ok (item_of <$> ts).
Proof.
  induction 1 as [|t ts Ht _ IH]; [done|]. rewrite !fmap_cons. cbn [classify]. rewrite IH.
  destruct t as [f|w]; [by destruct f|].
  cbn [token_string item_of]. by rewrite word_not_sep, parse_optional_word.
Qed.

Lemma extra_nil st : extra [] st = st.
Proof. destruct st. unfold extra. cbn. by rewrite app_nil_r. Qed.

Lemma extra_extra l l' st : extra l' (extra l st) = extra (l ++ l') st.
Proof. unfold extra. cbn. by rewrite app_assoc. Qed.

(** Once the positional is parsed every word is left over. *)
Lemma foldl_words_not_pending ws st :
  pending st = false → foldl plain_step st (TWord <$> ws) = extra ws st.
Proof.
  revert st. induction ws as [|w ws IH]; intros st Hp; [by rewrite extra_nil|].
  rewrite fmap_cons. cbn [foldl plain_step]. rewrite Hp, IH by done.
  by rewrite extra_extra.
Qed.

Lemma match_seps_args (ws : list string) :
  match_seps (snd <$> ((λ w, (w, ItemArg)) <$> ws)) = 0.
Proof. by destruct ws. Qed.

Lemma fst_args (ws : list string) : fst <$> ((λ w, (w, ItemArg)) <$> ws) = ws.
Proof. rewrite <- list_fmap_compose. apply list_fmap_id. Qed.

(** After the last option, on words: the pattern of the positional takes
    the first and the others are left over, as before an option. *)
Lemma finish_words ws st :
  Forall word ws →
  finish ((λ w, (w, ItemArg)) <$> ws) st = finish [] (foldl plain_step st (TWord <$> ws)).
Proof.
  intros Hws. unfold finish at 1. unfold consume_positionals.
  destruct (pending st) eqn:Hp.
  - destruct Hws as [|w ws Hw Hws]; [by unfold finish, consume_positionals; cbn; rewrite Hp|].
    rewrite !fmap_cons. cbn [foldl plain_step]. rewrite Hp.
    rewrite foldl_words_not_pending by done.
    unfold match_positional. cbn [snd match_seps drop]. rewrite match_seps_args.
    cbn [Nat.add take drop fmap list_fmap fst remove_sep]. rewrite (word_not_sep w Hw).
    cbn [head]. unfold finish, consume_positionals. cbn [pending extra].
    rewrite drop_0, fst_args. cbn [fmap list_fmap]. by rewrite extra_nil.
  - rewrite foldl_words_not_pending, fst_args by done.
    unfold finish, consume_positionals. cbn [pending extra]. rewrite Hp.
    by rewrite extra_nil.
Qed.

(** A plain command line without a flag is a list of words. *)
Lemma no_option_words ts :
  existsb is_option (item_of <$> ts) = false → Forall plain ts →
  ∃ ws, ts = TWord <$> ws ∧ Forall word ws.
Proof.
  induction ts as [|[f|w] ts IH]; [by exists []|done|].
  rewrite fmap_cons. cbn [existsb is_option item_of snd orb].
  intros Hex [Hw Hts]%Forall_cons. destruct (IH Hex Hts) as (ws & -> & Hws).
  exists (w :: ws). by split; [|constructor].
Qed.

Lemma item_of_words (ws : list string) :
  item_of <$> (TWord <$> ws) = (λ w, (w, ItemArg)) <$> ws.
Proof. by rewrite <- list_fmap_compose. Qed.

Lemma consume_no_option items st :
  existsb is_option items = false → consume items st = Ok (finish items st).
Proof. intros Hex. destruct items; cbn [consume]; by rewrite Hex. Qed.

(** The second loop on a plain command line is a fold. *)
Lemma consume_plain ts st :
  Forall plain ts → consume (item_of <$> ts) st = Ok (finish [] (foldl plain_step st ts)).
Proof.
  revert st. induction ts as [|t ts IH]; intros st Hts; [done|].
  destruct (existsb is_option (item_of <$> t :: ts)) eqn:Hex.
  - apply Forall_cons in Hts as [Ht Hts]. rewrite fmap_cons in *. cbn [consume].
    rewrite Hex. cbn [negb foldl]. destruct t as [f|w]; cbn [item_of plain_step].
    + cbn [consume_optional take_action result_bind]. by apply IH.
    + destruct (pending st); by apply IH.
  - rewrite consume_no_option by done.
    destruct (no_option_words _ Hex Hts) as (ws & -> & Hws).
    by rewrite item_of_words, finish_words.
Qed.

(** What the fold computes. *)
Lemma foldl_plain_flag f ts st :
  has_flag f (namespace (foldl plain_step st ts)) =
  has_flag f (namespace st) || bool_decide (TFlag f ∈ ts).
Proof.
  revert st. induction ts as [|t ts IH]; intros st.
  { cbn [foldl]. rewrite bool_decide_eq_false_2 by apply not_elem_of_nil. by rewrite orb_false_r. }
  cbn [foldl]. rewrite IH.
  rewrite (bool_decide_ext (TFlag f ∈ t :: ts) (TFlag f = t ∨ TFlag f ∈ ts))
    by apply elem_of_cons.
  rewrite bool_decide_or, orb_assoc. f_equal. destruct t as [g|w]; cbn [plain_step].
  - cbn [namespace]. rewrite has_flag_store_true. f_equal.
    apply bool_decide_ext. naive_solver.
  - rewrite (bool_decide_eq_false_2 (TFlag f = TWord w)), orb_false_r by done.
    by destruct (pending st), f.
Qed.

Lemma foldl_plain_not_pending ts st :
  pending st = false →
  arg_job_id (namespace (foldl plain_step st ts)) = arg_job_id (namespace st) ∧
  extras (foldl plain_step st ts) = extras st ++ words ts ∧
  pending (foldl plain_step st ts) = false.
Proof.
  revert st. induction ts as [|[f|w] ts IH]; intros st Hp; cbn [foldl plain_step].
  - by rewrite app_nil_r.
  - destruct (IH (PState (store_true f (namespace st)) (pending st) (extras st)) Hp)
      as (-> & -> & ->). by destruct f.
  - rewrite Hp. destruct (IH (extra [w] st) Hp) as (-> & -> & ->).
    cbn [extra namespace extras words omap]. by rewrite <- app_assoc.
Qed.

Lemma foldl_plain_pending ts st :
  pending st = true → arg_job_id (namespace st) = None →
  arg_job_id (namespace (foldl plain_step st ts)) = head (words ts) ∧
  extras (foldl plain_step st ts) = extras st ++ tail (words ts) ∧
  pending (foldl plain_step st ts) = bool_decide (words ts = []).
Proof.
  revert st. induction ts as [|[f|w] ts IH]; intros st Hp Hj; cbn [foldl plain_step].
  - by rewrite app_nil_r.
  - apply (IH (PState (store_true f (namespace st)) (pending st) (extras st)));
      [done|by destruct f].
  - rewrite Hp.
    by destruct (foldl_plain_not_pending ts
                   (PState (store_job_id (Some w) (namespace st)) false (extras st)) eq_refl)
      as (-> & -> & ->).
Qed.

Lemma finish_nil st :
  finish [] st =
  if pending st then PState (store_job_id None (namespace st)) false (extras st) else st.
Proof. unfold finish, consume_positionals. destruct (pending st); cbn; by rewrite extra_nil. Qed.

(** What a plain command line parses to: the first word is the job
    identifier, a flag is set when it occurs, and more than one word is
    an error that names the others. *)
Lemma parse_plain ts :
  Forall plain ts →
  parse_args (token_string <$> ts) =
  if bool_decide (tail (words ts) = []) then
    Ok (Args (head (words ts)) (bool_decide (TFlag CheckSetup ∈ ts))
          (bool_decide (TFlag TermsOnly ∈ ts)) (bool_decide (TFlag CompletenessOnly ∈ ts)))
  else Raise (ExitUsage (Unrecognized (tail (words ts)))).
Proof.
  intros Hts. unfold parse_args, parse_known_args.
  rewrite classify_plain, result_bind_Ok_l, consume_plain by done.
  cbn [result_bind fst snd].
  set (st := foldl plain_step (PState defaults true []) ts).
  assert (namespace (finish [] st) =
          Args (head (words ts)) (bool_decide (TFlag CheckSetup ∈ ts))
            (bool_decide (TFlag TermsOnly ∈ ts)) (bool_decide (TFlag CompletenessOnly ∈ ts)) ∧
          extras (finish [] st) = tail (words ts)) as [-> ->]; [|done].
  destruct (foldl_plain_pending ts (PState defaults true []) eq_refl eq_refl)
    as (Hj & He & Hp).
  pose proof (foldl_plain_flag CheckSetup ts (PState defaults true [])) as H1.
  pose proof (foldl_plain_flag TermsOnly ts (PState defaults true [])) as H2.
  pose proof (foldl_plain_flag CompletenessOnly ts (PState defaults true [])) as H3.
  fold st in Hj, He, Hp, H1, H2, H3. cbn in H1, H2, H3. rewrite finish_nil.
  rewrite <- H1, <- H2, <- H3.
  destruct (pending st); cbn [namespace extras]; (split; [|done]).
  - symmetry in Hp. apply bool_decide_eq_true_1 in Hp. by rewrite Hp.
  - by rewrite (args_eta (namespace st)), Hj.
Qed.

Lemma words_Permutation ts ts' : ts ≡ₚ ts' → words ts ≡ₚ words ts'.
Proof. intros Hp. unfold words. by rewrite Hp. Qed.

Lemma short_Permutation {A} (l l' : list A) : l ≡ₚ l' → length l ≤ 1 → l = l'.
Proof.
  destruct l as [|x [|y l]]; cbn [length]; [| |lia].
  - by intros ->%Permutation_nil_l.
  - by intros ->%Permutation_singleton_l.
Qed.

(** * Theorems *)

(** Claim C29. Round trip: every value of the arguments has a command
    line, its flags followed by the separator and the job identifier, and
    parsing that command line gives the value back, whatever the
    identifier is (empty, or one that starts with a dash). *)
Theorem parse_args_argv_of a : parse_args (argv_of a) = Ok a.
Proof. by destruct a as [[job_id|] [] [] []]. Qed.

(** Claim C30. On a plain command line (flags spelled in full, at most one
    word that does not start with a dash) the order of the arguments and
    the repetition of a flag do not matter: a permutation parses to the
    same arguments. *)
Theorem parse_args_permutation ts ts' :
  ts ≡ₚ ts' → Forall plain ts → length (words ts) ≤ 1 →
  parse_args (token_string <$> ts) = parse_args (token_string <$> ts').
Proof.
  intros Hp Hts Hw. rewrite !parse_plain by by rewrite <- ?Hp.
  rewrite <- (short_Permutation _ _ (words_Permutation _ _ Hp) Hw).
  by rewrite !(bool_decide_ext (_ ∈ ts) (_ ∈ ts')) by by rewrite Hp.
Qed.

Lemma parse_args_permutation_witness :
  parse_args ["42"; "--terms-only"; "--check-setup"] =
  parse_args ["--check-setup"; "--terms-only"; "42"].
Proof.
  apply (parse_args_permutation [TWord "42"; TFlag TermsOnly; TFlag CheckSetup]
           [TFlag CheckSetup; TFlag TermsOnly; TWord "42"]).
  - apply Permutation_rev.
  - compute_done.
  - compute_done.
Defined.

(** What a plain command line parses to: the first word is the
    job identifier, a flag is set exactly when it occurs, and with more
    than one word parsing stops with the error that names the words after
    the first. *)
Theorem parse_args_plain ts :
  Forall plain ts →
  parse_args (token_string <$> ts) =
  if bool_decide (tail (words ts) = []) then
    Ok (Args (head (words ts)) (bool_decide (TFlag CheckSetup ∈ ts))
          (bool_decide (TFlag TermsOnly ∈ ts)) (bool_decide (TFlag CompletenessOnly ∈ ts)))
  else Raise (ExitUsage (Unrecognized (tail (words ts)))).
Proof. apply parse_plain. Qed.

Lemma parse_args_plain_witness :
  parse_args ["42"; "--terms-only"; "43"; "44"] =
  Raise (ExitUsage (Unrecognized ["43"; "44"])).
Proof.
  apply (parse_args_plain [TWord "42"; TFlag TermsOnly; TWord "43"; TWord "44"]).
  compute_done.
Defined.

(** A long option may be abbreviated: every prefix of a flag
    that is long enough to name that flag alone ([--ch], [--t], [--co])
    parses as the flag. *)
Theorem parse_args_abbreviation f p :
  starts_with p (flag_string f) = true → shortest f ≤ String.length p →
  parse_args [p] = parse_args [flag_string f].
Proof.
  intros Hp%starts_with_prefixes. revert p Hp.
  refine (proj1 (Forall_forall (λ p, shortest f ≤ String.length p →
                                     parse_args [p] = parse_args [flag_string f]) _) _).
  destruct f; compute_done.
Qed.

Lemma parse_args_abbreviation_witness :
  parse_args ["--comp"] = Ok (Args None false false true).
Proof. apply (parse_args_abbreviation CompletenessOnly "--comp"); compute_done. Defined.

(** A shorter prefix is ambiguous: parsing stops with an error before any
    action is taken, the help included. *)
Example ambiguous_prefix :
  parse_args ["-h"; "--c"] =
  Raise (ExitUsage (Ambiguous "--c" ["--check-setup"; "--completeness-only"])).
Proof. done. Qed.

(** A job identifier that starts with a dash is read as an option unless
    it follows the separator or is a negative number. *)
Example dash_job_id :
  parse_args ["-x1"] = Raise (ExitUsage (Unrecognized ["-x1"])) ∧
  parse_args ["--"; "-x1"] = Ok (Args (Some "-x1") false false false) ∧
  parse_args ["-12"] = Ok (Args (Some "-12") false false false).
Proof. done. Qed.

(** The help wins over what follows it, not over what precedes it. *)
Example help_position :
  parse_args ["-h"; "--terms-only=x"] = Raise ExitHelp ∧
  parse_args ["--terms-only=x"; "-h"] =
    Raise (ExitUsage (IgnoredExplicit (StoreTrue TermsOnly) "x")) ∧
  parse_args ["1"; "2"; "-h"] = Raise ExitHelp.
Proof. done. Qed.
