(* ===== verification/Entry.v ===== *)
(** * The program as a process

    The two ways the package runs as a program:

    - [python -m job_extractor_eval.cli ARGS] (the usage cli.py documents):
      the package is imported, cli.py is executed under the name
      [__main__], and its last two lines (94-95) call
      [sys.exit(main())];
    - [python -m job_extractor_eval.evaluators]: the package is imported,
      evaluators.py is executed again under the name [__main__], and its
      last two lines (224-225) call [main()], the batch driver.

    A process ends with a status: the one [sys.exit] is given, 0 when the
    program falls off its end, 1 after an exception nobody catches.

    This file composes the components: the imports of Modules.v decide
    whether the program starts and what the flag [LANGSMITH_AVAILABLE] is;
    Args.v turns the command line into the arguments; Cli.v and Batch.v are
    the two [main] functions.  The functions of evaluators.py read the
    flag in the namespace of the module that defines them. *)

From Stdlib Require Import Ascii String ZArith.
From stdpp Require Import base list sets strings gmap.
From S2P Require Import Prelude PyStr PyValue Interfaces MemFS Loader Evaluator Cli.
From S2P Require Import Batch Modules Args.

#[local] Set Warnings "-clear-no-such-hyp".

(** * Processes *)

Inductive proc_end : Type :=
(** [sys.exit(status)], or the end of the program with status 0 *)
| Exited (status : Z)
(** an exception reaches the top: a traceback, status 1 *)
| Traceback (e : exn).

#[export] Instance proc_end_eq_dec : EqDecision proc_end.
Proof. solve_decision. Defined.

Definition status (p : proc_end) : Z :=
  match p with
  | Exited status => status
  | Traceback _ => 1
  end.

(** [__name__ == "__main__"] *)
Definition is_main (name : string) : bool := String.eqb name "__main__".

(** The flag as the functions of evaluators.py read it: a global of
    their module. *)
Definition flag_of (evaluators : Modules.namespace) : bool :=
  match evaluators !! "LANGSMITH_AVAILABLE" with
  | Some (OBool b) => b
  | _ => false
  end.

(** The process environment the setup check reads, beside the flag. *)
Record host : Type := Host {
  (** [os.getenv("LANGSMITH_API_KEY")], after [load_dotenv()] *)
  host_api_key : option string;
  (** [Client(api_key=key).list_datasets(limit=1)] *)
  host_list_datasets : string → pyres unit;
}.

Definition service_of (evaluators : Modules.namespace) (h : host) : service :=
  Service (flag_of evaluators) (host_api_key h) (host_list_datasets h).

(** [python -m] looks for the file of the module once the package is
    imported. *)
Definition find_module (env : site) (name file : string) : M unit :=
  stx_lift (if bool_decide (file ∈ package_files env) then Ok ()
            else Raise (module_not_found_error name)).

(** * cli.py *)

Section cli.
Context `{Loader}.

(** The top level of cli.py under the name [name]: the imports (lines
    10-17), the definition of [main], and lines 94-95.  The result is what
    [main] printed and how it ended, when it ran. *)
Definition cli_toplevel (env : site) (h : host) (name : string) (argv : list string) :
    M (option (list out * ending)) :=
  evaluators ← import_evaluators env;
  stx_lift (cli_bindings env name evaluators);;
  if is_main name
  then mret (Some (main_argv (service_of evaluators h) argv))
  else mret None.

(** [python -m job_extractor_eval.cli ARGS], [argv] being [sys.argv[1:]]:
    what is printed on the standard output and how the process ends. *)
Definition run_cli (env : site) (h : host) (argv : list string) : list out * proc_end :=
  match (import_package env;; find_module env cli_module "cli.py";;
         cli_toplevel env h "__main__" argv) fresh with
  | (_, Ok (Some (printed, e))) => (printed, Exited (status_of e))
  | (_, Ok None) => ([], Exited 0)
  | (_, Raise e) => ([], Traceback e)
  end.

End cli.

(** * evaluators.py *)

Section evaluators.
Context {FS : Type} `{FileSystem FS} `{JsonCodec} `{OtherIds}.

(** The top level of evaluators.py under the name [name]: lines 14-27,
    the definitions, and lines 224-225. *)
Definition evaluators_toplevel (env : site) (h : host) (fs : FS) (name : string) :
    pyres (option (io unit)) :=
  let* ns := exec_evaluators env in
  if is_main name then Ok (Some (batch_main (service_of ns h) fs)) else Ok None.

(** [python -m job_extractor_eval.evaluators] *)
Definition run_evaluators (env : site) (h : host) (fs : FS) : list bout * proc_end :=
  match (import_package env;; find_module env evaluators_module "evaluators.py";;
         stx_lift (evaluators_toplevel env h fs "__main__")) fresh with
  | (_, Ok (Some (printed, Ok _))) => (printed, Exited 0)
  | (_, Ok (Some (printed, Raise e))) => (printed, Traceback e)
  | (_, Ok None) => ([], Exited 0)
  | (_, Raise e) => ([], Traceback e)
  end.

End evaluators.

(** A site where the package is complete and everything it imports is
    there. *)
Definition complete (env : site) : Prop :=
  "__init__.py" ∈ package_files env ∧ "evaluators.py" ∈ package_files env ∧
  import_dotenv env = Ok () ∧ run_load_dotenv env = Ok () ∧
  (∀ e, import_langsmith env = Raise e → is_import_error e = true) ∧
  (∀ e, import_langsmith_evaluation env = Raise e → is_import_error e = true).

(** The flag the site gives. *)
Definition available (env : site) : bool :=
  is_ok (import_langsmith env) && is_ok (import_langsmith_evaluation env).

(** The interpreter once the package of a complete site is imported. *)
Definition loaded (env : site) : interp :=
  Interp (<[package := package_namespace]>
            (<[evaluators_module :=
                 evaluators_namespace (is_ok (import_langsmith env)) (available env)]> ∅)).

(** A site with everything installed, and a host with a key the service
    accepts. *)
Definition full_site : site :=
  {| package_dir := "src/components/evaluation/python/src/job_extractor_eval";
     package_files := ["__init__.py"; "cli.py"; "evaluators.py"];
     import_dotenv := Ok ();
     run_load_dotenv := Ok ();
     import_langsmith := Ok ();
     import_langsmith_evaluation := Ok () |}.

Definition example_host : host := Host (Some "lsv2_key") (λ _, Ok ()).

(** * Importing the package of a complete site *)

Lemma exec_evaluators_complete env :
  complete env →
  exec_evaluators env =
  Ok (evaluators_namespace (is_ok (import_langsmith env)) (available env)).
Proof.
  intros (_ & _ & Hd & Hl & H1 & H2). unfold exec_evaluators, try_import_langsmith, available.
  rewrite Hd, Hl. cbn [result_bind].
  destruct (import_langsmith env) as [[]|e1];
    [destruct (import_langsmith_evaluation env) as [[]|e2]|];
    rewrite ?(H1 _ eq_refl), ?(H2 _ eq_refl); compute_done.
Qed.

Lemma flag_of_evaluators_namespace client available :
  flag_of (evaluators_namespace client available) = available.
Proof. destruct client, available; compute_done. Qed.

Lemma import_package_complete env :
  complete env → import_package env fresh = (loaded env, Ok package_namespace).
Proof.
  intros Hc. pose proof (exec_evaluators_complete env Hc) as Hev.
  destruct Hc as (Hi & He & _).
  unfold import_package, import_module, fresh. cbn [sys_modules].
  rewrite lookup_empty, bool_decide_eq_true_2 by done.
  unfold exec_init, mbind, stx_bind, import_evaluators, import_module, stx_lift.
  cbn [sys_modules]. rewrite lookup_empty, bool_decide_eq_true_2, Hev by done.
  by rewrite (init_bindings_Ok env _ Hev).
Qed.

Lemma import_evaluators_loaded env :
  import_evaluators env (loaded env) =
  (loaded env, Ok (evaluators_namespace (is_ok (import_langsmith env)) (available env))).
Proof.
  apply import_module_cached. unfold loaded. cbn [sys_modules].
  destruct module_names_ne as (? & ? & ?).
  by rewrite lookup_insert_ne, lookup_insert_eq.
Qed.

Lemma find_module_eq env name file st :
  find_module env name file st =
  (st, if bool_decide (file ∈ package_files env) then Ok ()
       else Raise (module_not_found_error name)).
Proof. done. Qed.

Section cli_properties.
Context `{Loader}.

(** The program on a complete site: the imports succeed, and the process
    is [main] on the command line, with the flag the imports gave. *)
Lemma run_cli_complete env h argv :
  complete env → "cli.py" ∈ package_files env →
  run_cli env h argv =
  (fst (main_argv (Service (available env) (host_api_key h) (host_list_datasets h)) argv),
   Exited (status_of (snd (main_argv (Service (available env) (host_api_key h)
                                        (host_list_datasets h)) argv)))).
Proof.
  intros Hc Hcli. pose proof (exec_evaluators_complete env Hc) as Hev. unfold run_cli.
  rewrite (stx_bind_Ok _ _ _ _ _ (import_package_complete env Hc)).
  rewrite (stx_bind_Ok _ _ _ (loaded env) ())
    by by rewrite find_module_eq, bool_decide_eq_true_2.
  unfold cli_toplevel. rewrite (stx_bind_Ok _ _ _ _ _ (import_evaluators_loaded env)).
  erewrite (stx_bind_Ok _ _ (loaded env) (loaded env))
    by (unfold stx_lift; by rewrite (cli_bindings_Ok env _ _ Hev)).
  cbn [is_main String.eqb Ascii.eqb Bool.eqb]. unfold mret, stx_ret, service_of.
  rewrite flag_of_evaluators_namespace. by destruct (main_argv _ argv).
Qed.

(** The program on the copy without evaluators.py. *)
Lemma run_cli_not_found env h argv :
  "__init__.py" ∈ package_files env → "evaluators.py" ∉ package_files env →
  run_cli env h argv = ([], Traceback (module_not_found_error evaluators_module)).
Proof.
  intros Hi He. unfold run_cli.
  by rewrite (stx_bind_Raise _ _ _ _ _
                (run_import_incomplete env ImportPackage fresh Hi He eq_refl eq_refl)).
Qed.

(** The status [main] ends with, on a command line. *)
Lemma status_of_main_argv env argv :
  status_of (snd (main_argv env argv)) =
  match parse_args argv with
  | Ok a => snd (main env a)
  | Raise e => exit_status e
  end.
Proof.
  unfold main_argv. destruct (parse_args argv) as [a|[|e]]; [|done..].
  by destruct (main env a).
Qed.

Lemma main_status_bounds env a : snd (main env a) ∈ [0; 1]%Z.
Proof.
  rewrite main_status.
  destruct (check_setup a), (snd (check_langsmith_setup env)), (no_job_id a); set_solver.
Qed.

(** When the top level has run [main], it ran it on the command line. *)
Lemma cli_toplevel_Some env h name argv st st' r :
  cli_toplevel env h name argv st = (st', Ok (Some r)) →
  is_main name = true ∧ ∃ evaluators, r = main_argv (service_of evaluators h) argv.
Proof.
  unfold cli_toplevel.
  intros [(st1 & ev & _ & [(st2 & ns & _ & Hr)|(e & _ & [=])]%stx_bind_inv)|(e & _ & [=])]
    %stx_bind_inv.
  destruct (is_main name); [|by injection Hr]. split; [done|].
  exists ev. unfold mret, stx_ret in Hr. congruence.
Qed.

Lemma run_cli_Exited env h argv printed s :
  run_cli env h argv = (printed, Exited s) →
  s = 0%Z ∨ ∃ svc, s = status_of (snd (main_argv svc argv)).
Proof.
  unfold run_cli.
  destruct ((import_package env;; find_module env cli_module "cli.py";;
             cli_toplevel env h "__main__" argv) fresh) as [st' [[[out e]|]|e]] eqn:Hrun;
    [|by intros [= _ <-]; left|done].
  intros [= _ <-]. right.
  apply stx_bind_inv in Hrun as [(st1 & p & _ & Hrun)|(e' & _ & [=])].
  apply stx_bind_inv in Hrun as [(st2 & [] & _ & Hrun)|(e' & _ & [=])].
  apply cli_toplevel_Some in Hrun as [_ [ev Hev]]. exists (service_of ev h).
  by rewrite <- Hev.
Qed.

(** The status is 0, 1 or 2 on every site, and 2 only from the parser. *)
Lemma run_cli_status_range env h argv :
  status (snd (run_cli env h argv)) ∈ [0; 1; 2]%Z ∧
  (status (snd (run_cli env h argv)) = 2%Z → ∃ e, parse_args argv = Raise (ExitUsage e)).
Proof.
  destruct (run_cli env h argv) as [printed [s|e]] eqn:Hrun; cbn [snd status];
    [|split; [set_solver|done]].
  apply run_cli_Exited in Hrun as [->|[svc ->]]; [split; [set_solver|done]|].
  rewrite status_of_main_argv. destruct (parse_args argv) as [a|[|e]]; cbn [exit_status].
  - pose proof (main_status_bounds svc a) as Hs. split; [set_solver|].
    intros Hs2. rewrite Hs2 in Hs. set_solver.
  - split; [set_solver|done].
  - split; [set_solver|eauto].
Qed.

(** * Theorems *)

(** Claim C32. The status of [python -m job_extractor_eval.cli].  On every
    site and every command line it is 0, 1 or 2, and it is 2 only when the
    parser rejected the command line.  On a complete site: when the parser
    stops the program the status is the parser's (0 after [-h], 2 after an
    error); when the command line is accepted, holds a job identifier that
    is not empty and does not ask for the setup check, the status is 0
    under every loader, that is whatever the two evaluations return, error
    reports included. *)
Theorem run_cli_status env h argv :
  (status (snd (run_cli env h argv)) ∈ [0; 1; 2]%Z ∧
   (status (snd (run_cli env h argv)) = 2%Z →
    ∃ e, parse_args argv = Raise (ExitUsage e))) ∧
  (complete env → "cli.py" ∈ package_files env →
   match parse_args argv with
   | Raise e => status (snd (run_cli env h argv)) = exit_status e
   | Ok a =>
       check_setup a = false → no_job_id a = false →
       status (snd (run_cli env h argv)) = 0%Z
   end).
Proof.
  split; [apply run_cli_status_range|]. intros Hc Hcli.
  rewrite run_cli_complete by done. cbn [snd status]. rewrite status_of_main_argv.
  destruct (parse_args argv) as [a|e]; [|done].
  intros Hcheck Hid. by rewrite main_status, Hcheck, Hid.
Qed.

(** Claim C33. On a complete site, a command line that asks for the setup
    check ends with status 0 exactly when both imports of the tracing
    client returned while evaluators.py was loading, the API key is set
    and not empty, and listing a dataset with that key returns; no job is
    evaluated. *)
Theorem run_cli_check_setup env h argv a :
  complete env → "cli.py" ∈ package_files env →
  parse_args argv = Ok a → check_setup a = true →
  (status (snd (run_cli env h argv)) = 0%Z ↔
   available env = true ∧
   ∃ key, host_api_key h = Some key ∧ key ≠ EmptyString ∧
          is_ok (host_list_datasets h key) = true) ∧
  List.filter is_item (fst (run_cli env h argv)) = [].
Proof.
  intros Hc Hcli Ha Hcheck. rewrite run_cli_complete by done. cbn [fst snd status].
  set (svc := Service _ _ _). rewrite status_of_main_argv, Ha, main_status, Hcheck.
  unfold main_argv. rewrite Ha. split.
  - trans (snd (check_langsmith_setup svc) = true);
      [by destruct (snd (check_langsmith_setup svc))|].
    by rewrite check_langsmith_setup_iff.
  - unfold main. rewrite Hcheck.
    pose proof (check_langsmith_setup_no_item svc) as Hn.
    by destruct (check_langsmith_setup svc).
Qed.

(** On a complete site, when the parser stops the program
    nothing is evaluated: after [-h] the help is all that is printed and
    the status is 0; after an error nothing is printed on the standard
    output and the status is 2. *)
Theorem run_cli_stops env h argv e :
  complete env → "cli.py" ∈ package_files env →
  parse_args argv = Raise e →
  run_cli env h argv =
  (match e with ExitHelp => [OutHelp] | ExitUsage _ => [] end, Exited (exit_status e)).
Proof.
  intros Hc Hcli He. rewrite run_cli_complete by done.
  unfold main_argv. rewrite He. by destruct e.
Qed.

(** Importing cli.py does not run [main]: under any name but
    [__main__] the top level of the module returns without a call of
    [main], or raises while importing; under [__main__] it runs [main]
    whenever the imports return. *)
Theorem cli_toplevel_guard env h name argv st :
  match snd (cli_toplevel env h name argv st) with
  | Ok (Some r) => name = "__main__"
  | Ok None => name ≠ "__main__"
  | Raise e => True
  end.
Proof.
  destruct (cli_toplevel env h name argv st) as [st' [[r|]|e]] eqn:Hrun; cbn [snd]; [| |done].
  - apply cli_toplevel_Some in Hrun as [Hm _]. by apply String.eqb_eq.
  - intros ->. unfold cli_toplevel in Hrun.
    apply stx_bind_inv in Hrun as [(st1 & ev & _ & Hrun)|(e & _ & [=])].
    by apply stx_bind_inv in Hrun as [(st2 & ns & _ & [=])|(e & _ & [=])].
Qed.

End cli_properties.

Section evaluators_properties.
Context {FS : Type} `{FileSystem FS} `{JsonCodec} `{OtherIds}.

(** Claim C34. On a complete site [python -m job_extractor_eval.evaluators]
    is the batch driver with the flag the imports gave: it prints what the
    driver prints, and ends with status 0 when the driver returns and with
    a traceback, status 1, when the driver raises (a line of the index
    that cannot be read); the reports of the jobs never change the
    status. *)
Theorem run_evaluators_complete env h (fs : FS) :
  complete env →
  run_evaluators env h fs =
  (trace (batch_main (Service (available env) (host_api_key h) (host_list_datasets h)) fs),
   match outcome (batch_main (Service (available env) (host_api_key h)
                                (host_list_datasets h)) fs) with
   | Ok _ => Exited 0
   | Raise e => Traceback e
   end).
Proof.
  intros Hc. pose proof (exec_evaluators_complete env Hc) as Hev. unfold run_evaluators.
  rewrite (stx_bind_Ok _ _ _ _ _ (import_package_complete env Hc)).
  rewrite (stx_bind_Ok _ _ _ (loaded env) ())
    by (rewrite find_module_eq, bool_decide_eq_true_2; [done|apply Hc]).
  unfold stx_lift, evaluators_toplevel. rewrite Hev.
  cbn [result_bind is_main String.eqb Ascii.eqb Bool.eqb]. unfold service_of.
  rewrite flag_of_evaluators_namespace. unfold trace, outcome.
  by destruct (batch_main _ fs) as [printed [[]|e]].
Qed.

End evaluators_properties.

(** * Examples *)

Lemma full_site_complete : complete full_site.
Proof. by split_and!; [compute_done..|done|done|intros e [=]|intros e [=]]. Qed.

Lemma components_site_complete : complete components_site.
Proof.
  split_and!; [compute_done..|done|done| |]; by intros e [= <-].
Qed.

(** Job 99 has no record: both reports are error reports, the status is 0. *)
Lemma run_cli_status_witness :
  @evaluate_required_terms_quality example_loader "99" =
    ErrorReport "99" "No job files found for 99" ∧
  status (snd (@run_cli example_loader components_site example_host ["99"])) = 0%Z.
Proof.
  split; [done|].
  refine (proj2 (@run_cli_status example_loader components_site example_host ["99"])
            components_site_complete _ eq_refl eq_refl); compute_done.
Defined.

Lemma run_cli_check_setup_witness :
  (status (snd (@run_cli example_loader full_site example_host ["--check"])) = 0%Z ↔
   available full_site = true ∧
   ∃ key, host_api_key example_host = Some key ∧ key ≠ EmptyString ∧
          is_ok (host_list_datasets example_host key) = true) ∧
  List.filter is_item (fst (@run_cli example_loader full_site example_host ["--check"])) = [].
Proof.
  apply (@run_cli_check_setup example_loader full_site example_host ["--check"]
           (Args None true false false) full_site_complete); compute_done.
Defined.

Lemma run_cli_stops_witness :
  @run_cli example_loader components_site example_host ["42"; "--terms-only=yes"] =
  ([], Exited 2).
Proof.
  apply (@run_cli_stops example_loader components_site example_host
           ["42"; "--terms-only=yes"]
           (ExitUsage (IgnoredExplicit (StoreTrue TermsOnly) "yes"))
           components_site_complete); compute_done.
Defined.

Lemma run_evaluators_complete_witness :
  @run_evaluators _ _ sample_codec example_other components_site
    (Host (Some "lsv2_key") (λ _, Ok ())) batch_fs =
  (trace (@batch_main _ _ sample_codec example_other
            (Service false (Some "lsv2_key") (λ _, Ok ())) batch_fs),
   Exited 0).
Proof.
  exact (@run_evaluators_complete _ _ sample_codec example_other components_site
           (Host (Some "lsv2_key") (λ _, Ok ())) batch_fs components_site_complete).
Defined.

(** The program on the second copy of the package: it does not start. *)
Example run_cli_second_copy :
  @run_cli example_loader packages_site example_host ["42"] =
  ([], Traceback (module_not_found_error evaluators_module)).
Proof. by apply run_cli_not_found; compute_done. Qed.

(** The status of a run on job 42, whatever the reports say. *)
Example run_cli_example :
  snd (@run_cli example_loader components_site example_host ["--terms"; "42"]) = Exited 0.
Proof. rewrite run_cli_complete by (apply components_site_complete || compute_done). done. Qed.
