(* ===== verification/Json.v ===== *)
(** * The JSON parser

    [json.loads], which [load_job_data] and [load_index_entry] call: a
    parser on texts, with the exceptions of the library and their messages
    (an error report of the evaluator carries the message of the
    exception).  It is library code, written here after CPython 3.11 as a
    part of the environment of the model, and the instance [json_codec]
    of [JsonCodec] with its laws.

    The parser recurses on the nesting of the document: it takes fuel,
    and [loads] gives it more than any text can use ([fuel_of], twice the
    length of the text and two).  [parser_good] shows that this is enough
    and that what is returned is well formed, [decode_enough] that more
    fuel changes nothing.

    A number with a fraction or an exponent is a float: it is the exact
    rational of the literal, or an infinity or zero where the nearest
    double is (the rounding to the nearest double is not modelled).  A
    dictionary keeps the last value of a key at the place of its first
    occurrence.  A text is a string of characters below 256: an escape
    [\uXXXX] of a greater code is refused.  The [RecursionError] of a
    document nested deeper than the interpreter allows is not modelled. *)

From Stdlib Require Import Ascii String ZArith NArith QArith Qreduction.
From Stdlib Require Import DecimalString DecimalN.
From stdpp Require Import base list sets strings.
From S2P Require Import Prelude PyStr PyValue Interfaces.

#[local] Set Warnings "-clear-no-such-hyp".

(** * Characters *)

Definition quote : ascii := ascii_of_nat 34.
Definition backslash : ascii := "\"%char.

Definition is_ws (c : ascii) : bool :=
  bool_decide (code c ∈ [32; 9; 10; 13]%N).

Definition is_digit (c : ascii) : bool := bool_decide (48 ≤ code c ≤ 57)%N.

Definition digit_value (c : ascii) : N := (code c - 48)%N.

Definition hex_value (c : ascii) : option N :=
  let n := code c in
  if bool_decide (48 ≤ n ≤ 57)%N then Some (n - 48)%N
  else if bool_decide (65 ≤ n ≤ 70)%N then Some (n - 55)%N
  else if bool_decide (97 ≤ n ≤ 102)%N then Some (n - 87)%N
  else None.

(** The character an escape stands for. *)
Definition unescape (c : ascii) : option ascii :=
  if Ascii.eqb c quote then Some quote
  else if Ascii.eqb c backslash then Some backslash
  else if Ascii.eqb c "/" then Some "/"%char
  else if Ascii.eqb c "b" then Some (ascii_of_nat 8)
  else if Ascii.eqb c "f" then Some (ascii_of_nat 12)
  else if Ascii.eqb c "n" then Some (ascii_of_nat 10)
  else if Ascii.eqb c "r" then Some (ascii_of_nat 13)
  else if Ascii.eqb c "t" then Some (ascii_of_nat 9)
  else None.

(** * Errors *)

Inductive jerr : Type :=
(** [JSONDecodeError(msg, s, pos)] *)
| Decode (msg : string) (pos : nat)
(** the limit on the digits of an [int] *)
| IntDigits (digits : nat)
| OutOfFuel.

#[export] Instance jerr_eq_dec : EqDecision jerr.
Proof. solve_decision. Defined.

Abbreviation jres := (result jerr).

(** A decimal numeral. *)
Definition dec (n : N) : string := NilZero.string_of_uint (N.to_uint n).

(** The line and the column of a position: the lines before it, and the
    characters since the last newline. *)
Fixpoint line_col (s : string) (pos : nat) (line col : nat) : nat * nat :=
  match pos, s with
  | S pos', String c r =>
      if Ascii.eqb c newline then line_col r pos' (S line) 1
      else line_col r pos' line (S col)
  | _, _ => (line, col)
  end.

(** [str(JSONDecodeError(msg, text, pos))] *)
Definition decode_error (text msg : string) (pos : nat) : exn :=
  let '(line, col) := line_col text pos 1 1 in
  Exn JSONDecodeError
    (msg +:+ ": line " +:+ dec (N.of_nat line) +:+ " column " +:+ dec (N.of_nat col) +:+
     " (char " +:+ dec (N.of_nat pos) +:+ ")").

Definition int_max_str_digits : nat := 4300.

Definition int_digits_error (digits : nat) : exn :=
  Exn ValueError
    ("Exceeds the limit (4300 digits) for integer string conversion: value has " +:+
     dec (N.of_nat digits) +:+
     " digits; use sys.set_int_max_str_digits() to increase the limit").

(** * Scanning *)

(** The text after the whitespace, and its position. *)
Fixpoint skip_ws (s : string) (pos : nat) : string * nat :=
  match s with
  | String c r => if is_ws c then skip_ws r (S pos) else (s, pos)
  | EmptyString => (s, pos)
  end.

(** [s[n:]] *)
Fixpoint str_drop (n : nat) (s : string) : string :=
  match n, s with
  | S n', String _ r => str_drop n' r
  | _, _ => s
  end.

(** The four hexadecimal digits of an escape. *)
Definition hex4 (a b c d : ascii) : option N :=
  a ← hex_value a; b ← hex_value b; c ← hex_value c; d ← hex_value d;
  Some (((a * 16 + b) * 16 + c) * 16 + d)%N.

(** [scanstring]: from the character after the opening quote, at [pos];
    [begin] is the position of the quote.  The string, the text after
    the closing quote and its position. *)
Fixpoint scanstring (s : string) (pos begin : nat) : jres (string * string * nat) :=
  match s with
  | EmptyString => Raise (Decode "Unterminated string starting at" begin)
  | String c r =>
      if Ascii.eqb c quote then Ok (EmptyString, r, S pos)
      else if Ascii.eqb c backslash then
        match r with
        | EmptyString => Raise (Decode "Unterminated string starting at" begin)
        | String e r' =>
            if Ascii.eqb e "u" then
              match r' with
              | String h1 (String h2 (String h3 (String h4 r''))) =>
                  match hex4 h1 h2 h3 h4 with
                  | Some n =>
                      if (n <? 256)%N then
                        let* str := scanstring r'' (6 + pos) begin in
                        Ok (String (ascii_of_N n) (fst (fst str)), snd (fst str), snd str)
                      else Raise (Decode "Invalid \uXXXX escape" (S pos))
                  | None => Raise (Decode "Invalid \uXXXX escape" (S pos))
                  end
              | _ => Raise (Decode "Invalid \uXXXX escape" (S pos))
              end
            else
              match unescape e with
              | Some ch =>
                  let* str := scanstring r' (2 + pos) begin in
                  Ok (String ch (fst (fst str)), snd (fst str), snd str)
              | None => Raise (Decode "Invalid \escape" pos)
              end
        end
      else if (code c <? 32)%N then Raise (Decode "Invalid control character at" pos)
      else
        let* str := scanstring r (S pos) begin in
        Ok (String c (fst (fst str)), snd (fst str), snd str)
  end.

(** The digits at the start of a text: their value from [acc] on, how
    many they are, and the text after them. *)
Fixpoint scan_digits (s : string) (acc : N) : N * nat * string :=
  match s with
  | String c r =>
      if is_digit c then
        let '(n, k, rest) := scan_digits r (acc * 10 + digit_value c)%N in (n, S k, rest)
      else (acc, 0, s)
  | EmptyString => (acc, 0, s)
  end.

(** The integer part: [0], or digits that do not start with [0]. *)
Definition scan_int (s : string) : option (N * nat * string) :=
  match s with
  | String c r =>
      if Ascii.eqb c "0" then Some (0%N, 1, r)
      else if is_digit c then Some (scan_digits s 0)
      else None
  | EmptyString => None
  end.

(** The fraction: a dot and one digit at least. *)
Definition scan_frac (s : string) : option (N * nat * string) :=
  match s with
  | String c r =>
      if Ascii.eqb c "." then
        let '(n, k, rest) := scan_digits r 0 in
        if k is 0 then None else Some (n, k, rest)
      else None
  | EmptyString => None
  end.

(** The exponent: [e] or [E], a sign or none, one digit at least.  The
    value, the characters taken and the text after them. *)
Definition scan_exp (s : string) : option (Z * nat * string) :=
  match s with
  | String c r =>
      if Ascii.eqb c "e" || Ascii.eqb c "E" then
        let '(negative, signed, r) :=
          match r with
          | String sg r' =>
              if Ascii.eqb sg "-" then (true, 1, r')
              else if Ascii.eqb sg "+" then (false, 1, r')
              else (false, 0, r)
          | EmptyString => (false, 0, r)
          end in
        let '(n, k, rest) := scan_digits r 0 in
        if k is 0 then None
        else Some (if negative then (- Z.of_N n)%Z else Z.of_N n, 1 + signed + k, rest)
      else None
  | EmptyString => None
  end.

(** The float of a literal: the digits [m] of its integer part and of its
    fraction, read as an integer, times ten to the power [e].  Beyond
    the largest double it is an infinity; under half the smallest one it
    is zero. *)
Definition float_limit : Q := inject_Z (2 ^ 1024 - 2 ^ 970).
Definition float_tiny : Q := 1 / inject_Z (2 ^ 1075).

Definition float_of (negative : bool) (m : N) (digits : nat) (e : Z) : pyfloat :=
  if (m =? 0)%N then Finite 0
  else if (400 <? e)%Z then Inf negative
  else if (e + Z.of_nat digits <? -400)%Z then Finite 0
  else
    let q := if (0 <=? e)%Z then inject_Z (Z.of_N m * 10 ^ e)
             else (inject_Z (Z.of_N m) / inject_Z (10 ^ (- e)))%Q in
    if Qle_bool float_limit q then Inf negative
    else if Qle_bool q float_tiny then Finite 0
    else Finite (Qred (if negative then - q else q)).

(** A number at the start of a text, if there is one: the object, the
    characters taken and the text after them. *)
Definition scan_number (s : string) : option (jres pyval * nat * string) :=
  let '(negative, signed, s1) :=
    match s with
    | String c r => if Ascii.eqb c "-" then (true, 1, r) else (false, 0, s)
    | EmptyString => (false, 0, s)
    end in
  '(n, k, s2) ← scan_int s1;
  let frac := scan_frac s2 in
  let s3 := from_option (λ f, snd f) s2 frac in
  let exp := scan_exp s3 in
  let s4 := from_option (λ x, snd x) s3 exp in
  let taken := signed + k + from_option (λ f, S (snd (fst f))) 0 frac +
               from_option (λ x, snd (fst x)) 0 exp in
  match frac, exp with
  | None, None =>
      Some (if bool_decide (k ≤ int_max_str_digits)
            then Ok (PInt (if negative then - Z.of_N n else Z.of_N n))
            else Raise (IntDigits k), taken, s4)
  | _, _ =>
      let '(fn, fk) := from_option (λ f, (fst (fst f), snd (fst f))) (0%N, 0) frac in
      let e := from_option (λ x, fst (fst x)) 0%Z exp in
      Some (Ok (PFloat (float_of negative (n * 10 ^ N.of_nat fk + fn) (k + fk)
                          (e - Z.of_nat fk))), taken, s4)
  end.

(** [dict(pairs)]: a later value of a key replaces the earlier one, at
    its place. *)
Fixpoint dict_set (key : string) (v : pyval) (kvs : list (string * pyval)) :
    list (string * pyval) :=
  match kvs with
  | [] => [(key, v)]
  | (k, w) :: kvs' =>
      if String.eqb k key then (k, v) :: kvs' else (k, w) :: dict_set key v kvs'
  end.

Definition dict_of_pairs (pairs : list (string * pyval)) : list (string * pyval) :=
  foldl (λ kvs kv, dict_set (fst kv) (snd kv) kvs) [] pairs.

(** * The parser *)

(** The three functions that call one another: [scan_once], [JSONArray]
    from the first value on and [JSONObject] from the character after the
    quote of a key on; [acc] holds what the loop has read, the last
    first.  Each is written as a function of the ones it calls. *)
Definition scan_type : Type := string → nat → jres (pyval * string * nat).
Definition array_type : Type := string → nat → list pyval → jres (pyval * string * nat).
Definition object_type : Type :=
  string → nat → nat → list (string * pyval) → jres (pyval * string * nat).

Definition scan_body (array_items : array_type) (object_items : object_type) : scan_type :=
  λ s pos,
      match s with
      | EmptyString => Raise (Decode "Expecting value" pos)
      | String c r =>
          if Ascii.eqb c quote then
            let* str := scanstring r (S pos) pos in
            Ok (PStr (fst (fst str)), snd (fst str), snd str)
          else if Ascii.eqb c "{" then
            let '(r1, p1) := skip_ws r (S pos) in
            match r1 with
            | String c1 r2 =>
                if Ascii.eqb c1 "}" then Ok (PDict [], r2, S p1)
                else if Ascii.eqb c1 quote then object_items r2 (S p1) p1 []
                else Raise (Decode "Expecting property name enclosed in double quotes" p1)
            | EmptyString =>
                Raise (Decode "Expecting property name enclosed in double quotes" p1)
            end
          else if Ascii.eqb c "[" then
            let '(r1, p1) := skip_ws r (S pos) in
            match r1 with
            | String c1 r2 =>
                if Ascii.eqb c1 "]" then Ok (PList [], r2, S p1)
                else array_items r1 p1 []
            | EmptyString => array_items r1 p1 []
            end
          else if starts_with "null" s then Ok (PNone, str_drop 4 s, 4 + pos)
          else if starts_with "true" s then Ok (PBool true, str_drop 4 s, 4 + pos)
          else if starts_with "false" s then Ok (PBool false, str_drop 5 s, 5 + pos)
          else
            match scan_number s with
            | Some (v, k, rest) => let* v := v in Ok (v, rest, k + pos)
            | None =>
                if starts_with "NaN" s then Ok (PFloat NaN, str_drop 3 s, 3 + pos)
                else if starts_with "Infinity" s
                then Ok (PFloat (Inf false), str_drop 8 s, 8 + pos)
                else if starts_with "-Infinity" s
                then Ok (PFloat (Inf true), str_drop 9 s, 9 + pos)
                else Raise (Decode "Expecting value" pos)
            end
      end.

Definition array_body (scan_once : scan_type) (array_items : array_type) : array_type :=
  λ s pos acc,
      let* value := scan_once s pos in
      let '(v, r, p) := value in
      let '(r1, p1) := skip_ws r p in
      match r1 with
      | String c r2 =>
          if Ascii.eqb c "]" then Ok (PList (rev (v :: acc)), r2, S p1)
          else if Ascii.eqb c "," then
            let '(r3, p3) := skip_ws r2 (S p1) in
            array_items r3 p3 (v :: acc)
          else Raise (Decode "Expecting ',' delimiter" p1)
      | EmptyString => Raise (Decode "Expecting ',' delimiter" p1)
      end.

Definition object_body (scan_once : scan_type) (object_items : object_type) : object_type :=
  λ s pos begin acc,
      let* key := scanstring s pos begin in
      let '(k, r, p) := key in
      let '(r1, p1) := skip_ws r p in
      match r1 with
      | String c r2 =>
          if Ascii.eqb c ":" then
            let '(r3, p3) := skip_ws r2 (S p1) in
            let* value := scan_once r3 p3 in
            let '(v, r4, p4) := value in
            let '(r5, p5) := skip_ws r4 p4 in
            match r5 with
            | String c5 r6 =>
                if Ascii.eqb c5 "}"
                then Ok (PDict (dict_of_pairs (rev ((k, v) :: acc))), r6, S p5)
                else if Ascii.eqb c5 "," then
                  let '(r7, p7) := skip_ws r6 (S p5) in
                  match r7 with
                  | String c7 r8 =>
                      if Ascii.eqb c7 quote
                      then object_items r8 (S p7) p7 ((k, v) :: acc)
                      else Raise (Decode "Expecting property name enclosed in double quotes"
                                    p7)
                  | EmptyString =>
                      Raise (Decode "Expecting property name enclosed in double quotes" p7)
                  end
                else Raise (Decode "Expecting ',' delimiter" p5)
            | EmptyString => Raise (Decode "Expecting ',' delimiter" p5)
            end
          else Raise (Decode "Expecting ':' delimiter" p1)
      | EmptyString => Raise (Decode "Expecting ':' delimiter" p1)
      end.

(** The recursion, on the fuel: a call takes one unit. *)
Fixpoint scan_once (fuel : nat) (s : string) (pos : nat) : jres (pyval * string * nat) :=
  match fuel with
  | 0 => Raise OutOfFuel
  | S fuel => scan_body (array_items fuel) (object_items fuel) s pos
  end
with array_items (fuel : nat) (s : string) (pos : nat) (acc : list pyval) :
    jres (pyval * string * nat) :=
  match fuel with
  | 0 => Raise OutOfFuel
  | S fuel => array_body (scan_once fuel) (array_items fuel) s pos acc
  end
with object_items (fuel : nat) (s : string) (pos begin : nat)
    (acc : list (string * pyval)) : jres (pyval * string * nat) :=
  match fuel with
  | 0 => Raise OutOfFuel
  | S fuel => object_body (scan_once fuel) (object_items fuel) s pos begin acc
  end.

(** Fuel that no text can use up. *)
Definition fuel_of (text : string) : nat := 2 * String.length text + 2.

(** [JSONDecoder.decode] with the fuel [fuel]. *)
Definition decode (fuel : nat) (text : string) : jres pyval :=
  let '(s, pos) := skip_ws text 0 in
  let* value := scan_once fuel s pos in
  let '(v, r, p) := value in
  let '(r1, p1) := skip_ws r p in
  if String.eqb r1 EmptyString then Ok v else Raise (Decode "Extra data" p1).

(** The exception of an error. *)
Definition exn_of (text : string) (e : jerr) : exn :=
  match e with
  | Decode msg pos => decode_error text msg pos
  | IntDigits digits => int_digits_error digits
  | OutOfFuel => Exn ValueError "out of fuel"
  end.

(** [json.loads(text)] *)
Definition loads (text : string) : pyres pyval :=
  match decode (fuel_of text) text with
  | Ok v => Ok v
  | Raise e => Raise (exn_of text e)
  end.

Definition json_codec : JsonCodec := loads.

(** * What a call consumes *)

Lemma skip_ws_length s pos r p :
  skip_ws s pos = (r, p) → String.length r ≤ String.length s.
Proof.
  revert pos. induction s as [|c s IH]; intros pos; cbn [skip_ws].
  - by intros [= <- _].
  - destruct (is_ws c); [|by intros [= <- _]]. intros H%IH. cbn [String.length]. lia.
Qed.

(** The errors of the library: the fuel is not one of them, and the
    digits that are too many are more than the limit. *)
Definition known (e : jerr) : Prop :=
  match e with
  | Decode _ _ => True
  | IntDigits digits => int_max_str_digits < digits
  | OutOfFuel => False
  end.

(** What a call gives on a text of [n] characters when its fuel is
    enough: an error of the library, or a value that satisfies [P] and
    less text than it was given. *)
Definition good {A} (P : A → Prop) (n : nat) (res : jres (A * string * nat)) : Prop :=
  match res with
  | Ok (v, r, _) => String.length r < n ∧ P v
  | Raise e => known e
  end.

Lemma good_le {A} (P : A → Prop) n m res : n ≤ m → good P n res → good P m res.
Proof. destruct res as [[[v r] p]|e]; cbn; [intros ? [? ?]; split; [lia|done]|done]. Qed.

Lemma good_map {A B} (P : A → Prop) (Q : B → Prop) n m (f : A → B) res :
  good P n res → (∀ v, P v → Q (f v)) → n ≤ m →
  good Q m (let* x := res in Ok (f (fst (fst x)), snd (fst x), snd x)).
Proof.
  destruct res as [[[v r] p]|e]; cbn; [|done]. intros [? ?] HQ ?. split; [lia|by apply HQ].
Qed.

Lemma scanstring_good s pos begin :
  good (λ _, True) (String.length s) (scanstring s pos begin).
Proof.
  assert (∃ n, String.length s ≤ n) as [n Hn] by eauto.
  revert s pos Hn. induction n as [|n IH]; intros s pos Hn;
    (destruct s as [|c s]; [done|]); cbn [String.length] in Hn; [lia|].
  cbn [scanstring].
  repeat case_match; try done; subst; cbn [String.length] in *;
    try (cbn; split; [lia|done]);
    (eapply (good_map (λ _, True)); [apply IH|done|]); cbn [String.length]; lia.
Qed.

Lemma scanstring_length s pos begin str r p :
  scanstring s pos begin = Ok (str, r, p) → String.length r < String.length s.
Proof. intros H. pose proof (scanstring_good s pos begin) as Hg. rewrite H in Hg. apply Hg. Qed.

Lemma str_drop_length n s : String.length (str_drop n s) ≤ String.length s.
Proof.
  revert s. induction n as [|n IH]; intros [|c s]; cbn [str_drop String.length]; try lia.
  specialize (IH s). lia.
Qed.

Lemma str_drop_cons_length n c s :
  String.length (str_drop (S n) (String c s)) < String.length (String c s).
Proof. pose proof (str_drop_length n s). cbn [str_drop String.length]. lia. Qed.

Lemma scan_digits_length s acc n k rest :
  scan_digits s acc = (n, k, rest) → String.length rest + k = String.length s.
Proof.
  revert acc n k rest. induction s as [|c s IH]; intros acc n k rest; cbn [scan_digits].
  - by intros [= _ <- <-].
  - destruct (is_digit c); [|by intros [= _ <- <-]].
    destruct (scan_digits s _) as [[n' k'] rest'] eqn:E. intros [= _ <- <-].
    apply IH in E. cbn [String.length]. lia.
Qed.

Lemma scan_int_length s n k rest :
  scan_int s = Some (n, k, rest) → String.length rest < String.length s.
Proof.
  destruct s as [|c s]; [done|]. cbn [scan_int scan_digits].
  repeat case_match; try done; intros [= <- <- <-]; simplify_eq; cbn [String.length]; [lia|].
  match goal with H : scan_digits _ _ = _ |- _ => apply scan_digits_length in H end. lia.
Qed.

Lemma scan_frac_length s n k rest :
  scan_frac s = Some (n, k, rest) → String.length rest < String.length s.
Proof.
  destruct s as [|c s]; [done|]. cbn [scan_frac].
  repeat case_match; try done; intros [= <- <- <-]; simplify_eq; cbn [String.length].
  match goal with H : scan_digits _ _ = _ |- _ => apply scan_digits_length in H end. lia.
Qed.

Lemma scan_exp_length s e k rest :
  scan_exp s = Some (e, k, rest) → String.length rest < String.length s.
Proof.
  destruct s as [|c s]; [done|]. cbn [scan_exp].
  repeat case_match; try done; intros [= <- <- <-]; simplify_eq; cbn [String.length] in *;
    match goal with H : scan_digits _ _ = _ |- _ => apply scan_digits_length in H end;
    cbn [String.length] in *; lia.
Qed.

Lemma scan_number_length s v k rest :
  scan_number s = Some (v, k, rest) → String.length rest < String.length s.
Proof.
  unfold scan_number.
  destruct (match s with String c r => _ | _ => _ end) as [[negative signed] s1] eqn:Es.
  assert (String.length s1 ≤ String.length s) as Hs1.
  { destruct s as [|c s]; [by simplify_eq|]. case_match; simplify_eq; cbn; lia. }
  destruct (scan_int s1) as [[[n k1] s2]|] eqn:Ei; [|done]. cbn.
  apply scan_int_length in Ei.
  destruct (scan_frac s2) as [[[fn fk] s3]|] eqn:Ef; cbn;
    [apply scan_frac_length in Ef|];
    (destruct (scan_exp _) as [[[e ek] s4]|] eqn:Ee; cbn; [apply scan_exp_length in Ee|]);
    intros [= _ _ <-]; lia.
Qed.

(** A number is an [int] or a [float]; the one failure is an integer
    literal of more digits than the limit. *)
Lemma scan_number_value s v k rest :
  scan_number s = Some (v, k, rest) →
  (∃ z, v = Ok (PInt z)) ∨ (∃ f, v = Ok (PFloat f)) ∨
  ∃ d, int_max_str_digits < d ∧ v = Raise (IntDigits d).
Proof.
  unfold scan_number.
  destruct (match s with String c r => _ | _ => _ end) as [[negative signed] s1].
  destruct (scan_int s1) as [[[n k1] s2]|]; [|done]. cbn.
  destruct (scan_frac s2) as [[[fn fk] s3]|], (scan_exp _) as [[[e ek] s4]|]; cbn;
    intros [= <- _ _]; eauto.
  case_bool_decide; [eauto|]. right. right. exists k1. split; [lia|done].
Qed.

(** * Well-formed results *)

Abbreviation wf_all := (Forall (λ v, wf_pyval v = true)).
Abbreviation wf_values := (Forall (λ kv : string * pyval, wf_pyval kv.2 = true)).

Lemma wf_PList l : wf_pyval (PList l) = true ↔ wf_all l.
Proof. apply forallb_Forall. Qed.

Lemma wf_PDict kvs : wf_pyval (PDict kvs) = true ↔ NoDup kvs.*1 ∧ wf_values kvs.
Proof.
  cbn [wf_pyval]. by rewrite andb_true_iff, bool_decide_eq_true, forallb_Forall.
Qed.

Lemma dict_set_keys key v kvs :
  (dict_set key v kvs).*1 = if bool_decide (key ∈ kvs.*1) then kvs.*1 else kvs.*1 ++ [key].
Proof.
  induction kvs as [|[k w] kvs IH]; cbn [dict_set fmap list_fmap fst]; [done|].
  destruct (String.eqb_spec k key) as [->|Hne].
  - by rewrite bool_decide_eq_true_2 by left.
  - cbn [fmap list_fmap fst]. rewrite IH. repeat case_bool_decide; set_solver.
Qed.

Lemma dict_set_NoDup key v kvs : NoDup kvs.*1 → NoDup (dict_set key v kvs).*1.
Proof.
  intros Hnd. rewrite dict_set_keys. case_bool_decide; [done|].
  apply NoDup_app. split_and!; [done|set_solver|apply NoDup_singleton].
Qed.

Lemma dict_set_wf key v kvs :
  wf_pyval v = true → wf_values kvs → wf_values (dict_set key v kvs).
Proof.
  intros Hv. induction 1 as [|[k w] kvs Hw Hkvs IH]; cbn [dict_set].
  - by repeat constructor.
  - destruct (String.eqb k key); by constructor.
Qed.

Lemma dict_of_pairs_wf pairs : wf_values pairs → wf_pyval (PDict (dict_of_pairs pairs)) = true.
Proof.
  unfold dict_of_pairs. intros Hp. apply wf_PDict.
  assert (NoDup ([] : list (string * pyval)).*1 ∧ wf_values []) as Hacc
    by (split; constructor).
  revert Hacc. generalize ([] : list (string * pyval)) as acc.
  induction Hp as [|[k v] pairs Hv Hp IH]; intros acc [Hnd Hacc]; cbn [foldl]; [done|].
  apply IH. split; [by apply dict_set_NoDup|by apply dict_set_wf].
Qed.

(** * Enough fuel *)

Abbreviation good_value := (good (λ v, wf_pyval v = true)).

(** [parser_cases]: the branches of a body, with the length of the text
    after each run of whitespace. *)
Ltac parser_cases :=
  repeat case_match; subst;
  repeat match goal with H : skip_ws _ _ = _ |- _ => apply skip_ws_length in H end;
  cbn [String.length] in *; try done.

Lemma scan_body_good ai oi s pos :
  (∀ t q, String.length t < String.length s → good_value (String.length t) (ai t q [])) →
  (∀ t q b, String.length t < String.length s →
            good_value (String.length t) (oi t q b [])) →
  good_value (String.length s) (scan_body ai oi s pos).
Proof.
  intros Ha Ho. destruct s as [|c r]; [done|]. unfold scan_body.
  destruct (Ascii.eqb c quote).
  { eapply good_map; [apply scanstring_good|done|cbn [String.length]; lia]. }
  destruct (Ascii.eqb c "{").
  { parser_cases; [by split; [lia|]|]. eapply good_le; [|apply Ho]; lia. }
  destruct (Ascii.eqb c "[").
  { parser_cases; try (by split; [lia|]); (eapply good_le; [|apply Ha]);
      cbn [String.length]; lia. }
  repeat (case_match; try (split; [apply str_drop_cons_length|done])); try done.
  subst. match goal with H : scan_number _ = _ |- _ =>
    pose proof (scan_number_length _ _ _ _ H);
    destruct (scan_number_value _ _ _ _ H) as [[z ->]|[[f ->]|(d & Hd & ->)]] end; done.
Qed.

Lemma array_body_good so ai s pos acc :
  wf_all acc →
  good_value (String.length s) (so s pos) →
  (∀ t q acc', String.length t + 2 ≤ String.length s → wf_all acc' →
               good_value (String.length t) (ai t q acc')) →
  good_value (String.length s) (array_body so ai s pos acc).
Proof.
  intros Hacc Hs Ha. unfold array_body.
  destruct (so s pos) as [[[v r] p]|e]; [destruct Hs as [Hr Hv]|done]. cbn [result_bind].
  parser_cases.
  - split; [lia|]. apply wf_PList, Forall_rev. by constructor.
  - eapply good_le; [|apply Ha]; [lia..|by constructor].
Qed.

Lemma object_body_good so oi s pos begin acc :
  wf_values acc →
  (∀ t q, String.length t + 2 ≤ String.length s → good_value (String.length t) (so t q)) →
  (∀ t q b acc', String.length t + 2 ≤ String.length s → wf_values acc' →
                 good_value (String.length t) (oi t q b acc')) →
  good_value (String.length s) (object_body so oi s pos begin acc).
Proof.
  intros Hacc Hs Ho. unfold object_body.
  pose proof (scanstring_good s pos begin) as Hk.
  destruct (scanstring s pos begin) as [[[k r] p]|e]; [destruct Hk as [Hr _]|done].
  cbn [result_bind]. parser_cases.
  match goal with |- context [so ?t ?q] =>
    specialize (Hs t q); destruct (so t q) as [[[v r4] p4]|e] end;
    [destruct Hs as [Hr4 Hv]; [lia|]|apply Hs; lia]. cbn [result_bind]. parser_cases.
  - split; [lia|]. apply dict_of_pairs_wf, Forall_rev. by constructor.
  - eapply good_le; [|apply Ho]; [lia..|by constructor].
Qed.

(** The fuel a call needs is twice the length of its text, and one or two
    more. *)
Lemma parser_good fuel :
  (∀ s pos, 2 * String.length s + 1 ≤ fuel →
            good_value (String.length s) (scan_once fuel s pos)) ∧
  (∀ s pos acc, 2 * String.length s + 2 ≤ fuel → wf_all acc →
                good_value (String.length s) (array_items fuel s pos acc)) ∧
  (∀ s pos begin acc, 2 * String.length s + 2 ≤ fuel → wf_values acc →
                      good_value (String.length s) (object_items fuel s pos begin acc)).
Proof.
  induction fuel as [|fuel (IHs & IHa & IHo)]; [split_and!; intros; lia|].
  split_and!; intros; cbn [scan_once array_items object_items].
  - apply scan_body_good; intros; [apply IHa|apply IHo]; (lia || constructor).
  - apply array_body_good; [done|apply IHs; lia|]. intros. apply IHa; [lia|done].
  - apply object_body_good; [done|intros; apply IHs; lia|]. intros. apply IHo; [lia|done].
Qed.

(** With the fuel of its text [decode] does not run out of fuel, and what
    it returns is well formed. *)
Lemma decode_good text fuel :
  fuel_of text ≤ fuel →
  match decode fuel text with
  | Ok v => wf_pyval v = true
  | Raise e => known e
  end.
Proof.
  unfold fuel_of, decode. intros Hf.
  destruct (skip_ws text 0) as [t q] eqn:Hws. apply skip_ws_length in Hws.
  pose proof (proj1 (parser_good fuel) t q) as Hs.
  destruct (scan_once fuel t q) as [[[v r] p]|e];
    [destruct Hs as [_ Hv]; [lia|]|apply Hs; lia].
  cbn [result_bind]. parser_cases; by simplify_eq.
Qed.

(** * More fuel *)

(** [le_res a b]: [b] is what [a] is, unless [a] ran out of fuel. *)
Definition le_res {A} (a b : jres A) : Prop := a = Raise OutOfFuel ∨ a = b.

Lemma le_res_refl {A} (a : jres A) : le_res a a.
Proof. by right. Qed.

Lemma le_res_bind {A B} (m m' : jres A) (k k' : A → jres B) :
  le_res m m' → (∀ x, le_res (k x) (k' x)) →
  le_res (result_bind m k) (result_bind m' k').
Proof. intros [->| <-] Hk; [by left|]. destruct m; [apply Hk|by right]. Qed.

#[local] Hint Resolve le_res_refl : core.

Section mono.
Context (so so' : scan_type) (ai ai' : array_type) (oi oi' : object_type).
Context (Hs : ∀ s pos, le_res (so s pos) (so' s pos)).
Context (Ha : ∀ s pos acc, le_res (ai s pos acc) (ai' s pos acc)).
Context (Ho : ∀ s pos begin acc, le_res (oi s pos begin acc) (oi' s pos begin acc)).

Lemma scan_body_mono s pos : le_res (scan_body ai oi s pos) (scan_body ai' oi' s pos).
Proof using Ha Ho. unfold scan_body. repeat case_match; auto. Qed.

Lemma array_body_mono s pos acc :
  le_res (array_body so ai s pos acc) (array_body so' ai' s pos acc).
Proof using Hs Ha.
  unfold array_body. apply le_res_bind; [apply Hs|]. intros. repeat case_match; auto.
Qed.

Lemma object_body_mono s pos begin acc :
  le_res (object_body so oi s pos begin acc) (object_body so' oi' s pos begin acc).
Proof using Hs Ho.
  unfold object_body. apply le_res_bind; [auto|]. intros. repeat case_match; auto.
  apply le_res_bind; [apply Hs|]. intros. repeat case_match; auto.
Qed.

End mono.

Lemma parser_mono fuel fuel' :
  fuel ≤ fuel' →
  (∀ s pos, le_res (scan_once fuel s pos) (scan_once fuel' s pos)) ∧
  (∀ s pos acc, le_res (array_items fuel s pos acc) (array_items fuel' s pos acc)) ∧
  (∀ s pos begin acc,
     le_res (object_items fuel s pos begin acc) (object_items fuel' s pos begin acc)).
Proof.
  revert fuel'. induction fuel as [|fuel IH]; intros fuel' Hle;
    [split_and!; intros; by left|].
  destruct fuel' as [|fuel']; [lia|]. destruct (IH fuel') as (IHs & IHa & IHo); [lia|].
  split_and!; intros; cbn [scan_once array_items object_items];
    [by apply scan_body_mono|by apply array_body_mono|by apply object_body_mono].
Qed.

Lemma decode_mono fuel fuel' text :
  fuel ≤ fuel' → le_res (decode fuel text) (decode fuel' text).
Proof.
  intros Hle. unfold decode. destruct (skip_ws text 0) as [s pos].
  apply le_res_bind; [by apply parser_mono|]. auto.
Qed.

(** Fuel beyond [fuel_of] changes nothing. *)
Lemma decode_enough text fuel :
  fuel_of text ≤ fuel → decode fuel text = decode (fuel_of text) text.
Proof.
  intros Hf. destruct (decode_mono _ _ text Hf) as [Hout|Heq]; [|done].
  pose proof (decode_good text (fuel_of text) (le_n _)) as Hg. by rewrite Hout in Hg.
Qed.

(** * The laws of the parser *)

Lemma loads_Ok text v : loads text = Ok v → wf_pyval v = true.
Proof.
  unfold loads. pose proof (decode_good text (fuel_of text) (le_n _)) as Hg.
  destruct (decode _ text); by intros [= <-].
Qed.

(** [json.loads] fails with a [JSONDecodeError] at a position of the text,
    or with the [ValueError] of too many digits. *)
Lemma loads_Raise text e :
  loads text = Raise e →
  (∃ msg pos, e = decode_error text msg pos) ∨
  (∃ digits, int_max_str_digits < digits ∧ e = int_digits_error digits).
Proof.
  unfold loads. pose proof (decode_good text (fuel_of text) (le_n _)) as Hg.
  destruct (decode _ text) as [|[msg pos|digits|]]; intros [= <-]; cbn [exn_of]; eauto.
  done.
Qed.

Lemma decode_error_class text msg pos : e_class (decode_error text msg pos) = JSONDecodeError.
Proof. unfold decode_error. by destruct (line_col _ _ _ _). Qed.

#[export] Instance json_codec_laws : @JsonCodecLaws json_codec.
Proof.
  split; [exact loads_Ok|]. intros text e [(msg & pos & ->)|(d & _ & ->)]%loads_Raise.
  - rewrite decode_error_class. set_solver.
  - cbn. set_solver.
Qed.

