(* ===== verification/JsonPrint.v ===== *)
(** * The JSON printer, and the round trip

    [json.dumps] with its defaults, the way the job records and the lines
    of the index are written: [dumps].  A document that [dumps] prints is
    read back by [Json.loads] as the object printed ([loads_dumps]), so
    every well-formed object without a finite float is the content of a
    text, and the examples of the loader can be given by their objects.

    The [repr] of a finite float is not modelled: [dumps] gives [None] on
    an object that holds one, and on an integer of more digits than
    [int_max_str_digits], where [json.dumps] raises. *)

From Stdlib Require Import Ascii String ZArith NArith.
From Stdlib Require Import DecimalString DecimalN DecimalPos DecimalFacts.
From stdpp Require Import base list sets strings.
From S2P Require Import Prelude PyStr PyValue Interfaces Json.

#[local] Set Warnings "-clear-no-such-hyp".

(** * Strings *)

(** A lower-case hexadecimal digit. *)
Definition hex_digit (n : N) : ascii :=
  ascii_of_N (if (n <? 10)%N then 48 + n else 87 + n).

(** What [ensure_ascii] writes for a character: itself between the space
    and the tilde, but for the quote and the backslash; a short escape, or
    the four hexadecimal digits of its code. *)
Definition escape_char (c : ascii) : string :=
  if Ascii.eqb c quote then String backslash (String quote EmptyString)
  else if Ascii.eqb c backslash then String backslash (String backslash EmptyString)
  else if Ascii.eqb c (ascii_of_nat 8) then String backslash "b"
  else if Ascii.eqb c (ascii_of_nat 12) then String backslash "f"
  else if Ascii.eqb c (ascii_of_nat 10) then String backslash "n"
  else if Ascii.eqb c (ascii_of_nat 13) then String backslash "r"
  else if Ascii.eqb c (ascii_of_nat 9) then String backslash "t"
  else if bool_decide (32 ≤ code c ≤ 126)%N then String c EmptyString
  else String backslash
         (String "u" (String "0" (String "0"
           (String (hex_digit (code c / 16))
             (String (hex_digit (code c mod 16)) EmptyString))))).

Fixpoint escape (s : string) : string :=
  match s with
  | EmptyString => EmptyString
  | String c r => escape_char c +:+ escape r
  end.

(** [encode_basestring_ascii(s)] *)
Definition dump_string (s : string) : string :=
  String quote (escape s +:+ String quote EmptyString).

(** * Numbers *)

(** [int.__repr__], within the limit on the digits. *)
Definition dump_int (z : Z) : option string :=
  let digits := dec (Z.abs_N z) in
  if bool_decide (String.length digits ≤ int_max_str_digits)
  then Some (if (z <? 0)%Z then String "-" digits else digits)
  else None.

(** The floats that are not finite; [allow_nan] is set. *)
Definition dump_float (f : pyfloat) : option string :=
  match f with
  | NaN => Some "NaN"
  | Inf negative => Some (if negative then "-Infinity" else "Infinity")
  | Finite _ => None
  end.

(** * Objects *)

(** [sep.join(l)] *)
Fixpoint join (sep : string) (l : list string) : string :=
  match l with
  | [] => EmptyString
  | x :: l' => if l' is [] then x else x +:+ sep +:+ join sep l'
  end.

(** [json.dumps(v)] *)
Fixpoint dumps (v : pyval) : option string :=
  match v with
  | PNone => Some "null"
  | PBool b => Some (if b then "true" else "false")
  | PInt z => dump_int z
  | PFloat f => dump_float f
  | PStr s => Some (dump_string s)
  | PList l =>
      ts ← mapM dumps l; Some ("[" +:+ join ", " ts +:+ "]")
  | PDict kvs =>
      ts ← mapM (λ kv, t ← dumps kv.2; Some (dump_string kv.1 +:+ ": " +:+ t)) kvs;
      Some ("{" +:+ join ", " ts +:+ "}")
  end.

(** * Reading a printed string *)

(** The escape of a character is read as the character. *)
Lemma scanstring_escape_char c t pos begin :
  ∃ q, scanstring (escape_char c +:+ t) pos begin =
       let* str := scanstring t q begin in
       Ok (String c (fst (fst str)), snd (fst str), snd str).
Proof. destruct c as [[] [] [] [] [] [] [] []]; eexists; reflexivity. Qed.

Lemma scanstring_escape s rest pos begin :
  ∃ q, scanstring (escape s +:+ String quote rest) pos begin = Ok (s, rest, q).
Proof.
  revert pos. induction s as [|c s IH]; intros pos; cbn [escape].
  - by eexists.
  - rewrite str_app_assoc.
    destruct (scanstring_escape_char c (escape s +:+ String quote rest) pos begin) as [q ->].
    destruct (IH q) as [q' ->]. by eexists.
Qed.

(** * Reading a printed number *)

(** The value of a numeral after the digits read so far. *)
Fixpoint horner (d : Decimal.uint) (acc : N) : N :=
  match d with
  | Decimal.Nil => acc
  | Decimal.D0 d => horner d (acc * 10 + 0)
  | Decimal.D1 d => horner d (acc * 10 + 1)
  | Decimal.D2 d => horner d (acc * 10 + 2)
  | Decimal.D3 d => horner d (acc * 10 + 3)
  | Decimal.D4 d => horner d (acc * 10 + 4)
  | Decimal.D5 d => horner d (acc * 10 + 5)
  | Decimal.D6 d => horner d (acc * 10 + 6)
  | Decimal.D7 d => horner d (acc * 10 + 7)
  | Decimal.D8 d => horner d (acc * 10 + 8)
  | Decimal.D9 d => horner d (acc * 10 + 9)
  end%N.

Lemma horner_pos d p : horner d (N.pos p) = N.pos (Pos.of_uint_acc d p).
Proof.
  revert p. induction d as [|d IH|d IH|d IH|d IH|d IH|d IH|d IH|d IH|d IH|d IH]; intros p;
    cbn [horner Pos.of_uint_acc]; [done|..]; rewrite <-IH; f_equal; lia.
Qed.

Lemma horner_0 d : horner d 0 = N.of_uint d.
Proof.
  unfold N.of_uint.
  induction d as [|d IH|d IH|d IH|d IH|d IH|d IH|d IH|d IH|d IH|d IH];
    cbn [horner Pos.of_uint]; [done|exact IH|..]; by rewrite <-horner_pos.
Qed.

(** The text goes on with something that is not part of a number. *)
Definition closes (rest : string) : Prop :=
  match rest with
  | EmptyString => True
  | String c _ => c ∈ [","; "]"; "}"]%char
  end.

Lemma closes_cases rest :
  closes rest → rest = EmptyString ∨ ∃ c r, rest = String c r ∧ c ∈ [","; "]"; "}"]%char.
Proof. destruct rest as [|c r]; [by left|]. right. by exists c, r. Qed.

Lemma scan_digits_closes rest acc : closes rest → scan_digits rest acc = (acc, 0, rest).
Proof.
  intros [->|(c & r & -> & Hc)]%closes_cases; [done|].
  repeat (apply elem_of_cons in Hc as [->|Hc]; [done|]). by apply elem_of_nil in Hc.
Qed.

Lemma scan_digits_uint d rest acc :
  closes rest →
  scan_digits (NilEmpty.string_of_uint d +:+ rest) acc =
  (horner d acc, String.length (NilEmpty.string_of_uint d), rest).
Proof.
  intros Hrest. revert acc.
  induction d as [|d IH|d IH|d IH|d IH|d IH|d IH|d IH|d IH|d IH|d IH]; intros acc;
    cbn [horner NilEmpty.string_of_uint]; [by apply scan_digits_closes|..];
    rewrite str_app_cons; cbn [scan_digits String.length];
    match goal with |- context [is_digit ?c] => change (is_digit c) with true end;
    cbn match; by rewrite IH.
Qed.

(** A numeral starts with a digit, and with [0] only when it is [0]. *)
Lemma to_uint_head p :
  ∃ c r, NilEmpty.string_of_uint (Pos.to_uint p) = String c r ∧
         is_digit c = true ∧ c ≠ "0"%char.
Proof.
  pose proof (DecimalPos.Unsigned.to_uint_nonnil p) as Hnil.
  pose proof (DecimalPos.Unsigned.to_uint_nonzero p) as Hzero.
  pose proof (DecimalN.Unsigned.to_of (Pos.to_uint p)) as Hnorm.
  unfold N.of_uint in Hnorm. rewrite DecimalPos.Unsigned.of_to in Hnorm.
  cbn [N.to_uint] in Hnorm. destruct (Pos.to_uint p) as [|u|u|u|u|u|u|u|u|u|u] eqn:E;
    [done| |by eexists _, _..].
  unfold Decimal.unorm in Hnorm. pose proof (nzhead_nonzero (Decimal.D0 u)) as Hnz.
  destruct (Decimal.nzhead (Decimal.D0 u)) as [|u0|u0|u0|u0|u0|u0|u0|u0|u0|u0]; try done.
  by destruct (Hnz u0).
Qed.

Lemma dec_head n :
  ∃ c r, dec n = String c r ∧ is_digit c = true ∧ (c = "0"%char → n = 0%N ∧ r = EmptyString) ∧
         dec n = NilEmpty.string_of_uint (N.to_uint n).
Proof.
  destruct n as [|p]; [by eexists _, _|]. unfold dec. cbn [N.to_uint].
  destruct (to_uint_head p) as (c & r & E & Hd & H0).
  assert (NilZero.string_of_uint (Pos.to_uint p) = NilEmpty.string_of_uint (Pos.to_uint p))
    as -> by (by destruct (Pos.to_uint p)).
  exists c, r. by rewrite E.
Qed.

Lemma scan_int_dec n rest :
  closes rest → scan_int (dec n +:+ rest) = Some (n, String.length (dec n), rest).
Proof.
  intros Hrest. destruct (dec_head n) as (c & r & E & Hd & H0 & Hdec).
  pose proof (scan_digits_uint (N.to_uint n) rest 0 Hrest) as Hs.
  rewrite horner_0, DecimalN.Unsigned.of_to, <-Hdec, E, str_app_cons in Hs.
  rewrite E, str_app_cons. unfold scan_int. destruct (Ascii.eqb_spec c "0") as [Hc|_].
  - by destruct (H0 Hc) as [-> ->].
  - by rewrite Hd, Hs.
Qed.

Lemma scan_frac_closes rest : closes rest → scan_frac rest = None.
Proof.
  intros [->|(c & r & -> & Hc)]%closes_cases; [done|].
  repeat (apply elem_of_cons in Hc as [->|Hc]; [done|]). by apply elem_of_nil in Hc.
Qed.

Lemma scan_exp_closes rest : closes rest → scan_exp rest = None.
Proof.
  intros [->|(c & r & -> & Hc)]%closes_cases; [done|].
  repeat (apply elem_of_cons in Hc as [->|Hc]; [done|]). by apply elem_of_nil in Hc.
Qed.

(** The sign of a numeral, as [scan_number] reads it. *)
Lemma scan_number_sign (negative : bool) n rest :
  closes rest → String.length (dec n) ≤ int_max_str_digits →
  let t := if negative then String "-" (dec n) else dec n in
  scan_number (t +:+ rest) =
  Some (Ok (PInt (if negative then - Z.of_N n else Z.of_N n)), String.length t, rest).
Proof.
  intros Hrest Hlen t. unfold scan_number.
  assert (match t +:+ rest with
          | String c r => if Ascii.eqb c "-" then (true, 1, r) else (false, 0, t +:+ rest)
          | EmptyString => (false, 0, t +:+ rest)
          end = (negative, if negative then 1 else 0, dec n +:+ rest)) as ->.
  { subst t. destruct negative; [done|].
    destruct (dec_head n) as (c & r & E & Hd & _). rewrite E, str_app_cons.
    by destruct (Ascii.eqb_spec c "-") as [->|]. }
  rewrite scan_int_dec by done. cbn [mbind option_bind].
  rewrite scan_frac_closes, scan_exp_closes by done. cbn [from_option].
  rewrite bool_decide_eq_true_2 by done. subst t.
  destruct negative; cbn [String.length]; do 3 f_equal; lia.
Qed.

Lemma scan_number_int z t rest :
  dump_int z = Some t → closes rest →
  scan_number (t +:+ rest) = Some (Ok (PInt z), String.length t, rest).
Proof.
  unfold dump_int. case_bool_decide as Hlen; intros [= <-] Hrest.
  rewrite (scan_number_sign (z <? 0)%Z (Z.abs_N z) rest Hrest Hlen).
  do 4 f_equal. destruct (Z.ltb_spec z 0); f_equal; lia.
Qed.

(** The first character of a numeral. *)
Definition number_head (c : ascii) : bool := is_digit c || Ascii.eqb c "-".

Lemma dump_int_head z t : dump_int z = Some t → ∃ c r, t = String c r ∧ number_head c = true.
Proof.
  unfold dump_int, number_head. case_bool_decide; intros [= <-].
  destruct (Z.ltb z 0); [by eexists _, _|].
  destruct (dec_head (Z.abs_N z)) as (c & r & -> & Hd & _). exists c, r. by rewrite Hd.
Qed.

(** On such a character [scan_once] goes to the numbers. *)
Lemma scan_body_number ai oi c r pos :
  number_head c = true →
  scan_body ai oi (String c r) pos =
  match scan_number (String c r) with
  | Some (v, k, rest) => let* v := v in Ok (v, rest, k + pos)
  | None =>
      if starts_with "-Infinity" (String c r)
      then Ok (PFloat (Inf true), str_drop 9 (String c r), 9 + pos)
      else Raise (Decode "Expecting value" pos)
  end.
Proof.
  destruct c as [[] [] [] [] [] [] [] []]; intros H; try (by vm_compute in H); reflexivity.
Qed.

(** * Reading a printed object *)

(** The first character of a printed object is not a blank, and does
    not close a list. *)
Definition value_head (t : string) : Prop :=
  ∃ c r, t = String c r ∧ is_ws c = false ∧ c ≠ "]"%char.

Lemma number_head_value c r : number_head c = true → value_head (String c r).
Proof.
  exists c, r. split; [done|]. revert H.
  destruct c as [[] [] [] [] [] [] [] []]; intros H; try (by vm_compute in H); by vm_compute.
Qed.

Lemma dumps_head v t : dumps v = Some t → value_head t.
Proof.
  destruct v as [|[]|z|[q|[]|]|s|l|kvs]; cbn [dumps dump_float];
    try (intros [= <-]; by eexists _, _).
  - intros (c & r & -> & Hc)%dump_int_head. by apply number_head_value.
  - destruct (mapM dumps l); intros [= <-]. by eexists _, _.
  - destruct (mapM _ kvs); intros [= <-]. by eexists _, _.
Qed.

Lemma skip_ws_head t r pos : value_head t → skip_ws (t +:+ r) pos = (t +:+ r, pos).
Proof. intros (c & t' & -> & Hc & _). rewrite str_app_cons. cbn [skip_ws]. by rewrite Hc. Qed.

(** The fuel that reads an object back. *)
Fixpoint need (v : pyval) : nat :=
  match v with
  | PList l => S (foldr (λ x n, S (need x + n)) 0 l)
  | PDict kvs => S (foldr (λ kv n, S (need kv.2 + n)) 0 kvs)
  | _ => 1
  end.

(** [reads v t]: the text [t] is read as the object [v], whatever
    follows it. *)
Definition reads (v : pyval) (t : string) : Prop :=
  ∀ fuel rest pos, need v ≤ fuel → closes rest →
    ∃ q, scan_once fuel (t +:+ rest) pos = Ok (v, rest, q).

Lemma join_cons sep t ts rest :
  join sep (t :: ts) +:+ rest =
  t +:+ (if ts is [] then rest else sep +:+ join sep ts +:+ rest).
Proof. cbn [join]. destruct ts; [done|]. by rewrite !str_app_assoc. Qed.

Lemma reads_scalar v t :
  (∀ ai oi rest pos, closes rest → ∃ q, scan_body ai oi (t +:+ rest) pos = Ok (v, rest, q)) →
  need v = 1 → reads v t.
Proof.
  intros Hbody Hneed fuel rest pos Hfuel Hrest. rewrite Hneed in Hfuel.
  destruct fuel as [|fuel]; [lia|]. by apply Hbody.
Qed.

Lemma reads_str s : reads (PStr s) (dump_string s).
Proof.
  apply reads_scalar; [|done]. intros ai oi rest pos _.
  unfold dump_string. rewrite str_app_cons, str_app_assoc, str_app_cons, str_app_nil_l.
  destruct (scanstring_escape s rest (S pos) pos) as [q Hq]. exists q.
  unfold scan_body. by rewrite Ascii.eqb_refl, Hq.
Qed.

Lemma reads_int z t : dump_int z = Some t → reads (PInt z) t.
Proof.
  intros Ht. apply reads_scalar; [|done]. intros ai oi rest pos Hrest.
  destruct (dump_int_head z t Ht) as (c & r & -> & Hc).
  rewrite str_app_cons, scan_body_number, <-str_app_cons by done.
  rewrite (scan_number_int z _ rest Ht Hrest). by eexists.
Qed.

Lemma closes_comma r : closes (", " +:+ r).
Proof. rewrite str_app_cons. cbn. set_solver. Qed.

Lemma closes_bracket r : closes (String "]" r).
Proof. cbn. set_solver. Qed.

Lemma closes_brace r : closes (String "}" r).
Proof. cbn. set_solver. Qed.

#[local] Hint Resolve closes_comma closes_bracket closes_brace : core.

(** The loop of a list, from its first item on. *)
Lemma array_items_reads l ts :
  Forall2 reads l ts → Forall value_head ts → l ≠ [] →
  ∀ fuel rest pos acc,
    foldr (λ x n, S (need x + n)) 0 l ≤ fuel →
    ∃ q, array_items fuel (join ", " ts +:+ String "]" rest) pos acc =
         Ok (PList (rev acc ++ l), rest, q).
Proof.
  induction 1 as [|v t l ts Hv Hl IH]; [done|].
  intros [_ Hts]%Forall_cons_1 _ fuel rest pos acc Hfuel. cbn [foldr] in Hfuel.
  destruct fuel as [|fuel]; [lia|]. cbn [array_items]. unfold array_body.
  rewrite join_cons. destruct Hl as [|v' t' l ts Hv' Hl].
  - destruct (Hv fuel (String "]" rest) pos) as [q ->]; [lia|done|]. by eexists.
  - destruct (Hv fuel (", " +:+ join ", " (t' :: ts) +:+ String "]" rest) pos) as [q ->];
      [lia|done|].
    destruct (IH Hts) with (fuel := fuel) (rest := rest) (pos := S (S q)) (acc := v :: acc)
      as [q' Hq']; [done|lia|].
    exists q'. cbn [result_bind]. rewrite str_app_cons. cbn [skip_ws].
    change (is_ws ",") with false. change (is_ws " ") with true. cbn match.
    rewrite str_app_cons, str_app_nil_l. cbn [skip_ws]. change (is_ws " ") with true.
    cbn match. rewrite join_cons, skip_ws_head by by inversion Hts.
    rewrite <-join_cons, Hq'. cbn [rev]. by rewrite <-app_assoc.
Qed.

(** The text of an entry of a dictionary: the key, a colon, a space and
    the value. *)
Definition entry_text (kv : string * pyval) (e : string) : Prop :=
  ∃ t, e = dump_string kv.1 +:+ ": " +:+ t ∧ reads kv.2 t ∧ value_head t.

(** What follows an item: the end, or a comma, a space and the items
    that remain. *)
Definition after (es : list string) (rest : string) : string :=
  if es is [] then rest else String "," (String " " (join ", " es +:+ rest)).

Lemma join_after e es rest : join ", " (e :: es) +:+ rest = e +:+ after es rest.
Proof. rewrite join_cons. by destruct es. Qed.

Lemma entry_text_unfold kv e r :
  entry_text kv e →
  ∃ t, e +:+ r = String quote (escape kv.1 +:+ String quote (String ":" (String " " (t +:+ r)))) ∧
       reads kv.2 t ∧ value_head t.
Proof.
  intros (t & -> & Ht). exists t. split; [|done]. unfold dump_string.
  by rewrite !str_app_cons, !str_app_assoc, !str_app_cons, !str_app_nil_l.
Qed.

Lemma skip_ws_punct c r pos : is_ws c = false → skip_ws (String c r) pos = (String c r, pos).
Proof. intros Hc. cbn [skip_ws]. by rewrite Hc. Qed.

Lemma skip_ws_space r pos : skip_ws (String " " r) pos = skip_ws r (S pos).
Proof. done. Qed.

(** [parser_step]: runs a body over the punctuation of a printed text. *)
Ltac parser_step :=
  repeat first
    [ rewrite skip_ws_space | rewrite skip_ws_punct by done | rewrite skip_ws_head by done
    | rewrite Ascii.eqb_refl | progress cbn [result_bind] | progress cbn match ].

(** The loop of a dictionary, from the character after the quote that
    opens its first key on. *)
Lemma object_items_reads kvs es :
  Forall2 entry_text kvs es → kvs ≠ [] →
  ∀ fuel rest pos begin acc s,
    foldr (λ kv n, S (need kv.2 + n)) 0 kvs ≤ fuel →
    String quote s = join ", " es +:+ String "}" rest →
    ∃ q, object_items fuel s pos begin acc =
         Ok (PDict (dict_of_pairs (rev acc ++ kvs)), rest, q).
Proof.
  induction 1 as [|[k v] e kvs es He Hl IH]; [done|].
  intros _ fuel rest pos begin acc s Hfuel Hs. cbn [foldr snd] in Hfuel.
  destruct fuel as [|fuel]; [lia|]. cbn [object_items]. unfold object_body.
  rewrite join_after in Hs.
  apply entry_text_unfold with (r := after es (String "}" rest)) in He as (t & He & Hv & Ht).
  rewrite He in Hs. injection Hs as ->. cbn [fst snd] in *.
  destruct (scanstring_escape k (String ":" (String " " (t +:+ after es (String "}" rest))))
              pos begin) as [q ->].
  parser_step. destruct Hl as [|kv' e' kvs es He' Hl]; cbn [after].
  - destruct (Hv fuel (String "}" rest) (S (S q))) as [q' ->]; [lia|done|]. by eexists.
  - destruct (Hv fuel (String "," (String " " (join ", " (e' :: es) +:+ String "}" rest)))
                (S (S q))) as [q' ->]; [lia|cbn; set_solver|].
    pose proof He' as (t' & Hs' & _)%(entry_text_unfold _ _ (after es (String "}" rest))).
    rewrite <-join_after in Hs'. parser_step. change (Ascii.eqb "," "}") with false.
    parser_step. rewrite Hs'. parser_step.
    destruct (IH ltac:(done) fuel rest (S (S (S q'))) (S (S q')) ((k, v) :: acc) _
                ltac:(lia) (eq_sym Hs')) as [q'' ->].
    exists q''. cbn [rev]. by rewrite <-app_assoc.
Qed.

(** A dictionary without a key twice is what [dict] makes of its pairs. *)
Lemma dict_set_fresh key v kvs : key ∉ kvs.*1 → dict_set key v kvs = kvs ++ [(key, v)].
Proof.
  induction kvs as [|[k w] kvs IH]; cbn [dict_set fmap list_fmap fst app]; [done|].
  intros [Hk Hkvs]%not_elem_of_cons. destruct (String.eqb_spec k key); [done|].
  by rewrite IH.
Qed.

Lemma dict_of_pairs_NoDup kvs : NoDup kvs.*1 → dict_of_pairs kvs = kvs.
Proof.
  unfold dict_of_pairs. change kvs with ([] ++ kvs) at 1 3.
  generalize ([] : list (string * pyval)) as acc.
  induction kvs as [|[k v] kvs IH]; intros acc; cbn [foldl app fst snd].
  - by rewrite app_nil_r.
  - intros Hnd. rewrite dict_set_fresh.
    + rewrite IH; by rewrite <-app_assoc.
    + rewrite fmap_app, fmap_cons in Hnd. apply NoDup_app in Hnd as (_ & Hk & _).
      intros Hin. apply (Hk k Hin). by left.
Qed.

Lemma Forall2_reads (P : pyval → Prop) l ts :
  Forall (λ v, ∀ t, dumps v = Some t → P v → reads v t) l → Forall P l →
  Forall2 (λ v t, dumps v = Some t) l ts →
  Forall2 reads l ts ∧ Forall value_head ts.
Proof.
  intros Hl HP Hts. revert Hl HP.
  induction Hts as [|v t l ts Ht Hts IH]; [by split; constructor|].
  intros [Hv Hl]%Forall_cons_1 [Pv Pl]%Forall_cons_1.
  destruct (IH Hl Pl). split; constructor; eauto using dumps_head.
Qed.

Lemma Forall2_entry_text kvs es :
  Forall (λ kv, ∀ t, dumps kv.2 = Some t → wf_pyval kv.2 = true → reads kv.2 t) kvs →
  wf_values kvs →
  Forall2 (λ kv e, (t ← dumps kv.2; Some (dump_string kv.1 +:+ ": " +:+ t)) = Some e) kvs es →
  Forall2 entry_text kvs es.
Proof.
  intros Hl HP Hes. revert Hl HP.
  induction Hes as [|[k v] e kvs es He Hes IH]; [constructor|].
  intros [Hv Hl]%Forall_cons_1 [Pv Pl]%Forall_cons_1. constructor; [|by apply IH].
  cbn [fst snd] in *. destruct (dumps v) as [tv|] eqn:Hd; [|done]. injection He as <-.
  exists tv. eauto using dumps_head.
Qed.

(** [scan_once] on a text that opens a list or a dictionary. *)
Lemma scan_once_list fuel r pos :
  scan_once (S fuel) (String "[" r) pos =
  let '(r1, p1) := skip_ws r (S pos) in
  match r1 with
  | String c1 r2 =>
      if Ascii.eqb c1 "]" then Ok (PList [], r2, S p1) else array_items fuel r1 p1 []
  | EmptyString => array_items fuel r1 p1 []
  end.
Proof. done. Qed.

Lemma scan_once_dict fuel r pos :
  scan_once (S fuel) (String "{" r) pos =
  let '(r1, p1) := skip_ws r (S pos) in
  match r1 with
  | String c1 r2 =>
      if Ascii.eqb c1 "}" then Ok (PDict [], r2, S p1)
      else if Ascii.eqb c1 quote then object_items fuel r2 (S p1) p1 []
      else Raise (Decode "Expecting property name enclosed in double quotes" p1)
  | EmptyString => Raise (Decode "Expecting property name enclosed in double quotes" p1)
  end.
Proof. done. Qed.

Lemma reads_list l ts :
  Forall2 reads l ts → Forall value_head ts →
  reads (PList l) ("[" +:+ join ", " ts +:+ "]").
Proof.
  intros Hr Hh fuel rest pos Hfuel Hrest. cbn [need] in Hfuel.
  destruct fuel as [|fuel]; [lia|].
  rewrite !str_app_assoc, !str_app_cons, !str_app_nil_l, scan_once_list.
  destruct Hr as [|v t l ts Hv Hr]; [by eexists|].
  destruct (array_items_reads (v :: l) (t :: ts)) with (fuel := fuel) (rest := rest)
    (pos := S pos) (acc := @nil pyval) as [q Hq]; [by constructor|done..|lia|].
  exists q. cbn [rev app] in Hq. rewrite <-Hq, join_after, skip_ws_head by by inversion Hh.
  destruct (Forall_cons_1 _ _ _ Hh) as [(c & r & -> & _ & Hc) _].
  rewrite str_app_cons. by rewrite (proj2 (Ascii.eqb_neq _ _) Hc).
Qed.

Lemma reads_dict kvs es :
  Forall2 entry_text kvs es → NoDup kvs.*1 →
  reads (PDict kvs) ("{" +:+ join ", " es +:+ "}").
Proof.
  intros Hr Hnd fuel rest pos Hfuel Hrest. cbn [need] in Hfuel.
  destruct fuel as [|fuel]; [lia|].
  rewrite !str_app_assoc, !str_app_cons, !str_app_nil_l, scan_once_dict.
  destruct Hr as [|kv e kvs es He Hr]; [by eexists|].
  pose proof He as (t' & Hs' & _)%(entry_text_unfold _ _ (after es (String "}" rest))).
  rewrite <-join_after in Hs'.
  destruct (object_items_reads (kv :: kvs) (e :: es) ltac:(by constructor) ltac:(done)
              fuel rest (S (S pos)) (S pos) [] _ ltac:(lia) (eq_sym Hs')) as [q Hq].
  exists q. cbn [rev app] in Hq.
  rewrite <-(dict_of_pairs_NoDup (kv :: kvs)), <-Hq, Hs' by done. parser_step.
  by change (Ascii.eqb quote "}") with false.
Qed.

(** A printed object is read as the object, if it is well formed. *)
Lemma dumps_reads v t : dumps v = Some t → wf_pyval v = true → reads v t.
Proof.
  revert t. induction v as [|b|z|f|s|l IH|kvs IH] using pyval_ind'; intros t Ht Hwf;
    cbn [dumps] in Ht.
  - injection Ht as <-. apply reads_scalar; [|done]. intros. by eexists.
  - injection Ht as <-. apply reads_scalar; [|done]. intros. destruct b; by eexists.
  - by apply reads_int.
  - apply reads_scalar; [|done]. intros.
    destruct f as [q|[]|]; [done|..]; injection Ht as <-; by eexists.
  - injection Ht as <-. apply reads_str.
  - destruct (mapM dumps l) as [ts|] eqn:Hts; [|done]. injection Ht as <-.
    apply mapM_Some_1 in Hts. apply wf_PList in Hwf.
    destruct (Forall2_reads _ l ts IH Hwf Hts) as [Hr Hh]. by apply reads_list.
  - destruct (mapM _ kvs) as [es|] eqn:Hes; [|done]. injection Ht as <-.
    apply mapM_Some_1 in Hes. apply wf_PDict in Hwf as [Hnd Hwf].
    apply reads_dict; [|done]. by apply Forall2_entry_text.
Qed.

(** * The round trip *)

(** [json.loads(json.dumps(v)) == v] *)
Lemma loads_dumps v t : dumps v = Some t → wf_pyval v = true → loads t = Ok v.
Proof.
  intros Ht Hwf. unfold loads.
  rewrite <-(decode_enough t (need v `max` fuel_of t)) by lia. unfold decode.
  rewrite <-(str_app_nil_r t) at 1. rewrite skip_ws_head by eauto using dumps_head.
  destruct (dumps_reads v t Ht Hwf (need v `max` fuel_of t) EmptyString 0) as [q ->];
    [lia|done|].
  done.
Qed.

(** The printer does not print two objects the same way. *)
Lemma dumps_inj v w t :
  dumps v = Some t → dumps w = Some t →
  wf_pyval v = true → wf_pyval w = true → v = w.
Proof.
  intros Hv Hw Hwfv Hwfw. apply (loads_dumps _ _ Hv) in Hwfv.
  apply (loads_dumps _ _ Hw) in Hwfw. congruence.
Qed.

(** ** What a printed text is made of *)

(** The characters from the space to the tilde. *)
Definition printable (c : ascii) : bool := bool_decide (32 ≤ code c ≤ 126)%N.

Definition all_printable (s : string) : bool := forallb printable (list_ascii_of_string s).

Lemma all_printable_app s t :
  all_printable (s +:+ t) = all_printable s && all_printable t.
Proof.
  unfold all_printable. induction s as [|c s IH]; [done|].
  rewrite str_app_cons. cbn [list_ascii_of_string forallb]. by rewrite IH, andb_assoc.
Qed.

Lemma escape_printable s : all_printable (escape s) = true.
Proof.
  induction s as [|c s IH]; [done|]. cbn [escape]. rewrite all_printable_app, IH, andb_true_r.
  by destruct c as [[] [] [] [] [] [] [] []].
Qed.

Lemma dump_int_printable z t : dump_int z = Some t → all_printable t = true.
Proof.
  unfold dump_int. case_bool_decide; intros [= <-].
  assert (all_printable (dec (Z.abs_N z)) = true) as Hd; [|by destruct (z <? 0)%Z].
  destruct (dec_head (Z.abs_N z)) as (_ & _ & _ & _ & _ & ->).
  generalize (N.to_uint (Z.abs_N z)). intros d.
  induction d as [|d IH|d IH|d IH|d IH|d IH|d IH|d IH|d IH|d IH|d IH]; [done|exact IH..].
Qed.

Lemma join_printable ts :
  Forall (λ t, all_printable t = true) ts → all_printable (join ", " ts) = true.
Proof.
  induction 1 as [|t ts Ht Hts IH]; [done|]. cbn [join]. destruct ts; [done|].
  by rewrite !all_printable_app, Ht, IH.
Qed.

(** [ensure_ascii]: a printed text has no character outside the printable
    ones; no newline in particular. *)
Lemma dumps_printable v t : dumps v = Some t → all_printable t = true.
Proof.
  revert t. induction v as [|b|z|f|s|l IH|kvs IH] using pyval_ind'; intros t Ht;
    cbn [dumps] in Ht.
  - by injection Ht as <-.
  - injection Ht as <-. by destruct b.
  - by apply dump_int_printable in Ht.
  - destruct f as [q|[]|]; [done|..]; by injection Ht as <-.
  - injection Ht as <-. unfold dump_string. rewrite <-str_app_cons, all_printable_app.
    change (String quote (escape s)) with (String quote EmptyString +:+ escape s).
    by rewrite all_printable_app, escape_printable.
  - destruct (mapM dumps l) as [ts|] eqn:Hts; [|done]. injection Ht as <-.
    rewrite !all_printable_app, join_printable; [done|].
    apply mapM_Some_1 in Hts. induction Hts as [|v t l ts Ht Hts IHts]; [done|].
    apply Forall_cons_1 in IH as [Hv Hl]. constructor; eauto.
  - destruct (mapM _ kvs) as [es|] eqn:Hes; [|done]. injection Ht as <-.
    rewrite !all_printable_app, join_printable; [done|].
    apply mapM_Some_1 in Hes. induction Hes as [|[k v] e kvs es He Hes IHes]; [done|].
    apply Forall_cons_1 in IH as [Hv Hl]. constructor; [|eauto].
    cbn [fst snd] in *. destruct (dumps v) as [tv|] eqn:Hd; [|done]. injection He as <-.
    unfold dump_string. rewrite !all_printable_app, (Hv tv), andb_true_r by done.
    rewrite <-str_app_cons, all_printable_app.
    change (String quote (escape k)) with (String quote EmptyString +:+ escape k).
    by rewrite all_printable_app, escape_printable.
Qed.
