(* ===== verification/Documents.v ===== *)
(** * The loader over JSON documents

    [load_job_data] and [load_index_entry] with the parser of file [Json]
    in the place of the interface [JsonCodec]:

    - the ways [load_job_data] fails, with the messages of the parser;
    - what [json.dumps] wrote is what the loader returns: a record file,
      and an index written one entry a line;
    - the texts of the example of file [Loader] are JSON documents, and
      the parser of the example is [json.loads] on them. *)

From Stdlib Require Import Ascii String ZArith.
From stdpp Require Import base list sets strings.
From S2P Require Import Prelude PyStr PyValue Interfaces MemFS Loader Json JsonPrint.

#[local] Set Warnings "-clear-no-such-hyp".

#[local] Existing Instance json_codec.

(** The entries of an index that are the one of a job. *)
Definition has_job_id (job_id : string) (kvs : list (string * pyval)) : bool :=
  bool_decide (assoc "job_id" kvs = Some (PStr job_id)).

(** [written v t]: the text [t] is what [json.dumps] writes for the
    object [v]. *)
Definition written (v : pyval) (t : string) : Prop :=
  dumps v = Some t ∧ wf_pyval v = true.

(** The texts of the entries of an index, written by [json.dumps]. *)
Definition printed (entries : list (list (string * pyval))) (ts : list string) : Prop :=
  Forall2 (λ kvs t, written (PDict kvs) t) entries ts.

(** [parse_error text e]: [e] is an exception of [json.loads] on [text],
    a [JSONDecodeError] at a position or the [ValueError] of an integer
    of too many digits. *)
Definition parse_error (text : string) (e : exn) : Prop :=
  (∃ msg pos, e = decode_error text msg pos) ∨
  (∃ digits, int_max_str_digits < digits ∧ e = int_digits_error digits).

Lemma printed_one_line v t : dumps v = Some t → one_line t = true.
Proof.
  intros Ht%dumps_printable. unfold all_printable, one_line in *.
  apply forallb_Forall. apply forallb_Forall in Ht. eapply Forall_impl; [exact Ht|].
  intros c Hc. by destruct c as [[] [] [] [] [] [] [] []].
Qed.

(** A printed dictionary starts and ends with a brace: [strip] leaves it. *)
Lemma strip_printed kvs t : dumps (PDict kvs) = Some t → strip (text_line t) = t.
Proof.
  cbn [dumps]. destruct (mapM _ kvs) as [es|]; [|done]. intros [= <-].
  rewrite str_app_cons, str_app_nil_l. by apply strip_text_line.
Qed.

Section documents.
Context {FS : Type} `{FileSystem FS}.
Implicit Types (fs : FS) (job_id : string).

(** The body of the loop of [load_index_entry] on a printed entry. *)
Lemma index_line_printed job_id kvs t :
  dumps (PDict kvs) = Some t → wf_pyval (PDict kvs) = true →
  index_line job_id (text_line t) =
  Ok (if has_job_id job_id kvs then Some (PDict kvs) else None).
Proof.
  intros Ht Hwf. unfold index_line, json_loads, json_codec.
  rewrite (strip_printed kvs t Ht), (loads_dumps _ _ Ht Hwf). cbn [result_bind py_get].
  by rewrite default_eq_str.
Qed.

Lemma scan_index_printed job_id entries ts :
  printed entries ts →
  scan_index job_id (text_line <$> ts) =
  Ok (PDict <$> List.find (has_job_id job_id) entries).
Proof.
  unfold scan_index. induction 1 as [|kvs t entries ts [Ht Hwf] _ IH]; [done|].
  rewrite fmap_cons. cbn [first_result List.find].
  rewrite (index_line_printed job_id kvs t Ht Hwf). by destruct (has_job_id job_id kvs).
Qed.

(** Claim C16. The ways [load_job_data] fails: no file matches; the
    greatest file cannot be read; or its text is no JSON document, and the
    exception is the [JSONDecodeError] of a position of the text or the
    [ValueError] of an integer of more than 4300 digits. *)
Theorem load_job_data_errors fs job_id e :
  load_job_data fs job_id = Raise e →
  (fs_glob fs (job_pattern job_id) = [] ∧ e = no_job_files_error job_id) ∨
  ∃ p, greatest p (fs_glob fs (job_pattern job_id)) ∧
       (fs_read fs p = Raise e ∨ ∃ text, fs_read fs p = Ok text ∧ parse_error text e).
Proof.
  destruct (fs_glob fs (job_pattern job_id)) as [|x l] eqn:Hl.
  - unfold load_job_data. rewrite Hl. intros [= <-]. by left.
  - rewrite (load_job_data_unfold _ _ _ _ Hl). intros Hr. right. exists (max_str x l).
    split; [by apply py_max_Ok|].
    apply result_bind_Raise_inv in Hr as [Hr|(text & Hr & He)]; [by left|].
    right. exists text. split; [done|]. by apply loads_Raise in He.
Qed.

(** A record that [json.dumps] wrote is the record loaded: when
    the greatest job file holds the text written for an object,
    [load_job_data] returns that object. *)
Theorem load_job_data_printed fs job_id p v t :
  greatest p (fs_glob fs (job_pattern job_id)) → fs_read fs p = Ok t →
  written v t → load_job_data fs job_id = Ok v.
Proof.
  intros Hp Hr [Ht Hwf]. apply (load_job_data_read _ _ p t); [done..|].
  by apply loads_dumps.
Qed.

(** Claim C15. An index written one entry a line by [json.dumps] is read
    back: [load_index_entry] returns the first of the entries written
    whose ['job_id'] is the identifier, and raises "not found in index"
    when none of them has it. *)
Theorem load_index_entry_printed fs job_id entries ts :
  fs_exists fs index_path = true →
  fs_read fs index_path = Ok (str_concat (text_line <$> ts)) →
  printed entries ts →
  load_index_entry fs job_id =
  match List.find (has_job_id job_id) entries with
  | Some kvs => Ok (PDict kvs)
  | None => Raise (not_in_index_error job_id)
  end.
Proof.
  intros He Hr Hp. rewrite (load_index_entry_unfold _ _ _ He Hr), readlines_lines.
  - rewrite (scan_index_printed _ entries) by done. by destruct (List.find _ entries).
  - clear Hr. induction Hp as [|kvs t entries ts [Ht _] _ IH]; constructor;
      eauto using printed_one_line.
Qed.

End documents.

(** * The example of file [Loader]

    Its texts are JSON documents: the parser given there by a table is
    [json.loads] on them, and on the line that does not parse. *)

Example sample_codec_loads :
  Forall (λ text, sample_codec text = loads text)
    [sample_old_text; sample_new_text; sample_line_41; sample_line_42; "not json"].
Proof. repeat constructor; by vm_compute. Qed.

Example sample_load_job_data_json : load_job_data sample_fs "42" = Ok sample_record.
Proof. by vm_compute. Qed.

Example sample_load_index_entry_json :
  load_index_entry sample_fs "42" = Ok (PDict sample_entry_42).
Proof. by vm_compute. Qed.

(** A record that breaks off after its first brace. *)
Definition broken_fs : memfs := mem_of_list [("logs/7/job-20250101.json", "{")].

Definition broken_error : exn :=
  Exn JSONDecodeError
    "Expecting property name enclosed in double quotes: line 1 column 2 (char 1)".

Lemma load_job_data_errors_witness :
  load_job_data broken_fs "7" = Raise broken_error ∧
  ((fs_glob broken_fs (job_pattern "7") = [] ∧ broken_error = no_job_files_error "7") ∨
   ∃ p, greatest p (fs_glob broken_fs (job_pattern "7")) ∧
        (fs_read broken_fs p = Raise broken_error ∨
         ∃ text, fs_read broken_fs p = Ok text ∧ parse_error text broken_error)).
Proof.
  assert (load_job_data broken_fs "7" = Raise broken_error) as Hr by by vm_compute.
  split; [exact Hr|]. exact (load_job_data_errors broken_fs "7" broken_error Hr).
Defined.

(** The record of job 42 is what [json.dumps] writes for [sample_record]. *)
Lemma load_job_data_printed_witness :
  dumps sample_record = Some sample_new_text ∧
  load_job_data sample_fs "42" = Ok sample_record.
Proof.
  assert (dumps sample_record = Some sample_new_text) as Ht by by vm_compute.
  split; [exact Ht|].
  apply (load_job_data_printed sample_fs "42" "logs/42/job-20240215.json" sample_record
           sample_new_text sample_greatest); [by vm_compute|]. split; [exact Ht|by vm_compute].
Defined.

(** An index of two printed entries. *)
Definition printed_index : memfs :=
  mem_of_list [("data/index.jsonl", str_concat (text_line <$> [sample_line_41; sample_line_42]))].

Lemma printed_sample : printed [sample_entry_41; sample_entry_42] [sample_line_41; sample_line_42].
Proof. repeat constructor; by vm_compute. Qed.

Lemma load_index_entry_printed_witness :
  load_index_entry printed_index "42" = Ok (PDict sample_entry_42) ∧
  load_index_entry printed_index "43" = Raise (not_in_index_error "43").
Proof.
  split.
  - apply (load_index_entry_printed printed_index "42" [sample_entry_41; sample_entry_42]
             [sample_line_41; sample_line_42]); [by vm_compute..|exact printed_sample].
  - apply (load_index_entry_printed printed_index "43" [sample_entry_41; sample_entry_42]
             [sample_line_41; sample_line_42]); [by vm_compute..|exact printed_sample].
Defined.
