(* ===== verification/Handles.v ===== *)
(** * Files as resources

    The two loading functions of evaluators.py once more, with what file
    [Loader] leaves out: a file is opened, read and closed.  [with
    open(path, 'r') as f] gives a handle, the body reads from it, and the
    handle is closed however the body ends; [json.load(f)] reads the file
    to its end, [for line in f] reads it a line at a time and the [return]
    inside the loop leaves the rest unread.  A read can fail in the middle
    of a file ([w_fault]).

    The state is the table of the open files and the log of the events.
    The protocol of file handles is a step relation on the set of the
    open handles ([step], [run]) with its executable form ([exec]).  The
    theorems: the table is left as it was found, on every path; the
    events logged follow the protocol, and every [Opened] is followed by
    the [Closed] of its handle ([scoped], kept by [bind], [except] and
    [with]); the index is read up to the entry looked for and no
    further; on files that read without a failure the functions and the
    evaluations are the ones of [Loader] and [Evaluator]. *)

From stdpp Require Import base list gmap strings.
From S2P Require Import Prelude PyStr PyValue Interfaces MemFS Loader Evaluator.

#[local] Set Warnings "-clear-no-such-hyp".

(** * Open files *)

(** What the reads of a file give, one after the other: a line, or the
    exception of a read that fails. *)
Abbreviation stream := (list (pyres string)).

Inductive event : Type :=
| Opened (h : nat) (path : string)
| Read (h : nat)
| Closed (h : nat).

#[export] Instance event_eq_dec : EqDecision event.
Proof. solve_decision. Defined.

Record files : Type := Files {
  (** the handle the next [open] gives *)
  next_handle : nat;
  (** the open files, and what is left to read of each *)
  open_files : gmap nat stream;
  log : list event;
}.

Abbreviation FM := (stx files exn).

(** [f.read()]: the lines that are left, or the first failure. *)
Fixpoint read_all (chunks : stream) : pyres string :=
  match chunks with
  | [] => Ok EmptyString
  | Ok line :: rest => let* text := read_all rest in Ok (line +:+ text)
  | Raise e :: _ => Raise e
  end.

Definition closed_file_error : exn := Exn ValueError "I/O operation on closed file.".

Definition h_read (h : nat) : FM string := λ st,
  match open_files st !! h with
  | None => (st, Raise closed_file_error)
  | Some chunks =>
      (Files (next_handle st) (<[h := []]> (open_files st)) (log st ++ [Read h]),
       read_all chunks)
  end.

(** [next(f)]: a line, or nothing at the end of the file. *)
Definition h_next (h : nat) : FM (option string) := λ st,
  match open_files st !! h with
  | None => (st, Raise closed_file_error)
  | Some [] => (Files (next_handle st) (open_files st) (log st ++ [Read h]), Ok None)
  | Some (c :: rest) =>
      (Files (next_handle st) (<[h := rest]> (open_files st)) (log st ++ [Read h]),
       match c with Ok line => Ok (Some line) | Raise e => Raise e end)
  end.

(** The state in which a new handle holds [chunks]. *)
Definition opened (path : string) (chunks : stream) (st : files) : files :=
  Files (S (next_handle st)) (<[next_handle st := chunks]> (open_files st))
        (log st ++ [Opened (next_handle st) path]).

(** [f.close()] *)
Definition h_close (h : nat) (st : files) : files :=
  Files (next_handle st) (delete h (open_files st)) (log st ++ [Closed h]).

(** [for line in f: ...] with a body that can end the loop with a value.
    The loop is unrolled along [chunks], what the file holds when the loop
    starts. *)
Fixpoint for_lines {A} (f : nat) (body : string → pyres (option A)) (chunks : stream) :
    FM (option A) :=
  line ← h_next f;
  match line, chunks with
  | Some line, _ :: rest =>
      r ← stx_lift (body line);
      match r with
      | Some a => mret (Some a)
      | None => for_lines f body rest
      end
  | _, _ => mret None
  end.

(** The state after a [with] block that made [reads] reads: the table is
    the one before, a handle is used up, the events are in the log. *)
Definition after_with (path : string) (reads : nat) (st : files) : files :=
  Files (S (next_handle st)) (open_files st)
        (log st ++ Opened (next_handle st) path ::
                   replicate reads (Read (next_handle st)) ++ [Closed (next_handle st)]).

(** No file has been opened yet. *)
Definition no_files : files := Files 0 ∅ [].

(** No handle of the table is one that [open] will give. *)
Definition fresh (st : files) : Prop :=
  ∀ h, next_handle st ≤ h → open_files st !! h = None.

(** Every [Opened] of a log is followed by the [Closed] of its handle. *)
Fixpoint all_closed (l : list event) : Prop :=
  match l with
  | [] => True
  | Opened h _ :: l' => Closed h ∈ l' ∧ all_closed l'
  | _ :: l' => all_closed l'
  end.

#[export] Instance all_closed_dec l : Decision (all_closed l).
Proof. induction l as [|[] l IH]; simpl; apply _. Defined.

(** The protocol of file handles, on the set of the handles that are
    open: a handle is opened when it is not open, read from and closed
    when it is. *)
Inductive step : gset nat → event → gset nat → Prop :=
| step_open o h path : h ∉ o → step o (Opened h path) ({[h]} ∪ o)
| step_read o h : h ∈ o → step o (Read h) o
| step_close o h : h ∈ o → step o (Closed h) (o ∖ {[h]}).

Inductive run : gset nat → list event → gset nat → Prop :=
| run_nil o : run o [] o
| run_cons o ev o' evs o'' : step o ev o' → run o' evs o'' → run o (ev :: evs) o''.

(** The protocol as a function: the handles open after an event, if the
    event is allowed. *)
Definition step_of (o : gset nat) (ev : event) : option (gset nat) :=
  match ev with
  | Opened h _ => if decide (h ∈ o) then None else Some ({[h]} ∪ o)
  | Read h => if decide (h ∈ o) then Some o else None
  | Closed h => if decide (h ∈ o) then Some (o ∖ {[h]}) else None
  end.

Fixpoint exec (o : gset nat) (evs : list event) : option (gset nat) :=
  match evs with
  | [] => Some o
  | ev :: evs' => o' ← step_of o ev; exec o' evs'
  end.

(** What the discipline of [with] leaves of a state: the table of the
    open files as it was, handles taken from [next_handle] on, and in the
    log new events that follow the protocol and among which every file
    opened is closed. *)
Definition leaves (st st' : files) : Prop :=
  ∃ k evs, st' = Files (next_handle st + k) (open_files st) (log st ++ evs) ∧
           all_closed evs ∧ run (dom (open_files st)) evs (dom (open_files st)).

Definition scoped {A} (m : FM A) : Prop := ∀ st, fresh st → leaves st (m st).1.

(** What [load_index_entry] makes of the outcome of its loop. *)
Definition found_or_raise (job_id : string) (r : pyres (option pyval)) : pyres pyval :=
  match r with
  | Ok (Some entry) => Ok entry
  | Ok None => Raise (not_in_index_error job_id)
  | Raise e => Raise e
  end.

(** Where the loop over the lines of the index stops: the result, and the
    number of reads it takes. *)
Fixpoint scan_stream {A} (body : string → pyres (option A)) (chunks : stream) :
    pyres (option A) * nat :=
  match chunks with
  | [] => (Ok None, 1)
  | Raise e :: _ => (Raise e, 1)
  | Ok line :: rest =>
      match body line with
      | Ok None => let '(r, n) := scan_stream body rest in (r, S n)
      | Ok (Some a) => (Ok (Some a), 1)
      | Raise e => (Raise e, 1)
      end
  end.

Section handles.
Context {FS : Type} `{FileSystem FS} `{JsonCodec}.

(** The world: the file system, and for a path the read that fails, if
    one does: the number of lines read before it and the exception. *)
Record world : Type := World {
  w_fs : FS;
  w_fault : string → option (nat * exn);
}.

Definition chunks_of (text : string) (fault : option (nat * exn)) : stream :=
  match fault with
  | None => Ok <$> readlines text
  | Some (n, e) => (Ok <$> take n (readlines text)) ++ [Raise e]
  end.

(** [open(path, 'r')] *)
Definition h_open (w : world) (path : string) : FM nat := λ st,
  match fs_read (w_fs w) path with
  | Ok text => (opened path (chunks_of text (w_fault w path)) st, Ok (next_handle st))
  | Raise e => (st, Raise e)
  end.

(** [with open(path, 'r') as f: body] *)
Definition with_open {A} (w : world) (path : string) (body : nat → FM A) : FM A :=
  f ← h_open w path; stx_finally (body f) (h_close f).

(** [load_job_data], lines 29-41 *)
Definition load_job_data_h (w : world) (job_id : string) : FM pyval :=
  let job_files := fs_glob (w_fs w) (job_pattern job_id) in
  match job_files with
  | [] => stx_lift (Raise (no_job_files_error job_id))
  | _ :: _ =>
      latest_job_file ← stx_lift (py_max job_files);
      with_open w latest_job_file (λ f, text ← h_read f; stx_lift (json_load text))
  end.

(** The loop of [load_index_entry], lines 50-53, on the open index. *)
Definition scan_lines (job_id : string) (f : nat) : FM (option pyval) := λ st,
  for_lines f (index_line job_id) (default [] (open_files st !! f)) st.

(** [load_index_entry], lines 43-55 *)
Definition load_index_entry_h (w : world) (job_id : string) : FM pyval :=
  if negb (fs_exists (w_fs w) index_path) then stx_lift (Raise no_index_error)
  else
    found ← with_open w index_path (scan_lines job_id);
    match found with
    | Some entry => mret entry
    | None => stx_lift (Raise (not_in_index_error job_id))
    end.

(** Lines 67-68 of [evaluate_required_terms_quality]: the two loads, one
    after the other. *)
Definition load_both_h (w : world) (job_id : string) : FM (pyval * pyval) :=
  job_data ← load_job_data_h w job_id;
  index_entry ← load_index_entry_h w job_id;
  mret (job_data, index_entry).

(** [evaluate_required_terms_quality], lines 57-86, on open files: the
    [try] around the loads and the computation, the [except] that makes
    the error report. *)
Definition evaluate_required_terms_quality_h (w : world) (job_id : string) :
    FM (report term_metrics) :=
  stx_catch
    (loaded ← load_both_h w job_id;
     metrics ← stx_lift (terms_quality loaded.1 loaded.2 job_id);
     mret (Metrics metrics))
    (error_report job_id).

(** [evaluate_extraction_completeness], lines 88-113 *)
Definition evaluate_extraction_completeness_h (w : world) (job_id : string) :
    FM (report completeness) :=
  stx_catch
    (job_data ← load_job_data_h w job_id;
     metrics ← stx_lift (extraction_completeness job_data job_id);
     mret (Metrics metrics))
    (error_report job_id).

(** What the two functions return in a world, as the loader the
    evaluator of [Evaluator] is given. *)
Definition world_loader (w : world) : Loader := {|
  loader_job_data job_id := (load_job_data_h w job_id no_files).2;
  loader_index_entry job_id := (load_index_entry_h w job_id no_files).2;
|}.

(** * What a body does to the table *)

(** [touches h k st st']: from [st] to [st'] the file [h] was read [k]
    times and nothing else happened. *)
Definition touches (h k : nat) (st st' : files) : Prop :=
  next_handle st' = next_handle st ∧
  delete h (open_files st') = delete h (open_files st) ∧
  log st' = log st ++ replicate k (Read h).

Lemma no_files_fresh : fresh no_files.
Proof. intros h _. apply lookup_empty. Qed.

Lemma touches_trans h k k' st st' st'' :
  touches h k st st' → touches h k' st' st'' → touches h (k + k') st st''.
Proof.
  intros (Hn & Hm & Hl) (Hn' & Hm' & Hl'). split_and!; [congruence..|].
  by rewrite Hl', Hl, replicate_add, app_assoc.
Qed.

Lemma h_read_run h st chunks :
  open_files st !! h = Some chunks →
  ∃ st', h_read h st = (st', read_all chunks) ∧ touches h 1 st st'.
Proof.
  intros Hh. unfold h_read. rewrite Hh. eexists. split; [done|].
  split_and!; [done| |done]. cbn [open_files]. by rewrite delete_insert_eq.
Qed.

Lemma h_next_run h st c rest :
  open_files st !! h = Some (c :: rest) →
  ∃ st', h_next h st = (st', match c with Ok line => Ok (Some line) | Raise e => Raise e end) ∧
         touches h 1 st st' ∧ open_files st' !! h = Some rest.
Proof.
  intros Hh. unfold h_next. rewrite Hh. eexists. split; [done|]. cbn [open_files].
  split; [|by rewrite lookup_insert_eq]. split_and!; [done| |done].
  cbn [open_files]. by rewrite delete_insert_eq.
Qed.

Lemma h_next_end h st :
  open_files st !! h = Some [] →
  ∃ st', h_next h st = (st', Ok None) ∧ touches h 1 st st'.
Proof. intros Hh. unfold h_next. rewrite Hh. eexists. by split. Qed.

Lemma opened_lookup path chunks st :
  open_files (opened path chunks st) !! next_handle st = Some chunks.
Proof. apply lookup_insert_eq. Qed.

(** The loop reads as far as [scan_stream] says, and returns what it
    says. *)
Lemma for_lines_run {A} (body : string → pyres (option A)) f chunks st :
  open_files st !! f = Some chunks →
  ∃ st', for_lines f body chunks st = (st', (scan_stream body chunks).1) ∧
         touches f (scan_stream body chunks).2 st st'.
Proof.
  revert st. induction chunks as [|c rest IH]; intros st Hf; cbn [for_lines scan_stream].
  - destruct (h_next_end f st Hf) as (st' & Hn & Ht). exists st'.
    by rewrite (stx_bind_Ok _ _ _ _ _ Hn).
  - destruct (h_next_run f st c rest Hf) as (st1 & Hn & Ht & Hrest).
    destruct c as [line|e]; [|exists st1; by rewrite (stx_bind_Raise _ _ _ _ _ Hn)].
    rewrite (stx_bind_Ok _ _ _ _ _ Hn). cbn match. destruct (body line) as [[a|]|e].
    + by exists st1.
    + destruct (IH st1 Hrest) as (st' & Hrun & Ht').
      exists st'. destruct (scan_stream body rest) as [r n].
      split; [exact Hrun|]. by apply (touches_trans f 1 n st st1).
    + by exists st1.
Qed.

(** A [with] block whose body only reads its file leaves the table as it
    was, however the body ends. *)
Lemma with_open_run {A} w path (body : nat → FM A) st text st' r k :
  fresh st → fs_read (w_fs w) path = Ok text →
  body (next_handle st) (opened path (chunks_of text (w_fault w path)) st) = (st', r) →
  touches (next_handle st) k (opened path (chunks_of text (w_fault w path)) st) st' →
  with_open w path body st = (after_with path k st, r).
Proof.
  intros Hfresh Hread Hbody (Hn & Hm & Hl). unfold with_open.
  rewrite (stx_bind_Ok _ _ st _ (next_handle st)) by (unfold h_open; by rewrite Hread).
  unfold stx_finally. rewrite Hbody. f_equal. unfold h_close, after_with.
  unfold opened in *. cbn [next_handle open_files log] in *. rewrite Hn, Hm, Hl. f_equal.
  - rewrite delete_insert_id; [done|]. by apply Hfresh.
  - by rewrite <-!app_assoc.
Qed.

Lemma with_open_fail {A} w path (body : nat → FM A) st e :
  fs_read (w_fs w) path = Raise e → with_open w path body st = (st, Raise e).
Proof.
  intros Hread. unfold with_open.
  by rewrite (stx_bind_Raise _ _ st st e) by (unfold h_open; by rewrite Hread).
Qed.

Lemma scan_lines_run job_id f chunks st :
  open_files st !! f = Some chunks →
  ∃ st', scan_lines job_id f st = (st', (scan_stream (index_line job_id) chunks).1) ∧
         touches f (scan_stream (index_line job_id) chunks).2 st st'.
Proof.
  intros Hf. unfold scan_lines. rewrite Hf. by apply for_lines_run.
Qed.

(** * The runs of the two functions *)

Lemma load_job_data_h_run w job_id st :
  fresh st →
  load_job_data_h w job_id st =
  match fs_glob (w_fs w) (job_pattern job_id) with
  | [] => (st, Raise (no_job_files_error job_id))
  | x :: l =>
      match fs_read (w_fs w) (max_str x l) with
      | Ok text =>
          (after_with (max_str x l) 1 st,
           let* text := read_all (chunks_of text (w_fault w (max_str x l))) in
           json_load text)
      | Raise e => (st, Raise e)
      end
  end.
Proof.
  intros Hfresh. unfold load_job_data_h.
  destruct (fs_glob (w_fs w) (job_pattern job_id)) as [|x l]; [done|].
  cbn [py_max]. rewrite stx_bind_lift_Ok.
  destruct (fs_read (w_fs w) (max_str x l)) as [text|e] eqn:Hread;
    [|by apply with_open_fail].
  destruct (h_read_run _ _ _ (opened_lookup (max_str x l)
              (chunks_of text (w_fault w (max_str x l))) st)) as (st' & Hrun & Ht).
  eapply (with_open_run _ _ _ _ text st'); [done..| |exact Ht].
  rewrite (stx_bind_run _ _ _ _ _ Hrun). by destruct (read_all _).
Qed.

Lemma load_index_entry_h_run w job_id st :
  fresh st →
  load_index_entry_h w job_id st =
  if negb (fs_exists (w_fs w) index_path) then (st, Raise no_index_error)
  else
    match fs_read (w_fs w) index_path with
    | Ok text =>
        let s := scan_stream (index_line job_id)
                   (chunks_of text (w_fault w index_path)) in
        (after_with index_path s.2 st, found_or_raise job_id s.1)
    | Raise e => (st, Raise e)
    end.
Proof.
  intros Hfresh. unfold load_index_entry_h.
  destruct (negb (fs_exists (w_fs w) index_path)); [done|].
  destruct (fs_read (w_fs w) index_path) as [text|e] eqn:Hread.
  - destruct (scan_lines_run job_id _ _ _ (opened_lookup index_path
                (chunks_of text (w_fault w index_path)) st)) as (st' & Hrun & Ht).
    rewrite (stx_bind_run _ _ _ _ _ (with_open_run _ _ _ _ _ _ _ _ Hfresh Hread Hrun Ht)).
    cbn zeta. by destruct (scan_stream _ _) as [[[entry|]|e] n].
  - by rewrite (stx_bind_Raise _ _ _ _ _ (with_open_fail _ _ _ _ _ Hread)).
Qed.

(** * Every file opened is closed *)

Lemma all_closed_app l1 l2 : all_closed l1 → all_closed l2 → all_closed (l1 ++ l2).
Proof.
  intros H1 H2. induction l1 as [|[h p|h|h] l1 IH]; simpl in *; [done| |by auto..].
  destruct H1 as [Hin H1]. split; [set_solver|auto].
Qed.

(** [all_closed] by positions: after an [Opened] comes the [Closed] of
    its handle. *)
Lemma all_closed_lookup l i h path :
  all_closed l → l !! i = Some (Opened h path) → ∃ j, i < j ∧ l !! j = Some (Closed h).
Proof.
  revert i. induction l as [|ev l IH]; intros i Hc Hi; [done|]. destruct i as [|i].
  - simplify_eq/=. destruct Hc as [(j & Hj)%list_elem_of_lookup_1 _].
    exists (S j). split; [lia|done].
  - assert (all_closed l) as Hc' by (destruct ev; simpl in Hc; tauto).
    destruct (IH i Hc' Hi) as (j & Hlt & Hj). exists (S j). split; [lia|done].
Qed.

Lemma all_closed_with h path k :
  all_closed (Opened h path :: replicate k (Read h) ++ [Closed h]).
Proof.
  split; [set_solver|]. apply all_closed_app; [|done]. by induction k.
Qed.

(** * The protocol of file handles *)

Lemma step_of_step o ev o' : step_of o ev = Some o' ↔ step o ev o'.
Proof.
  split.
  - destruct ev; cbn; case_decide; intros [= <-]; by constructor.
  - intros []; cbn; by case_decide.
Qed.

(** The function and the relation are the same protocol. *)
Lemma exec_run o evs o' : exec o evs = Some o' ↔ run o evs o'.
Proof.
  revert o. induction evs as [|ev evs IH]; intros o; cbn.
  - split; [intros [= <-]; constructor|by inversion 1].
  - rewrite bind_Some. split.
    + intros (o1 & Hs%step_of_step & Hr%IH). by econstructor.
    + inversion 1 as [|? ? o1 ? ? Hs Hr]; subst. exists o1.
      by split; [apply step_of_step|apply IH].
Qed.

Lemma run_app o l1 o1 l2 o2 : run o l1 o1 → run o1 l2 o2 → run o (l1 ++ l2) o2.
Proof. induction 1; [done|]. intros Hr. econstructor; eauto. Qed.

Lemma run_reads o h k : h ∈ o → run o (replicate k (Read h)) o.
Proof. intros Hh. induction k; cbn; econstructor; eauto using step. Qed.

(** A [with] block whose body reads its file follows the protocol and
    leaves the handles that were open. *)
Lemma run_with o h path k :
  h ∉ o → run o (Opened h path :: replicate k (Read h) ++ [Closed h]) o.
Proof.
  intros Hh. econstructor; [by constructor|].
  eapply run_app; [apply run_reads; set_solver|].
  econstructor; [constructor; set_solver|].
  replace (({[h]} ∪ o) ∖ {[h]}) with o by set_solver. constructor.
Qed.

(** * What is left of a state *)

Lemma leaves_refl st : leaves st st.
Proof.
  exists 0, []. destruct st. cbn. rewrite Nat.add_0_r, app_nil_r.
  split_and!; [done..|constructor].
Qed.

Lemma leaves_after_with path n st : fresh st → leaves st (after_with path n st).
Proof.
  intros Hf. exists 1, (Opened (next_handle st) path ::
                        replicate n (Read (next_handle st)) ++ [Closed (next_handle st)]).
  split_and!; [unfold after_with; f_equal; lia|apply all_closed_with|].
  apply run_with, not_elem_of_dom, Hf. lia.
Qed.

(** What is left is fresh, with the same files open. *)
Lemma leaves_fresh st st' :
  leaves st st' → fresh st → open_files st' = open_files st ∧ fresh st'.
Proof.
  intros (n & evs & -> & _) Hf. split; [done|]. intros h Hh. cbn in *. apply Hf. lia.
Qed.

Lemma leaves_trans st1 st2 st3 : leaves st1 st2 → leaves st2 st3 → leaves st1 st3.
Proof.
  intros (n & evs & -> & Hc & Hr) (n' & evs' & -> & Hc' & Hr'). cbn in *.
  exists (n + n'), (evs ++ evs'). split_and!.
  - f_equal; [lia|by rewrite app_assoc].
  - by apply all_closed_app.
  - by eapply run_app.
Qed.

Lemma scoped_lift {A} (r : pyres A) : scoped (stx_lift r).
Proof. intros st _. apply leaves_refl. Qed.

Lemma scoped_ret {A} (a : A) : scoped (mret a : FM A).
Proof. intros st _. apply leaves_refl. Qed.

Lemma scoped_bind {A B} (m : FM A) (k : A → FM B) :
  scoped m → (∀ a, scoped (k a)) → scoped (m ≫= k).
Proof.
  intros Hm Hk st Hf. specialize (Hm st Hf). unfold mbind, stx_bind.
  destruct (m st) as [st1 [a|e]]; cbn [fst] in *; [|done].
  eapply leaves_trans; [done|]. apply Hk. by eapply leaves_fresh.
Qed.

Lemma scoped_catch {A} (m : FM A) (handler : exn → A) :
  scoped m → scoped (stx_catch m handler).
Proof. intros Hm st Hf. specialize (Hm st Hf). unfold stx_catch. by destruct (m st). Qed.

Lemma load_job_data_h_scoped w job_id : scoped (load_job_data_h w job_id).
Proof.
  intros st Hf. rewrite load_job_data_h_run by done.
  destruct (fs_glob _ _) as [|x l]; [apply leaves_refl|].
  destruct (fs_read _ _); [by apply leaves_after_with|apply leaves_refl].
Qed.

Lemma load_index_entry_h_scoped w job_id : scoped (load_index_entry_h w job_id).
Proof.
  intros st Hf. rewrite load_index_entry_h_run by done.
  destruct (negb _); [apply leaves_refl|].
  destruct (fs_read _ _); [by apply leaves_after_with|apply leaves_refl].
Qed.

Lemma load_both_h_scoped w job_id : scoped (load_both_h w job_id).
Proof.
  apply scoped_bind; [apply load_job_data_h_scoped|]. intros job_data.
  apply scoped_bind; [apply load_index_entry_h_scoped|]. intros entry.
  apply scoped_ret.
Qed.

(** Claim C5. Scoped acquisition: whatever the files hold, whichever read
    fails and however the functions end (a record, an error of the file
    system, a parse error, a job that is not in the index), after the two
    loads of an evaluation the table of the open files is the one before
    them, and no handle still to be given is in it. *)
Theorem load_both_h_releases w job_id st :
  fresh st →
  open_files (load_both_h w job_id st).1 = open_files st ∧
  fresh (load_both_h w job_id st).1.
Proof. intros Hf. by apply leaves_fresh; [apply load_both_h_scoped|]. Qed.

(** Claim C17. Every file the two loads open is closed before they return
    or raise, and no file is used when it is not open: the log grows by
    events that follow the protocol of file handles from the files that
    were open back to them (a handle is opened when it is not open, read
    and closed when it is), and among them each [Opened] is followed,
    later on, by the [Closed] of its handle. *)
Theorem load_both_h_closes w job_id st :
  fresh st →
  ∃ evs, log (load_both_h w job_id st).1 = log st ++ evs ∧
    run (dom (open_files st)) evs (dom (open_files st)) ∧
    ∀ i h path, evs !! i = Some (Opened h path) →
      ∃ j, i < j ∧ evs !! j = Some (Closed h).
Proof.
  intros Hf. destruct (load_both_h_scoped w job_id st Hf) as (k & evs & -> & Hc & Hr).
  exists evs. split_and!; [done..|]. intros i h path. by apply all_closed_lookup.
Qed.

(** * Reading the index line by line *)

Lemma scan_stream_app {A} (body : string → pyres (option A)) pre rest :
  Forall (λ line, body line = Ok None) pre →
  scan_stream body ((Ok <$> pre) ++ rest) =
  ((scan_stream body rest).1, length pre + (scan_stream body rest).2).
Proof.
  induction 1 as [|line pre Hline _ IH]; [simpl; by destruct (scan_stream body rest)|].
  rewrite fmap_cons, <-app_comm_cons. cbn [scan_stream].
  by rewrite Hline, IH.
Qed.

Lemma scan_stream_lines {A} (body : string → pyres (option A)) lines :
  (scan_stream body (Ok <$> lines)).1 = first_result body lines.
Proof.
  induction lines as [|line lines IH]; [done|].
  rewrite fmap_cons. cbn [scan_stream first_result].
  destruct (body line) as [[a|]|e]; [done| |done].
  by destruct (scan_stream body (Ok <$> lines)).
Qed.

Lemma read_all_lines lines : read_all (Ok <$> lines) = Ok (str_concat lines).
Proof.
  induction lines as [|line lines IH]; [done|].
  rewrite fmap_cons. cbn [read_all]. by rewrite IH, str_concat_cons.
Qed.

(** The reads up to a line that comes before the fault are the lines. *)
Lemma chunks_of_prefix text fault pre line post :
  readlines text = pre ++ line :: post →
  (∀ n e, fault = Some (n, e) → length pre < n) →
  ∃ rest, chunks_of text fault = (Ok <$> pre) ++ Ok line :: rest.
Proof.
  intros Hl Hfault. unfold chunks_of. rewrite Hl.
  destruct fault as [[n e]|]; [|exists (Ok <$> post); by rewrite fmap_app].
  specialize (Hfault n e eq_refl). rewrite take_app_ge by lia.
  destruct (n - length pre) as [|m] eqn:Hm; [lia|].
  exists ((Ok <$> take m post) ++ [Raise e]).
  by rewrite firstn_cons, fmap_app, fmap_cons, <-app_assoc.
Qed.

Lemma other_entries_None job_id pre :
  Forall (other_entry job_id) pre → Forall (λ line, index_line job_id line = Ok None) pre.
Proof. intros Hpre. eapply Forall_impl; [exact Hpre|]. intros line. apply index_line_None. Qed.

(** Claim C11. The index is read lazily: when the entry of the job is on
    line [length pre + 1], [load_index_entry] reads that many lines and
    closes the file; the lines after the entry are not read, so a line
    there that does not parse, or a read that would fail there, does not
    matter. *)
Theorem load_index_entry_h_lazy w job_id st text pre line post entry :
  fresh st →
  fs_exists (w_fs w) index_path = true → fs_read (w_fs w) index_path = Ok text →
  readlines text = pre ++ line :: post →
  Forall (other_entry job_id) pre → entry_of job_id line entry →
  (∀ n e, w_fault w index_path = Some (n, e) → length pre < n) →
  load_index_entry_h w job_id st = (after_with index_path (S (length pre)) st, Ok entry).
Proof.
  intros Hf Hex Hread Hl Hpre Hline%index_line_Some Hfault.
  rewrite load_index_entry_h_run, Hex, Hread by done. cbn [negb].
  destruct (chunks_of_prefix _ _ _ _ _ Hl Hfault) as (rest & ->).
  rewrite scan_stream_app by by apply other_entries_None.
  cbn [scan_stream]. rewrite Hline. cbn. by rewrite Nat.add_1_r.
Qed.

(** Claim C18. A read of the index that fails before the entry of the job
    is reached: the exception of the read is what [load_index_entry]
    raises, after the lines before the failure have been read, and the
    file is closed. *)
Theorem load_index_entry_h_fault w job_id st text n e :
  fresh st →
  fs_exists (w_fs w) index_path = true → fs_read (w_fs w) index_path = Ok text →
  w_fault w index_path = Some (n, e) →
  Forall (other_entry job_id) (take n (readlines text)) →
  load_index_entry_h w job_id st =
  (after_with index_path (S (n `min` length (readlines text))) st, Raise e).
Proof.
  intros Hf Hex Hread Hfault Hpre.
  rewrite load_index_entry_h_run, Hex, Hread, Hfault by done. cbn [negb chunks_of].
  rewrite scan_stream_app by by apply other_entries_None.
  cbn. by rewrite length_take, Nat.add_1_r.
Qed.

(** * The loader of [Loader] *)

Lemma load_job_data_h_refines w job_id st :
  (∀ path, w_fault w path = None) → fresh st →
  (load_job_data_h w job_id st).2 = load_job_data (w_fs w) job_id.
Proof.
  intros Hfault Hf. rewrite load_job_data_h_run by done. unfold load_job_data.
  destruct (fs_glob _ _) as [|x l]; [done|]. cbn [py_max result_bind].
  destruct (fs_read _ _) as [text|e]; [|done]. cbn [snd result_bind].
  by rewrite Hfault; cbn [chunks_of]; rewrite read_all_lines, readlines_concat.
Qed.

Lemma load_index_entry_h_refines w job_id st :
  (∀ path, w_fault w path = None) → fresh st →
  (load_index_entry_h w job_id st).2 = load_index_entry (w_fs w) job_id.
Proof.
  intros Hfault Hf. rewrite load_index_entry_h_run by done. unfold load_index_entry.
  destruct (negb _); [done|]. destruct (fs_read _ _) as [text|e]; [|done].
  cbn [snd result_bind]. rewrite Hfault. cbn [chunks_of]. rewrite scan_stream_lines.
  unfold scan_index. by destruct (first_result _ _) as [[entry|]|e].
Qed.

(** * The evaluations over open files *)

(** What a load returns does not depend on the files that are open. *)
Lemma load_job_data_h_result w job_id st :
  fresh st →
  (load_job_data_h w job_id st).2 = loader_job_data (Loader:=world_loader w) job_id.
Proof.
  intros Hf. cbn [loader_job_data world_loader].
  rewrite !load_job_data_h_run by (done || apply no_files_fresh).
  destruct (fs_glob _ _); [done|]. by destruct (fs_read _ _).
Qed.

Lemma load_index_entry_h_result w job_id st :
  fresh st →
  (load_index_entry_h w job_id st).2 = loader_index_entry (Loader:=world_loader w) job_id.
Proof.
  intros Hf. cbn [loader_index_entry world_loader].
  rewrite !load_index_entry_h_run by (done || apply no_files_fresh).
  destruct (negb _); [done|]. by destruct (fs_read _ _).
Qed.

(** The two loads one after the other: the second runs only when the
    first returns, and in the state the first left. *)
Lemma load_both_h_result w job_id st :
  fresh st →
  (load_both_h w job_id st).2 =
  (let* job_data := loader_job_data (Loader:=world_loader w) job_id in
   let* index_entry := loader_index_entry (Loader:=world_loader w) job_id in
   Ok (job_data, index_entry)).
Proof.
  intros Hf. unfold load_both_h.
  rewrite <-(load_job_data_h_result w job_id st Hf).
  destruct (leaves_fresh _ _ (load_job_data_h_scoped w job_id st Hf) Hf) as [_ Hf1].
  unfold mbind at 1, stx_bind.
  destruct (load_job_data_h w job_id st) as [st1 [job_data|e]]; [|done].
  cbn [fst snd result_bind] in *.
  rewrite <-(load_index_entry_h_result w job_id st1 Hf1).
  unfold mbind, stx_bind. by destruct (load_index_entry_h w job_id st1) as [st2 [entry|e]].
Qed.

Lemma evaluate_terms_h_scoped w job_id :
  scoped (evaluate_required_terms_quality_h w job_id).
Proof.
  apply scoped_catch, scoped_bind; [apply load_both_h_scoped|]. intros loaded.
  apply scoped_bind; [apply scoped_lift|]. intros metrics. apply scoped_ret.
Qed.

Lemma evaluate_completeness_h_scoped w job_id :
  scoped (evaluate_extraction_completeness_h w job_id).
Proof.
  apply scoped_catch, scoped_bind; [apply load_job_data_h_scoped|]. intros job_data.
  apply scoped_bind; [apply scoped_lift|]. intros metrics. apply scoped_ret.
Qed.

(** The evaluations on open files return the reports of the evaluator of
    [Evaluator] over what the loads return, read failures included. *)
Lemma evaluate_terms_h_result w job_id st :
  fresh st →
  (evaluate_required_terms_quality_h w job_id st).2 =
  Ok (@evaluate_required_terms_quality (world_loader w) job_id).
Proof.
  intros Hf. pose proof (load_both_h_result w job_id st Hf) as Hb.
  unfold evaluate_required_terms_quality_h, stx_catch, evaluate_required_terms_quality.
  unfold mbind at 1, stx_bind.
  destruct (load_both_h w job_id st) as [st1 [[job_data index_entry]|e]];
    cbn [snd] in Hb; destruct (loader_job_data job_id) as [jd|e1];
    try destruct (loader_index_entry job_id) as [ie|e2]; simplify_eq/=; try done.
  unfold mbind, stx_bind. cbn. by destruct (terms_quality _ _ _).
Qed.

Lemma evaluate_completeness_h_result w job_id st :
  fresh st →
  (evaluate_extraction_completeness_h w job_id st).2 =
  Ok (@evaluate_extraction_completeness (world_loader w) job_id).
Proof.
  intros Hf. pose proof (load_job_data_h_result w job_id st Hf) as Hb.
  unfold evaluate_extraction_completeness_h, stx_catch, evaluate_extraction_completeness.
  unfold mbind at 1, stx_bind.
  destruct (load_job_data_h w job_id st) as [st1 [job_data|e]];
    cbn [snd] in Hb; rewrite <-Hb; [|done].
  unfold mbind, stx_bind. cbn. by destruct (extraction_completeness _ _).
Qed.

(** Without read failures the loader of a world is the loader of its file
    system. *)
Lemma world_loader_fs w :
  (∀ path, w_fault w path = None) → same_loads (world_loader w) (fs_loader (w_fs w)).
Proof.
  intros Hfault.
  split; intros job_id; [apply load_job_data_h_refines|apply load_index_entry_h_refines];
    (done || apply no_files_fresh).
Qed.

(** Claim C12. On files that are read without a failure, the evaluations
    that open, read and close their files return the reports of the
    evaluator of [Evaluator] over the loader of [Loader]: what is proved
    of those reports holds of the program that handles the files. *)
Theorem evaluations_refine w job_id st :
  (∀ path, w_fault w path = None) → fresh st →
  (evaluate_required_terms_quality_h w job_id st).2 =
    Ok (@evaluate_required_terms_quality (fs_loader (w_fs w)) job_id) ∧
  (evaluate_extraction_completeness_h w job_id st).2 =
    Ok (@evaluate_extraction_completeness (fs_loader (w_fs w)) job_id).
Proof.
  intros Hfault Hf.
  rewrite evaluate_terms_h_result, evaluate_completeness_h_result by done.
  by rewrite (world_loader_fs w Hfault).
Qed.

End handles.

(** * The sample files, opened and read *)

Definition sample_world : @world memfs := World sample_fs (λ _, None).

Definition disk_error : exn := Exn OSError "[Errno 5] Input/output error".

(** The sample files on a disk that fails after [n] lines of the index. *)
Definition failing_index (n : nat) : @world memfs :=
  World sample_fs (λ path, if decide (path = index_path) then Some (n, disk_error) else None).

(** The events of the two loads of job 42: the newest record is read in
    one go; of the index two lines are read, the entry is on the second. *)
Example sample_log :
  log (@load_both_h _ _ sample_codec sample_world "42" no_files).1 =
  [Opened 0 "logs/42/job-20240215.json"; Read 0; Closed 0;
   Opened 1 "data/index.jsonl"; Read 1; Read 1; Closed 1] ∧
  exec ∅ (log (@load_both_h _ _ sample_codec sample_world "42" no_files).1) = Some ∅.
Proof. by vm_compute. Qed.

(** The protocol refuses a read after the close and a second close. *)
Example protocol_refuses :
  exec ∅ [Opened 0 "data/index.jsonl"; Closed 0; Read 0] = None ∧
  exec ∅ [Opened 0 "data/index.jsonl"; Closed 0; Closed 0] = None ∧
  ¬ run ∅ [Opened 0 "data/index.jsonl"; Closed 0; Read 0] ∅.
Proof.
  split_and!; [by vm_compute..|]. intros Hr%exec_run. by vm_compute in Hr.
Qed.

Lemma load_both_h_releases_witness :
  open_files (@load_both_h _ _ sample_codec (failing_index 1) "42" no_files).1 = ∅ ∧
  fresh (@load_both_h _ _ sample_codec (failing_index 1) "42" no_files).1.
Proof.
  exact (@load_both_h_releases _ _ sample_codec (failing_index 1) "42" no_files
           no_files_fresh).
Defined.

Lemma load_both_h_closes_witness :
  ∃ evs, log (@load_both_h _ _ sample_codec (failing_index 1) "42" no_files).1 = [] ++ evs ∧
    run ∅ evs ∅ ∧
    ∀ i h path, evs !! i = Some (Opened h path) →
      ∃ j, i < j ∧ evs !! j = Some (Closed h).
Proof.
  exact (@load_both_h_closes _ _ sample_codec (failing_index 1) "42" no_files
           no_files_fresh).
Defined.

(** Job 42 on a disk that fails after two lines of the index: the entry
    is on the second line, the failure and the line that does not parse
    come after it and are not seen. *)
Lemma load_index_entry_h_lazy_witness :
  @load_index_entry_h _ _ sample_codec (failing_index 2) "42" no_files =
  (after_with index_path 2 no_files, Ok (PDict sample_entry_42)).
Proof.
  apply (@load_index_entry_h_lazy _ _ sample_codec (failing_index 2) "42" no_files
           sample_index [text_line sample_line_41] (text_line ("  " +:+ sample_line_42))
           [text_line "not json"; text_line sample_line_42]);
    [exact no_files_fresh|by vm_compute..| | |].
  - constructor; [exact sample_other_entry_41|constructor].
  - exists sample_entry_42. by vm_compute.
  - intros n e Hfault. vm_compute in Hfault. injection Hfault as <- _. simpl. lia.
Defined.

(** The same job on a disk that fails after the first line. *)
Lemma load_index_entry_h_fault_witness :
  @load_index_entry_h _ _ sample_codec (failing_index 1) "42" no_files =
  (after_with index_path 2 no_files, Raise disk_error).
Proof.
  refine (@load_index_entry_h_fault _ _ sample_codec (failing_index 1) "42" no_files
            sample_index 1 disk_error no_files_fresh _ _ _ _); [by vm_compute..|].
  replace (take 1 (readlines sample_index)) with [text_line sample_line_41]
    by (by vm_compute).
  constructor; [exact sample_other_entry_41|constructor].
Defined.

Lemma evaluations_refine_witness :
  (@evaluate_required_terms_quality_h _ _ sample_codec sample_world "42" no_files).2 =
    Ok (@evaluate_required_terms_quality (@fs_loader _ _ sample_codec sample_fs) "42") ∧
  (@evaluate_extraction_completeness_h _ _ sample_codec sample_world "42" no_files).2 =
    Ok (@evaluate_extraction_completeness (@fs_loader _ _ sample_codec sample_fs) "42").
Proof.
  exact (@evaluations_refine _ _ sample_codec sample_world "42" no_files (λ _, eq_refl)
           no_files_fresh).
Defined.
