(* ===== verification/Schema.v ===== *)
(** * The types of the data model

    The source annotates its loaders and evaluators [Dict[str, Any]] and
    checks nothing at run time; section 3 of the specification types the
    records: a job record of optional strings, an index entry with a
    [job_id] and a sequence of terms, two reports that are a tagged union
    of metrics and error.

    This file states types as a decidable judgement, [has_type], on the
    objects of [PyValue], gives the types of the two inputs (from the
    specification) and of the dictionaries the evaluators build (from the
    dictionary literals of evaluators.py), and proves:

    - the judgement decides the typed reading of [Spec]: an object has the
      type of a job record, or of an index entry, exactly when it
      represents one ([job_record_typed], [index_entry_typed]);
    - every report has its type, whatever the files hold: the metrics of
      the literal, or [job_id] and [error], never a mix ([reports_typed],
      [report_tagged]);
    - inputs of the types of the specification do not fail: the
      evaluations of a typed record and a typed entry return metrics, not
      an error report ([typed_inputs_evaluate]);
    - what the loaders check of these types: an entry returned by
      [load_index_entry] is a dictionary whose [job_id] is a string
      ([load_index_entry_typed]), its terms are not looked at; a record
      returned by [load_job_data] is any JSON value
      ([load_job_data_untyped]). *)

From Stdlib Require Import ZArith QArith.
From stdpp Require Import base list strings.
From S2P Require Import Prelude PyStr PyValue Interfaces MemFS Loader Evaluator Spec Cli Json.

#[local] Set Warnings "-clear-no-such-hyp".

(** * Types *)

(** [TDict] is the type of the dictionaries that bind each required key
    to an object of its type and each optional key, if at all, to an
    object of its type; other keys are free, as in [Dict[str, Any]]. *)
Inductive pytype : Type :=
| TAny
| TBool
| TInt
| TFloat
| TStr
| TList (t : pytype)
| TUnion (t1 t2 : pytype)
| TDict (fields : fields_type)
with fields_type : Type :=
| FNil
| FField (key : string) (required : bool) (t : pytype) (rest : fields_type).

(** A key of a dictionary against its field: bound to an object that
    passes the check, or absent where the field is optional. *)
Definition field_ok (check : pyval → bool) (key : string) (required : bool)
    (kvs : list (string * pyval)) : bool :=
  match assoc key kvs with
  | Some v => check v
  | None => negb required
  end.

(** The judgement is the one of [type(v) is t]: a [bool] is no [int], an
    [int] no [float]. *)
Fixpoint has_type (t : pytype) (v : pyval) : bool :=
  match t, v with
  | TAny, _ => true
  | TBool, PBool _ => true
  | TInt, PInt _ => true
  | TFloat, PFloat _ => true
  | TStr, PStr _ => true
  | TList t, PList l => forallb (has_type t) l
  | TUnion t1 t2, _ => has_type t1 v || has_type t2 v
  | TDict fields, PDict kvs => has_fields fields kvs
  | _, _ => false
  end
with has_fields (fields : fields_type) (kvs : list (string * pyval)) : bool :=
  match fields with
  | FNil => true
  | FField key required t rest =>
      field_ok (has_type t) key required kvs && has_fields rest kvs
  end.

Definition record_type (fields : list (string * bool * pytype)) : pytype :=
  TDict (foldr (λ '(key, required, t), FField key required t) FNil fields).

(** [Dict[str, Any]], the annotation of the four functions. *)
Definition dict_any : pytype := record_type [].

(** The job record of the specification: every attribute an optional
    string, that is, absent or a string. *)
Definition job_record_type : pytype :=
  record_type [("title", false, TStr); ("company", false, TStr);
               ("location", false, TStr); ("description", false, TStr);
               ("salary", false, TStr)].

(** The index entry of the specification. *)
Definition index_entry_type : pytype :=
  record_type [("job_id", true, TStr); ("required_terms", true, TList TStr)].

(** What [load_index_entry] has checked of an entry it returns. *)
Definition found_entry_type : pytype := record_type [("job_id", true, TStr)].

(** The literal [0] of the source is an [int], a quotient a [float]. *)
Definition number_type : pytype := TUnion TInt TFloat.

(** The dictionary of lines 74-81: the slice of a list of terms is a
    list, the slice of a string a string. *)
Definition term_metrics_type : pytype :=
  record_type [("job_id", true, TStr); ("terms_count", true, TInt);
               ("terms_coverage", true, number_type);
               ("avg_term_length", true, number_type);
               ("has_technical_terms", true, TBool);
               ("required_terms", true, TUnion (TList TStr) TStr)].

(** The dictionary of lines 96-103 *)
Definition completeness_type : pytype :=
  record_type [("job_id", true, TStr); ("required_fields_present", true, TInt);
               ("required_fields_total", true, TInt);
               ("completeness_score", true, TFloat);
               ("has_salary", true, TBool); ("description_length", true, TInt)].

(** The dictionary of lines 86 and 113 *)
Definition error_type : pytype :=
  record_type [("job_id", true, TStr); ("error", true, TStr)].

(** The string of a string object. *)
Definition str_of (v : pyval) : string :=
  match v with
  | PStr s => s
  | _ => EmptyString
  end.

(** * The judgement, rule by rule *)

Lemma has_type_dict fields kvs : has_type (TDict fields) (PDict kvs) = has_fields fields kvs.
Proof. done. Qed.

Lemma has_fields_field key required t rest kvs :
  has_fields (FField key required t rest) kvs =
  field_ok (has_type t) key required kvs && has_fields rest kvs.
Proof. done. Qed.

Lemma has_type_str v : has_type TStr v = true ↔ ∃ s, v = PStr s.
Proof. destruct v; split; try done; try (by intros [? [=]]). by eexists. Qed.

Lemma has_type_strs v :
  has_type (TList TStr) v = true ↔ ∃ terms : list string, v = PList (PStr <$> terms).
Proof.
  split.
  - destruct v as [| | | | |l|]; try done. cbn [has_type]. intros Hl%forallb_Forall.
    exists (str_of <$> l). f_equal. induction Hl as [|x l Hx _ IH]; [done|].
    apply has_type_str in Hx as [s ->]. cbn. by rewrite <-IH.
  - intros (terms & ->). cbn [has_type]. apply forallb_Forall, Forall_fmap.
    by apply Forall_true.
Qed.

Lemma optional_field t key kvs :
  field_ok (has_type t) key false kvs = true ↔
  assoc key kvs = None ∨ ∃ v, assoc key kvs = Some v ∧ has_type t v = true.
Proof.
  unfold field_ok. destruct (assoc key kvs) as [v|]; [|by split; [left|]].
  split; [by right; exists v|]. by intros [[=]|(? & [= <-] & ?)].
Qed.

Lemma required_field t key kvs :
  field_ok (has_type t) key true kvs = true ↔
  ∃ v, assoc key kvs = Some v ∧ has_type t v = true.
Proof.
  unfold field_ok. destruct (assoc key kvs) as [v|]; [|by split; [|intros (? & [=] & _)]].
  split; [by exists v|]. by intros (? & [= <-] & ?).
Qed.

(** * The types of the inputs and the typed data of [Spec] *)

Lemma optional_str key kvs :
  field_ok (has_type TStr) key false kvs = true ↔ ∃ o, field_is kvs key o.
Proof.
  rewrite optional_field. unfold field_is. split.
  - intros [Hn|(v & Hv & [s ->]%has_type_str)]; [by exists None|by exists (Some s)].
  - intros ([s|] & Ho); [right; by exists (PStr s)|by left].
Qed.

(** An object has the type of a job record exactly when it represents
    one. *)
Lemma job_record_typed v :
  has_type job_record_type v = true ↔ ∃ r, represents_record v r.
Proof.
  destruct v as [| | | | |l|kvs];
    try (split; [done|by intros (r & kvs & [=] & _)]).
  unfold job_record_type, record_type. cbn [foldr].
  rewrite has_type_dict, !has_fields_field, !andb_true_iff, !optional_str. split.
  - intros ([t Ht] & [c Hc] & [l Hl] & [d Hd] & [s Hs] & _).
    by exists (JobRecord t c l d s), kvs.
  - intros (r & ? & [= <-] & Ht & Hc & Hl & Hd & Hs). split_and!; eauto.
Qed.

(** An object has the type of an index entry exactly when it represents
    one. *)
Lemma index_entry_typed v :
  has_type index_entry_type v = true ↔ ∃ e, represents_entry v e.
Proof.
  destruct v as [| | | | |l|kvs];
    try (split; [done|by intros (e & kvs & [=] & _)]).
  unfold index_entry_type, record_type. cbn [foldr].
  rewrite has_type_dict, !has_fields_field, !andb_true_iff, !required_field. split.
  - intros ((v1 & Hid & [id ->]%has_type_str) &
            (v2 & Hrt & [terms ->]%has_type_strs) & _).
    by exists (IndexEntry id terms), kvs.
  - intros ([id terms] & ? & [= <-] & Hid & Hrt). split_and!; [| |done].
    + exists (PStr id). by split.
    + eexists. split; [exact Hrt|]. apply has_type_strs. by eexists.
Qed.

(** The metrics of typed data are computed without an exception, the
    cases in which they are not the closed form of [Spec] included. *)
Lemma terms_quality_typed v_r v_e r e job_id :
  represents_record v_r r → represents_entry v_e e →
  is_ok (terms_quality v_r v_e job_id) = true.
Proof.
  intros (kvs & -> & _ & _ & _ & Hd & _) (ekvs & -> & _ & Ht).
  unfold terms_quality, py_get. rewrite Ht, Hd. cbn [default id result_bind py_len].
  set (d := default (PStr EmptyString) (PStr <$> jr_description r)).
  assert (d = PStr (default EmptyString (jr_description r))) as ->
    by (unfold d; by destruct (jr_description r)).
  rewrite terms_coverage_of_strings, avg_term_length_of_strings.
  cbn [result_bind]. unfold has_technical_terms_of. cbn [py_iter result_bind].
  by rewrite any_technical.
Qed.

Lemma extraction_completeness_typed v_r r job_id :
  represents_record v_r r → is_ok (extraction_completeness v_r job_id) = true.
Proof.
  intros (kvs & -> & _ & _ & _ & Hd & _). rewrite extraction_completeness_unfold.
  unfold field_is in Hd. rewrite Hd. by destruct (jr_description r).
Qed.

(** Claim C19. Inputs of the types of the specification do not fail: when
    the record loaded is a job record (each of its five attributes absent
    or a string) and the entry loaded is an index entry (a string
    [job_id], a list of strings [required_terms]), both evaluations
    return metrics and no error report. *)
Theorem typed_inputs_evaluate `{Loader} job_id job_data index_entry :
  loader_job_data job_id = Ok job_data →
  loader_index_entry job_id = Ok index_entry →
  has_type job_record_type job_data = true →
  has_type index_entry_type index_entry = true →
  is_error (evaluate_required_terms_quality job_id) = false ∧
  is_error (evaluate_extraction_completeness job_id) = false.
Proof.
  intros Hj Hi [r Hr]%job_record_typed [e He]%index_entry_typed.
  unfold evaluate_required_terms_quality, evaluate_extraction_completeness.
  rewrite Hj, Hi. cbn [result_bind].
  pose proof (terms_quality_typed _ _ _ _ job_id Hr He) as Ht.
  pose proof (extraction_completeness_typed _ _ job_id Hr) as Hc.
  destruct (terms_quality _ _ _); [|done].
  by destruct (extraction_completeness _ _).
Qed.

(** * The types of the reports *)

(** The sample of a term report is a list of strings or a string: the
    list comprehension of the coverage has called [lower] on every
    term. *)
Lemma sample_typed job_data index_entry job_id m :
  terms_quality job_data index_entry job_id = Ok m →
  has_type (TUnion (TList TStr) TStr) (required_terms m) = true.
Proof.
  intros (rt & d & _ & _ & _ & _ & Hc & _ & _ & Hs)%terms_quality_Ok.
  destruct rt as [| | | |s|l|kvs]; cbn [py_slice_to] in Hs; try done;
    injection Hs as <-; [done|].
  cbn [has_type]. rewrite orb_false_r. apply forallb_Forall, Forall_take.
  apply terms_coverage_of_Ok in Hc as [[Hl _]|(terms & found & _ & [= <-] & Hf & _)].
  { by destruct l. }
  eapply Forall_impl; [exact (filter_result_tested _ _ _ Hf)|]. intros x.
  unfold term_in_description. by destruct x.
Qed.

Lemma term_items_typed m :
  has_type (TUnion (TList TStr) TStr) (required_terms m) = true →
  has_type term_metrics_type (PDict (term_items (Metrics m))) = true.
Proof.
  intros Hs. destruct m as [id n [z|q] [z'|q'] t s]; cbn in *; by rewrite Hs.
Qed.

(** The union of the reports is tagged: a report has the type of the
    error dictionary exactly when it is an error report, and then it has
    not the type of the metrics. *)
Lemma report_tagged (r : report term_metrics) (c : report completeness) :
  has_type error_type (PDict (term_items r)) = is_error r ∧
  has_type error_type (PDict (completeness_items c)) = is_error c ∧
  (is_error r = true → has_type term_metrics_type (PDict (term_items r)) = false) ∧
  (is_error c = true → has_type completeness_type (PDict (completeness_items c)) = false).
Proof. by destruct r, c. Qed.

(** Claim C8. Every report has its type, whatever the files hold: the
    term report is the dictionary of the six metrics, a string, an
    integer, two numbers, a boolean and a list of strings or a string, or
    the dictionary of [job_id] and [error]; the completeness report is
    the dictionary of its six metrics or that of the error. *)
Theorem reports_typed `{Loader} job_id :
  has_type (TUnion term_metrics_type error_type)
    (PDict (term_items (evaluate_required_terms_quality job_id))) = true ∧
  has_type (TUnion completeness_type error_type)
    (PDict (completeness_items (evaluate_extraction_completeness job_id))) = true.
Proof.
  split.
  - destruct (evaluate_required_terms_quality job_id) as [m|id msg] eqn:Hr; [|done].
    apply evaluate_terms_Metrics in Hr as (jd & ie & _ & _ & Hm%sample_typed).
    cbn [has_type]. by rewrite term_items_typed.
  - by destruct (evaluate_extraction_completeness job_id).
Qed.

(** * What the loaders check *)

(** An entry that [load_index_entry] returns is a dictionary with a
    string [job_id]; it has the annotated type [Dict[str, Any]]. *)
Theorem load_index_entry_typed {FS} `{FileSystem FS} `{JsonCodec} (fs : FS) job_id entry :
  load_index_entry fs job_id = Ok entry →
  has_type found_entry_type entry = true ∧ has_type dict_any entry = true.
Proof.
  intros Hs%load_index_entry_shape. destruct entry as [| | | | |l|kvs]; try done.
  split; [|done]. unfold found_entry_type, record_type. cbn [foldr].
  rewrite has_type_dict, has_fields_field, andb_true_r. apply required_field.
  cbn in Hs. destruct (assoc "job_id" kvs) as [v|]; simplify_eq/=. by eexists.
Qed.

(** A record file that holds a JSON list: [load_job_data] returns the
    list, which is no [Dict[str, Any]], and the evaluation reports the
    [AttributeError] of its missing [get]. *)
Definition list_record_fs : memfs :=
  mem_of_list [("logs/9/job-20240101.json", "[1, 2]")].

Example load_job_data_untyped :
  @load_job_data _ _ json_codec list_record_fs "9" = Ok (PList [PInt 1; PInt 2]) ∧
  has_type dict_any (PList [PInt 1; PInt 2]) = false ∧
  @evaluate_extraction_completeness (@fs_loader _ _ json_codec list_record_fs) "9" =
    ErrorReport "9" "'list' object has no attribute 'get'".
Proof. by vm_compute. Qed.

(** An index entry whose terms are one string, not a list of strings:
    the string is taken for its characters. *)
Definition string_terms_loader : Loader :=
  table_loader example_missing
    [("42", example_record)]
    [("42", PDict [("job_id", PStr "42"); ("required_terms", PStr "Python")])].

Example string_terms_report :
  ∃ m, @evaluate_required_terms_quality string_terms_loader "42" = Metrics m ∧
       terms_count m = 6 ∧ required_terms m = PStr "Pytho" ∧
       has_technical_terms m = false.
Proof. eexists. by vm_compute. Qed.

(** The record and the entry of the examples of [Evaluator] have the
    types of the specification. *)
Lemma typed_inputs_evaluate_witness :
  is_error (@evaluate_required_terms_quality example_loader "42") = false ∧
  is_error (@evaluate_extraction_completeness example_loader "42") = false.
Proof.
  apply (@typed_inputs_evaluate example_loader "42" example_record example_entry);
    by vm_compute.
Defined.
